(** * csdmpy: the CSDM container, its typed lists, its arithmetic and its
      numpy dispatch layer (src/csdmpy/csdm.py)

    Python objects live in a store ([heap]) and are named by their address
    ([loc]); every attribute that holds a mutable object holds an address, so
    that two containers may share a list, a dictionary, a dimension, a
    dependent variable or an array.  Methods are computations in a state and
    exception monad over the store: a raised exception keeps the store as it
    was at the point of the [raise].

    The component arrays are arrays of a floating type (numpy float64, the
    type of the arrays that csdmpy computes).  Their items are idealised as
    rationals ([Q]), and equality of numeric results is stated with [Qeq]:
    rounding, infinities and NaN are not represented, and arrays of an
    integer type, with their wrap-around and the casting errors of their
    in-place operators, are outside the model.  Where a statement depends
    on rounding, it is made in the arithmetic of binary64 ([F64],
    [Binary64]). *)

From Stdlib Require Import ZArith QArith Qabs List String Lia.
From stdpp Require Import base list gmap strings.

Local Open Scope string_scope.
Local Open Scope list_scope.
Local Open Scope nat_scope.

(** ** Exceptions and the store monad *)

(** The exception classes raised by the code in csdm.py and by the library
    calls it makes.  [PyException] is the bare [Exception] class. *)
Inductive exn : Type :=
| PyException (msg : string)
| TypeError (msg : string)
| ValueError (msg : string)
| IndexError (msg : string)
| AttributeError (msg : string)
| NotImplementedError (msg : string)
| UnitConversionError
| RecursionError.

Inductive result (A : Type) : Type :=
| Ok (a : A)
| Raise (e : exn).
Arguments Ok {A} a.
Arguments Raise {A} e.

Definition is_ok {A} (r : result A) : bool :=
  match r with Ok _ => true | Raise _ => false end.

Definition rbind {A B} (r : result A) (k : A -> result B) : result B :=
  match r with Ok a => k a | Raise e => Raise e end.

Fixpoint rmap {A B} (f : A -> result B) (l : list A) : result (list B) :=
  match l with
  | [] => Ok []
  | x :: l' => rbind (f x) (fun y => rbind (rmap f l') (fun ys => Ok (y :: ys)))
  end.

(** ** Numbers, units and quantities *)

(** Modelled from the spec: the unit/quantity subsystem (astropy.units) is an
    external collaborator (spec section 6): a unit has a physical type, two
    units of matching physical type have a numeric conversion factor, and
    units compose multiplicatively.  A unit is a scale with respect to the
    coherent SI unit of its physical type, and the physical type is the
    vector of exponents of the seven SI base quantities. *)
Record PhysicalType : Type := mkPhysicalType {
  pt_length : Z; pt_mass : Z; pt_time : Z; pt_current : Z;
  pt_temperature : Z; pt_amount : Z; pt_luminosity : Z }.

Global Instance PhysicalType_eq_dec : EqDecision PhysicalType.
Proof. solve_decision. Defined.

Definition dimensionless : PhysicalType := mkPhysicalType 0 0 0 0 0 0 0.

Definition pt_mul (a b : PhysicalType) : PhysicalType :=
  mkPhysicalType (pt_length a + pt_length b) (pt_mass a + pt_mass b)
    (pt_time a + pt_time b) (pt_current a + pt_current b)
    (pt_temperature a + pt_temperature b) (pt_amount a + pt_amount b)
    (pt_luminosity a + pt_luminosity b).

Record Unit : Type := mkUnit { unit_scale : Q; physical_type : PhysicalType }.

(** [u1.to(u2)]: the factor that converts a value in [u1] to a value in [u2];
    astropy raises UnitConversionError between different physical types. *)
Definition unit_to (u1 u2 : Unit) : result Q :=
  if decide (physical_type u1 = physical_type u2)
  then Ok (unit_scale u1 / unit_scale u2)%Q
  else Raise UnitConversionError.

(** [u1 * u2]: the composite unit. *)
Definition unit_mul (u1 u2 : Unit) : Unit :=
  mkUnit (unit_scale u1 * unit_scale u2)%Q
         (pt_mul (physical_type u1) (physical_type u2)).

Module Quantity.
(** astropy's [Quantity]: a number with a unit. *)
Record t : Type := mk { value : Q; unit : Unit }.

(** [1 * u] for a unit [u]. *)
Definition of_unit (u : Unit) : t := mk 1%Q u.

(** [q1 * q2]: values multiply, units compose. *)
Definition mul (q1 q2 : t) : t :=
  mk (value q1 * value q2)%Q (unit_mul (unit q1) (unit q2)).
End Quantity.

(** ** numpy arrays *)

Module np.

(** An n-dimensional array of a floating type: its shape and its items in
    row-major (C) order.  The items are the numbers that the floats stand
    for; the array has no integer type, no infinity and no NaN. *)
Record ndarray : Type := mk { shape : list nat; data : list Q }.

Definition prod (s : list nat) : nat := fold_right Nat.mul 1 s.

Definition size (a : ndarray) : nat := prod (shape a).
Definition ndim (a : ndarray) : nat := length (shape a).

(** All multi-indices of a shape, in row-major order. *)
Fixpoint indices (s : list nat) : list (list nat) :=
  match s with
  | [] => [[]]
  | n :: s' => flat_map (fun i => map (cons i) (indices s')) (seq 0 n)
  end.

(** Position of a multi-index in the row-major item list. *)
Fixpoint flat_index (s idx : list nat) : nat :=
  match s, idx with
  | _ :: s', i :: idx' => i * prod s' + flat_index s' idx'
  | _, _ => 0
  end.

Definition item (a : ndarray) (idx : list nat) : Q :=
  nth (flat_index (shape a) idx) (data a) 0%Q.

(** [a.reshape(s)]: same items, new shape; ValueError when the sizes
    differ. *)
Definition reshape (a : ndarray) (s : list nat) : result ndarray :=
  if Nat.eqb (prod s) (length (data a))
  then Ok (mk s (data a))
  else Raise (ValueError "cannot reshape array").

(** [a.shape[0]]. *)
Definition shape0 (a : ndarray) : result nat :=
  match shape a with
  | n :: _ => Ok n
  | [] => Raise (IndexError "tuple index out of range")
  end.

(** [a[0].size]: the number of items of one entry along the first axis. *)
Definition size_of_first (a : ndarray) : result nat :=
  match shape a with
  | 0 :: _ => Raise (IndexError "index 0 is out of bounds for axis 0 with size 0")
  | _ :: s' => Ok (prod s')
  | [] => Raise (IndexError "invalid index to scalar variable")
  end.

(** Elementwise operation with a Python scalar. *)
Definition map_scalar (f : Q -> Q) (a : ndarray) : ndarray :=
  mk (shape a) (map f (data a)).

(** Broadcasting of two shapes, aligned on their last axes. *)
Fixpoint broadcast_rev (r1 r2 : list nat) : result (list nat) :=
  match r1, r2 with
  | [], r | r, [] => Ok r
  | n1 :: r1', n2 :: r2' =>
      rbind (broadcast_rev r1' r2') (fun r =>
        if Nat.eqb n1 n2 then Ok (n1 :: r)
        else if Nat.eqb n1 1 then Ok (n2 :: r)
        else if Nat.eqb n2 1 then Ok (n1 :: r)
        else Raise (ValueError "operands could not be broadcast together"))
  end.

Definition broadcast_shapes (s1 s2 : list nat) : result (list nat) :=
  rbind (broadcast_rev (rev s1) (rev s2)) (fun r => Ok (rev r)).

(** The multi-index of an operand of shape [s] read at the multi-index
    [idx] of the broadcast result. *)
Definition operand_index (s idx : list nat) : list nat :=
  let idx' := skipn (length idx - length s) idx in
  map (fun '(n, i) => if Nat.eqb n 1 then 0 else i) (combine s idx').

(** Elementwise binary operation of two arrays, with broadcasting. *)
Definition map2 (f : Q -> Q -> Q) (a b : ndarray) : result ndarray :=
  rbind (broadcast_shapes (shape a) (shape b)) (fun s =>
    Ok (mk s (map (fun idx => f (item a (operand_index (shape a) idx))
                                (item b (operand_index (shape b) idx)))
                  (indices s)))).

(** In-place binary operation [a.__iop__(b)]: the broadcast result has to
    fit the storage of [a]. *)
Definition imap2 (f : Q -> Q -> Q) (a b : ndarray) : result ndarray :=
  rbind (map2 f a b) (fun r =>
    if decide (shape r = shape a) then Ok r
    else Raise (ValueError "non-broadcastable output operand")).

(** [axis] entries count from the end when negative. *)
Definition normalize_axis (nd : nat) (k : Z) : result nat :=
  if (Z.leb (- Z.of_nat nd) k && Z.ltb k (Z.of_nat nd))%bool
  then Ok (Z.to_nat (if Z.ltb k 0 then k + Z.of_nat nd else k)%Z)
  else Raise (IndexError "axis is out of bounds for array").

Fixpoint has_dup (l : list nat) : bool :=
  match l with
  | [] => false
  | x :: l' => (existsb (Nat.eqb x) l' || has_dup l')%bool
  end.

Definition normalize_axes (nd : nat) (axis : list Z) : result (list nat) :=
  rbind (rmap (normalize_axis nd) axis) (fun axs =>
    if has_dup axs then Raise (ValueError "duplicate value in 'axis'")
    else Ok axs).

(** Which axes of an [nd]-dimensional array are reduced. *)
Definition axis_mask (nd : nat) (axs : list nat) : list bool :=
  map (fun k => existsb (Nat.eqb k) axs) (seq 0 nd).

Fixpoint select (keep : bool) (mask : list bool) (s : list nat) : list nat :=
  match mask, s with
  | m :: mask', n :: s' =>
      if Bool.eqb m keep then n :: select keep mask' s' else select keep mask' s'
  | _, _ => []
  end.

(** Rebuild a full multi-index from the index over the kept axes and the
    index over the reduced axes. *)
Fixpoint merge_index (mask : list bool) (kept red : list nat) : list nat :=
  match mask with
  | [] => []
  | true :: mask' =>
      match red with
      | r :: red' => r :: merge_index mask' kept red'
      | [] => 0 :: merge_index mask' kept []
      end
  | false :: mask' =>
      match kept with
      | k :: kept' => k :: merge_index mask' kept' red
      | [] => 0 :: merge_index mask' [] red
      end
  end.

(** A reduction [func(a, axis=axis)]: [lane] aggregates the items gathered
    along the reduced axes.  [axis=None] aggregates every item into a
    0-dimensional result. *)
Definition reduce (lane : list Q -> result Q) (a : ndarray)
    (axis : option (list Z)) : result ndarray :=
  match axis with
  | None => rbind (lane (data a)) (fun v => Ok (mk [] [v]))
  | Some ax =>
      rbind (normalize_axes (ndim a) ax) (fun axs =>
        let mask := axis_mask (ndim a) axs in
        let kept := select false mask (shape a) in
        let red := select true mask (shape a) in
        rbind (rmap (fun o =>
                 lane (map (fun r => item a (merge_index mask o r)) (indices red)))
                 (indices kept))
              (fun d => Ok (mk kept d)))
  end.

End np.

(** ** The arithmetic of float64 *)

(** The numbers of IEEE 754 binary64, the float64 of numpy and the float
    of Python, as the rationals they stand for: 53 bits of precision, least
    exponent -1074, rounding to the nearest number with a tie going to the
    even one.  Infinities and NaN have no value here: a result of magnitude
    2^1024 or more, which is inf in binary64, is outside this model
    ([is_float] bounds the magnitude). *)
Module F64.

Definition precision : Z := 53.
Definition emin : Z := -1074.

(** [n / d] rounded to the nearest integer, a tie to the even one, for
    [0 <= n] and [0 < d]. *)
Definition nearest_even (n d : Z) : Z :=
  let q := (n / d)%Z in
  match (2 * (n mod d) ?= d)%Z with
  | Lt => q
  | Gt => (q + 1)%Z
  | Eq => if Z.even q then q else (q + 1)%Z
  end.

(** The integer part of the binary logarithm of [n / d], for [0 < n] and
    [0 < d]. *)
Definition ilog2 (n d : Z) : Z :=
  let l := (Z.log2 n - Z.log2 d)%Z in
  let below :=
    if (0 <=? l)%Z then (d * 2 ^ l <=? n)%Z else (d <=? n * 2 ^ (- l))%Z in
  if below then l else (l - 1)%Z.

(** The binary64 number nearest to [n / d], for [0 < n] and [0 < d]: an
    integer of at most 53 bits times a power of two. *)
Definition round_pos (n d : Z) : Q :=
  let e := Z.max (ilog2 n d - (precision - 1)) emin in
  let m :=
    if (0 <=? e)%Z then nearest_even n (d * 2 ^ e)
    else nearest_even (n * 2 ^ (- e)) d in
  Qred (inject_Z m * 2 ^ e)%Q.

(** The binary64 number nearest to a rational. *)
Definition round (q : Q) : Q :=
  let r := Qred q in
  match Qnum r with
  | Z0 => 0%Q
  | Zpos n => round_pos (Zpos n) (Zpos (Qden r))
  | Zneg n => (- round_pos (Zpos n) (Zpos (Qden r)))%Q
  end.



(** [x + y] and [x - y] on float64. *)
Definition add (x y : Q) : Q := round (x + y).
Definition sub (x y : Q) : Q := round (x - y).

End F64.

(** The functions that the dispatch layer classifies. *)
Inductive np_function : Type :=
| np_max | np_min | np_sum | np_mean | np_var | np_std | np_prod
| np_round | np_real | np_imag | np_clip
| np_transpose
| np_other (name : string).

Definition np_function_eqb (f g : np_function) : bool :=
  match f, g with
  | np_max, np_max | np_min, np_min | np_sum, np_sum | np_mean, np_mean
  | np_var, np_var | np_std, np_std | np_prod, np_prod | np_round, np_round
  | np_real, np_real | np_imag, np_imag | np_clip, np_clip
  | np_transpose, np_transpose => true
  | np_other a, np_other b => String.eqb a b
  | _, _ => false
  end.

Definition function_name (f : np_function) : string :=
  match f with
  | np_max => "amax" | np_min => "amin" | np_sum => "sum" | np_mean => "mean"
  | np_var => "var" | np_std => "std" | np_prod => "prod" | np_round => "round"
  | np_real => "real" | np_imag => "imag" | np_clip => "clip"
  | np_transpose => "transpose" | np_other n => n
  end.

Definition __function_reduction_list__ : list np_function :=
  [np_max; np_min; np_sum; np_mean; np_var; np_std; np_prod].
Definition __other_functions__ : list np_function :=
  [np_round; np_real; np_imag; np_clip].
Definition __shape_manipulation_functions__ : list np_function := [np_transpose].

(** ** The data model *)

(** Modelled from the spec: the dimension classes (csdmpy.dimensions) are not
    part of src/.  A dimension is one of three variants (spec section 3);
    it exposes a [count] and structural equality. *)
Inductive Dimension : Type :=
| LinearDimension (count : nat) (increment coordinates_offset : Q)
| MonotonicDimension (coordinates : list Q)
| LabeledDimension (labels : list string).

Definition count (d : Dimension) : nat :=
  match d with
  | LinearDimension n _ _ => n
  | MonotonicDimension c => length c
  | LabeledDimension l => length l
  end.

Fixpoint list_eqb {A} (eqb : A -> A -> bool) (l1 l2 : list A) : bool :=
  match l1, l2 with
  | [], [] => true
  | x :: l1', y :: l2' => (eqb x y && list_eqb eqb l1' l2')%bool
  | _, _ => false
  end.

(** [Dimension.__eq__]: same variant and equal defining fields. *)
Definition dimension_eqb (d1 d2 : Dimension) : bool :=
  match d1, d2 with
  | LinearDimension n1 i1 o1, LinearDimension n2 i2 o2 =>
      (Nat.eqb n1 n2 && Qeq_bool i1 i2 && Qeq_bool o1 o2)%bool
  | MonotonicDimension c1, MonotonicDimension c2 => list_eqb Qeq_bool c1 c2
  | LabeledDimension l1, LabeledDimension l2 => list_eqb String.eqb l1 l2
  | _, _ => false
  end.

(** The quantity type of a dependent variable fixes its number of
    components [p]. *)
Inductive quantity_type : Type :=
| scalar
| vector_ (k : nat)
| pixel_ (k : nat)
| matrix_ (k m : nat)
| symmetric_matrix_ (k : nat).

Definition component_count (q : quantity_type) : nat :=
  match q with
  | scalar => 1
  | vector_ k => k
  | pixel_ k => k
  | matrix_ k m => k * m
  | symmetric_matrix_ k => k * (k + 1) / 2
  end.

Definition quantity_type_eqb (a b : quantity_type) : bool :=
  match a, b with
  | scalar, scalar => true
  | vector_ k, vector_ k' | pixel_ k, pixel_ k'
  | symmetric_matrix_ k, symmetric_matrix_ k' => Nat.eqb k k'
  | matrix_ k m, matrix_ k' m' => (Nat.eqb k k' && Nat.eqb m m')%bool
  | _, _ => false
  end.

(** Addresses of objects in the store. *)
Abbreviation loc := nat (only parsing).

(** Modelled from the spec: the DependentVariable class
    (csdmpy.dependent_variables) is not part of src/.  The attributes are
    those that csdm.py reads and writes; [dv_components] is the address of
    the numpy array, which the [components] property returns as it is. *)
Record DependentVariable : Type := mkDV {
  dv_type : string;
  dv_description : string;
  dv_name : string;
  dv_unit : Unit;
  dv_encoding : string;
  dv_quantity_type : quantity_type;
  dv_components : loc }.

Definition dv_set_components (v : DependentVariable) (c : loc) : DependentVariable :=
  mkDV (dv_type v) (dv_description v) (dv_name v) (dv_unit v) (dv_encoding v)
       (dv_quantity_type v) c.

Definition dv_set_unit (v : DependentVariable) (u : Unit) : DependentVariable :=
  mkDV (dv_type v) (dv_description v) (dv_name v) u (dv_encoding v)
       (dv_quantity_type v) (dv_components v).

(** The dictionary from which a dependent variable is constructed. *)
Record dv_dict : Type := mkDVDict {
  dd_type : string;
  dd_description : string;
  dd_name : string;
  dd_unit : Unit;
  dd_encoding : string;
  dd_quantity_type : quantity_type;
  dd_components : np.ndarray }.

(** The slots of a CSDM object.  Slots that hold a mutable object hold its
    address. *)
Record CSDM : Type := mkCSDM {
  _dimensions : loc;
  _dependent_variables : loc;
  _tags : loc;
  _read_only : bool;
  _version : string;
  _timestamp : string;
  _geographic_coordinate : loc;
  _description : string;
  _application : loc;
  _filename : string }.

(** The two subclasses of [AbstractList]. *)
Inductive list_class : Type := DimensionListC | DependentVariableListC.

Definition list_class_eqb (a b : list_class) : bool :=
  match a, b with
  | DimensionListC, DimensionListC
  | DependentVariableListC, DependentVariableListC => true
  | _, _ => false
  end.

(** Objects of the store.  [OUninit] is an instance whose attributes are
    not set yet (what [cls.__new__(cls)] returns). *)
Inductive obj : Type :=
| OUninit
| OArray (a : np.ndarray)
| ODimension (d : Dimension)
| ODependentVariable (v : DependentVariable)
| OAbstractList (c : list_class) (_list : list loc)
| OStrList (l : list string)
| ODict (d : gmap string string)
| OCSDM (c : CSDM).

Abbreviation heap := (list obj).

(** Computations on the store that return a value or raise. *)
Definition M (A : Type) : Type := heap -> result A * heap.

Definition ret {A} (a : A) : M A := fun h => (Ok a, h).
Definition raise {A} (e : exn) : M A := fun h => (Raise e, h).
Definition bind {A B} (m : M A) (k : A -> M B) : M B :=
  fun h => match m h with
           | (Ok a, h') => k a h'
           | (Raise e, h') => (Raise e, h')
           end.
Definition lift {A} (r : result A) : M A := fun h => (r, h).

Declare Scope py_scope.
Delimit Scope py_scope with py.
Notation "x <- m ;; k" := (bind m (fun x => k))
  (at level 100, m at next level, right associativity) : py_scope.
Notation "m ;;; k" := (bind m (fun _ => k))
  (at level 100, right associativity) : py_scope.
Local Open Scope py_scope.

(** A new object gets the next free address. *)
Definition alloc (o : obj) : M loc := fun h => (Ok (length h), h ++ [o]).

Definition deref (l : loc) : M obj :=
  fun h => match h !! l with
           | Some o => (Ok o, h)
           | None => (Raise (AttributeError "no such object"), h)
           end.

Definition store (l : loc) (o : obj) : M unit :=
  fun h => (Ok tt, <[l := o]> h).

(** [for x in l: body x], with the values collected. *)
Fixpoint for_each {A B} (body : A -> M B) (l : list A) : M (list B) :=
  match l with
  | [] => ret []
  | x :: l' => y <- body x ;; ys <- for_each body l' ;; ret (y :: ys)
  end.

(** Typed attribute access; a missing attribute is an AttributeError. *)
Definition get_csdm (l : loc) : M CSDM :=
  o <- deref l ;;
  match o with OCSDM c => ret c | _ => raise (AttributeError "not a CSDM object") end.

Definition get_array (l : loc) : M np.ndarray :=
  o <- deref l ;;
  match o with OArray a => ret a | _ => raise (AttributeError "not an ndarray") end.

Definition get_dv (l : loc) : M DependentVariable :=
  o <- deref l ;;
  match o with
  | ODependentVariable v => ret v
  | _ => raise (AttributeError "not a DependentVariable")
  end.

Definition get_dimension (l : loc) : M Dimension :=
  o <- deref l ;;
  match o with
  | ODimension d => ret d
  | _ => raise (AttributeError "not a Dimension")
  end.

Definition get_list (l : loc) : M (list_class * list loc) :=
  o <- deref l ;;
  match o with
  | OAbstractList c items => ret (c, items)
  | _ => raise (AttributeError "no attribute _list")
  end.

Definition get_items (l : loc) : M (list loc) :=
  p <- get_list l ;; ret p.2.

(** [isinstance(item, __valid_dimensions__)] and
    [isinstance(item, DependentVariable)]. *)
Definition is_dimension (o : obj) : bool :=
  match o with ODimension _ => true | _ => false end.
Definition is_dependent_variable (o : obj) : bool :=
  match o with ODependentVariable _ => true | _ => false end.

(** Python sequence indexing: negative indices count from the end. *)
Definition py_index (len : nat) (i : Z) : option nat :=
  if (Z.leb 0 i && Z.ltb i (Z.of_nat len))%bool then Some (Z.to_nat i)
  else if (Z.ltb i 0 && Z.leb (- Z.of_nat len) i)%bool
       then Some (Z.to_nat (i + Z.of_nat len))
       else None.

(** [list.insert(index, item)]: the position is clamped to the list.  The
    index is taken to fit a machine word (Py_ssize_t); for an integer
    beyond it CPython raises OverflowError before the list is looked at,
    which is not represented here. *)
Definition py_insert_pos (len : nat) (i : Z) : nat :=
  if Z.ltb i 0 then Z.to_nat (Z.max 0 (i + Z.of_nat len))
  else Nat.min (Z.to_nat i) len.

Definition list_insert_at {A} (pos : nat) (x : A) (l : list A) : list A :=
  firstn pos l ++ x :: skipn pos l.

(** Modelled from the spec: equality of dependent variables is deep and
    structural; their class is not part of src/.  The items compared are
    numbers: NaN, which every float comparison finds unequal to itself, is
    not represented, so that this comparison is reflexive where the one of
    the code is not. *)
Definition array_eqb (a b : np.ndarray) : bool :=
  (list_eqb Nat.eqb (np.shape a) (np.shape b)
   && list_eqb Qeq_bool (np.data a) (np.data b))%bool.

Definition unit_eqb (u v : Unit) : bool :=
  (Qeq_bool (unit_scale u) (unit_scale v)
   && bool_decide (physical_type u = physical_type v))%bool.

(** [a == b] for two items of a typed list. *)
Definition item_eq (a b : loc) : M bool :=
  oa <- deref a ;;
  ob <- deref b ;;
  match oa, ob with
  | ODimension d1, ODimension d2 => ret (dimension_eqb d1 d2)
  | ODependentVariable v1, ODependentVariable v2 =>
      c1 <- get_array (dv_components v1) ;;
      c2 <- get_array (dv_components v2) ;;
      ret (String.eqb (dv_type v1) (dv_type v2)
           && String.eqb (dv_description v1) (dv_description v2)
           && String.eqb (dv_name v1) (dv_name v2)
           && unit_eqb (dv_unit v1) (dv_unit v2)
           && String.eqb (dv_encoding v1) (dv_encoding v2)
           && quantity_type_eqb (dv_quantity_type v1) (dv_quantity_type v2)
           && array_eqb c1 c2)%bool
  | _, _ => ret (Nat.eqb a b)
  end.

(** ** class AbstractList(MutableSequence) *)

Module AbstractList.

Definition __len__ (self : loc) : M nat :=
  items <- get_items self ;; ret (length items).

Definition __getitem__ (self : loc) (index : Z) : M loc :=
  items <- get_items self ;;
  match py_index (length items) index with
  | Some i =>
      match items !! i with
      | Some x => ret x
      | None => raise (IndexError "list index out of range")
      end
  | None => raise (IndexError "list index out of range")
  end.

Definition __delitem__ (self : loc) (index : Z) : M unit :=
  raise (PyException "Deleting items is not allowed.").

Definition __setitem__ (self : loc) (index : Z) (item : loc) : M unit :=
  ret tt.

Definition insert (self : loc) (index : Z) (item : loc) : M unit :=
  p <- get_list self ;;
  let items := p.2 in
  store self
    (OAbstractList p.1
       (list_insert_at (py_insert_pos (length items) index) item items)).

Definition append (self : loc) (item : loc) : M unit :=
  items <- get_items self ;;
  insert self (Z.of_nat (length items)) item.

(** [MutableSequence.__iadd__]: [self += values] appends every value. *)
Definition __iadd__ (self : loc) (values : list loc) : M unit :=
  for_each (append self) values ;;; ret tt.

Definition __eq__ (self other : loc) : M bool :=
  p <- get_list self ;;
  let l1 := p.2 in
  o <- deref other ;;
  match o with
  | OAbstractList c2 l2 =>
      if negb (list_class_eqb p.1 c2) then ret false
      else if negb (Nat.eqb (length l1) (length l2)) then ret false
      else
        check <- for_each (fun ab => item_eq ab.1 ab.2) (combine l1 l2) ;;
        ret (forallb id check)
  | _ => ret false
  end.

(** [self != other]: Python negates [__eq__]. *)
Definition __ne__ (self other : loc) : M bool :=
  b <- __eq__ self other ;; ret (negb b).

(** [self._list[index] = item]. *)
Definition set_list_item (self : loc) (index : Z) (item : loc) : M unit :=
  p <- get_list self ;;
  match py_index (length p.2) index with
  | Some i => store self (OAbstractList p.1 (<[i := item]> p.2))
  | None => raise (IndexError "list assignment index out of range")
  end.

End AbstractList.

Module DimensionList.

(** The message of the ValueError reads [item.__class__.name__], an
    attribute that no class has: formatting it raises AttributeError. *)
Definition __setitem__ (self : loc) (index : Z) (item : loc) : M unit :=
  o <- deref item ;;
  if negb (is_dimension o)
  then raise (AttributeError "type object has no attribute 'name__'")
  else AbstractList.set_list_item self index item.

End DimensionList.

Module DependentVariableList.

Definition __setitem__ (self : loc) (index : Z) (item : loc) : M unit :=
  o <- deref item ;;
  if negb (is_dependent_variable o)
  then raise (AttributeError "type object has no attribute 'name__'")
  else AbstractList.set_list_item self index item.

End DependentVariableList.

(** ** copy.deepcopy *)

(** The memo table of [deepcopy]: originals and their copies. *)
Abbreviation memo := (list (nat * nat)) (only parsing).

Fixpoint memo_get (m : memo) (l : loc) : option loc :=
  match m with
  | [] => None
  | (a, b) :: m' => if Nat.eqb a l then Some b else memo_get m' l
  end.

(** Copy the items of a list from left to right, threading the memo. *)
Fixpoint copy_items (cp : loc -> memo -> M (loc * memo)) (items : list loc)
    (m : memo) : M (list loc * memo) :=
  match items with
  | [] => ret ([], m)
  | x :: xs =>
      r <- cp x m ;;
      rs <- copy_items cp xs r.2 ;;
      ret (r.1 :: rs.1, rs.2)
  end.

(** [deepcopy(x, memo)].  An object met before is not copied again.  A
    composite object is created empty and entered in the memo before its
    parts are copied, as Python does; [fuel] bounds the nesting of calls, and
    Python raises RecursionError beyond its limit. *)
Fixpoint deepcopy_rec (fuel : nat) (l : loc) (m : memo) : M (loc * memo) :=
  match fuel with
  | 0 => raise RecursionError
  | S fuel' =>
      match memo_get m l with
      | Some l' => ret (l', m)
      | None =>
          o <- deref l ;;
          match o with
          | ODependentVariable v =>
              l' <- alloc OUninit ;;
              r <- deepcopy_rec fuel' (dv_components v) ((l, l') :: m) ;;
              store l' (ODependentVariable (dv_set_components v r.1)) ;;;
              ret (l', r.2)
          | OAbstractList c items =>
              l' <- alloc OUninit ;;
              r <- copy_items (deepcopy_rec fuel') items ((l, l') :: m) ;;
              store l' (OAbstractList c r.1) ;;;
              ret (l', r.2)
          | OCSDM c =>
              l' <- alloc OUninit ;;
              r1 <- deepcopy_rec fuel' (_dimensions c) ((l, l') :: m) ;;
              r2 <- deepcopy_rec fuel' (_dependent_variables c) r1.2 ;;
              r3 <- deepcopy_rec fuel' (_tags c) r2.2 ;;
              r4 <- deepcopy_rec fuel' (_geographic_coordinate c) r3.2 ;;
              r5 <- deepcopy_rec fuel' (_application c) r4.2 ;;
              store l'
                (OCSDM (mkCSDM r1.1 r2.1 r3.1 (_read_only c) (_version c)
                          (_timestamp c) r4.1 (_description c) r5.1 (_filename c))) ;;;
              ret (l', r5.2)
          | _ => l' <- alloc o ;; ret (l', (l, l') :: m)
          end
      end
  end.

Definition recursion_limit : nat := 1000.

Definition deepcopy (l : loc) : M loc :=
  r <- deepcopy_rec recursion_limit l [] ;; ret r.1.

(** ** Operands of the arithmetic operators *)

(** The right-hand operand: an object of the store, a bare Python number,
    or a quantity. *)
Inductive operand : Type :=
| OperandObject (l : loc)
| OperandScalar (k : Q)
| OperandQuantity (q : Quantity.t).

(** A number or a quantity, as [check_scalar_object] returns it. *)
Inductive scalar_object : Type :=
| Number (k : Q)
| IsQuantity (q : Quantity.t).

(** Modelled from the spec: [check_scalar_object] (csdmpy.utils) is not part
    of src/.  It lets numbers and quantities through and rejects any other
    operand type (spec section 7, IncompatibleOperands). *)
Definition check_scalar_object (other : operand) : M scalar_object :=
  match other with
  | OperandScalar k => ret (Number k)
  | OperandQuantity q => ret (IsQuantity q)
  | OperandObject _ => raise (TypeError "unsupported operand type(s)")
  end.

(** [isinstance(other, CSDM)]. *)
Definition isinstance_CSDM (other : operand) : M (option loc) :=
  match other with
  | OperandObject l =>
      o <- deref l ;;
      match o with OCSDM _ => ret (Some l) | _ => ret None end
  | _ => ret None
  end.

(** [enumerate(l)]. *)
Definition enumerate {A} (l : list A) : list (nat * A) :=
  combine (seq 0 (length l)) l.

(** Modelled from the spec: the [components] setter of a dependent variable
    attaches the array it is given. *)
Definition set_components (item : loc) (a : np.ndarray) : M unit :=
  v <- get_dv item ;;
  l <- alloc (OArray a) ;;
  store item (ODependentVariable (dv_set_components v l)).

(** [item.components]. *)
Definition components (item : loc) : M np.ndarray :=
  v <- get_dv item ;; get_array (dv_components v).

(** [item.components.__iop__(x)]: the array object itself is updated.  On
    an array of a floating type and a real operand the operation of numpy
    does not fail; the casting error that an array of an integer type
    raises for a float operand is outside the model. *)
Definition update_components (item : loc) (f : np.ndarray -> result np.ndarray) : M unit :=
  v <- get_dv item ;;
  a <- get_array (dv_components v) ;;
  r <- lift (f a) ;;
  store (dv_components v) (OArray r).

(** [item.unit]. *)
Definition unit_of (item : loc) : M Unit :=
  v <- get_dv item ;; ret (dv_unit v).

(** [item.subtype._unit = u]. *)
Definition set_unit (item : loc) (u : Unit) : M unit :=
  v <- get_dv item ;; store item (ODependentVariable (dv_set_unit v u)).

(** [a == b] for the values of the slots [_tags], [_geographic_coordinate]
    and [_application], which hold a Python list and dictionaries: these
    compare by value.  Any other pair of objects compares by identity. *)
Definition value_eq (a b : loc) : M bool :=
  oa <- deref a ;;
  ob <- deref b ;;
  match oa, ob with
  | OStrList s, OStrList t => ret (bool_decide (s = t))
  | ODict d, ODict e => ret (bool_decide (d = e))
  | _, _ => ret (Nat.eqb a b)
  end.

(** ** class CSDM *)

Module CSDMClass.

Definition __latest_CSDM_version__ : string := "1.0".
Definition _old_incompatible_versions : list string := ["0.0.9"; "0.0.10"; "0.0.11"].

(** [__init__] without the [dimensions] and [dependent_variables] keyword
    arguments (csdm.py itself only calls [CSDM()]). *)
Definition __init__ (self : loc) (filename : string) (version : option string)
    (description : string) : M unit :=
  version <-
    match version with
    | None => ret __latest_CSDM_version__
    | Some v =>
        if existsb (String.eqb v) _old_incompatible_versions
        then raise (PyException "Files created with this version of the CSD Model are no longer supported.")
        else ret v
    end ;;
  tags <- alloc (OStrList []) ;;
  geo <- alloc (ODict ∅) ;;
  app <- alloc (ODict ∅) ;;
  dims <- alloc (OAbstractList DimensionListC []) ;;
  dvs <- alloc (OAbstractList DependentVariableListC []) ;;
  store self (OCSDM (mkCSDM dims dvs tags false version "" geo description app filename)).

(** [CSDM()]. *)
Definition new : M loc :=
  self <- alloc OUninit ;;
  __init__ self "" None "" ;;;
  ret self.

(** The properties [dimensions], [dependent_variables], [tags],
    [application] and [geographic_coordinate] return the object in the
    slot. *)
Definition dimensions (self : loc) : M loc :=
  c <- get_csdm self ;; ret (_dimensions c).
Definition dependent_variables (self : loc) : M loc :=
  c <- get_csdm self ;; ret (_dependent_variables c).
Definition tags (self : loc) : M loc :=
  c <- get_csdm self ;; ret (_tags c).
Definition application (self : loc) : M loc :=
  c <- get_csdm self ;; ret (_application c).
Definition geographic_coordinate (self : loc) : M loc :=
  c <- get_csdm self ;; ret (_geographic_coordinate c).

(** [__eq__]: the nine comparisons are all made, then [np.all] joins them.
    The slot [_filename] is not compared. *)
Definition __eq__ (self : loc) (other : operand) : M bool :=
  is_csdm <- isinstance_CSDM other ;;
  match is_csdm with
  | None => ret false
  | Some o =>
      d1 <- dimensions self ;;
      d2 <- dimensions o ;;
      b1 <- AbstractList.__eq__ d1 d2 ;;
      v1 <- dependent_variables self ;;
      v2 <- dependent_variables o ;;
      b2 <- AbstractList.__eq__ v1 v2 ;;
      t1 <- tags self ;;
      t2 <- tags o ;;
      b3 <- value_eq t1 t2 ;;
      c1 <- get_csdm self ;;
      c2 <- get_csdm o ;;
      g1 <- geographic_coordinate self ;;
      g2 <- geographic_coordinate o ;;
      b7 <- value_eq g1 g2 ;;
      a1 <- application self ;;
      a2 <- application o ;;
      b9 <- value_eq a1 a2 ;;
      ret (forallb id
             [ b1; b2; b3;
               Bool.eqb (_read_only c1) (_read_only c2);
               String.eqb (_version c1) (_version c2);
               String.eqb (_timestamp c1) (_timestamp c2);
               b7;
               String.eqb (_description c1) (_description c2);
               b9 ])
  end.

Definition __check_dimension_equality (self other : loc) : M unit :=
  d1 <- dimensions self ;;
  d2 <- dimensions other ;;
  ne <- AbstractList.__ne__ d1 d2 ;;
  if ne
  then raise (PyException "Cannot operate on CSDM objects with different dimensions.")
  else ret tt.

Definition __check_dependent_variable_len_equality (self other : loc) : M unit :=
  v1 <- dependent_variables self ;;
  v2 <- dependent_variables other ;;
  n1 <- AbstractList.__len__ v1 ;;
  n2 <- AbstractList.__len__ v2 ;;
  if negb (Nat.eqb n1 n2)
  then raise (PyException "Cannot operate on CSDM objects with differnet lengths of dependent variables.")
  else ret tt.

Definition __check_dependent_variable_dimensionality (self other : loc) : M unit :=
  v1 <- dependent_variables self ;;
  v2 <- dependent_variables other ;;
  l1 <- get_items v1 ;;
  l2 <- get_items v2 ;;
  for_each (fun p =>
      u1 <- unit_of p.1 ;;
      u2 <- unit_of p.2 ;;
      if negb (bool_decide (physical_type u1 = physical_type u2))
      then raise (PyException "Cannot operate on dependent variables with of physical types")
      else ret tt)
    (combine l1 l2) ;;;
  ret tt.

Definition __check_csdm_object_additive_compatibility (self other : loc) : M unit :=
  __check_dimension_equality self other ;;;
  __check_dependent_variable_len_equality self other ;;;
  __check_dependent_variable_dimensionality self other.

Definition copy (self : loc) : M loc := deepcopy self.

(** The body shared by [__add__] and [__sub__]; [op] is [+] or [-]. *)
Definition additive (op : Q -> Q -> Q) (self : loc) (other : operand) : M loc :=
  is_csdm <- isinstance_CSDM other ;;
  match is_csdm with
  | Some o =>
      __check_csdm_object_additive_compatibility self o ;;;
      d1 <- copy self ;;
      dvs <- dependent_variables d1 ;;
      items <- get_items dvs ;;
      for_each (fun p =>
          odvs <- dependent_variables o ;;
          oi <- AbstractList.__getitem__ odvs (Z.of_nat p.1) ;;
          ou <- unit_of oi ;;
          u <- unit_of p.2 ;;
          factor <- lift (unit_to ou u) ;;
          a <- components p.2 ;;
          b <- components oi ;;
          r <- lift (np.map2 op a (np.map_scalar (Qmult factor) b)) ;;
          set_components p.2 r)
        (enumerate items) ;;;
      ret d1
  | None =>
      other <- check_scalar_object other ;;
      d1 <- copy self ;;
      dvs <- dependent_variables d1 ;;
      items <- get_items dvs ;;
      for_each (fun p =>
          match other with
          | Number k =>
              a <- components p.2 ;;
              set_components p.2 (np.map_scalar (fun x => op x k) a)
          | IsQuantity q =>
              u <- unit_of p.2 ;;
              factor <- lift (unit_to (Quantity.unit q) u) ;;
              a <- components p.2 ;;
              set_components p.2
                (np.map_scalar (fun x => op x (factor * Quantity.value q)%Q) a)
          end)
        (enumerate items) ;;;
      ret d1
  end.

(** The body shared by [__iadd__] and [__isub__]. *)
Definition additive_inplace (op : Q -> Q -> Q) (self : loc) (other : operand) : M loc :=
  is_csdm <- isinstance_CSDM other ;;
  match is_csdm with
  | Some o =>
      __check_csdm_object_additive_compatibility self o ;;;
      dvs <- dependent_variables self ;;
      items <- get_items dvs ;;
      for_each (fun p =>
          odvs <- dependent_variables o ;;
          oi <- AbstractList.__getitem__ odvs (Z.of_nat p.1) ;;
          ou <- unit_of oi ;;
          u <- unit_of p.2 ;;
          factor <- lift (unit_to ou u) ;;
          b <- components oi ;;
          update_components p.2
            (fun a => np.imap2 op a (np.map_scalar (Qmult factor) b)))
        (enumerate items) ;;;
      ret self
  | None =>
      other <- check_scalar_object other ;;
      dvs <- dependent_variables self ;;
      items <- get_items dvs ;;
      for_each (fun p =>
          match other with
          | Number k =>
              update_components p.2
                (fun a => Ok (np.map_scalar (fun x => op x k) a))
          | IsQuantity q =>
              u <- unit_of p.2 ;;
              factor <- lift (unit_to (Quantity.unit q) u) ;;
              update_components p.2
                (fun a => Ok (np.map_scalar
                                (fun x => op x (factor * Quantity.value q)%Q) a))
          end)
        (enumerate items) ;;;
      ret self
  end.

Definition __add__ : loc -> operand -> M loc := additive Qplus.
Definition __iadd__ : loc -> operand -> M loc := additive_inplace Qplus.
Definition __sub__ : loc -> operand -> M loc := additive Qminus.
Definition __isub__ : loc -> operand -> M loc := additive_inplace Qminus.

Definition __mul__ (self : loc) (other : operand) : M loc :=
  other <- check_scalar_object other ;;
  d1 <- copy self ;;
  dvs <- dependent_variables d1 ;;
  items <- get_items dvs ;;
  for_each (fun item =>
      match other with
      | Number k =>
          a <- components item ;;
          set_components item (np.map_scalar (fun x => x * k)%Q a)
      | IsQuantity q =>
          u <- unit_of item ;;
          let value := Quantity.mul (Quantity.of_unit u) q in
          set_unit item (Quantity.unit value) ;;;
          a <- components item ;;
          set_components item
            (np.map_scalar (fun x => x * Quantity.value value)%Q a)
      end)
    items ;;;
  ret d1.

(** [__imul__]: the arrays are multiplied in place.  Modelled from the
    spec: in [item.components *= other] the setter of [components] is given
    the array that the dependent variable already holds. *)
Definition __imul__ (self : loc) (other : operand) : M loc :=
  other <- check_scalar_object other ;;
  dvs <- dependent_variables self ;;
  items <- get_items dvs ;;
  for_each (fun item =>
      match other with
      | Number k =>
          update_components item (fun a => Ok (np.map_scalar (fun x => x * k)%Q a))
      | IsQuantity q =>
          u <- unit_of item ;;
          let value := Quantity.mul (Quantity.of_unit u) q in
          set_unit item (Quantity.unit value) ;;;
          update_components item
            (fun a => Ok (np.map_scalar (fun x => x * Quantity.value value)%Q a))
      end)
    items ;;;
  ret self.

(** [shape]: the count of every dimension. *)
Definition shape (self : loc) : M (list nat) :=
  dims <- dimensions self ;;
  items <- get_items dims ;;
  for_each (fun l =>
      o <- deref l ;;
      match o with
      | ODimension d => ret (count d)
      | _ => raise (AttributeError "object has no attribute 'count'")
      end)
    items.

(** [add_dimension(dim)] for an object of the store.  For an object that
    is not a dimension the code calls the constructor [Dimension] (not part
    of src/); making a dimension from a dictionary or from keywords is not
    modelled, and any other object is refused there with a bare
    [Exception]. *)
Definition add_dimension (self : loc) (arg : loc) : M unit :=
  o <- deref arg ;;
  if is_dimension o
  then dims <- dimensions self ;; AbstractList.__iadd__ dims [arg]
  else raise (PyException "a Dimension cannot be made of this object").

(** Modelled from the spec: the constructor [DependentVariable] from a dictionary
    (not part of src/) attaches the attributes of the dictionary.  The
    dictionaries that csdm.py builds hold components of two axes,
    [y.reshape(shape0, size)], the form p x N of the spec, and these are
    attached as they are; what the constructor makes of components of
    another form is not modelled. *)
Definition DependentVariable_new (d : dv_dict) : M loc :=
  c <- alloc (OArray (dd_components d)) ;;
  alloc (ODependentVariable
           (mkDV (dd_type d) (dd_description d) (dd_name d) (dd_unit d)
                 (dd_encoding d) (dd_quantity_type d) c)).

(** Modelled from the spec: [dv._reshape(shape)] (not part of src/) gives
    the component array the shape [(p,) + shape] (spec section 3).  numpy's
    [reshape] is a view on the same items; the array object keeps its
    address and takes the new shape.  The spec does not say what happens to
    an array whose size does not fit the shape; here numpy's [reshape]
    refuses it, and no statement below is about that case. *)
Definition _reshape (dv : loc) (s : list nat) : M unit :=
  v <- get_dv dv ;;
  a <- get_array (dv_components v) ;;
  r <- lift (np.reshape a (component_count (dv_quantity_type v) :: s)) ;;
  store (dv_components v) (OArray r).

(** [add_dependent_variable(dict)]. *)
Definition add_dependent_variable (self : loc) (d : dv_dict) : M unit :=
  dv <- DependentVariable_new d ;;
  v <- get_dv dv ;;
  store dv (ODependentVariable
              (mkDV "internal" (dv_description v) (dv_name v) (dv_unit v)
                    "base64" (dv_quantity_type v) (dv_components v))) ;;;
  s <- shape self ;;
  match s with
  | [] => ret tt
  | _ => _reshape dv (rev s)
  end ;;;
  dvs <- dependent_variables self ;;
  AbstractList.__iadd__ dvs [dv].

(** [split()]: one container per dependent variable. *)
Definition new_object (self : loc) : M loc :=
  a <- new ;;
  c <- get_csdm self ;;
  dvs <- alloc (OAbstractList DependentVariableListC []) ;;
  store a (OCSDM (mkCSDM (_dimensions c) dvs (_tags c) (_read_only c)
                    (_version c) (_timestamp c) (_geographic_coordinate c)
                    (_description c) (_application c) (_filename c))) ;;;
  ret a.

Definition split (self : loc) : M (list loc) :=
  dvs <- dependent_variables self ;;
  items <- get_items dvs ;;
  for_each (fun variable =>
      a <- new_object self ;;
      advs <- dependent_variables a ;;
      AbstractList.__iadd__ advs [variable] ;;;
      ret a)
    items.

(** The numpy-like methods without an implementation.  Python returns
    [None] from a body that is only [pass]. *)
Definition argmax (self : loc) : M unit := raise (NotImplementedError "").
Definition argmin (self : loc) : M unit := raise (NotImplementedError "").
Definition ptp (self : loc) : M unit := raise (NotImplementedError "").
Definition trace (self : loc) : M unit := raise (NotImplementedError "").
Definition cumsum (self : loc) : M unit := raise (NotImplementedError "").
Definition cumprod (self : loc) : M unit := raise (NotImplementedError "").
Definition transpose (self : loc) : M unit := ret tt.

End CSDMClass.

(** ** The additive operators in the arithmetic of float64 *)

(** [__add__] and [__sub__] with the sums and differences of the component
    arrays rounded as numpy rounds them on float64.  With a bare number,
    [item.components + other] and [item.components - other], this is the
    whole of the arithmetic; the products with a conversion factor in the
    other branches stay exact. *)
Module Binary64.

Definition __add__ : loc -> operand -> M loc := CSDMClass.additive F64.add.
Definition __sub__ : loc -> operand -> M loc := CSDMClass.additive F64.sub.

End Binary64.

(** ** Broadcasting a vector along an axis *)

(** [_get_broadcast_shape]: the index [tuple(s)] holds [None] at every
    position but [axis], where it holds the full slice.  numpy gives every
    [None] a new axis of length 1 and lets the slice take the first axis of
    the array; the items are shared.  The list assignment [s[axis] = ...]
    raises IndexError when [axis] is outside the list, and a slice on an
    array without an axis is an IndexError of numpy. *)
Definition _get_broadcast_shape (array : np.ndarray) (ndim : nat) (axis : Z)
    : result np.ndarray :=
  match py_index ndim axis with
  | None => Raise (IndexError "list assignment index out of range")
  | Some k =>
      match np.shape array with
      | [] => Raise (IndexError "too many indices for array")
      | n :: rest =>
          Ok (np.mk (repeat 1 k ++ n :: repeat 1 (ndim - 1 - k) ++ rest)
                (np.data array))
      end
  end.

(** ** Translation of dimension indices *)

(** An entry of a tuple or list of indices: a Python [int] or a value of
    another type. *)
Inductive py_item : Type :=
| PyInt (i : Z)
| PyNonInt.

(** The [index] argument. *)
Inductive py_index_arg : Type :=
| ArgInt (i : Z)
| ArgTuple (l : list py_item)
| ArgList (l : list py_item)
| ArgNone
| ArgOther.

Definition _correct_index (i : py_item) (d : Z) : result Z :=
  match i with
  | PyNonInt => Raise (TypeError "Index/Indices are expected as integer(s)")
  | PyInt i =>
      let i := if Z.ltb i 0 then (i + d)%Z else i in
      if Z.gtb i d
      then Raise (IndexError "The `index` cannot be greater than the total number of dimensions - 1")
      else Ok (-1 - i)%Z
  end.

Definition _check_dimension_indices (d : Z) (index : py_index_arg) : result (list Z) :=
  match index with
  | ArgTuple l | ArgList l => rmap (fun item => _correct_index item d) l
  | ArgInt i => rbind (_correct_index (PyInt i) d) (fun a => Ok [a])
  | ArgNone | ArgOther => Raise (TypeError "Index/Indices are expected as integer(s)")
  end.

(** ** The dispatch of numpy functions *)

(** How the axis reaches a reduction: not at all, as the second positional
    argument, or as the keyword [axis]. *)
Inductive axis_argument : Type :=
| AxisAbsent
| AxisPositional (a : py_index_arg)
| AxisKeyword (a : py_index_arg).

(** What a reduction returns: a list of plain numpy results, or a new
    container. *)
Inductive reduction_result : Type :=
| PlainList (lst : list np.ndarray)
| Container (new : loc).

Definition _check_for_out (csdm : loc) (out : option loc) : M unit :=
  match out with
  | None => ret tt
  | Some _ =>
      dvs <- CSDMClass.dependent_variables csdm ;;
      n <- AbstractList.__len__ dvs ;;
      if Nat.ltb 1 n
      then raise (NotImplementedError "Keyword `out` is not implemented for csdm objects with more that one dependent variables.")
      else ret tt
  end.

(** With [out=] numpy writes the result into the given array, which has to
    have the shape of the result, and returns it. *)
Definition write_out (out : option loc) (y : np.ndarray) : M np.ndarray :=
  match out with
  | None => ret y
  | Some o =>
      a <- get_array o ;;
      if decide (np.shape a = np.shape y)
      then store o (OArray y) ;;; ret y
      else raise (ValueError "output parameter has the wrong shape")
  end.

(** The dictionary of a new dependent variable that takes every attribute of
    [variable] but its components. *)
Definition new_dependent_variable (variable : loc) (y : np.ndarray) : M dv_dict :=
  v <- get_dv variable ;;
  shape0 <- lift (np.shape0 y) ;;
  size <- lift (np.size_of_first y) ;;
  c <- lift (np.reshape y [shape0; size]) ;;
  ret (mkDVDict (dv_type v) (dv_description v) (dv_name v) (dv_unit v)
         (dv_encoding v) (dv_quantity_type v) c).

Section Dispatch.

(** What a reduction function makes of the items gathered along the
    reduced axes. *)
Variable lane_of : np_function -> list Q -> result Q.

(** What the functions of the other classes make of an array; [axes] is
    the keyword of [np.transpose]. *)
Variable array_function : np_function -> option (list Z) -> np.ndarray -> result np.ndarray.

Definition _get_new_csdm_object_after_dimension_reduction_func
    (func : np_function) (csdm : loc) (axis_arg : axis_argument)
    (out : option loc) : M reduction_result :=
  axis <-
    match axis_arg with
    | AxisAbsent => ret None
    | AxisKeyword ArgNone => ret None
    | AxisPositional a | AxisKeyword a =>
        dims <- CSDMClass.dimensions csdm ;;
        d <- AbstractList.__len__ dims ;;
        t <- lift (_check_dimension_indices (Z.of_nat d) a) ;;
        ret (Some t)
    end ;;
  _check_for_out csdm out ;;;
  new <- CSDMClass.new ;;
  match axis with
  | Some ax =>
      dims <- CSDMClass.dimensions csdm ;;
      items <- get_items dims ;;
      for_each (fun p =>
          if existsb (Z.eqb (-1 - Z.of_nat p.1)) ax then ret tt
          else
            c <- deepcopy p.2 ;;
            CSDMClass.add_dimension new c)
        (enumerate items) ;;;
      ret tt
  | None => ret tt
  end ;;;
  dvs <- CSDMClass.dependent_variables csdm ;;
  variables <- get_items dvs ;;
  lst <- for_each (fun variable =>
      a <- components variable ;;
      y <- lift (np.reduce (lane_of func) a axis) ;;
      y <- write_out out y ;;
      match axis with
      | Some _ =>
          nd <- new_dependent_variable variable y ;;
          CSDMClass.add_dependent_variable new nd ;;;
          ret y
      | None => ret y
      end)
    variables ;;
  match axis with
  | None => ret (PlainList lst)
  | Some _ => ret (Container new)
  end.

Definition _get_new_csdm_object_after_applying_function
    (func : np_function) (csdm : loc) (axes : option (list Z))
    (out : option loc) : M loc :=
  _check_for_out csdm out ;;;
  new <- CSDMClass.new ;;
  dims <- CSDMClass.dimensions csdm ;;
  dims' <- deepcopy dims ;;
  c <- get_csdm new ;;
  store new (OCSDM (mkCSDM dims' (_dependent_variables c) (_tags c)
                      (_read_only c) (_version c) (_timestamp c)
                      (_geographic_coordinate c) (_description c)
                      (_application c) (_filename c))) ;;;
  dvs <- CSDMClass.dependent_variables csdm ;;
  variables <- get_items dvs ;;
  for_each (fun variable =>
      a <- components variable ;;
      y <- lift (array_function func axes a) ;;
      y <- write_out out y ;;
      nd <- new_dependent_variable variable y ;;
      CSDMClass.add_dependent_variable new nd)
    variables ;;;
  ret new.

(** [__array_function__]: the result of the branch for shape manipulation
    is not returned, the method goes on to the final [raise].  (That branch
    leaves a tuple in [_dimensions]; the model keeps a list object.) *)
Definition __array_function__ (self : loc) (function : np_function)
    (axis_arg : axis_argument) (axes : option (list Z)) (out : option loc)
    : M reduction_result :=
  if existsb (np_function_eqb function) __function_reduction_list__
  then _get_new_csdm_object_after_dimension_reduction_func function self axis_arg out
  else if existsb (np_function_eqb function) __other_functions__
  then new <- _get_new_csdm_object_after_applying_function function self None out ;;
       ret (Container new)
  else
    (if existsb (np_function_eqb function) __shape_manipulation_functions__
     then
       dims <- CSDMClass.dimensions self ;;
       dim_len <- AbstractList.__len__ dims ;;
       let axes' :=
         match axes with
         | Some ax => 0%Z :: map (fun a => (a + 1)%Z) ax
         | None => 0%Z :: map (fun i => (- Z.of_nat i - 1)%Z) (seq 0 dim_len)
         end in
       csdm <- _get_new_csdm_object_after_applying_function function self (Some axes') out ;;
       ndims <- CSDMClass.dimensions csdm ;;
       n <- AbstractList.__len__ ndims ;;
       reordered <- for_each (fun i =>
           match tl axes' !! i with
           | Some a => AbstractList.__getitem__ ndims a
           | None => raise (IndexError "tuple index out of range")
           end) (seq 0 n) ;;
       l <- alloc (OAbstractList DimensionListC reordered) ;;
       c <- get_csdm csdm ;;
       store csdm (OCSDM (mkCSDM l (_dependent_variables c) (_tags c)
                            (_read_only c) (_version c) (_timestamp c)
                            (_geographic_coordinate c) (_description c)
                            (_application c) (_filename c)))
     else ret tt) ;;;
    raise (NotImplementedError "Function is not implemented.").

(** [sum(axis=axis)] and the other reducing methods call the numpy
    function with the keyword [axis]. *)
Definition reduce_method (func : np_function) (self : loc) (axis : py_index_arg)
    : M reduction_result :=
  __array_function__ self func (AxisKeyword axis) None None.

End Dispatch.

(** ** The dispatch of numpy universal functions *)

(** A universal function is named by its [__name__]; the three lists of
    csdm.py hold the functions by their names ([np.conj] is
    [np.conjugate]). *)
Definition __ufunc_list_dimensionless_unit__ : list string :=
  [ "sin"; "cos"; "tan"; "arcsin"; "arccos"; "arctan"; "sinh"; "cosh"; "tanh";
    "arcsinh"; "arccosh"; "arctanh"; "exp"; "exp2"; "log"; "log2"; "log10";
    "expm1"; "log1p" ].

Definition __ufunc_list_unit_independent__ : list string :=
  [ "negative"; "positive"; "absolute"; "fabs"; "rint"; "sign"; "conjugate";
    "conjugate" ].

Definition __ufunc_list_applies_to_unit__ : list string :=
  [ "sqrt"; "square"; "cbrt"; "reciprocal"; "power" ].

Section Ufunc.

(** What a universal function, with its further inputs and keywords, makes
    of an array; the second argument is the keyword [axis]. *)
Variable apply_ufunc : string -> option (list Z) -> np.ndarray -> result np.ndarray.

(** Modelled from the spec: what a universal function makes of the quantity
    [1 * unit] (astropy applies the function to the value and to the
    unit). *)
Variable ufunc_of_unit : string -> Unit -> Quantity.t.

Definition _get_new_csdm_object_after_applying_ufunc
    (csdm : loc) (func : string) (factor : option (list Q))
    (axis : option py_index_arg) (out : option loc) : M loc :=
  factor <-
    match factor with
    | Some f => ret f
    | None =>
        dvs <- CSDMClass.dependent_variables csdm ;;
        n <- AbstractList.__len__ dvs ;;
        ret (repeat 1%Q n)
    end ;;
  axis <-
    match axis with
    | None | Some ArgNone => ret None
    | Some a =>
        dims <- CSDMClass.dimensions csdm ;;
        d <- AbstractList.__len__ dims ;;
        t <- lift (_check_dimension_indices (Z.of_nat d) a) ;;
        ret (Some t)
    end ;;
  _check_for_out csdm out ;;;
  new <- CSDMClass.new ;;
  dims <- CSDMClass.dimensions csdm ;;
  dims' <- deepcopy dims ;;
  c <- get_csdm new ;;
  store new (OCSDM (mkCSDM dims' (_dependent_variables c) (_tags c)
                      (_read_only c) (_version c) (_timestamp c)
                      (_geographic_coordinate c) (_description c)
                      (_application c) (_filename c))) ;;;
  dvs <- CSDMClass.dependent_variables csdm ;;
  variables <- get_items dvs ;;
  for_each (fun p =>
      a <- components p.2 ;;
      f <- match factor !! p.1 with
           | Some f => ret f
           | None => raise (IndexError "index is out of bounds")
           end ;;
      y <- lift (apply_ufunc func axis (np.map_scalar (fun x => x * f)%Q a)) ;;
      y <- write_out out y ;;
      nd <- new_dependent_variable p.2 y ;;
      CSDMClass.add_dependent_variable new nd)
    (enumerate variables) ;;;
  ret new.

(** [__array_ufunc__]; [csdm] is the first input of the function.  The
    messages of the two exceptions, which the source formats with the
    function and the physical type, are kept as fixed texts; the line that
    the method prints is left out. *)
Definition __array_ufunc__ (csdm : loc) (function : string)
    (axis : option py_index_arg) (out : option loc) : M loc :=
  if existsb (String.eqb function) __ufunc_list_dimensionless_unit__
  then
    dvs <- CSDMClass.dependent_variables csdm ;;
    variables <- get_items dvs ;;
    factor <- for_each (fun variable =>
        u <- unit_of variable ;;
        if negb (bool_decide (physical_type u = dimensionless))
        then raise (ValueError "Cannot apply the function to a quantity with this physical type.")
        else lift (unit_to u (mkUnit 1 dimensionless)))
      variables ;;
    _get_new_csdm_object_after_applying_ufunc csdm function (Some factor) axis out
  else if existsb (String.eqb function) __ufunc_list_unit_independent__
  then _get_new_csdm_object_after_applying_ufunc csdm function None axis out
  else if existsb (String.eqb function) __ufunc_list_applies_to_unit__
  then
    obj <- _get_new_csdm_object_after_applying_ufunc csdm function None axis out ;;
    dvs <- CSDMClass.dependent_variables obj ;;
    variables <- get_items dvs ;;
    for_each (fun variable =>
        u <- unit_of variable ;;
        let scalar := ufunc_of_unit function u in
        update_components variable
          (fun a => Ok (np.map_scalar (fun x => x * Quantity.value scalar)%Q a)) ;;;
        set_unit variable (Quantity.unit scalar))
      variables ;;;
    ret obj
  else raise (NotImplementedError "Function is not implemented.").

End Ufunc.

(** ** Reading a container out of the store *)

(** The content of a container, without addresses: what the attributes hold
    at a given moment. *)
Record csdm_view : Type := mkView {
  vw_dimensions : list Dimension;
  vw_dependent_variables : list dv_dict;
  vw_tags : list string;
  vw_read_only : bool;
  vw_version : string;
  vw_timestamp : string;
  vw_geographic_coordinate : gmap string string;
  vw_description : string;
  vw_application : gmap string string;
  vw_filename : string }.

Definition read_dimension (h : heap) (l : loc) : option Dimension :=
  match h !! l with Some (ODimension d) => Some d | _ => None end.

Definition read_array (h : heap) (l : loc) : option np.ndarray :=
  match h !! l with Some (OArray a) => Some a | _ => None end.

Definition read_dv (h : heap) (l : loc) : option dv_dict :=
  match h !! l with
  | Some (ODependentVariable v) =>
      match read_array h (dv_components v) with
      | Some a =>
          Some (mkDVDict (dv_type v) (dv_description v) (dv_name v) (dv_unit v)
                  (dv_encoding v) (dv_quantity_type v) a)
      | None => None
      end
  | _ => None
  end.

Definition read_items (c : list_class) (h : heap) (l : loc) : option (list loc) :=
  match h !! l with
  | Some (OAbstractList c' items) =>
      if list_class_eqb c c' then Some items else None
  | _ => None
  end.

Definition read_strlist (h : heap) (l : loc) : option (list string) :=
  match h !! l with Some (OStrList t) => Some t | _ => None end.

Definition read_dict (h : heap) (l : loc) : option (gmap string string) :=
  match h !! l with Some (ODict d) => Some d | _ => None end.

Fixpoint read_all {A} (rd : loc -> option A) (l : list loc) : option (list A) :=
  match l with
  | [] => Some []
  | x :: l' =>
      match rd x, read_all rd l' with
      | Some a, Some r => Some (a :: r)
      | _, _ => None
      end
  end.

Definition read_slots (h : heap) (l : loc) : option CSDM :=
  match h !! l with Some (OCSDM c) => Some c | _ => None end.

Definition read_csdm (h : heap) (l : loc) : option csdm_view :=
  match read_slots h l with
  | Some c =>
      match read_items DimensionListC h (_dimensions c),
            read_items DependentVariableListC h (_dependent_variables c),
            read_strlist h (_tags c),
            read_dict h (_geographic_coordinate c),
            read_dict h (_application c) with
      | Some dl, Some vl, Some t, Some g, Some a =>
          match read_all (read_dimension h) dl, read_all (read_dv h) vl with
          | Some ds, Some vs =>
              Some (mkView ds vs t (_read_only c) (_version c) (_timestamp c) g
                      (_description c) a (_filename c))
          | _, _ => None
          end
      | _, _, _, _, _ => None
      end
  | None => None
  end.

(** The addresses of the dependent variables of a container. *)
Definition dv_addresses (h : heap) (l : loc) : option (list loc) :=
  match read_slots h l with
  | Some c => read_items DependentVariableListC h (_dependent_variables c)
  | None => None
  end.

(** The addresses that an object holds. *)
Definition children (o : obj) : list loc :=
  match o with
  | ODependentVariable v => [dv_components v]
  | OAbstractList _ items => items
  | OCSDM c =>
      [_dimensions c; _dependent_variables c; _tags c;
       _geographic_coordinate c; _application c]
  | _ => []
  end.

(** The objects that can be reached from an address. *)
Inductive reachable (h : heap) : loc -> loc -> Prop :=
| reach_refl : forall l, reachable h l l
| reach_step : forall l o k k',
    h !! l = Some o -> In k (children o) -> reachable h k k' -> reachable h l k'.

(** ** Example data *)

Definition metre : Unit := mkUnit 1 (mkPhysicalType 1 0 0 0 0 0 0).
Definition second : Unit := mkUnit 1 (mkPhysicalType 0 0 1 0 0 0 0).
Definition no_unit : Unit := mkUnit 1 dimensionless.

(** A store with one container (address 0) over one linear dimension of
    count 2, with two scalar dependent variables, in metres (address 7) and
    in seconds (address 9). *)
Definition two_variables : heap :=
  [ OCSDM (mkCSDM 1 2 3 false "1.0" "" 4 "" 5 "");
    OAbstractList DimensionListC [6];
    OAbstractList DependentVariableListC [7; 9];
    OStrList [];
    ODict ∅;
    ODict ∅;
    ODimension (LinearDimension 2 1 0);
    ODependentVariable (mkDV "internal" "" "length" metre "base64" scalar 8);
    OArray (np.mk [1; 2] [10%Q; 20%Q]);
    ODependentVariable (mkDV "internal" "" "time" second "base64" scalar 10);
    OArray (np.mk [1; 2] [30%Q; 40%Q]) ].


(** A store with one container (address 0) over two linear dimensions of
    counts 3 and 4, with one scalar dependent variable. *)
Definition grid_3_4 : heap :=
  [ OCSDM (mkCSDM 1 2 3 false "1.0" "" 4 "" 5 "");
    OAbstractList DimensionListC [6; 7];
    OAbstractList DependentVariableListC [8];
    OStrList [];
    ODict ∅;
    ODict ∅;
    ODimension (LinearDimension 3 1 0);
    ODimension (LinearDimension 4 1 0);
    ODependentVariable (mkDV "internal" "" "signal" metre "base64" scalar 9);
    OArray (np.mk [1; 4; 3]
              [1%Q; 2%Q; 3%Q; 4%Q; 5%Q; 6%Q; 7%Q; 8%Q; 9%Q; 10%Q; 11%Q; 12%Q]) ].

(** The sum of a lane, for [np.sum]. *)
Definition lane_sum (f : np_function) (l : list Q) : result Q :=
  Ok (fold_right Qplus 0%Q l).

(** ** Definitions used in the statements *)

(** What [read_csdm] returning a view says about the store. *)
Record opened (h : heap) (l : loc) (X : csdm_view) (c : CSDM)
    (dl vl : list loc) : Prop := mkOpened {
  op_slots : h !! l = Some (OCSDM c);
  op_dims : h !! _dimensions c = Some (OAbstractList DimensionListC dl);
  op_dvs : h !! _dependent_variables c = Some (OAbstractList DependentVariableListC vl);
  op_tags : h !! _tags c = Some (OStrList (vw_tags X));
  op_geo : h !! _geographic_coordinate c = Some (ODict (vw_geographic_coordinate X));
  op_app : h !! _application c = Some (ODict (vw_application X));
  op_read_dims : read_all (read_dimension h) dl = Some (vw_dimensions X);
  op_read_dvs : read_all (read_dv h) vl = Some (vw_dependent_variables X);
  op_read_only : vw_read_only X = _read_only c;
  op_version : vw_version X = _version c;
  op_timestamp : vw_timestamp X = _timestamp c;
  op_description : vw_description X = _description c;
  op_filename : vw_filename X = _filename c }.

(** The comparison of two dimensions through their addresses. *)
Definition dimension_pair_eqb (h : heap) (ab : loc * loc) : bool :=
  match read_dimension h ab.1, read_dimension h ab.2 with
  | Some d1, Some d2 => dimension_eqb d1 d2
  | _, _ => false
  end.

(** Two dependent variables whose units differ in physical type. *)
Definition mismatch (vw : dv_dict * dv_dict) : bool :=
  negb (bool_decide (physical_type (dd_unit vw.1) = physical_type (dd_unit vw.2))).

Definition mismatch_at (h : heap) (p : loc * loc) : bool :=
  match read_dv h p.1, read_dv h p.2 with
  | Some v, Some w => mismatch (v, w)
  | _, _ => false
  end.

Definition msg_dimensions : string :=
  "Cannot operate on CSDM objects with different dimensions.".
Definition msg_lengths : string :=
  "Cannot operate on CSDM objects with differnet lengths of dependent variables.".
Definition msg_types : string :=
  "Cannot operate on dependent variables with of physical types".

(** The precondition of [+], [-], [+=] and [-=] between two containers, in
    the words of the spec. *)
Definition dimensions_equal (X Y : csdm_view) : Prop :=
  Forall2 (fun a b => dimension_eqb a b = true) (vw_dimensions X) (vw_dimensions Y).

Definition same_number_of_variables (X Y : csdm_view) : Prop :=
  length (vw_dependent_variables X) = length (vw_dependent_variables Y).

Definition physical_types_differ (X Y : csdm_view) : Prop :=
  exists i v w,
    vw_dependent_variables X !! i = Some v /\
    vw_dependent_variables Y !! i = Some w /\
    physical_type (dd_unit v) <> physical_type (dd_unit w).

Definition incompatible (X Y : csdm_view) : Prop :=
  ~ dimensions_equal X Y \/
  ~ same_number_of_variables X Y \/
  physical_types_differ X Y.

(** A store with a second container (address 11) that has the dependent
    variables of the first one and no dimension. *)
Definition two_containers : heap :=
  two_variables ++
  [ OCSDM (mkCSDM 12 2 3 false "1.0" "" 4 "" 5 "");
    OAbstractList DimensionListC [] ].

(** ** What client code does with the attributes of a container *)

(** [csdm.tags.append(t)]. *)
Definition tags_append (self : loc) (t : string) : M unit :=
  l <- CSDMClass.tags self ;;
  o <- deref l ;;
  match o with
  | OStrList ts => store l (OStrList (ts ++ [t]))
  | _ => raise (AttributeError "object has no attribute 'append'")
  end.

(** [csdm.application[k] = v]. *)
Definition application_setitem (self : loc) (k v : string) : M unit :=
  l <- CSDMClass.application self ;;
  o <- deref l ;;
  match o with
  | ODict d => store l (ODict (<[k := v]> d))
  | _ => raise (TypeError "object does not support item assignment")
  end.

(** [csdm.dimensions[i] = item]. *)
Definition dimensions_setitem (self : loc) (i : Z) (item : loc) : M unit :=
  l <- CSDMClass.dimensions self ;;
  DimensionList.__setitem__ l i item.

(** What a container shows of its slots. *)
Definition tags_of (h : heap) (s : loc) : option (list string) :=
  match read_slots h s with
  | Some c => read_strlist h (_tags c)
  | None => None
  end.

Definition application_of (h : heap) (s : loc) : option (gmap string string) :=
  match read_slots h s with
  | Some c => read_dict h (_application c)
  | None => None
  end.

Definition dimension_addresses (h : heap) (s : loc) : option (list loc) :=
  match read_slots h s with
  | Some c => read_items DimensionListC h (_dimensions c)
  | None => None
  end.

(** ** The objects that [split] creates *)

(** The slots of a sibling: those of the original, but for the list of
    dependent variables. *)
Definition sibling_slots (c : CSDM) (dvs : loc) : CSDM :=
  mkCSDM (_dimensions c) dvs (_tags c) (_read_only c) (_version c)
    (_timestamp c) (_geographic_coordinate c) (_description c)
    (_application c) (_filename c).

(** The seven objects that one turn of the loop of [split] adds at the
    address [n]: the sibling, the five objects that [CSDM()] made for it
    (which it drops at once), and its list of dependent variables. *)
Definition sibling_block (c : CSDM) (n : loc) (variable : loc) : list obj :=
  [ OCSDM (sibling_slots c (n + 6));
    OStrList [];
    ODict ∅;
    ODict ∅;
    OAbstractList DimensionListC [];
    OAbstractList DependentVariableListC [];
    OAbstractList DependentVariableListC [variable] ].

Fixpoint sibling_blocks (c : CSDM) (n : loc) (items : list loc) : list obj :=
  match items with
  | [] => []
  | v :: r => sibling_block c n v ++ sibling_blocks c (n + 7) r
  end.

Fixpoint sibling_addresses (n : loc) (items : list loc) : list loc :=
  match items with
  | [] => []
  | _ :: r => n :: sibling_addresses (n + 7) r
  end.

(** ** Definitions about deepcopy *)

(** Objects that hold no address. *)
Definition is_leaf (o : obj) : bool :=
  match o with
  | ODependentVariable _ | OAbstractList _ _ | OCSDM _ => false
  | _ => true
  end.

(** [h'] extends [h]: it is at least as long, and the objects of [h] are
    the same in [h']. *)
Definition grows (h h' : heap) : Prop :=
  length h <= length h' /\ forall x, x < length h -> h' !! x = h !! x.

(** Every object at an address from [n] on holds only addresses from [n]
    on. *)
Definition closed_above (n : nat) (h : heap) : Prop :=
  forall x o, n <= x -> h !! x = Some o -> Forall (le n) (children o).

(** Every copy recorded in the memo is at an address from [n] on. *)
Definition memo_above (n : nat) (m : memo) : Prop :=
  forall a b, memo_get m a = Some b -> n <= b.

(** An object that is copied in one or two steps: an object without
    addresses, or a dependent variable over an array. *)
Definition atom (h0 : heap) (a : loc) : Prop :=
  match h0 !! a with
  | Some (ODependentVariable v) =>
      exists arr, h0 !! dv_components v = Some (OArray arr)
  | Some o => is_leaf o = true
  | None => False
  end.

(** Neither a typed list nor a container. *)
Definition plain (h0 : heap) (a : loc) : Prop :=
  match h0 !! a with
  | Some (OAbstractList _ _) | Some (OCSDM _) | None => False
  | Some _ => True
  end.

(** [b] in [h] is the finished copy of the atom [a] of [h0]. *)
Definition copy_of (h0 h : heap) (a b : loc) : Prop :=
  match h0 !! a with
  | Some (ODependentVariable v) =>
      forall arr, h0 !! dv_components v = Some (OArray arr) ->
      exists c, length h0 <= c /\
                h !! b = Some (ODependentVariable (dv_set_components v c)) /\
                h !! c = Some (OArray arr)
  | Some (OAbstractList _ _) | Some (OCSDM _) | None => True
  | Some o => h !! b = Some o
  end.

(** The memo during a copy of objects of [h0] into [h]. *)
Record memo_inv (h0 h : heap) (m : memo) : Prop := mkMemoInv {
  mi_range : forall a b, memo_get m a = Some b -> length h0 <= b < length h;
  mi_inj : forall a a' b, memo_get m a = Some b -> memo_get m a' = Some b -> a = a';
  mi_copy : forall a b, memo_get m a = Some b -> copy_of h0 h a b }.

(** [m'] has the entries of [m], and new entries only for plain objects or
    for the address [a0]. *)
Definition memo_ext (h0 : heap) (a0 : option loc) (m m' : memo) : Prop :=
  (forall x y, memo_get m x = Some y -> memo_get m' x = Some y) /\
  (forall x, memo_get m x = None -> memo_get m' x <> None ->
             plain h0 x \/ a0 = Some x).

(** The view [X] with other dependent variables. *)
Definition with_dvs (X : csdm_view) (vs : list dv_dict) : csdm_view :=
  mkView (vw_dimensions X) vs (vw_tags X) (vw_read_only X) (vw_version X)
    (vw_timestamp X) (vw_geographic_coordinate X) (vw_description X)
    (vw_application X) (vw_filename X).

(** The statement about one call of the copy function [cp] on the address
    [l]. *)
Definition copies_freshly (n : nat) (cp : loc -> memo -> M (loc * memo)) : Prop :=
  forall l m h r h',
    n <= length h -> memo_above n m -> closed_above n h ->
    cp l m h = (r, h') ->
    grows h h' /\ closed_above n h' /\
    (forall b m', r = Ok (b, m') -> n <= b /\ memo_above n m').

(** ** Definitions about loops over the dependent variables *)

(** From [h] to [h'] only the objects at the addresses [ys] have changed,
    and new objects may have been added. *)
Definition touches_only (ys : list loc) (h h' : heap) : Prop :=
  length h <= length h' /\
  forall x, x < length h -> ~ In x ys -> h' !! x = h !! x.


(** A dependent variable with other components, with another unit. *)
Definition dd_with_components (V : dv_dict) (a : np.ndarray) : dv_dict :=
  mkDVDict (dd_type V) (dd_description V) (dd_name V) (dd_unit V)
    (dd_encoding V) (dd_quantity_type V) a.


(** The components of [V] after an elementwise operation. *)
Definition dd_map (f : Q -> Q) (V : dv_dict) : dv_dict :=
  dd_with_components V (np.map_scalar f (dd_components V)).

(** ** Definitions about the arithmetic operators *)







(** The dependent variables of a container are distinct objects. *)
Definition distinct_variables (h : heap) (l : loc) : Prop :=
  exists vl, dv_addresses h l = Some vl /\ NoDup vl.





(** ** Definitions about reductions *)

(** A dimension index counted from the front. *)
Definition normalized (d : nat) (i : Z) : nat :=
  Z.to_nat (if Z.ltb i 0 then i + Z.of_nat d else i)%Z.

(** The array axis of a dimension index: dimensions are stored in reverse
    order behind the axis of the components. *)
Definition array_axis (d : nat) (i : Z) : Z := (-1 - Z.of_nat (normalized d i))%Z.

(** The list without the items at the positions [ns]; [k] is the position
    of the first item. *)
Fixpoint drop_at {A} (ns : list nat) (k : nat) (l : list A) : list A :=
  match l with
  | [] => []
  | x :: l' =>
      if existsb (Nat.eqb k) ns then drop_at ns (S k) l'
      else x :: drop_at ns (S k) l'
  end.

(** The indices that an [index] argument holds when all of them are
    integers. *)
Fixpoint ints_of (l : list py_item) : option (list Z) :=
  match l with
  | [] => Some []
  | PyInt i :: l' =>
      match ints_of l' with Some r => Some (i :: r) | None => None end
  | PyNonInt :: _ => None
  end.

Definition index_list (a : py_index_arg) : option (list Z) :=
  match a with
  | ArgInt i => Some [i]
  | ArgTuple l | ArgList l => ints_of l
  | _ => None
  end.

(** The invariant of the data model (spec section 3): the component array of
    a dependent variable has the shape [(p,) + reversed(shape)] and as many
    items as that shape says, with at least one component. *)
Definition on_grid (counts : list nat) (V : dv_dict) : Prop :=
  0 < component_count (dd_quantity_type V) /\
  np.shape (dd_components V) = component_count (dd_quantity_type V) :: rev counts /\
  length (np.data (dd_components V)) = np.prod (np.shape (dd_components V)).

Definition grid_invariant (X : csdm_view) : Prop :=
  Forall (on_grid (map count (vw_dimensions X))) (vw_dependent_variables X).

(** The shape that [add_dependent_variable] leaves on the components:
    without a dimension left the array is not reshaped. *)
Definition attached_shape (p : nat) (counts : list nat) : list nat :=
  match counts with
  | [] => [p; 1]
  | _ => p :: rev counts
  end.

(** [W] is the dependent variable [V] reduced along the array axes [t],
    attached to a container whose dimensions have the counts [kept]. *)
Definition reduced_variable (lane : list Q -> result Q) (t : list Z)
    (kept : list nat) (V W : dv_dict) : Prop :=
  exists y,
    np.reduce lane (dd_components V) (Some t) = Ok y /\
    np.shape y = component_count (dd_quantity_type V) :: rev kept /\
    length (np.data y) = np.prod (np.shape y) /\
    np.data (dd_components W) = np.data y /\
    np.shape (dd_components W) =
      attached_shape (component_count (dd_quantity_type V)) kept /\
    dd_unit W = dd_unit V /\ dd_name W = dd_name V /\
    dd_description W = dd_description V /\
    dd_quantity_type W = dd_quantity_type V /\
    dd_type W = "internal" /\ dd_encoding W = "base64".

(** The content of a container made by [CSDM()] once dimensions and
    dependent variables have been added. *)
Definition new_view (ds : list Dimension) (vs : list dv_dict) : csdm_view :=
  mkView ds vs [] false "1.0" "" ∅ "" ∅ "".

(** A dimension index of a container with [d] dimensions. *)
Definition valid_index (d : nat) (i : Z) : Prop :=
  (- Z.of_nat d <= i < Z.of_nat d)%Z.

(** The view [X] with other dimensions. *)
Definition with_dims (X : csdm_view) (ds : list Dimension) : csdm_view :=
  mkView ds (vw_dependent_variables X) (vw_tags X) (vw_read_only X) (vw_version X)
    (vw_timestamp X) (vw_geographic_coordinate X) (vw_description X)
    (vw_application X) (vw_filename X).

(** The content of a dependent variable object over the array [a]. *)
Definition dict_of (v : DependentVariable) (a : np.ndarray) : dv_dict :=
  mkDVDict (dv_type v) (dv_description v) (dv_name v) (dv_unit v)
    (dv_encoding v) (dv_quantity_type v) a.


(** ** Definitions used in the further properties *)

(** The comparison of two dependent variables by their content. *)
Definition dv_dict_eqb (V W : dv_dict) : bool :=
  (String.eqb (dd_type V) (dd_type W)
   && String.eqb (dd_description V) (dd_description W)
   && String.eqb (dd_name V) (dd_name W)
   && unit_eqb (dd_unit V) (dd_unit W)
   && String.eqb (dd_encoding V) (dd_encoding W)
   && quantity_type_eqb (dd_quantity_type V) (dd_quantity_type W)
   && array_eqb (dd_components V) (dd_components W))%bool.

(** The comparison of the content of two containers that [CSDM.__eq__]
    makes: every attribute but the file name. *)
Definition view_eqb (X Y : csdm_view) : bool :=
  forallb id
    [ list_eqb dimension_eqb (vw_dimensions X) (vw_dimensions Y);
      list_eqb dv_dict_eqb (vw_dependent_variables X) (vw_dependent_variables Y);
      bool_decide (vw_tags X = vw_tags Y);
      Bool.eqb (vw_read_only X) (vw_read_only Y);
      String.eqb (vw_version X) (vw_version Y);
      String.eqb (vw_timestamp X) (vw_timestamp Y);
      bool_decide (vw_geographic_coordinate X = vw_geographic_coordinate Y);
      String.eqb (vw_description X) (vw_description Y);
      bool_decide (vw_application X = vw_application Y) ].

(** The view [X] under another file name. *)
Definition with_filename (X : csdm_view) (f : string) : csdm_view :=
  mkView (vw_dimensions X) (vw_dependent_variables X) (vw_tags X) (vw_read_only X)
    (vw_version X) (vw_timestamp X) (vw_geographic_coordinate X) (vw_description X)
    (vw_application X) f.

(** [W] is the dependent variable [V] after the function [F] has been
    applied to its components, attached to a container whose dimensions
    have the counts [kept]. *)
Definition transformed_variable (F : np.ndarray -> result np.ndarray)
    (kept : list nat) (V W : dv_dict) : Prop :=
  exists y,
    F (dd_components V) = Ok y /\
    np.data (dd_components W) = np.data y /\
    np.shape (dd_components W) =
      attached_shape (component_count (dd_quantity_type V)) kept /\
    dd_unit W = dd_unit V /\ dd_name W = dd_name V /\
    dd_description W = dd_description V /\
    dd_quantity_type W = dd_quantity_type V /\
    dd_type W = "internal" /\ dd_encoding W = "base64".

(** A function on arrays that keeps the shape, as the element-wise
    functions of numpy do. *)
Definition keeps_shape (F : np.ndarray -> result np.ndarray) : Prop :=
  forall a, exists y,
    F a = Ok y /\ np.shape y = np.shape a /\
    length (np.data y) = length (np.data a).

(** A computation that leaves the objects below the address [n] as they
    are, whether it returns or raises. *)
Definition keeps_below (n : nat) {A} (m : M A) : Prop :=
  forall (H : heap) r H',
    n <= length H -> m H = (r, H') ->
    length H <= length H' /\ forall x, x < n -> H' !! x = H !! x.

(** The right operand of an operator is a number, a quantity, or a
    container that can be read. *)
Definition operand_readable (h : heap) (other : operand) : Prop :=
  match other with
  | OperandObject y => exists Y, read_csdm h y = Some Y
  | _ => True
  end.

(** Two dependent variables that the additive operators combine item by
    item: units of one physical type and component arrays of one shape,
    which hold as many items as the shape says. *)
Definition matching_variables (V U : dv_dict) : Prop :=
  physical_type (dd_unit U) = physical_type (dd_unit V) /\
  np.shape (dd_components U) = np.shape (dd_components V) /\
  length (np.data (dd_components V)) = np.prod (np.shape (dd_components V)) /\
  length (np.data (dd_components U)) = np.prod (np.shape (dd_components V)).

(** The dependent variable [V] after [op] (addition or subtraction) with
    the dependent variable [U]: the items of [U] are converted to the unit of
    [V]. *)
Definition combined (op : Q -> Q -> Q) (V U : dv_dict) : dv_dict :=
  dd_with_components V
    (np.mk (np.shape (dd_components V))
       (zip_with (fun x y => op x (unit_scale (dd_unit U) / unit_scale (dd_unit V) * y)%Q)
          (np.data (dd_components V)) (np.data (dd_components U)))).

(** The address of the component array of a dependent variable. *)
Definition array_of (h : heap) (v : loc) : option loc :=
  match h !! v with
  | Some (ODependentVariable d) => Some (dv_components d)
  | _ => None
  end.

(** The addresses of the component arrays of a container. *)
Definition array_addresses (h : heap) (l : loc) : option (list loc) :=
  match dv_addresses h l with
  | Some vl => read_all (array_of h) vl
  | None => None
  end.

(** The dependent variables of a container hold distinct array objects. *)
Definition distinct_arrays (h : heap) (l : loc) : Prop :=
  exists al, array_addresses h l = Some al /\ NoDup al.

(** An object that is not an array. *)
Definition not_array (o : obj) : Prop :=
  match o with OArray _ => False | _ => True end.

(** The call [m], an operator in place on the container [x] that reads as
    [X], returns [x] itself, creates no object, applies [f] to every item
    of the component arrays, which stay the objects they were, and changes
    nothing but these arrays. *)
Definition updated_in_place (h : heap) (x : loc) (X : csdm_view) (f : Q -> Q)
    (m : M loc) : Prop :=
  exists h',
    m h = (Ok x, h') /\
    length h' = length h /\
    read_csdm h' x = Some (with_dvs X (map (dd_map f) (vw_dependent_variables X))) /\
    array_addresses h' x = array_addresses h x /\
    (forall a o, h !! a = Some o -> not_array o -> h' !! a = Some o).

(** The dependent variable [V] after the quantity [q] has been added to
    ([op] is [+]) or subtracted from ([op] is [-]) its components: the
    value of [q] is converted to the unit of [V]. *)
Definition shifted (op : Q -> Q -> Q) (q : Quantity.t) (V : dv_dict) : dv_dict :=
  dd_map (fun v => op v (unit_scale (Quantity.unit q) / unit_scale (dd_unit V)
                         * Quantity.value q)%Q) V.

(** The unit of [V] has the physical type of the unit of [q]. *)
Definition convertible (q : Quantity.t) (V : dv_dict) : Prop :=
  physical_type (Quantity.unit q) = physical_type (dd_unit V).

(** An index that fits a machine word of the interpreter (Py_ssize_t). *)
Definition fits_ssize_t (i : Z) : Prop := (- 2 ^ 63 <= i < 2 ^ 63)%Z.

(** A store with two containers that differ in their file names only: the
    one of [two_variables] at address 0, and at address 11 a container under
    the name [data.csdf] that holds the same lists and dictionaries. *)
Definition two_names : heap :=
  two_variables ++ [ OCSDM (mkCSDM 1 2 3 false "1.0" "" 4 "" 5 "data.csdf") ].
(** * Properties *)

(** ** Running computations *)

Lemma bind_ok {A B} (m : M A) (k : A -> M B) h a h' :
  m h = (Ok a, h') -> bind m k h = k a h'.
Proof. intros E. unfold bind. now rewrite E. Qed.

Lemma bind_raise {A B} (m : M A) (k : A -> M B) h e h' :
  m h = (Raise e, h') -> bind m k h = (Raise e, h').
Proof. intros E. unfold bind. now rewrite E. Qed.

Lemma deref_ok h l o : h !! l = Some o -> deref l h = (Ok o, h).
Proof. intros E. unfold deref. now rewrite E. Qed.

Ltac mstep E := erewrite bind_ok by (exact E); cbv beta.

(** ** Index translation (C5) *)

(** An integer index is refused exactly when, after the shift of a negative
    value, it exceeds the number of dimensions [d]. *)
Lemma correct_index_spec (i d : Z) :
  _correct_index (PyInt i) d =
    let j := (if Z.ltb i 0 then i + d else i)%Z in
    if Z.gtb j d then Raise (IndexError "The `index` cannot be greater than the total number of dimensions - 1")
    else Ok (-1 - j)%Z.
Proof. reflexivity. Qed.

Lemma check_dimension_indices_accepts_count (d : Z) :
  (0 <= d)%Z -> _check_dimension_indices d (ArgInt d) = Ok [(-1 - d)%Z].
Proof.
  intros Hd. unfold _check_dimension_indices, _correct_index.
  destruct (Z.ltb_spec d 0); [lia|].
  destruct (Z.gtb_spec d d); [lia|]. reflexivity.
Qed.

Lemma check_dimension_indices_accepts_below (d i : Z) :
  (i < - d)%Z -> (0 <= d)%Z ->
  _check_dimension_indices d (ArgInt i) = Ok [(-1 - (i + d))%Z].
Proof.
  intros Hi Hd. unfold _check_dimension_indices, _correct_index.
  destruct (Z.ltb_spec i 0); [|lia].
  destruct (Z.gtb_spec (i + d) d); [lia|]. reflexivity.
Qed.

(** C5 (the code departs from the claim).  With two dimensions the index 2,
    which is outside the range [0, 2), is translated to the array axis -3
    and no IndexError is raised; the index -5, which stays negative after
    the shift by 2, is translated to the axis 2. *)
Theorem check_dimension_indices_out_of_range_accepted :
  _check_dimension_indices 2 (ArgInt 2) = Ok [(-3)%Z] /\
  _check_dimension_indices 2 (ArgInt (-5)) = Ok [2%Z] /\
  _check_dimension_indices 2 (ArgTuple [PyInt 0; PyInt 2]) = Ok [(-1)%Z; (-3)%Z].
Proof. repeat split; reflexivity. Qed.

(** ** Typed lists (C6) *)

Lemma get_list_ok h l c items :
  h !! l = Some (OAbstractList c items) -> get_list l h = (Ok (c, items), h).
Proof. intros E. unfold get_list. rewrite (bind_ok _ _ _ _ _ (deref_ok _ _ _ E)). reflexivity. Qed.

Lemma get_items_ok h l c items :
  h !! l = Some (OAbstractList c items) -> get_items l h = (Ok items, h).
Proof.
  intros E. unfold get_items. rewrite (bind_ok _ _ _ _ _ (get_list_ok _ _ _ _ E)).
  reflexivity.
Qed.

(** [append] puts any object at the end of the list, whatever its class. *)
Lemma append_any h l c items item :
  h !! l = Some (OAbstractList c items) ->
  AbstractList.append l item h =
    (Ok tt, <[l := OAbstractList c (items ++ [item])]> h).
Proof.
  intros E. unfold AbstractList.append.
  rewrite (bind_ok _ _ _ _ _ (get_items_ok _ _ _ _ E)).
  unfold AbstractList.insert.
  rewrite (bind_ok _ _ _ _ _ (get_list_ok _ _ _ _ E)). simpl.
  unfold store, list_insert_at, py_insert_pos.
  destruct (Z.ltb_spec (Z.of_nat (length items)) 0); [lia|].
  rewrite Nat2Z.id, Nat.min_id, firstn_all, skipn_all. reflexivity.
Qed.

(** C6 (the code departs from the claim).  A dependent variable (address 7)
    is appended to, and inserted at the front of, the list of dimensions
    (address 1) of the container: both calls return without an error and the
    list holds the item afterwards. *)
Theorem typed_list_accepts_wrong_item :
  AbstractList.append 1 7 two_variables =
    (Ok tt, <[1 := OAbstractList DimensionListC [6; 7]]> two_variables) /\
  AbstractList.insert 1 0 7 two_variables =
    (Ok tt, <[1 := OAbstractList DimensionListC [7; 6]]> two_variables) /\
  (exists e, fst (DimensionList.__setitem__ 1 0 7 two_variables) = Raise e).
Proof.
  repeat split; try reflexivity. eexists. reflexivity.
Qed.

(** ** Methods without an implementation (C8) *)

(** C8 (the code departs from the claim).  [argmax], [argmin], [cumsum],
    [cumprod], [trace] and [ptp] raise NotImplementedError, but the
    [transpose] method returns without an error and without an effect. *)
Theorem transpose_returns_silently :
  forall (self : loc) (h : heap),
    CSDMClass.argmax self h = (Raise (NotImplementedError ""), h) /\
    CSDMClass.argmin self h = (Raise (NotImplementedError ""), h) /\
    CSDMClass.cumsum self h = (Raise (NotImplementedError ""), h) /\
    CSDMClass.cumprod self h = (Raise (NotImplementedError ""), h) /\
    CSDMClass.trace self h = (Raise (NotImplementedError ""), h) /\
    CSDMClass.ptp self h = (Raise (NotImplementedError ""), h) /\
    CSDMClass.transpose self h = (Ok tt, h).
Proof. intros. repeat split; reflexivity. Qed.

(** ** In-place arithmetic with a quantity (C7) *)

(** C7 (the code departs from the claim).  One metre is added in place to a
    container whose dependent variables are in metres and in seconds.  The
    call raises UnitConversionError at the second variable, after the
    components of the first one have been changed from (10, 20) to
    (11, 21). *)
Theorem inplace_add_mutates_before_failure :
  let r := CSDMClass.__iadd__ 0 (OperandQuantity (Quantity.mk 1 metre)) two_variables in
  fst r = Raise UnitConversionError /\
  read_array two_variables 8 = Some (np.mk [1; 2] [10%Q; 20%Q]) /\
  read_array (snd r) 8 = Some (np.mk [1; 2] [11%Q; 21%Q]) /\
  fst (CSDMClass.__isub__ 0 (OperandQuantity (Quantity.mk 1 metre)) two_variables)
    = Raise UnitConversionError /\
  read_array (snd (CSDMClass.__isub__ 0 (OperandQuantity (Quantity.mk 1 metre)) two_variables)) 8
    = Some (np.mk [1; 2] [9%Q; 19%Q]).
Proof. vm_compute. repeat split; reflexivity. Qed.

(** ** Facts about reading *)

Lemma get_csdm_ok h l c : h !! l = Some (OCSDM c) -> get_csdm l h = (Ok c, h).
Proof. intros E. unfold get_csdm. mstep (deref_ok _ _ _ E). reflexivity. Qed.

Lemma get_dv_ok h l v :
  h !! l = Some (ODependentVariable v) -> get_dv l h = (Ok v, h).
Proof. intros E. unfold get_dv. mstep (deref_ok _ _ _ E). reflexivity. Qed.

Lemma get_array_ok h l a : h !! l = Some (OArray a) -> get_array l h = (Ok a, h).
Proof. intros E. unfold get_array. mstep (deref_ok _ _ _ E). reflexivity. Qed.

Lemma read_slots_inv h l c : read_slots h l = Some c -> h !! l = Some (OCSDM c).
Proof.
  unfold read_slots. destruct (h !! l) as [[]|]; try discriminate. now intros [= ->].
Qed.

Lemma read_items_inv k h l items :
  read_items k h l = Some items -> h !! l = Some (OAbstractList k items).
Proof.
  unfold read_items. destruct (h !! l) as [[]|]; try discriminate.
  destruct k, c; simpl; try discriminate; now intros [= ->].
Qed.

Lemma read_dimension_inv h l d :
  read_dimension h l = Some d -> h !! l = Some (ODimension d).
Proof.
  unfold read_dimension. destruct (h !! l) as [[]|]; try discriminate. now intros [= ->].
Qed.

Lemma read_array_inv h l a : read_array h l = Some a -> h !! l = Some (OArray a).
Proof.
  unfold read_array. destruct (h !! l) as [[]|]; try discriminate. now intros [= ->].
Qed.

Lemma read_strlist_inv h l t : read_strlist h l = Some t -> h !! l = Some (OStrList t).
Proof.
  unfold read_strlist. destruct (h !! l) as [[]|]; try discriminate. now intros [= ->].
Qed.

Lemma read_dict_inv h l d : read_dict h l = Some d -> h !! l = Some (ODict d).
Proof.
  unfold read_dict. destruct (h !! l) as [[]|]; try discriminate. now intros [= ->].
Qed.

Lemma read_dv_inv h l d :
  read_dv h l = Some d ->
  exists v, h !! l = Some (ODependentVariable v) /\
            h !! dv_components v = Some (OArray (dd_components d)) /\
            d = mkDVDict (dv_type v) (dv_description v) (dv_name v) (dv_unit v)
                  (dv_encoding v) (dv_quantity_type v) (dd_components d).
Proof.
  unfold read_dv. destruct (h !! l) as [[]|]; try discriminate.
  destruct (read_array h (dv_components v)) eqn:E; try discriminate.
  intros [= <-]. exists v. simpl. split; [reflexivity|].
  split; [now apply read_array_inv | reflexivity].
Qed.

Lemma read_all_Forall2 {A} (rd : loc -> option A) l r :
  read_all rd l = Some r <-> Forall2 (fun a x => rd a = Some x) l r.
Proof.
  revert r. induction l as [|a l IH]; intros r; simpl.
  - split.
    + intros [= <-]. constructor.
    + intros H. inversion H. reflexivity.
  - split.
    + destruct (rd a) eqn:Ea; try discriminate.
      destruct (read_all rd l) eqn:El; try discriminate.
      intros [= <-]. constructor; [assumption|]. now apply IH.
    + intros H. inversion H as [|? x ? r' Hx Hr]; subst.
      rewrite Hx. apply IH in Hr. now rewrite Hr.
Qed.

Lemma read_all_length {A} (rd : loc -> option A) l r :
  read_all rd l = Some r -> length l = length r.
Proof. intros H. apply read_all_Forall2 in H. eapply Forall2_length; eassumption. Qed.

Lemma read_csdm_open h l X :
  read_csdm h l = Some X -> exists c dl vl, opened h l X c dl vl.
Proof.
  unfold read_csdm.
  destruct (read_slots h l) as [c|] eqn:Ec; try discriminate.
  destruct (read_items DimensionListC h (_dimensions c)) as [dl|] eqn:Ed; try discriminate.
  destruct (read_items DependentVariableListC h (_dependent_variables c)) as [vl|] eqn:Ev;
    try discriminate.
  destruct (read_strlist h (_tags c)) eqn:Et; try discriminate.
  destruct (read_dict h (_geographic_coordinate c)) eqn:Eg; try discriminate.
  destruct (read_dict h (_application c)) eqn:Ea; try discriminate.
  destruct (read_all (read_dimension h) dl) eqn:Erd; try discriminate.
  destruct (read_all (read_dv h) vl) eqn:Erv; try discriminate.
  intros [= <-]. exists c, dl, vl.
  constructor; simpl; auto using read_slots_inv, read_items_inv, read_strlist_inv, read_dict_inv.
Qed.

Lemma opened_read h l X c dl vl : opened h l X c dl vl -> read_csdm h l = Some X.
Proof.
  intros [Hs Hd Hv Ht Hg Ha Hrd Hrv H1 H2 H3 H4 H5]. unfold read_csdm, read_slots.
  rewrite Hs. unfold read_items, read_strlist, read_dict.
  rewrite Hd, Hv, Ht, Hg, Ha. simpl. rewrite Hrd, Hrv.
  destruct X; simpl in *; subst. reflexivity.
Qed.

(** A loop whose body does not change the store and returns [g x]. *)
Lemma for_each_pure {A B} (body : A -> M B) (g : A -> B) l h :
  (forall x, In x l -> body x h = (Ok (g x), h)) ->
  for_each body l h = (Ok (map g l), h).
Proof.
  induction l as [|x l IH]; intros H; simpl; [reflexivity|].
  mstep (H x (or_introl eq_refl)).
  mstep (IH (fun y Hy => H y (or_intror Hy))). reflexivity.
Qed.

(** A loop of checks: it raises at the first item that fails. *)
Lemma for_each_check {A} (body : A -> M unit) (bad : A -> bool) (e : exn) l h :
  (forall x, In x l -> body x h = if bad x then (Raise e, h) else (Ok tt, h)) ->
  for_each body l h =
    if existsb bad l then (Raise e, h) else (Ok (map (fun _ => tt) l), h).
Proof.
  induction l as [|x l IH]; intros H; simpl; [reflexivity|].
  pose proof (H x (or_introl eq_refl)) as Hx.
  destruct (bad x); simpl.
  - erewrite bind_raise by exact Hx. reflexivity.
  - mstep Hx. unfold bind. rewrite (IH (fun y Hy => H y (or_intror Hy))).
    destruct (existsb bad l); reflexivity.
Qed.

(** ** Additive compatibility (C1) *)

Lemma list_eqb_Forall2 {A} (eqb : A -> A -> bool) l1 l2 :
  list_eqb eqb l1 l2 = true <-> Forall2 (fun a b => eqb a b = true) l1 l2.
Proof.
  revert l2. induction l1 as [|x l1 IH]; intros [|y l2]; simpl.
  - split; [constructor | reflexivity].
  - split; [discriminate | intros H; inversion H].
  - split; [discriminate | intros H; inversion H].
  - rewrite andb_true_iff, IH. split.
    + intros [? ?]. now constructor.
    + intros H. inversion H; subst. now split.
Qed.

Lemma item_eq_dimensions h a b d1 d2 :
  read_dimension h a = Some d1 -> read_dimension h b = Some d2 ->
  item_eq a b h = (Ok (dimension_pair_eqb h (a, b)), h).
Proof.
  intros Ha Hb. unfold item_eq, dimension_pair_eqb. simpl. rewrite Ha, Hb.
  apply read_dimension_inv in Ha, Hb.
  mstep (deref_ok _ _ _ Ha). mstep (deref_ok _ _ _ Hb). reflexivity.
Qed.

Lemma forallb_dimension_pairs h dl1 dl2 ds1 ds2 :
  read_all (read_dimension h) dl1 = Some ds1 ->
  read_all (read_dimension h) dl2 = Some ds2 ->
  length dl1 = length dl2 ->
  forallb id (map (dimension_pair_eqb h) (combine dl1 dl2)) =
    list_eqb dimension_eqb ds1 ds2.
Proof.
  revert dl2 ds1 ds2. induction dl1 as [|a dl1 IH]; intros [|b dl2] ds1 ds2 H1 H2 Hl;
    simpl in *; try discriminate.
  - injection H1 as <-. injection H2 as <-. reflexivity.
  - destruct (read_dimension h a) as [d1|] eqn:Ea; try discriminate.
    destruct (read_all (read_dimension h) dl1) as [r1|] eqn:E1; try discriminate.
    destruct (read_dimension h b) as [d2|] eqn:Eb; try discriminate.
    destruct (read_all (read_dimension h) dl2) as [r2|] eqn:E2; try discriminate.
    injection H1 as <-. injection H2 as <-. simpl.
    unfold dimension_pair_eqb at 1. simpl. rewrite Ea, Eb. unfold id at 1.
    f_equal. apply IH; auto.
Qed.

Lemma list_eqb_length_ne {A} (eqb : A -> A -> bool) l1 l2 :
  length l1 <> length l2 -> list_eqb eqb l1 l2 = false.
Proof.
  revert l2. induction l1 as [|x l1 IH]; intros [|y l2] H; simpl in *;
    try reflexivity; try congruence.
  rewrite IH by congruence. apply andb_false_r.
Qed.

(** [__eq__] on the lists of dimensions of two containers compares the
    dimensions one by one. *)
Lemma eq_dimension_lists h x y X Y cx cy dlx vlx dly vly :
  opened h x X cx dlx vlx -> opened h y Y cy dly vly ->
  AbstractList.__eq__ (_dimensions cx) (_dimensions cy) h =
    (Ok (list_eqb dimension_eqb (vw_dimensions X) (vw_dimensions Y)), h).
Proof.
  intros Hx Hy. unfold AbstractList.__eq__.
  mstep (get_list_ok _ _ _ _ (op_dims _ _ _ _ _ _ Hx)). simpl.
  mstep (deref_ok _ _ _ (op_dims _ _ _ _ _ _ Hy)). simpl.
  pose proof (read_all_length _ _ _ (op_read_dims _ _ _ _ _ _ Hx)) as Lx.
  pose proof (read_all_length _ _ _ (op_read_dims _ _ _ _ _ _ Hy)) as Ly.
  destruct (Nat.eqb_spec (length dlx) (length dly)) as [El|El]; simpl.
  - rewrite (bind_ok _ _ _ (map (dimension_pair_eqb h) (combine dlx dly)) h).
    + unfold ret. f_equal. f_equal.
      eapply forallb_dimension_pairs; eauto using op_read_dims.
    + apply for_each_pure. intros [a b] Hin. simpl.
      pose proof (op_read_dims _ _ _ _ _ _ Hx) as Rx.
      pose proof (op_read_dims _ _ _ _ _ _ Hy) as Ry.
      apply read_all_Forall2 in Rx, Ry.
      apply in_combine_l in Hin as Ha. apply in_combine_r in Hin as Hb.
      assert (exists d1, read_dimension h a = Some d1) as [d1 E1].
      { clear -Rx Ha. induction Rx; simpl in Ha; [contradiction|].
        destruct Ha as [<-|Ha]; eauto. }
      assert (exists d2, read_dimension h b = Some d2) as [d2 E2].
      { clear -Ry Hb. induction Ry; simpl in Hb; [contradiction|].
        destruct Hb as [<-|Hb]; eauto. }
      eapply item_eq_dimensions; eauto.
  - unfold ret. f_equal. f_equal. symmetry. apply list_eqb_length_ne. congruence.
Qed.

Lemma ne_dimension_lists h x y X Y cx cy dlx vlx dly vly :
  opened h x X cx dlx vlx -> opened h y Y cy dly vly ->
  AbstractList.__ne__ (_dimensions cx) (_dimensions cy) h =
    (Ok (negb (list_eqb dimension_eqb (vw_dimensions X) (vw_dimensions Y))), h).
Proof.
  intros Hx Hy. unfold AbstractList.__ne__.
  mstep (eq_dimension_lists _ _ _ _ _ _ _ _ _ _ _ Hx Hy). reflexivity.
Qed.

Lemma dimensions_ok h x X c dl vl :
  opened h x X c dl vl -> CSDMClass.dimensions x h = (Ok (_dimensions c), h).
Proof.
  intros Hx. unfold CSDMClass.dimensions.
  mstep (get_csdm_ok _ _ _ (op_slots _ _ _ _ _ _ Hx)). reflexivity.
Qed.

Lemma dependent_variables_ok h x X c dl vl :
  opened h x X c dl vl ->
  CSDMClass.dependent_variables x h = (Ok (_dependent_variables c), h).
Proof.
  intros Hx. unfold CSDMClass.dependent_variables.
  mstep (get_csdm_ok _ _ _ (op_slots _ _ _ _ _ _ Hx)). reflexivity.
Qed.

Lemma len_ok h l c items :
  h !! l = Some (OAbstractList c items) ->
  AbstractList.__len__ l h = (Ok (length items), h).
Proof.
  intros E. unfold AbstractList.__len__. mstep (get_items_ok _ _ _ _ E). reflexivity.
Qed.

Lemma unit_of_ok h a d :
  read_dv h a = Some d -> unit_of a h = (Ok (dd_unit d), h).
Proof.
  intros R. apply read_dv_inv in R as (v & Hv & _ & ->). unfold unit_of.
  mstep (get_dv_ok _ _ _ Hv). reflexivity.
Qed.

Lemma existsb_mismatch h l1 l2 r1 r2 :
  read_all (read_dv h) l1 = Some r1 ->
  read_all (read_dv h) l2 = Some r2 ->
  existsb (mismatch_at h) (combine l1 l2) = existsb mismatch (combine r1 r2).
Proof.
  revert l2 r1 r2. induction l1 as [|a l1 IH]; intros [|b l2] r1 r2 H1 H2; simpl in *.
  - injection H1 as <-. reflexivity.
  - injection H1 as <-. reflexivity.
  - injection H2 as <-. destruct r1; reflexivity.
  - destruct (read_dv h a) as [v|] eqn:Ea; try discriminate.
    destruct (read_all (read_dv h) l1) as [q1|] eqn:E1; try discriminate.
    destruct (read_dv h b) as [w|] eqn:Eb; try discriminate.
    destruct (read_all (read_dv h) l2) as [q2|] eqn:E2; try discriminate.
    injection H1 as <-. injection H2 as <-. simpl.
    unfold mismatch_at at 1. simpl. rewrite Ea, Eb. f_equal. now apply IH.
Qed.

Lemma read_all_In {A} (rd : loc -> option A) l r a :
  read_all rd l = Some r -> In a l -> exists x, rd a = Some x.
Proof.
  intros H. apply read_all_Forall2 in H. induction H; simpl; [contradiction|].
  intros [<-|Hin]; eauto.
Qed.

(** The three checks, on the content of the two containers. *)
Lemma additive_compatibility_spec h x y X Y cx cy dlx vlx dly vly :
  opened h x X cx dlx vlx -> opened h y Y cy dly vly ->
  CSDMClass.__check_csdm_object_additive_compatibility x y h =
    if negb (list_eqb dimension_eqb (vw_dimensions X) (vw_dimensions Y))
    then (Raise (PyException msg_dimensions), h)
    else if negb (Nat.eqb (length (vw_dependent_variables X))
                          (length (vw_dependent_variables Y)))
    then (Raise (PyException msg_lengths), h)
    else if existsb mismatch
              (combine (vw_dependent_variables X) (vw_dependent_variables Y))
    then (Raise (PyException msg_types), h)
    else (Ok tt, h).
Proof.
  intros Hx Hy. unfold CSDMClass.__check_csdm_object_additive_compatibility.
  assert (E1 : CSDMClass.__check_dimension_equality x y h =
               if negb (list_eqb dimension_eqb (vw_dimensions X) (vw_dimensions Y))
               then (Raise (PyException msg_dimensions), h) else (Ok tt, h)).
  { unfold CSDMClass.__check_dimension_equality.
    mstep (dimensions_ok _ _ _ _ _ _ Hx). mstep (dimensions_ok _ _ _ _ _ _ Hy).
    mstep (ne_dimension_lists _ _ _ _ _ _ _ _ _ _ _ Hx Hy).
    destruct (list_eqb dimension_eqb (vw_dimensions X) (vw_dimensions Y)); reflexivity. }
  unfold bind at 1. rewrite E1.
  destruct (negb (list_eqb dimension_eqb (vw_dimensions X) (vw_dimensions Y)));
    [reflexivity|].
  assert (E2 : CSDMClass.__check_dependent_variable_len_equality x y h =
               if negb (Nat.eqb (length (vw_dependent_variables X))
                                (length (vw_dependent_variables Y)))
               then (Raise (PyException msg_lengths), h) else (Ok tt, h)).
  { unfold CSDMClass.__check_dependent_variable_len_equality.
    mstep (dependent_variables_ok _ _ _ _ _ _ Hx).
    mstep (dependent_variables_ok _ _ _ _ _ _ Hy).
    mstep (len_ok _ _ _ _ (op_dvs _ _ _ _ _ _ Hx)).
    mstep (len_ok _ _ _ _ (op_dvs _ _ _ _ _ _ Hy)).
    rewrite (read_all_length _ _ _ (op_read_dvs _ _ _ _ _ _ Hx)).
    rewrite (read_all_length _ _ _ (op_read_dvs _ _ _ _ _ _ Hy)).
    destruct (negb _); reflexivity. }
  unfold bind at 1. rewrite E2.
  destruct (negb (Nat.eqb _ _)); [reflexivity|].
  unfold CSDMClass.__check_dependent_variable_dimensionality.
  mstep (dependent_variables_ok _ _ _ _ _ _ Hx).
  mstep (dependent_variables_ok _ _ _ _ _ _ Hy).
  mstep (get_items_ok _ _ _ _ (op_dvs _ _ _ _ _ _ Hx)).
  mstep (get_items_ok _ _ _ _ (op_dvs _ _ _ _ _ _ Hy)).
  unfold bind at 1.
  erewrite (for_each_check _ (mismatch_at h) (PyException msg_types)).
  - rewrite (existsb_mismatch _ _ _ _ _ (op_read_dvs _ _ _ _ _ _ Hx)
               (op_read_dvs _ _ _ _ _ _ Hy)).
    destruct (existsb mismatch _); reflexivity.
  - intros [a b] Hin. simpl.
    apply in_combine_l in Hin as Ha. apply in_combine_r in Hin as Hb.
    destruct (read_all_In _ _ _ _ (op_read_dvs _ _ _ _ _ _ Hx) Ha) as [v Ev].
    destruct (read_all_In _ _ _ _ (op_read_dvs _ _ _ _ _ _ Hy) Hb) as [w Ew].
    mstep (unit_of_ok _ _ _ Ev). mstep (unit_of_ok _ _ _ Ew).
    unfold mismatch_at, mismatch. simpl. rewrite Ev, Ew. simpl.
    destruct (negb _); reflexivity.
Qed.

Lemma isinstance_CSDM_ok h y c :
  h !! y = Some (OCSDM c) -> isinstance_CSDM (OperandObject y) h = (Ok (Some y), h).
Proof.
  intros E. unfold isinstance_CSDM. mstep (deref_ok _ _ _ E). reflexivity.
Qed.

Lemma lookup_combine_In {A B} (l1 : list A) (l2 : list B) i a b :
  l1 !! i = Some a -> l2 !! i = Some b -> In (a, b) (combine l1 l2).
Proof.
  revert l2 i. induction l1 as [|x l1 IH]; intros [|y l2] [|i]; simpl;
    try discriminate.
  - intros [= ->] [= ->]. now left.
  - intros H1 H2. right. eapply IH; eauto.
Qed.

Lemma incompatible_check_raises h x y X Y :
  read_csdm h x = Some X -> read_csdm h y = Some Y -> incompatible X Y ->
  exists msg,
    CSDMClass.__check_csdm_object_additive_compatibility x y h =
      (Raise (PyException msg), h).
Proof.
  intros Rx Ry Hi.
  destruct (read_csdm_open _ _ _ Rx) as (cx & dlx & vlx & Hx).
  destruct (read_csdm_open _ _ _ Ry) as (cy & dly & vly & Hy).
  rewrite (additive_compatibility_spec _ _ _ _ _ _ _ _ _ _ _ Hx Hy).
  destruct (list_eqb dimension_eqb (vw_dimensions X) (vw_dimensions Y)) eqn:Ed; simpl;
    [|eauto].
  destruct (Nat.eqb_spec (length (vw_dependent_variables X))
              (length (vw_dependent_variables Y))) as [El|El]; simpl; [|eauto].
  destruct (existsb mismatch _) eqn:Em; [eauto|].
  exfalso. destruct Hi as [Hi|[Hi|(i & v & w & Hv & Hw & Hne)]].
  - apply Hi. now apply list_eqb_Forall2.
  - now apply Hi.
  - assert (existsb mismatch
              (combine (vw_dependent_variables X) (vw_dependent_variables Y)) = true).
    { apply existsb_exists. exists (v, w). split.
      - eapply lookup_combine_In; eauto.
      - unfold mismatch. simpl. now rewrite bool_decide_eq_false_2. }
    congruence.
Qed.

Lemma additive_rejects op h x y X Y :
  read_csdm h x = Some X -> read_csdm h y = Some Y -> incompatible X Y ->
  exists msg, CSDMClass.additive op x (OperandObject y) h = (Raise (PyException msg), h).
Proof.
  intros Rx Ry Hi.
  destruct (incompatible_check_raises _ _ _ _ _ Rx Ry Hi) as [msg E].
  destruct (read_csdm_open _ _ _ Ry) as (cy & dly & vly & Hy).
  exists msg. unfold CSDMClass.additive.
  mstep (isinstance_CSDM_ok _ _ _ (op_slots _ _ _ _ _ _ Hy)). cbv iota beta.
  erewrite bind_raise by exact E. reflexivity.
Qed.

Lemma additive_inplace_rejects op h x y X Y :
  read_csdm h x = Some X -> read_csdm h y = Some Y -> incompatible X Y ->
  exists msg,
    CSDMClass.additive_inplace op x (OperandObject y) h = (Raise (PyException msg), h).
Proof.
  intros Rx Ry Hi.
  destruct (incompatible_check_raises _ _ _ _ _ Rx Ry Hi) as [msg E].
  destruct (read_csdm_open _ _ _ Ry) as (cy & dly & vly & Hy).
  exists msg. unfold CSDMClass.additive_inplace.
  mstep (isinstance_CSDM_ok _ _ _ (op_slots _ _ _ _ _ _ Hy)). cbv iota beta.
  erewrite bind_raise by exact E. reflexivity.
Qed.

(** C1.  For two containers [x] and [y] of the store, [x + y], [x - y],
    [x += y] and [x -= y] raise an [Exception] and leave the store as it was
    (no container is produced, none is changed) whenever the dimension
    sequences are not equal element by element, or the numbers of dependent
    variables differ, or the units of some corresponding pair of dependent
    variables differ in physical type. *)
Theorem additive_operations_reject_incompatible :
  forall (h : heap) (x y : loc) (X Y : csdm_view),
    read_csdm h x = Some X ->
    read_csdm h y = Some Y ->
    incompatible X Y ->
    forall operation,
      In operation [CSDMClass.__add__; CSDMClass.__sub__;
                    CSDMClass.__iadd__; CSDMClass.__isub__] ->
      exists msg, operation x (OperandObject y) h = (Raise (PyException msg), h).
Proof.
  intros h x y X Y Rx Ry Hi operation Hin. simpl in Hin.
  destruct Hin as [<-|[<-|[<-|[<-|[]]]]].
  - eapply additive_rejects; eauto.
  - eapply additive_rejects; eauto.
  - eapply additive_inplace_rejects; eauto.
  - eapply additive_inplace_rejects; eauto.
Qed.

(** The witness of C1: a container with one dimension and a container with
    none. *)
Lemma additive_operations_reject_incompatible_witness :
  exists msg,
    CSDMClass.__add__ 0 (OperandObject 11) two_containers =
      (Raise (PyException msg), two_containers).
Proof.
  eapply (additive_operations_reject_incompatible two_containers 0 11).
  - vm_compute. reflexivity.
  - vm_compute. reflexivity.
  - left. unfold dimensions_equal. simpl. intros H. inversion H.
  - simpl. auto.
Defined.

(** ** split (C9, C10) *)

Lemma lookup_app_old (h k : heap) l o : h !! l = Some o -> (h ++ k) !! l = Some o.
Proof. intros E. rewrite lookup_app_l; [assumption|]. eapply lookup_lt_Some; eauto. Qed.

Lemma alloc_run o h : alloc o h = (Ok (length h), h ++ [o]).
Proof. reflexivity. Qed.

Lemma lookup_snoc (h : heap) o : (h ++ [o]) !! length h = Some o.
Proof. rewrite lookup_app_r by lia. now rewrite Nat.sub_diag. Qed.

Lemma new_run h :
  CSDMClass.new h =
    (Ok (length h),
     h ++ [ OCSDM (mkCSDM (length h + 4) (length h + 5) (length h + 1) false
                     "1.0" "" (length h + 2) "" (length h + 3) "");
            OStrList []; ODict ∅; ODict ∅;
            OAbstractList DimensionListC [];
            OAbstractList DependentVariableListC [] ]).
Proof.
  unfold CSDMClass.new, CSDMClass.__init__, bind, alloc, store, ret. simpl.
  repeat rewrite length_app. simpl. f_equal.
  repeat rewrite <- app_assoc. simpl.
  rewrite insert_app_r_alt by lia. rewrite Nat.sub_diag. simpl.
  replace (length h + 1 + 1 + 1 + 1 + 1) with (length h + 5) by lia.
  replace (length h + 1 + 1 + 1 + 1) with (length h + 4) by lia.
  replace (length h + 1 + 1 + 1) with (length h + 3) by lia.
  replace (length h + 1 + 1) with (length h + 2) by lia.
  reflexivity.
Qed.

Lemma lookup_app_add (h k : heap) i : (h ++ k) !! (length h + i) = k !! i.
Proof. rewrite lookup_app_r by lia. f_equal. lia. Qed.

Lemma dependent_variables_run h l c :
  h !! l = Some (OCSDM c) ->
  CSDMClass.dependent_variables l h = (Ok (_dependent_variables c), h).
Proof.
  intros E. unfold CSDMClass.dependent_variables. mstep (get_csdm_ok _ _ _ E).
  reflexivity.
Qed.

Lemma dimensions_run h l c :
  h !! l = Some (OCSDM c) -> CSDMClass.dimensions l h = (Ok (_dimensions c), h).
Proof.
  intros E. unfold CSDMClass.dimensions. mstep (get_csdm_ok _ _ _ E). reflexivity.
Qed.

Lemma tags_run h l c :
  h !! l = Some (OCSDM c) -> CSDMClass.tags l h = (Ok (_tags c), h).
Proof.
  intros E. unfold CSDMClass.tags. mstep (get_csdm_ok _ _ _ E). reflexivity.
Qed.

Lemma application_run h l c :
  h !! l = Some (OCSDM c) -> CSDMClass.application l h = (Ok (_application c), h).
Proof.
  intros E. unfold CSDMClass.application. mstep (get_csdm_ok _ _ _ E). reflexivity.
Qed.

Lemma new_object_run h self c :
  h !! self = Some (OCSDM c) ->
  CSDMClass.new_object self h =
    (Ok (length h),
     h ++ [ OCSDM (sibling_slots c (length h + 6));
            OStrList []; ODict ∅; ODict ∅;
            OAbstractList DimensionListC [];
            OAbstractList DependentVariableListC [];
            OAbstractList DependentVariableListC [] ]).
Proof.
  intros Hs. unfold CSDMClass.new_object.
  mstep (new_run h).
  erewrite (bind_ok (get_csdm self)) by (apply get_csdm_ok, lookup_app_old, Hs).
  cbv beta. unfold bind, alloc, store, ret. f_equal.
  rewrite length_app. simpl. rewrite <- app_assoc. simpl.
  rewrite insert_app_r_alt by lia. rewrite Nat.sub_diag. reflexivity.
Qed.

(** One turn of the loop of [split]. *)
Lemma split_turn h self c variable :
  h !! self = Some (OCSDM c) ->
  (a <- CSDMClass.new_object self ;;
   advs <- CSDMClass.dependent_variables a ;;
   AbstractList.__iadd__ advs [variable] ;;;
   ret a) h
  = (Ok (length h), h ++ sibling_block c (length h) variable).
Proof.
  intros Hs. mstep (new_object_run h self c Hs).
  set (k := [ OCSDM (sibling_slots c (length h + 6)); OStrList []; ODict ∅; ODict ∅;
              OAbstractList DimensionListC [];
              OAbstractList DependentVariableListC [];
              OAbstractList DependentVariableListC [] ]).
  assert (E0 : (h ++ k) !! length h = Some (OCSDM (sibling_slots c (length h + 6)))).
  { replace (length h) with (length h + 0) at 1 by lia. now rewrite lookup_app_add. }
  assert (E6 : (h ++ k) !! (length h + 6) = Some (OAbstractList DependentVariableListC [])).
  { now rewrite lookup_app_add. }
  mstep (dependent_variables_run _ _ _ E0). simpl _dependent_variables.
  assert (E : AbstractList.__iadd__ (length h + 6) [variable] (h ++ k) =
              (Ok tt, h ++ sibling_block c (length h) variable)).
  { unfold AbstractList.__iadd__. simpl for_each.
    unfold bind at 1. unfold bind at 1.
    rewrite (append_any _ _ _ _ variable E6). unfold bind, ret. f_equal.
    subst k. rewrite insert_app_r. reflexivity. }
  mstep E. reflexivity.
Qed.

Lemma split_loop c self items : forall h,
  h !! self = Some (OCSDM c) ->
  for_each (fun variable =>
      a <- CSDMClass.new_object self ;;
      advs <- CSDMClass.dependent_variables a ;;
      AbstractList.__iadd__ advs [variable] ;;;
      ret a) items h
  = (Ok (sibling_addresses (length h) items),
     h ++ sibling_blocks c (length h) items).
Proof.
  induction items as [|v items IH]; intros h Hs; simpl.
  - now rewrite app_nil_r.
  - mstep (split_turn h self c v Hs).
    unfold bind at 1. rewrite IH by (now apply lookup_app_old).
    unfold ret. rewrite length_app. simpl length. rewrite <- app_assoc. reflexivity.
Qed.

(** [split] returns the addresses of the siblings and adds their objects at
    the end of the store. *)
Lemma split_run h self c k items :
  h !! self = Some (OCSDM c) ->
  h !! _dependent_variables c = Some (OAbstractList k items) ->
  CSDMClass.split self h =
    (Ok (sibling_addresses (length h) items),
     h ++ sibling_blocks c (length h) items).
Proof.
  intros Hs Hv. unfold CSDMClass.split.
  mstep (dependent_variables_run _ _ _ Hs).
  mstep (get_items_ok _ _ _ _ Hv). now apply split_loop.
Qed.

Lemma sibling_addresses_length n items :
  length (sibling_addresses n items) = length items.
Proof. revert n. induction items; intros n; simpl; auto. Qed.

Lemma sibling_addresses_lookup items : forall n i s,
  sibling_addresses n items !! i = Some s ->
  s = n + 7 * i /\ exists v, items !! i = Some v.
Proof.
  induction items as [|v items IH]; intros n [|i] s; simpl; try discriminate.
  - intros [= <-]. split; [lia | eauto].
  - intros H. apply IH in H as [-> Hv]. split; [lia | assumption].
Qed.

Lemma sibling_blocks_lookup c items : forall (h : heap) i v j o,
  items !! i = Some v ->
  sibling_block c (length h + 7 * i) v !! j = Some o ->
  (h ++ sibling_blocks c (length h) items) !! (length h + 7 * i + j) = Some o.
Proof.
  induction items as [|w items IH]; intros h [|i] v j o; cbn [sibling_blocks];
    try discriminate.
  - intros [= ->] Hj. rewrite Nat.mul_0_r, Nat.add_0_r in *.
    rewrite lookup_app_add. apply lookup_app_old. exact Hj.
  - intros Hv Hj. simpl lookup in Hv.
    rewrite app_assoc.
    replace (length h + 7) with (length (h ++ sibling_block c (length h) w))
      by (rewrite length_app; reflexivity).
    replace (length h + 7 * S i + j)
      with (length (h ++ sibling_block c (length h) w) + 7 * i + j)
      by (rewrite length_app; simpl; lia).
    apply IH with (v := v); [assumption|].
    replace (length (h ++ sibling_block c (length h) w) + 7 * i)
      with (length h + 7 * S i) by (rewrite length_app; simpl; lia).
    exact Hj.
Qed.

(** ** deepcopy: the copy is made of new objects only *)

Lemma bind_inv {A B} (m : M A) (k : A -> M B) h r h' :
  bind m k h = (r, h') ->
  (exists a h1, m h = (Ok a, h1) /\ k a h1 = (r, h')) \/
  (exists e, m h = (Raise e, h') /\ r = Raise e).
Proof.
  unfold bind. destruct (m h) as [[a|e] h1]; intros E.
  - left. eauto.
  - right. injection E as <- <-. eauto.
Qed.

Lemma grows_refl h : grows h h.
Proof. split; auto. Qed.

Lemma grows_trans h1 h2 h3 : grows h1 h2 -> grows h2 h3 -> grows h1 h3.
Proof.
  intros [L1 S1] [L2 S2]. split; [lia|].
  intros x Hx. rewrite S2 by lia. now apply S1.
Qed.

Lemma grows_app (h k : heap) : grows h (h ++ k).
Proof.
  split; [rewrite length_app; lia|]. intros x Hx. now apply lookup_app_l.
Qed.

Lemma grows_insert (h h' : heap) l o :
  grows h h' -> length h <= l -> grows h (<[l := o]> h').
Proof.
  intros [L S] Hl. split; [rewrite length_insert; lia|].
  intros x Hx. rewrite list_lookup_insert_ne by lia. now apply S.
Qed.

Lemma grows_lookup h h' l o : grows h h' -> h !! l = Some o -> h' !! l = Some o.
Proof.
  intros [_ S] E. rewrite S; [assumption|]. eapply lookup_lt_Some; eauto.
Qed.

Lemma closed_above_app n (h : heap) o :
  closed_above n h -> Forall (le n) (children o) -> closed_above n (h ++ [o]).
Proof.
  intros C Ho x o' Hx E.
  destruct (Nat.lt_ge_cases x (length h)) as [Hlt|Hge].
  - rewrite lookup_app_l in E by assumption. eauto.
  - rewrite lookup_app_r in E by assumption.
    destruct (x - length h) as [|k]; simpl in E; [|discriminate].
    now injection E as <-.
Qed.

Lemma closed_above_insert n (h : heap) l o :
  closed_above n h -> Forall (le n) (children o) -> closed_above n (<[l := o]> h).
Proof.
  intros C Ho x o' Hx E.
  destruct (Nat.eq_dec l x) as [->|Hne].
  - destruct (Nat.lt_ge_cases x (length h)) as [Hlt|Hge].
    + rewrite list_lookup_insert_eq in E by assumption. now injection E as <-.
    + rewrite list_insert_ge in E by assumption. eauto.
  - rewrite list_lookup_insert_ne in E by assumption. eauto.
Qed.

Lemma memo_above_cons n a b (m : memo) :
  memo_above n m -> n <= b -> memo_above n ((a, b) :: m).
Proof.
  intros Hm Hb x y. simpl. destruct (Nat.eqb a x); [now intros [= <-] | apply Hm].
Qed.

Lemma copy_items_fresh n cp :
  copies_freshly n cp ->
  forall items m h r h',
    n <= length h -> memo_above n m -> closed_above n h ->
    copy_items cp items m h = (r, h') ->
    grows h h' /\ closed_above n h' /\
    (forall bs m', r = Ok (bs, m') -> Forall (le n) bs /\ memo_above n m').
Proof.
  intros Hcp. induction items as [|x items IH]; intros m h r h' Hn Hm Hc E; simpl in E.
  - injection E as <- <-. split; [apply grows_refl|]. split; [assumption|].
    intros bs m' [= <- <-]. split; [constructor | assumption].
  - apply bind_inv in E as [(a & h1 & E1 & E)|(e & E1 & ->)].
    + destruct (Hcp _ _ _ _ _ Hn Hm Hc E1) as (G1 & C1 & R1).
      destruct a as [b m1]. destruct (R1 _ _ eq_refl) as [Hb Hm1]. simpl in E.
      apply bind_inv in E as [(a2 & h2 & E2 & E)|(e & E2 & ->)].
      * assert (Hn1 : n <= length h1) by (destruct G1; lia).
        destruct (IH _ _ _ _ Hn1 Hm1 C1 E2) as (G2 & C2 & R2).
        injection E as <- <-. destruct a2 as [bs m2].
        destruct (R2 _ _ eq_refl) as [Hbs Hm2].
        split; [eapply grows_trans; eauto|]. split; [assumption|].
        intros bs' m' [= <- <-]. simpl. split; [now constructor | assumption].
      * assert (Hn1 : n <= length h1) by (destruct G1; lia).
        destruct (IH _ _ _ _ Hn1 Hm1 C1 E2) as (G2 & C2 & R2).
        split; [eapply grows_trans; eauto|]. split; [assumption|]. discriminate.
    + destruct (Hcp _ _ _ _ _ Hn Hm Hc E1) as (G1 & C1 & R1).
      split; [assumption|]. split; [assumption|]. discriminate.
Qed.

Lemma alloc_fresh n o (h : heap) :
  n <= length h -> closed_above n h -> Forall (le n) (children o) ->
  grows h (h ++ [o]) /\ closed_above n (h ++ [o]) /\ n <= length (h ++ [o]).
Proof.
  intros Hn Hc Ho. split; [apply grows_app|]. split; [now apply closed_above_app|].
  rewrite length_app. lia.
Qed.

Lemma uninit_closed n : Forall (le n) (children OUninit).
Proof. constructor. Qed.

Lemma deepcopy_rec_fresh n fuel : copies_freshly n (deepcopy_rec fuel).
Proof.
  induction fuel as [|fuel IH]; intros l m h r h' Hn Hm Hc E; simpl in E.
  - injection E as <- <-. split; [apply grows_refl|]. split; [assumption|]. discriminate.
  - destruct (memo_get m l) as [b|] eqn:Eg.
    + injection E as <- <-. split; [apply grows_refl|]. split; [assumption|].
      intros b' m' [= <- <-]. split; [eapply Hm; eauto | assumption].
    + apply bind_inv in E as [(o & h1 & E1 & E)|(e & E1 & ->)].
      2:{ unfold deref in E1. destruct (h !! l); [discriminate|].
          injection E1 as _ <-.
          split; [apply grows_refl|]. split; [assumption|]. discriminate. }
      assert (h1 = h) as ->.
      { unfold deref in E1. destruct (h !! l); now injection E1. }
      clear E1.
      assert (Hleaf : is_leaf o = true ->
                (l' <- alloc o ;; ret (l', (l, l') :: m)) h = (r, h') ->
                grows h h' /\ closed_above n h' /\
                (forall b m', r = Ok (b, m') -> n <= b /\ memo_above n m')).
      { intros Hl El. unfold bind, alloc, ret in El. injection El as <- <-.
        assert (Forall (le n) (children o)) by (destruct o; try discriminate; constructor).
        split; [apply grows_app|]. split; [now apply closed_above_app|].
        intros b m' [= <- <-]. split; [assumption | now apply memo_above_cons]. }
      destruct o; try (apply Hleaf; [reflexivity | exact E]); clear Hleaf.
      * (* a dependent variable *)
        unfold bind at 1 in E. rewrite alloc_run in E.
        destruct (alloc_fresh n OUninit h Hn Hc (uninit_closed n)) as (G0 & C0 & N0).
        apply bind_inv in E as [([c m1] & h1 & E1 & E)|(e & E1 & ->)].
        -- destruct (IH _ _ _ _ _ N0 (memo_above_cons _ _ _ _ Hm Hn) C0 E1)
             as (G1 & C1 & R1).
           destruct (R1 _ _ eq_refl) as [Hb1 Hm1].
           unfold bind, store, ret in E. simpl in E. injection E as <- <-.
           split.
           { apply grows_insert; [eapply grows_trans; eauto | lia]. }
           split.
           { apply closed_above_insert; [assumption|]. simpl. now repeat constructor. }
           intros b m' [= <- <-]. split; assumption.
        -- destruct (IH _ _ _ _ _ N0 (memo_above_cons _ _ _ _ Hm Hn) C0 E1)
             as (G1 & C1 & R1).
           split; [eapply grows_trans; eauto|]. split; [assumption|]. discriminate.
      * (* a typed list *)
        unfold bind at 1 in E. rewrite alloc_run in E.
        destruct (alloc_fresh n OUninit h Hn Hc (uninit_closed n)) as (G0 & C0 & N0).
        apply bind_inv in E as [([bs m1] & h1 & E1 & E)|(e & E1 & ->)].
        -- destruct (copy_items_fresh n _ IH _ _ _ _ _ N0
                       (memo_above_cons _ _ _ _ Hm Hn) C0 E1) as (G1 & C1 & R1).
           destruct (R1 _ _ eq_refl) as [Hb1 Hm1].
           unfold bind, store, ret in E. simpl in E. injection E as <- <-.
           split.
           { apply grows_insert; [eapply grows_trans; eauto | lia]. }
           split.
           { apply closed_above_insert; assumption. }
           intros b m' [= <- <-]. split; assumption.
        -- destruct (copy_items_fresh n _ IH _ _ _ _ _ N0
                       (memo_above_cons _ _ _ _ Hm Hn) C0 E1) as (G1 & C1 & R1).
           split; [eapply grows_trans; eauto|]. split; [assumption|]. discriminate.
      * (* a container *)
        unfold bind at 1 in E. rewrite alloc_run in E.
        destruct (alloc_fresh n OUninit h Hn Hc (uninit_closed n)) as (G0 & C0 & N0).
        pose proof (memo_above_cons _ l (length h) _ Hm Hn) as Hm0.
        apply bind_inv in E as [([b1 m1] & h1 & E1 & E)|(e & E1 & ->)].
        2:{ destruct (IH _ _ _ _ _ N0 Hm0 C0 E1) as (G1 & C1 & R1).
            split; [eapply grows_trans; eauto|]. split; [assumption|]. discriminate. }
        destruct (IH _ _ _ _ _ N0 Hm0 C0 E1) as (G1 & C1 & R1).
        destruct (R1 _ _ eq_refl) as [Hb1 Hm1].
        assert (N1 : n <= length h1) by (destruct G1; lia).
        simpl in E.
        apply bind_inv in E as [([b2 m2] & h2 & E2 & E)|(e & E2 & ->)].
        2:{ destruct (IH _ _ _ _ _ N1 Hm1 C1 E2) as (G2 & C2 & R2).
            split; [eauto using grows_trans|]. split; [assumption|]. discriminate. }
        destruct (IH _ _ _ _ _ N1 Hm1 C1 E2) as (G2 & C2 & R2).
        destruct (R2 _ _ eq_refl) as [Hb2 Hm2].
        assert (N2 : n <= length h2) by (destruct G2; lia).
        simpl in E.
        apply bind_inv in E as [([b3 m3] & h3 & E3 & E)|(e & E3 & ->)].
        2:{ destruct (IH _ _ _ _ _ N2 Hm2 C2 E3) as (G3 & C3 & R3).
            split; [eauto using grows_trans|]. split; [assumption|]. discriminate. }
        destruct (IH _ _ _ _ _ N2 Hm2 C2 E3) as (G3 & C3 & R3).
        destruct (R3 _ _ eq_refl) as [Hb3 Hm3].
        assert (N3 : n <= length h3) by (destruct G3; lia).
        simpl in E.
        apply bind_inv in E as [([b4 m4] & h4 & E4 & E)|(e & E4 & ->)].
        2:{ destruct (IH _ _ _ _ _ N3 Hm3 C3 E4) as (G4 & C4 & R4).
            split; [eauto using grows_trans|]. split; [assumption|]. discriminate. }
        destruct (IH _ _ _ _ _ N3 Hm3 C3 E4) as (G4 & C4 & R4).
        destruct (R4 _ _ eq_refl) as [Hb4 Hm4].
        assert (N4 : n <= length h4) by (destruct G4; lia).
        simpl in E.
        apply bind_inv in E as [([b5 m5] & h5 & E5 & E)|(e & E5 & ->)].
        2:{ destruct (IH _ _ _ _ _ N4 Hm4 C4 E5) as (G5 & C5 & R5).
            split; [eauto 6 using grows_trans|]. split; [assumption|]. discriminate. }
        destruct (IH _ _ _ _ _ N4 Hm4 C4 E5) as (G5 & C5 & R5).
        destruct (R5 _ _ eq_refl) as [Hb5 Hm5].
        unfold bind, store, ret in E. simpl in E. injection E as <- <-.
        split.
        { apply grows_insert; [eauto 7 using grows_trans | lia]. }
        split.
        { apply closed_above_insert; [assumption|]. simpl. now repeat constructor. }
        intros b m' [= <- <-]. split; assumption.
Qed.

(** ** deepcopy: the copy of a well-formed container *)

Lemma deepcopy_leaf_eq f (h : heap) m a o :
  h !! a = Some o -> is_leaf o = true ->
  deepcopy_rec (S f) a m h =
    match memo_get m a with
    | Some b => (Ok (b, m), h)
    | None => (Ok (length h, (a, length h) :: m), h ++ [o])
    end.
Proof.
  intros E L. simpl. destruct (memo_get m a); [reflexivity|].
  mstep (deref_ok _ _ _ E). destruct o; try discriminate; reflexivity.
Qed.

Lemma memo_get_cons_ne a b (m : memo) x :
  a <> x -> memo_get ((a, b) :: m) x = memo_get m x.
Proof. intros H. simpl. destruct (Nat.eqb_spec a x); [contradiction | reflexivity]. Qed.

Lemma memo_get_cons_eq a b (m : memo) : memo_get ((a, b) :: m) a = Some b.
Proof. simpl. now rewrite Nat.eqb_refl. Qed.

Lemma deepcopy_dv_eq f (h : heap) m a v arr :
  h !! a = Some (ODependentVariable v) ->
  h !! dv_components v = Some (OArray arr) ->
  deepcopy_rec (S (S f)) a m h =
    match memo_get m a with
    | Some b => (Ok (b, m), h)
    | None =>
        match memo_get m (dv_components v) with
        | Some c =>
            (Ok (length h, (a, length h) :: m),
             h ++ [ODependentVariable (dv_set_components v c)])
        | None =>
            (Ok (length h, (dv_components v, S (length h)) :: (a, length h) :: m),
             h ++ [ODependentVariable (dv_set_components v (S (length h)));
                   OArray arr])
        end
    end.
Proof.
  intros E Ec.
  assert (Hne : a <> dv_components v) by (intros Heq; rewrite <- Heq in Ec; congruence).
  change (deepcopy_rec (S (S f)) a m h) with
    (match memo_get m a with
     | Some l' => ret (l', m)
     | None =>
         o <- deref a ;;
         match o with
         | ODependentVariable v =>
             l' <- alloc OUninit ;;
             r <- deepcopy_rec (S f) (dv_components v) ((a, l') :: m) ;;
             store l' (ODependentVariable (dv_set_components v r.1)) ;;;
             ret (l', r.2)
         | OAbstractList c items =>
             l' <- alloc OUninit ;;
             r <- copy_items (deepcopy_rec (S f)) items ((a, l') :: m) ;;
             store l' (OAbstractList c r.1) ;;;
             ret (l', r.2)
         | OCSDM c =>
             l' <- alloc OUninit ;;
             r1 <- deepcopy_rec (S f) (_dimensions c) ((a, l') :: m) ;;
             r2 <- deepcopy_rec (S f) (_dependent_variables c) r1.2 ;;
             r3 <- deepcopy_rec (S f) (_tags c) r2.2 ;;
             r4 <- deepcopy_rec (S f) (_geographic_coordinate c) r3.2 ;;
             r5 <- deepcopy_rec (S f) (_application c) r4.2 ;;
             store l'
               (OCSDM (mkCSDM r1.1 r2.1 r3.1 (_read_only c) (_version c)
                         (_timestamp c) r4.1 (_description c) r5.1 (_filename c))) ;;;
             ret (l', r5.2)
         | _ => l' <- alloc o ;; ret (l', (a, l') :: m)
         end
     end h).
  destruct (memo_get m a); [reflexivity|].
  mstep (deref_ok _ _ _ E). cbv iota.
  mstep (alloc_run OUninit h). unfold bind at 1.
  rewrite (deepcopy_leaf_eq f (h ++ [OUninit]) _ _ (OArray arr))
    by (try reflexivity; now apply lookup_app_old).
  rewrite memo_get_cons_ne by assumption.
  destruct (memo_get m (dv_components v)) as [c|].
  - unfold bind, store, ret. simpl. f_equal.
    rewrite insert_app_r_alt by lia. now rewrite Nat.sub_diag.
  - unfold bind, store, ret. simpl. f_equal.
    + f_equal. f_equal. f_equal. f_equal. rewrite length_app. simpl. lia.
    + rewrite <- app_assoc. simpl. rewrite insert_app_r_alt by lia.
      rewrite Nat.sub_diag. simpl. rewrite length_app. simpl.
      now replace (length h + 1) with (S (length h)) by lia.
Qed.

Lemma copy_of_mono (h0 h h' : heap) x y :
  copy_of h0 h x y ->
  (forall z o, h !! z = Some o -> h' !! z = Some o) ->
  copy_of h0 h' x y.
Proof.
  unfold copy_of. intros C H. destruct (h0 !! x) as [[]|]; auto.
  intros arr Ha. destruct (C arr Ha) as (c & ? & ? & ?). exists c. auto.
Qed.

Lemma memo_inv_cons (h0 h h' : heap) m a b :
  memo_inv h0 h m ->
  (forall z o, h !! z = Some o -> h' !! z = Some o) ->
  length h <= length h' ->
  memo_get m a = None ->
  (forall x, memo_get m x <> Some b) ->
  length h0 <= b < length h' ->
  copy_of h0 h' a b ->
  memo_inv h0 h' ((a, b) :: m).
Proof.
  intros [R I C] H L Ha Hb Rb Cb. constructor.
  - intros x y. simpl. destruct (Nat.eqb_spec a x).
    + now intros [= <-].
    + intros E. apply R in E. lia.
  - intros x x' y. simpl.
    destruct (Nat.eqb_spec a x), (Nat.eqb_spec a x'); try congruence.
    apply I.
  - intros x y. simpl. destruct (Nat.eqb_spec a x).
    + intros [= <-]. now subst.
    + intros E. eapply copy_of_mono; eauto.
Qed.

Lemma memo_inv_store (h0 h : heap) m a b o :
  memo_inv h0 h m ->
  memo_get m a = Some b ->
  ~ plain h0 a ->
  h !! b = Some OUninit ->
  memo_inv h0 (<[b := o]> h) m.
Proof.
  intros [R I C] Ha Hp Hb. constructor.
  - intros x y E. rewrite length_insert. eauto.
  - exact I.
  - intros x y E. destruct (Nat.eq_dec y b) as [->|Hne].
    + assert (x = a) as -> by eauto. unfold copy_of. unfold plain in Hp.
      destruct (h0 !! a) as [[]|]; auto; now exfalso.
    + pose proof (C _ _ E) as Cx. unfold copy_of in *.
      destruct (h0 !! x) as [[]|]; auto;
        try (rewrite list_lookup_insert_ne by congruence; assumption).
      intros arr Harr. destruct (Cx arr Harr) as (c & Hc & Hy & Hc').
      exists c. split; [assumption|].
      rewrite !list_lookup_insert_ne; try congruence. auto.
Qed.

Lemma memo_ext_refl h0 a0 m : memo_ext h0 a0 m m.
Proof. split; [auto | intros x E1 E2; contradiction]. Qed.

Lemma memo_ext_trans h0 a0 m1 m2 m3 :
  memo_ext h0 a0 m1 m2 -> memo_ext h0 a0 m2 m3 -> memo_ext h0 a0 m1 m3.
Proof.
  intros [M1 K1] [M2 K2]. split; [auto|].
  intros x E1 E3. destruct (memo_get m2 x) eqn:E2.
  - apply K1; [assumption | congruence].
  - apply K2; assumption.
Qed.

Lemma memo_ext_cons h0 a0 m a b :
  memo_get m a = None -> plain h0 a \/ a0 = Some a ->
  memo_ext h0 a0 m ((a, b) :: m).
Proof.
  intros Ha Hp. split.
  - intros x y E. rewrite memo_get_cons_ne; [assumption | congruence].
  - intros x E1 E2. simpl in E2. destruct (Nat.eqb_spec a x); [now subst | contradiction].
Qed.

Lemma memo_ext_weaken h0 a0 m m' : memo_ext h0 None m m' -> memo_ext h0 a0 m m'.
Proof.
  intros [M K]. split; [assumption|]. intros x E1 E2.
  destruct (K x E1 E2) as [?|?]; [now left | discriminate].
Qed.

Lemma memo_values_below (h0 h : heap) m :
  memo_inv h0 h m -> forall b, length h <= b -> forall x, memo_get m x <> Some b.
Proof. intros [R _ _] b Hb x E. apply R in E. lia. Qed.

(** The copy of an atom. *)
Lemma copy_atom f (h0 h : heap) m a :
  grows h0 h -> memo_inv h0 h m -> atom h0 a ->
  exists b m' h',
    deepcopy_rec (S (S f)) a m h = (Ok (b, m'), h') /\
    grows h h' /\ memo_inv h0 h' m' /\ memo_get m' a = Some b /\
    memo_ext h0 None m m'.
Proof.
  intros G MI At. unfold atom in At.
  destruct (h0 !! a) as [o|] eqn:E0; [|contradiction].
  pose proof (grows_lookup _ _ _ _ G E0) as E.
  assert (Hleaf : is_leaf o = true ->
    exists b m' h',
      deepcopy_rec (S (S f)) a m h = (Ok (b, m'), h') /\
      grows h h' /\ memo_inv h0 h' m' /\ memo_get m' a = Some b /\
      memo_ext h0 None m m').
  { intros L. rewrite (deepcopy_leaf_eq _ _ _ _ _ E L).
    destruct (memo_get m a) as [b|] eqn:Em.
    - exists b, m, h. split; [reflexivity|]. split; [apply grows_refl|].
      split; [assumption|]. split; [assumption|]. apply memo_ext_refl.
    - exists (length h), ((a, length h) :: m), (h ++ [o]).
      split; [reflexivity|]. split; [apply grows_app|]. split.
      + apply memo_inv_cons with (h := h); auto using lookup_app_old.
        * rewrite length_app. lia.
        * eapply memo_values_below; eauto.
        * rewrite length_app. simpl. destruct G. lia.
        * unfold copy_of. rewrite E0. rewrite lookup_snoc.
          destruct o; try discriminate; reflexivity.
      + split; [apply memo_get_cons_eq|].
        apply memo_ext_cons; [assumption|]. left. unfold plain. rewrite E0.
        destruct o; try discriminate; exact I. }
  destruct o; try (apply Hleaf; reflexivity); try discriminate At. clear Hleaf.
  destruct At as [arr Ea0].
  pose proof (grows_lookup _ _ _ _ G Ea0) as Ea.
  assert (Hne : a <> dv_components v) by (intros Heq; rewrite <- Heq in Ea0; congruence).
  rewrite (deepcopy_dv_eq _ _ _ _ _ _ E Ea).
  destruct (memo_get m a) as [b|] eqn:Em.
  { exists b, m, h. split; [reflexivity|]. split; [apply grows_refl|].
    split; [assumption|]. split; [assumption|]. apply memo_ext_refl. }
  assert (Pa : plain h0 a) by (unfold plain; now rewrite E0).
  assert (Pc : plain h0 (dv_components v)) by (unfold plain; now rewrite Ea0).
  destruct (memo_get m (dv_components v)) as [c|] eqn:Ec.
  - exists (length h), ((a, length h) :: m),
      (h ++ [ODependentVariable (dv_set_components v c)]).
    split; [reflexivity|]. split; [apply grows_app|]. split.
    + apply memo_inv_cons with (h := h); auto using lookup_app_old.
      * rewrite length_app. lia.
      * eapply memo_values_below; eauto.
      * rewrite length_app. simpl. destruct G. lia.
      * unfold copy_of. rewrite E0. intros arr' Ha'.
        assert (arr' = arr) as -> by congruence.
        exists c. split; [apply (mi_range _ _ _ MI _ _ Ec)|].
        split; [apply lookup_snoc|]. apply lookup_app_old.
        pose proof (mi_copy _ _ _ MI _ _ Ec) as Cc. unfold copy_of in Cc.
        now rewrite Ea0 in Cc.
    + split; [apply memo_get_cons_eq|]. apply memo_ext_cons; auto.
  - set (h' := h ++ [ODependentVariable (dv_set_components v (S (length h)));
                     OArray arr]).
    assert (L0 : (h' : heap) !! length h =
                 Some (ODependentVariable (dv_set_components v (S (length h))))).
    { unfold h'. replace (length h) with (length h + 0) at 1 by lia.
      now rewrite lookup_app_add. }
    assert (L1 : (h' : heap) !! S (length h) = Some (OArray arr)).
    { unfold h'. replace (S (length h)) with (length h + 1) by lia.
      now rewrite lookup_app_add. }
    assert (Lh : length h' = length h + 2) by (unfold h'; now rewrite length_app).
    exists (length h), ((dv_components v, S (length h)) :: (a, length h) :: m), h'.
    split; [reflexivity|]. split; [apply grows_app|].
    assert (MI1 : memo_inv h0 h' ((a, length h) :: m)).
    { apply memo_inv_cons with (h := h); auto.
      * intros z o. apply lookup_app_old.
      * lia.
      * eapply memo_values_below; eauto.
      * destruct G. lia.
      * unfold copy_of. rewrite E0. intros arr' Ha'.
        assert (arr' = arr) as -> by congruence.
        exists (S (length h)). destruct G. split; [lia|]. auto. }
    split.
    + apply memo_inv_cons with (h := h'); auto.
      * now rewrite memo_get_cons_ne.
      * intros x. simpl. destruct (Nat.eqb_spec a x).
        -- intros [= Hx]. lia.
        -- eapply memo_values_below; eauto.
      * destruct G. lia.
      * unfold copy_of. now rewrite Ea0.
    + split.
      * rewrite memo_get_cons_ne by congruence. apply memo_get_cons_eq.
      * eapply memo_ext_trans; apply memo_ext_cons; auto.
        now rewrite memo_get_cons_ne.
Qed.

Lemma deepcopy_rec_step fuel l m :
  deepcopy_rec (S fuel) l m =
    match memo_get m l with
    | Some l' => ret (l', m)
    | None =>
        o <- deref l ;;
        match o with
        | ODependentVariable v =>
            l' <- alloc OUninit ;;
            r <- deepcopy_rec fuel (dv_components v) ((l, l') :: m) ;;
            store l' (ODependentVariable (dv_set_components v r.1)) ;;;
            ret (l', r.2)
        | OAbstractList c items =>
            l' <- alloc OUninit ;;
            r <- copy_items (deepcopy_rec fuel) items ((l, l') :: m) ;;
            store l' (OAbstractList c r.1) ;;;
            ret (l', r.2)
        | OCSDM c =>
            l' <- alloc OUninit ;;
            r1 <- deepcopy_rec fuel (_dimensions c) ((l, l') :: m) ;;
            r2 <- deepcopy_rec fuel (_dependent_variables c) r1.2 ;;
            r3 <- deepcopy_rec fuel (_tags c) r2.2 ;;
            r4 <- deepcopy_rec fuel (_geographic_coordinate c) r3.2 ;;
            r5 <- deepcopy_rec fuel (_application c) r4.2 ;;
            store l'
              (OCSDM (mkCSDM r1.1 r2.1 r3.1 (_read_only c) (_version c)
                        (_timestamp c) r4.1 (_description c) r5.1 (_filename c))) ;;;
            ret (l', r5.2)
        | _ => l' <- alloc o ;; ret (l', (l, l') :: m)
        end
    end.
Proof. reflexivity. Qed.

Lemma copy_items_atoms f (h0 : heap) : forall items m (h : heap),
  grows h0 h -> memo_inv h0 h m -> Forall (atom h0) items ->
  exists bs m' h',
    copy_items (deepcopy_rec (S (S f))) items m h = (Ok (bs, m'), h') /\
    grows h h' /\ memo_inv h0 h' m' /\
    Forall2 (fun a b => memo_get m' a = Some b) items bs /\
    memo_ext h0 None m m'.
Proof.
  induction items as [|a items IH]; intros m h G MI Hat.
  - exists [], m, h. split; [reflexivity|]. split; [apply grows_refl|].
    split; [assumption|]. split; [constructor | apply memo_ext_refl].
  - inversion Hat as [|? ? Ha Hitems]; subst.
    destruct (copy_atom f h0 h m a G MI Ha) as (b & m1 & h1 & E1 & G1 & MI1 & Hb & X1).
    destruct (IH m1 h1 (grows_trans _ _ _ G G1) MI1 Hitems)
      as (bs & m2 & h2 & E2 & G2 & MI2 & Hbs & X2).
    exists (b :: bs), m2, h2. split.
    { cbn [copy_items]. mstep E1. cbn [fst snd]. mstep E2. reflexivity. }
    split; [eapply grows_trans; eauto|]. split; [assumption|]. split.
    + constructor; [|assumption]. now apply (proj1 X2).
    + eapply memo_ext_trans; eauto.
Qed.

(** The copy of a typed list of atoms that is not in the memo yet. *)
Lemma copy_list f (h0 h : heap) m a k items :
  h0 !! a = Some (OAbstractList k items) ->
  Forall (atom h0) items ->
  memo_get m a = None ->
  grows h0 h -> memo_inv h0 h m ->
  exists bs m' h',
    deepcopy_rec (S (S (S f))) a m h = (Ok (length h, m'), h') /\
    grows h h' /\ memo_inv h0 h' m' /\
    h' !! length h = Some (OAbstractList k bs) /\
    Forall2 (fun x y => memo_get m' x = Some y) items bs /\
    memo_get m' a = Some (length h) /\
    memo_ext h0 (Some a) m m'.
Proof.
  intros E0 Hat Em G MI.
  pose proof (grows_lookup _ _ _ _ G E0) as E.
  assert (NP : ~ plain h0 a) by (unfold plain; now rewrite E0).
  assert (MI0 : memo_inv h0 (h ++ [OUninit]) ((a, length h) :: m)).
  { apply memo_inv_cons with (h := h); auto using lookup_app_old.
    - rewrite length_app. lia.
    - eapply memo_values_below; eauto.
    - rewrite length_app. simpl. destruct G. lia.
    - unfold copy_of. now rewrite E0. }
  assert (G0 : grows h0 (h ++ [OUninit])).
  { eapply grows_trans; [exact G | apply grows_app]. }
  destruct (copy_items_atoms f h0 items _ _ G0 MI0 Hat)
    as (bs & m1 & h1 & E1 & G1 & MI1 & Hbs & X1).
  assert (Ha1 : memo_get m1 a = Some (length h)).
  { apply (proj1 X1). apply memo_get_cons_eq. }
  assert (U1 : h1 !! length h = Some OUninit).
  { eapply grows_lookup; [exact G1 | apply lookup_snoc]. }
  exists bs, m1, (<[length h := OAbstractList k bs]> h1).
  split.
  { rewrite deepcopy_rec_step, Em. mstep (deref_ok _ _ _ E). cbv iota.
    mstep (alloc_run OUninit h). mstep E1. reflexivity. }
  split.
  { apply grows_insert; [|lia]. eapply grows_trans; [apply grows_app | exact G1]. }
  split; [eapply memo_inv_store; eauto|].
  split.
  { apply list_lookup_insert_eq. eapply lookup_lt_Some; eauto. }
  split; [assumption|]. split; [assumption|].
  apply (memo_ext_trans _ _ _ ((a, length h) :: m)).
  - apply memo_ext_cons; [exact Em | now right].
  - apply memo_ext_weaken, X1.
Qed.

Lemma read_all_copied {A} (m : memo) (rd rd' : loc -> option A) l l' r :
  Forall2 (fun x y => memo_get m x = Some y) l l' ->
  (forall x y a, memo_get m x = Some y -> rd x = Some a -> rd' y = Some a) ->
  read_all rd l = Some r -> read_all rd' l' = Some r.
Proof.
  intros F H. revert r. induction F as [|x y l l' Hxy F IH]; intros r; simpl.
  - auto.
  - destruct (rd x) as [a|] eqn:Ex; try discriminate.
    destruct (read_all rd l) as [q|] eqn:El; try discriminate.
    intros [= <-]. rewrite (H _ _ _ Hxy Ex). now rewrite (IH _ eq_refl).
Qed.

Lemma copy_of_read_dimension (h0 h : heap) x y d :
  copy_of h0 h x y -> read_dimension h0 x = Some d -> read_dimension h y = Some d.
Proof.
  intros C R. apply read_dimension_inv in R. unfold copy_of in C. rewrite R in C.
  unfold read_dimension. now rewrite C.
Qed.

Lemma copy_of_read_dv (h0 h : heap) x y d :
  copy_of h0 h x y -> read_dv h0 x = Some d -> read_dv h y = Some d.
Proof.
  intros C R. apply read_dv_inv in R as (v & Hv & Ha & Hd).
  unfold copy_of in C. rewrite Hv in C. destruct (C _ Ha) as (c & _ & Hy & Hc).
  unfold read_dv, read_array. rewrite Hy. simpl. rewrite Hc. now rewrite Hd.
Qed.

Lemma read_dimension_atom (h : heap) x d : read_dimension h x = Some d -> atom h x.
Proof. intros R. apply read_dimension_inv in R. unfold atom. now rewrite R. Qed.

Lemma read_dv_atom (h : heap) x d : read_dv h x = Some d -> atom h x.
Proof.
  intros R. apply read_dv_inv in R as (v & Hv & Ha & _). unfold atom. rewrite Hv. eauto.
Qed.

Lemma read_all_atoms {A} (h : heap) (rd : loc -> option A) l r :
  (forall x a, rd x = Some a -> atom h x) ->
  read_all rd l = Some r -> Forall (atom h) l.
Proof.
  intros H R. apply read_all_Forall2 in R. induction R; constructor; eauto.
Qed.

Lemma NoDup_copied (m : memo) l l' :
  (forall a a' b, memo_get m a = Some b -> memo_get m a' = Some b -> a = a') ->
  Forall2 (fun x y => memo_get m x = Some y) l l' ->
  NoDup l -> NoDup l'.
Proof.
  intros Inj F. induction F as [|x y l l' Hxy F IH]; intros N.
  - constructor.
  - apply NoDup_cons in N as [Hx N]. apply NoDup_cons. split; [|auto].
    intros Hy. apply Hx.
    clear -Inj F Hxy Hy. induction F as [|x' y' l l' Hxy' F IH].
    + inversion Hy.
    + apply elem_of_cons in Hy as [->|Hy].
      * rewrite (Inj _ _ _ Hxy Hxy'). left.
      * right. auto.
Qed.

Lemma memo_inv_nil (h : heap) : memo_inv h h [].
Proof. constructor; simpl; intros; discriminate. Qed.

(** The deep copy of a container that can be read: the copy is made at the
    end of the store, it reads as the original does, and the addresses of its
    dependent variables are distinct when those of the original are. *)
Lemma deepcopy_csdm f (h : heap) l X c dl vl :
  opened h l X c dl vl ->
  exists m' h' c' dl' vl',
    deepcopy_rec (S (S (S (S f)))) l [] h = (Ok (length h, m'), h') /\
    grows h h' /\ opened h' (length h) X c' dl' vl' /\
    (NoDup vl -> NoDup vl') /\ length vl' = length vl.
Proof.
  intros O.
  pose proof (op_slots _ _ _ _ _ _ O) as Es.
  pose proof (op_dims _ _ _ _ _ _ O) as Ed.
  pose proof (op_dvs _ _ _ _ _ _ O) as Ev.
  pose proof (op_tags _ _ _ _ _ _ O) as Et.
  pose proof (op_geo _ _ _ _ _ _ O) as Eg.
  pose proof (op_app _ _ _ _ _ _ O) as Ea.
  (* the container itself *)
  set (m0 := [(l, length h)]).
  assert (MI0 : memo_inv h (h ++ [OUninit]) m0).
  { apply memo_inv_cons with (h := h).
    - apply memo_inv_nil.
    - intros z o. apply lookup_app_old.
    - rewrite length_app. lia.
    - reflexivity.
    - intros x. simpl. discriminate.
    - rewrite length_app. simpl. lia.
    - unfold copy_of. now rewrite Es. }
  assert (G0 : grows h (h ++ [OUninit])) by apply grows_app.
  (* the list of dimensions *)
  assert (N1 : memo_get m0 (_dimensions c) = None).
  { unfold m0. simpl. destruct (Nat.eqb_spec l (_dimensions c)) as [Heq|]; [|reflexivity].
    rewrite <- Heq in Ed. congruence. }
  destruct (copy_list f h (h ++ [OUninit]) m0 _ _ _ Ed
              (read_all_atoms _ _ _ _ (read_dimension_atom h) (op_read_dims _ _ _ _ _ _ O))
              N1 G0 MI0)
    as (bs1 & m1 & h2 & E1 & G1 & MI1 & L1 & F1 & A1 & X1).
  (* the list of dependent variables *)
  assert (N2 : memo_get m1 (_dependent_variables c) = None).
  { destruct (memo_get m1 (_dependent_variables c)) eqn:Em; [exfalso | reflexivity].
    assert (N0 : memo_get m0 (_dependent_variables c) = None).
    { unfold m0. simpl.
      destruct (Nat.eqb_spec l (_dependent_variables c)) as [Heq|]; [|reflexivity].
      rewrite <- Heq in Ev. congruence. }
    destruct (proj2 X1 _ N0) as [P|P].
    - congruence.
    - unfold plain in P. now rewrite Ev in P.
    - injection P as P. rewrite P in Ed. congruence. }
  assert (G02 : grows h h2) by (eapply grows_trans; eauto).
  destruct (copy_list f h h2 m1 _ _ _ Ev
              (read_all_atoms _ _ _ _ (read_dv_atom h) (op_read_dvs _ _ _ _ _ _ O))
              N2 G02 MI1)
    as (bs2 & m2 & h3 & E2 & G2 & MI2 & L2 & F2 & A2 & X2).
  (* the tags and the two dictionaries *)
  assert (G03 : grows h h3) by (eapply grows_trans; eauto).
  assert (At3 : atom h (_tags c)) by (unfold atom; now rewrite Et).
  destruct (copy_atom (S f) h h3 m2 _ G03 MI2 At3)
    as (b3 & m3 & h4 & E3 & G3 & MI3 & A3 & X3).
  assert (G04 : grows h h4) by (eapply grows_trans; eauto).
  assert (At4 : atom h (_geographic_coordinate c)) by (unfold atom; now rewrite Eg).
  destruct (copy_atom (S f) h h4 m3 _ G04 MI3 At4)
    as (b4 & m4 & h5 & E4 & G4 & MI4 & A4 & X4).
  assert (G05 : grows h h5) by (eapply grows_trans; eauto).
  assert (At5 : atom h (_application c)) by (unfold atom; now rewrite Ea).
  destruct (copy_atom (S f) h h5 m4 _ G05 MI4 At5)
    as (b5 & m5 & h6 & E5 & G5 & MI5 & A5 & X5).
  set (c' := mkCSDM (length (h ++ [OUninit])) (length h2) b3 (_read_only c)
               (_version c) (_timestamp c) b4 (_description c) b5 (_filename c)).
  set (h' := <[length h := OCSDM c']> h6).
  (* the memo at the end *)
  assert (M15 : forall x y, memo_get m1 x = Some y -> memo_get m5 x = Some y).
  { intros x y E. apply (proj1 X5), (proj1 X4), (proj1 X3), (proj1 X2), E. }
  assert (M25 : forall x y, memo_get m2 x = Some y -> memo_get m5 x = Some y).
  { intros x y E. apply (proj1 X5), (proj1 X4), (proj1 X3), E. }
  assert (Al : memo_get m5 l = Some (length h)).
  { apply M15, (proj1 X1). apply memo_get_cons_eq. }
  assert (G16 : grows (h ++ [OUninit]) h6) by eauto 6 using grows_trans.
  assert (U6 : h6 !! length h = Some OUninit).
  { eapply grows_lookup; [exact G16 | apply lookup_snoc]. }
  assert (MI' : memo_inv h h' m5).
  { eapply memo_inv_store; eauto. unfold plain. now rewrite Es. }
  assert (Lh1 : length (h ++ [OUninit]) = S (length h)).
  { rewrite length_app. simpl. lia. }
  assert (Lh2 : length h < length h2) by (destruct G1; lia).
  exists m5, h', c', bs1, bs2.
  split.
  { rewrite deepcopy_rec_step. cbn [memo_get]. mstep (deref_ok _ _ _ Es). cbv iota.
    mstep (alloc_run OUninit h). fold m0.
    mstep E1. cbn [fst snd]. mstep E2. cbn [fst snd]. mstep E3. cbn [fst snd].
    mstep E4. cbn [fst snd]. mstep E5. cbn [fst snd]. reflexivity. }
  split.
  { apply grows_insert; [|lia]. eapply grows_trans; [exact G0 | exact G16]. }
  split.
  { constructor; unfold c'; cbn [_dimensions _dependent_variables _tags
      _geographic_coordinate _application _read_only _version _timestamp
      _description _filename].
    - unfold h'. apply list_lookup_insert_eq. eapply lookup_lt_Some; eauto.
    - unfold h'. rewrite list_lookup_insert_ne by lia.
      eapply grows_lookup; [|exact L1]. eauto 6 using grows_trans.
    - unfold h'. rewrite list_lookup_insert_ne by lia.
      eapply grows_lookup; [|exact L2]. eauto 6 using grows_trans.
    - pose proof (mi_copy _ _ _ MI' _ _ (proj1 X5 _ _ (proj1 X4 _ _ A3))) as C.
      unfold copy_of in C. now rewrite Et in C.
    - pose proof (mi_copy _ _ _ MI' _ _ (proj1 X5 _ _ A4)) as C.
      unfold copy_of in C. now rewrite Eg in C.
    - pose proof (mi_copy _ _ _ MI' _ _ A5) as C.
      unfold copy_of in C. now rewrite Ea in C.
    - eapply read_all_copied; [exact F1 | | exact (op_read_dims _ _ _ _ _ _ O)].
      intros x y d Hxy R. eapply copy_of_read_dimension; [|exact R].
      apply (mi_copy _ _ _ MI'). auto.
    - eapply read_all_copied; [exact F2 | | exact (op_read_dvs _ _ _ _ _ _ O)].
      intros x y d Hxy R. eapply copy_of_read_dv; [|exact R].
      apply (mi_copy _ _ _ MI'). auto.
    - apply (op_read_only _ _ _ _ _ _ O).
    - apply (op_version _ _ _ _ _ _ O).
    - apply (op_timestamp _ _ _ _ _ _ O).
    - apply (op_description _ _ _ _ _ _ O).
    - apply (op_filename _ _ _ _ _ _ O). }
  split.
  - intros N. eapply NoDup_copied; [exact (mi_inj _ _ _ MI2) | exact F2 | exact N].
  - symmetry. eapply Forall2_length; eauto.
Qed.

Lemma closed_above_end (h : heap) : closed_above (length h) h.
Proof.
  intros x o Hx E. apply lookup_lt_Some in E. lia.
Qed.

Lemma reachable_fresh n (h : heap) k x :
  closed_above n h -> reachable h k x -> n <= k -> n <= x.
Proof.
  intros C R. induction R as [|l o k k' E Hin R IH]; [auto|].
  intros Hl. apply IH. pose proof (C _ _ Hl E) as F.
  rewrite Forall_forall in F. apply F. now apply list_elem_of_In.
Qed.

Lemma read_all_mono {A} (rd rd' : loc -> option A) l r :
  (forall x a, rd x = Some a -> rd' x = Some a) ->
  read_all rd l = Some r -> read_all rd' l = Some r.
Proof.
  intros H. revert r. induction l as [|x l IH]; intros r; simpl; [auto|].
  destruct (rd x) as [a|] eqn:Ex; try discriminate.
  destruct (read_all rd l) as [q|] eqn:El; try discriminate.
  intros [= <-]. rewrite (H _ _ Ex). now rewrite (IH _ eq_refl).
Qed.

Lemma read_dimension_grows (h h' : heap) x d :
  grows h h' -> read_dimension h x = Some d -> read_dimension h' x = Some d.
Proof.
  intros G R. apply read_dimension_inv in R. unfold read_dimension.
  now rewrite (grows_lookup _ _ _ _ G R).
Qed.

Lemma read_dv_grows (h h' : heap) x d :
  grows h h' -> read_dv h x = Some d -> read_dv h' x = Some d.
Proof.
  intros G R. apply read_dv_inv in R as (v & Hv & Ha & Hd).
  unfold read_dv, read_array.
  rewrite (grows_lookup _ _ _ _ G Hv), (grows_lookup _ _ _ _ G Ha). now rewrite Hd.
Qed.

Lemma opened_grows (h h' : heap) l X c dl vl :
  grows h h' -> opened h l X c dl vl -> opened h' l X c dl vl.
Proof.
  intros G [Hs Hd Hv Ht Hg Ha Hrd Hrv H1 H2 H3 H4 H5].
  constructor; eauto using grows_lookup.
  - eapply read_all_mono; [|exact Hrd]. intros x d. now apply read_dimension_grows.
  - eapply read_all_mono; [|exact Hrv]. intros x d. now apply read_dv_grows.
Qed.

Lemma read_csdm_grows (h h' : heap) l X :
  grows h h' -> read_csdm h l = Some X -> read_csdm h' l = Some X.
Proof.
  intros G R. destruct (read_csdm_open _ _ _ R) as (c & dl & vl & O).
  eapply opened_read. eapply opened_grows; eauto.
Qed.

(** [copy()] of a container that can be read. *)
Lemma copy_opened (h : heap) l X c dl vl :
  opened h l X c dl vl ->
  exists h' c' dl' vl',
    CSDMClass.copy l h = (Ok (length h), h') /\
    grows h h' /\ opened h' (length h) X c' dl' vl' /\
    (NoDup vl -> NoDup vl') /\ length vl' = length vl /\
    closed_above (length h) h'.
Proof.
  intros O.
  destruct (deepcopy_csdm 996 h l X c dl vl O)
    as (m' & h' & c' & dl' & vl' & E & G & O' & N & L).
  exists h', c', dl', vl'.
  assert (E' : deepcopy_rec recursion_limit l [] h = (Ok (length h, m'), h')) by exact E.
  split.
  { unfold CSDMClass.copy, deepcopy. mstep E'. reflexivity. }
  split; [assumption|]. split; [assumption|]. split; [assumption|].
  split; [assumption|].
  assert (Hm : memo_above (length h) []) by (intros a b; discriminate).
  destruct (deepcopy_rec_fresh (length h) _ _ _ _ _ _ (le_n _) Hm
              (closed_above_end h) E') as (_ & C & _).
  exact C.
Qed.

Lemma copy_read (h : heap) l X :
  read_csdm h l = Some X ->
  exists h',
    CSDMClass.copy l h = (Ok (length h), h') /\
    grows h h' /\ read_csdm h' (length h) = Some X /\
    closed_above (length h) h'.
Proof.
  intros R. destruct (read_csdm_open _ _ _ R) as (c & dl & vl & O).
  destruct (copy_opened _ _ _ _ _ _ O) as (h' & c' & dl' & vl' & E & G & O' & _ & _ & C).
  exists h'. eauto using opened_read.
Qed.

Lemma read_all_lookup {A} (rd : loc -> option A) l r i x :
  read_all rd l = Some r -> l !! i = Some x ->
  exists a, r !! i = Some a /\ rd x = Some a.
Proof.
  intros R. apply read_all_Forall2 in R. revert i.
  induction R as [|y a l r Hy R IH]; intros [|i]; simpl; try discriminate.
  - intros [= ->]. eauto.
  - apply IH.
Qed.

(** Where the siblings are and what their slots hold. *)
Lemma sibling_slots_lookup (h : heap) c items s :
  In s (sibling_addresses (length h) items) ->
  length h <= s /\
  (h ++ sibling_blocks c (length h) items) !! s = Some (OCSDM (sibling_slots c (s + 6))).
Proof.
  intros Hin. apply list_elem_of_In, list_elem_of_lookup in Hin as [i Hi].
  apply sibling_addresses_lookup in Hi as [-> [v Hv]].
  split; [lia|].
  replace (length h + 7 * i) with (length h + 7 * i + 0) at 1 by lia.
  eapply sibling_blocks_lookup; eauto.
Qed.

Lemma sibling_opened (h : heap) l X c dl vl i v :
  opened h l X c dl vl -> vl !! i = Some v ->
  exists V,
    vw_dependent_variables X !! i = Some V /\
    opened (h ++ sibling_blocks c (length h) vl) (length h + 7 * i)
      (with_dvs X [V]) (sibling_slots c (length h + 7 * i + 6)) dl [v].
Proof.
  intros O Hv.
  destruct (read_all_lookup _ _ _ _ _ (op_read_dvs _ _ _ _ _ _ O) Hv) as (V & HV & RV).
  exists V. split; [assumption|].
  pose proof (grows_app h (sibling_blocks c (length h) vl)) as G.
  destruct (opened_grows _ _ _ _ _ _ _ G O) as [Hs Hd Hvs Ht Hg Ha Hrd Hrv H1 H2 H3 H4 H5].
  constructor; simpl; auto.
  - replace (length h + 7 * i) with (length h + 7 * i + 0) at 1 by lia.
    eapply sibling_blocks_lookup; eauto.
  - eapply sibling_blocks_lookup; eauto.
  - rewrite (read_dv_grows _ _ _ _ G RV). reflexivity.
Qed.

Lemma tags_append_run (h : heap) s cs ts t :
  h !! s = Some (OCSDM cs) -> h !! _tags cs = Some (OStrList ts) ->
  tags_append s t h = (Ok tt, <[_tags cs := OStrList (ts ++ [t])]> h).
Proof.
  intros Hs Ht. unfold tags_append. mstep (tags_run _ _ _ Hs).
  mstep (deref_ok _ _ _ Ht). reflexivity.
Qed.

Lemma application_setitem_run (h : heap) s cs d k v :
  h !! s = Some (OCSDM cs) -> h !! _application cs = Some (ODict d) ->
  application_setitem s k v h = (Ok tt, <[_application cs := ODict (<[k := v]> d)]> h).
Proof.
  intros Hs Ha. unfold application_setitem. mstep (application_run _ _ _ Hs).
  mstep (deref_ok _ _ _ Ha). reflexivity.
Qed.

(** C10.  The siblings that [split] returns hold, in their slots, the very
    objects of the original container: its dimension list, its list of
    tags, its application dictionary and its geographic_coordinate
    dictionary.  A tag appended, or an application key set, through one
    sibling is seen through every sibling and through the original. *)
Theorem split_shares_tags_and_application :
  forall (h : heap) (l : loc) (X : csdm_view),
    read_csdm h l = Some X ->
    exists sib h' c,
      CSDMClass.split l h = (Ok sib, h') /\
      length sib = length (vw_dependent_variables X) /\
      read_slots h' l = Some c /\
      (forall s, In s sib ->
         exists cs, read_slots h' s = Some cs /\
           _dimensions cs = _dimensions c /\
           _tags cs = _tags c /\
           _application cs = _application c /\
           _geographic_coordinate cs = _geographic_coordinate c) /\
      (forall s t, In s sib ->
         exists h'', tags_append s t h' = (Ok tt, h'') /\
           forall s', In s' (l :: sib) -> tags_of h'' s' = Some (vw_tags X ++ [t])) /\
      (forall s k v, In s sib ->
         exists h'', application_setitem s k v h' = (Ok tt, h'') /\
           forall s', In s' (l :: sib) ->
             application_of h'' s' = Some (<[k := v]> (vw_application X))).
Proof.
  intros h l X R.
  destruct (read_csdm_open _ _ _ R) as (c & dl & vl & O).
  pose proof (op_slots _ _ _ _ _ _ O) as Es.
  pose proof (op_tags _ _ _ _ _ _ O) as Et.
  pose proof (op_app _ _ _ _ _ _ O) as Ea.
  set (h' := h ++ sibling_blocks c (length h) vl).
  exists (sibling_addresses (length h) vl), h', c.
  assert (Es' : h' !! l = Some (OCSDM c)) by now apply lookup_app_old.
  assert (Et' : h' !! _tags c = Some (OStrList (vw_tags X))) by now apply lookup_app_old.
  assert (Ea' : h' !! _application c = Some (ODict (vw_application X)))
    by now apply lookup_app_old.
  assert (Hslots : forall s', In s' (l :: sibling_addresses (length h) vl) ->
            exists cs, h' !! s' = Some (OCSDM cs) /\ _tags cs = _tags c /\
                       _application cs = _application c /\
                       s' <> _tags c /\ s' <> _application c).
  { intros s' [<-|Hin].
    - exists c. repeat split; auto; intros Heq; rewrite Heq in Es; congruence.
    - destruct (sibling_slots_lookup h c vl s' Hin) as [Hge Hs'].
      exists (sibling_slots c (s' + 6)).
      apply lookup_lt_Some in Et, Ea. repeat split; auto; lia. }
  split; [eapply split_run; eauto using op_dvs|].
  split.
  { rewrite sibling_addresses_length.
    apply (read_all_length _ _ _ (op_read_dvs _ _ _ _ _ _ O)). }
  split; [unfold read_slots; now rewrite Es'|].
  split.
  { intros s Hin. destruct (sibling_slots_lookup h c vl s Hin) as [_ Hs].
    exists (sibling_slots c (s + 6)). unfold read_slots, h'. rewrite Hs.
    repeat split. }
  split.
  - intros s t Hin.
    destruct (Hslots s (or_intror Hin)) as (cs & Hs & Hts & _).
    exists (<[_tags c := OStrList (vw_tags X ++ [t])]> h'). split.
    + rewrite <- Hts. apply tags_append_run; [assumption | now rewrite Hts].
    + intros s' Hin'. destruct (Hslots s' Hin') as (cs' & Hs' & Hts' & _ & Hne & _).
      unfold tags_of, read_slots, read_strlist.
      rewrite list_lookup_insert_ne by congruence. rewrite Hs', Hts'.
      rewrite list_lookup_insert_eq by (eapply lookup_lt_Some; eauto). reflexivity.
  - intros s k v Hin.
    destruct (Hslots s (or_intror Hin)) as (cs & Hs & _ & Has & _).
    exists (<[_application c := ODict (<[k := v]> (vw_application X))]> h'). split.
    + rewrite <- Has. apply application_setitem_run; [assumption | now rewrite Has].
    + intros s' Hin'. destruct (Hslots s' Hin') as (cs' & Hs' & _ & Has' & _ & Hne).
      unfold application_of, read_slots, read_dict.
      rewrite list_lookup_insert_ne by congruence. rewrite Hs', Has'.
      rewrite list_lookup_insert_eq by (eapply lookup_lt_Some; eauto). reflexivity.
Qed.

(** The witness of C10: the container with two dependent variables. *)
Lemma split_shares_tags_and_application_witness :
  exists sib h' c,
    CSDMClass.split 0 two_variables = (Ok sib, h') /\
    length sib = 2 /\
    read_slots h' 0 = Some c /\
    (forall s, In s sib ->
       exists cs, read_slots h' s = Some cs /\
         _dimensions cs = _dimensions c /\
         _tags cs = _tags c /\
         _application cs = _application c /\
         _geographic_coordinate cs = _geographic_coordinate c) /\
    (forall s t, In s sib ->
       exists h'', tags_append s t h' = (Ok tt, h'') /\
         forall s', In s' (0 :: sib) -> tags_of h'' s' = Some ([] ++ [t])) /\
    (forall s k v, In s sib ->
       exists h'', application_setitem s k v h' = (Ok tt, h'') /\
         forall s', In s' (0 :: sib) ->
           application_of h'' s' = Some (<[k := v]> ∅)).
Proof.
  exact (split_shares_tags_and_application two_variables 0 _ eq_refl).
Defined.

Lemma py_index_nat len i : i < len -> py_index len (Z.of_nat i) = Some i.
Proof.
  intros H. unfold py_index.
  destruct (Z.leb_spec 0 (Z.of_nat i)); [|lia].
  destruct (Z.ltb_spec (Z.of_nat i) (Z.of_nat len)); [|lia].
  simpl. now rewrite Nat2Z.id.
Qed.

Lemma dimensions_setitem_run (h : heap) s cs dl i item d :
  h !! s = Some (OCSDM cs) ->
  h !! _dimensions cs = Some (OAbstractList DimensionListC dl) ->
  i < length dl ->
  read_dimension h item = Some d ->
  dimensions_setitem s (Z.of_nat i) item h =
    (Ok tt, <[_dimensions cs := OAbstractList DimensionListC (<[i := item]> dl)]> h).
Proof.
  intros Hs Hd Hi Hitem. apply read_dimension_inv in Hitem.
  unfold dimensions_setitem. mstep (dimensions_run _ _ _ Hs).
  unfold DimensionList.__setitem__. mstep (deref_ok _ _ _ Hitem). cbn [is_dimension negb].
  unfold AbstractList.set_list_item. mstep (get_list_ok _ _ _ _ Hd). cbn [fst snd].
  rewrite py_index_nat by assumption. reflexivity.
Qed.

(** C9.  [split] returns one container per dependent variable; each holds
    one dependent variable of the original and the dimension list object of
    the original, so that an item assigned in the dimension list through one
    sibling is in the dimension list of every sibling.  [copy] of a sibling
    or of the original reads as what it copies and is made of new objects
    only: a write to any object of the copy leaves the original and the
    siblings as they were. *)
Theorem split_shares_dimensions_copy_is_independent :
  forall (h : heap) (l : loc) (X : csdm_view),
    read_csdm h l = Some X ->
    2 <= length (vw_dependent_variables X) ->
    exists sib h',
      CSDMClass.split l h = (Ok sib, h') /\
      length sib = length (vw_dependent_variables X) /\
      (forall i s, sib !! i = Some s ->
         exists v, vw_dependent_variables X !! i = Some v /\
                   read_csdm h' s = Some (with_dvs X [v])) /\
      (exists d, forall s, In s (l :: sib) -> CSDMClass.dimensions s h' = (Ok d, h')) /\
      (forall s i item dim, In s sib ->
         i < length (vw_dimensions X) ->
         read_dimension h' item = Some dim ->
         exists h'' dl,
           dimensions_setitem s (Z.of_nat i) item h' = (Ok tt, h'') /\
           forall s', In s' (l :: sib) ->
             dimension_addresses h' s' = Some dl /\
             dimension_addresses h'' s' = Some (<[i := item]> dl)) /\
      (forall s, In s (l :: sib) ->
         exists k h'' Y,
           CSDMClass.copy s h' = (Ok k, h'') /\
           read_csdm h' s = Some Y /\
           read_csdm h'' k = Some Y /\
           (forall x, reachable h'' k x -> length h' <= x) /\
           (forall x o s' Z, reachable h'' k x -> In s' (l :: sib) ->
              read_csdm h' s' = Some Z ->
              read_csdm (<[x := o]> h'') s' = Some Z)).
Proof.
  intros h l X R _.
  destruct (read_csdm_open _ _ _ R) as (c & dl & vl & O).
  pose proof (op_slots _ _ _ _ _ _ O) as Es.
  pose proof (op_dims _ _ _ _ _ _ O) as Ed.
  set (h' := h ++ sibling_blocks c (length h) vl).
  pose proof (grows_app h (sibling_blocks c (length h) vl) : grows h h') as G.
  exists (sibling_addresses (length h) vl), h'.
  assert (Hslots : forall s', In s' (l :: sibling_addresses (length h) vl) ->
            exists cs, h' !! s' = Some (OCSDM cs) /\ _dimensions cs = _dimensions c /\
                       s' <> _dimensions c).
  { intros s' [<-|Hin].
    - exists c. repeat split; eauto using grows_lookup.
      intros Heq. rewrite Heq in Es. congruence.
    - destruct (sibling_slots_lookup h c vl s' Hin) as [Hge Hs'].
      exists (sibling_slots c (s' + 6)). apply lookup_lt_Some in Ed.
      repeat split; auto; lia. }
  assert (Hread : forall s', In s' (l :: sibling_addresses (length h) vl) ->
            exists Y, read_csdm h' s' = Some Y).
  { intros s' [<-|Hin].
    - exists X. eapply read_csdm_grows; eauto.
    - apply list_elem_of_In, list_elem_of_lookup in Hin as [i Hi].
      apply sibling_addresses_lookup in Hi as [-> [v Hv]].
      destruct (sibling_opened _ _ _ _ _ _ _ _ O Hv) as (V & _ & O').
      eexists. eapply opened_read; eauto. }
  split; [eapply split_run; eauto using op_dvs|].
  split.
  { rewrite sibling_addresses_length.
    apply (read_all_length _ _ _ (op_read_dvs _ _ _ _ _ _ O)). }
  split.
  { intros i s Hi. apply sibling_addresses_lookup in Hi as [-> [v Hv]].
    destruct (sibling_opened _ _ _ _ _ _ _ _ O Hv) as (V & HV & O').
    exists V. split; [assumption|]. eapply opened_read; eauto. }
  split.
  { exists (_dimensions c). intros s Hin.
    destruct (Hslots s Hin) as (cs & Hs & Hd & _). rewrite <- Hd.
    now apply dimensions_run. }
  split.
  - intros s i item dim Hin Hi Hitem.
    destruct (Hslots s (or_intror Hin)) as (cs & Hs & Hd & _).
    exists (<[_dimensions c := OAbstractList DimensionListC (<[i := item]> dl)]> h'), dl.
    split.
    + rewrite <- Hd. eapply dimensions_setitem_run; eauto.
      * rewrite Hd. eapply grows_lookup; eauto.
      * now rewrite (read_all_length _ _ _ (op_read_dims _ _ _ _ _ _ O)).
    + intros s' Hin'. destruct (Hslots s' Hin') as (cs' & Hs' & Hd' & Hne).
      unfold dimension_addresses, read_slots, read_items.
      rewrite list_lookup_insert_ne by congruence. rewrite Hs', Hd'.
      rewrite (grows_lookup _ _ _ _ G Ed).
      rewrite list_lookup_insert_eq by (apply lookup_lt_Some in Ed; destruct G; lia).
      split; reflexivity.
  - intros s Hin. destruct (Hread s Hin) as [Y RY].
    destruct (copy_read _ _ _ RY) as (h'' & E & G' & RK & C).
    exists (length h'), h'', Y.
    split; [assumption|]. split; [assumption|]. split; [assumption|].
    assert (Hfresh : forall x, reachable h'' (length h') x -> length h' <= x).
    { intros x Hx. eapply reachable_fresh; eauto. }
    split; [assumption|].
    intros x o s' Z Hx Hin' RZ.
    eapply read_csdm_grows; [|exact RZ].
    apply grows_insert; [assumption | auto].
Qed.

(** The witness of C9: the container with two dependent variables. *)
Lemma split_shares_dimensions_copy_is_independent_witness :
  exists sib h',
    CSDMClass.split 0 two_variables = (Ok sib, h') /\
    length sib = 2 /\
    exists d, forall s, In s (0 :: sib) -> CSDMClass.dimensions s h' = (Ok d, h').
Proof.
  destruct (split_shares_dimensions_copy_is_independent two_variables 0 _ eq_refl)
    as (sib & h' & E & L & _ & D & _).
  - simpl. lia.
  - exists sib, h'. auto.
Defined.

(** ** Loops over the dependent variables of a container *)

Lemma touches_only_refl ys h : touches_only ys h h.
Proof. split; auto. Qed.

Lemma touches_only_trans ys (h1 h2 h3 : heap) :
  touches_only ys h1 h2 -> touches_only ys h2 h3 -> touches_only ys h1 h3.
Proof.
  intros [L1 F1] [L2 F2]. split; [lia|].
  intros x Hx Hn. rewrite F2 by (auto; lia). auto.
Qed.

Lemma touches_only_weaken ys ys' (h h' : heap) :
  (forall x, In x ys -> In x ys') -> touches_only ys h h' -> touches_only ys' h h'.
Proof. intros Hs [L F]. split; [assumption|]. intros x Hx Hn. apply F; auto. Qed.

Lemma touches_only_lookup ys (h h' : heap) x o :
  touches_only ys h h' -> h !! x = Some o -> ~ In x ys -> h' !! x = Some o.
Proof.
  intros [_ F] E Hn. rewrite F; auto. eapply lookup_lt_Some; eauto.
Qed.

Lemma read_dv_is_dv (h : heap) y V :
  read_dv h y = Some V -> exists v, h !! y = Some (ODependentVariable v).
Proof. intros R. apply read_dv_inv in R as (v & Hv & _). eauto. Qed.

(** An address that holds something else than a dependent variable is not
    among addresses of dependent variables. *)
Lemma not_among_dvs (h : heap) ys x o :
  (forall y, In y ys -> exists v, h !! y = Some (ODependentVariable v)) ->
  h !! x = Some o -> is_dependent_variable o = false -> ~ In x ys.
Proof.
  intros Hys E Ho Hin. destruct (Hys _ Hin) as [v Hv].
  rewrite Hv in E. injection E as <-. discriminate.
Qed.

Lemma read_dv_frame ys (h h' : heap) x V :
  touches_only ys h h' ->
  (forall y, In y ys -> exists v, h !! y = Some (ODependentVariable v)) ->
  read_dv h x = Some V -> ~ In x ys -> read_dv h' x = Some V.
Proof.
  intros T Hys R Hn. apply read_dv_inv in R as (v & Hv & Ha & Hd).
  unfold read_dv, read_array.
  rewrite (touches_only_lookup _ _ _ _ _ T Hv Hn).
  rewrite (touches_only_lookup _ _ _ _ _ T Ha
             (not_among_dvs _ _ _ _ Hys Ha eq_refl)).
  now rewrite Hd.
Qed.

Lemma read_dimension_frame ys (h h' : heap) x d :
  touches_only ys h h' ->
  (forall y, In y ys -> exists v, h !! y = Some (ODependentVariable v)) ->
  read_dimension h x = Some d -> read_dimension h' x = Some d.
Proof.
  intros T Hys R. apply read_dimension_inv in R. unfold read_dimension.
  now rewrite (touches_only_lookup _ _ _ _ _ T R
                 (not_among_dvs _ _ _ _ Hys R eq_refl)).
Qed.

Lemma read_all_dvs (h : heap) items VS :
  read_all (read_dv h) items = Some VS ->
  forall y, In y items -> exists v, h !! y = Some (ODependentVariable v).
Proof.
  intros R y Hin. destruct (read_all_In _ _ _ _ R Hin) as [V HV].
  eapply read_dv_is_dv; eauto.
Qed.


(** The container after such a loop over its dependent variables. *)
Lemma opened_frame (h h' : heap) l X c dl vl VS' :
  opened h l X c dl vl ->
  touches_only vl h h' ->
  read_all (read_dv h') vl = Some VS' ->
  opened h' l (with_dvs X VS') c dl vl.
Proof.
  intros O T R'.
  pose proof (read_all_dvs _ _ _ (op_read_dvs _ _ _ _ _ _ O)) as Hdv.
  destruct O as [Hs Hd Hv Ht Hg Ha Hrd Hrv H1 H2 H3 H4 H5].
  assert (K : forall x o, h !! x = Some o -> is_dependent_variable o = false ->
                          h' !! x = Some o).
  { intros x o E Ho. eapply touches_only_lookup; eauto. eapply not_among_dvs; eauto. }
  constructor; simpl; auto.
  eapply read_all_mono; [|exact Hrd]. intros x d. eapply read_dimension_frame; eauto.
Qed.

(** The loop variable of [enumerate] when the body only uses the item. *)
Lemma for_each_enumerate {B} (body : loc -> M B) (items : list loc) (h : heap) :
  for_each (fun p : nat * loc => body p.2) (enumerate items) h = for_each body items h.
Proof.
  unfold enumerate. generalize 0 as n. revert h.
  induction items as [|y items IH]; intros h n; [reflexivity|].
  simpl. unfold bind. destruct (body y h) as [[b|e] h1]; [|reflexivity].
  rewrite IH. reflexivity.
Qed.

(** ** Arithmetic with a scalar or a quantity (C3, C4) *)

Lemma components_run (h : heap) y V :
  read_dv h y = Some V -> components y h = (Ok (dd_components V), h).
Proof.
  intros R. apply read_dv_inv in R as (v & Hv & Ha & _). unfold components.
  mstep (get_dv_ok _ _ _ Hv). now apply get_array_ok.
Qed.

Lemma set_components_run (h : heap) y v a :
  h !! y = Some (ODependentVariable v) ->
  set_components y a h =
    (Ok tt, <[y := ODependentVariable (dv_set_components v (length h))]> (h ++ [OArray a])).
Proof.
  intros Hv. unfold set_components. mstep (get_dv_ok _ _ _ Hv).
  mstep (alloc_run (OArray a) h). reflexivity.
Qed.

Lemma set_components_read (h : heap) y V a :
  read_dv h y = Some V ->
  exists h', set_components y a h = (Ok tt, h') /\
             read_dv h' y = Some (dd_with_components V a) /\
             touches_only [y] h h'.
Proof.
  intros R. apply read_dv_inv in R as (v & Hv & Ha & ->).
  pose proof (lookup_lt_Some _ _ _ Hv) as Hy.
  eexists. split; [apply set_components_run; eassumption|]. split.
  - unfold read_dv, read_array.
    rewrite list_lookup_insert_eq by (rewrite length_app; lia). simpl.
    rewrite list_lookup_insert_ne by lia. rewrite lookup_snoc. reflexivity.
  - split.
    + rewrite length_insert, length_app. lia.
    + intros x Hx Hn. rewrite list_lookup_insert_ne by (intros ->; apply Hn; now left).
      now apply lookup_app_l.
Qed.








Lemma opened_dv_addresses (h : heap) l X c dl vl :
  opened h l X c dl vl -> dv_addresses h l = Some vl.
Proof.
  intros O. unfold dv_addresses, read_slots, read_items.
  rewrite (op_slots _ _ _ _ _ _ O), (op_dvs _ _ _ _ _ _ O). reflexivity.
Qed.

Lemma distinct_variables_opened (h : heap) l X c dl vl :
  opened h l X c dl vl -> distinct_variables h l -> NoDup vl.
Proof.
  intros O (vl' & E & N). rewrite (opened_dv_addresses _ _ _ _ _ _ O) in E.
  now injection E as ->.
Qed.














(** ** numpy reductions *)

Lemma rmap_total {A B} (f : A -> result B) (g : A -> B) l :
  (forall x, f x = Ok (g x)) -> rmap f l = Ok (map g l).
Proof.
  intros H. induction l as [|x l IH]; simpl; [reflexivity|].
  rewrite H. simpl. rewrite IH. reflexivity.
Qed.

Lemma indices_length s : length (np.indices s) = np.prod s.
Proof.
  induction s as [|n s IH]; simpl; [reflexivity|].
  generalize 0 as k. induction n as [|n IHn]; intros k; simpl; [reflexivity|].
  rewrite length_app, length_map, IH, IHn. reflexivity.
Qed.

Lemma select_length_le keep mask s :
  length (np.select keep mask s) <= length s.
Proof.
  revert s. induction mask as [|m mask IH]; intros [|n s]; simpl; try lia.
  destruct (Bool.eqb m keep); simpl; specialize (IH s); lia.
Qed.

Lemma select_app keep m1 m2 s1 s2 :
  length m1 = length s1 ->
  np.select keep (m1 ++ m2) (s1 ++ s2) = np.select keep m1 s1 ++ np.select keep m2 s2.
Proof.
  revert s1. induction m1 as [|m m1 IH]; intros [|n s1] L; simpl in *; try discriminate.
  - reflexivity.
  - rewrite IH by lia. destruct (Bool.eqb m keep); reflexivity.
Qed.

Lemma select_nil_r keep mask : np.select keep mask [] = [].
Proof. destruct mask; reflexivity. Qed.

Lemma select_rev keep mask s :
  length mask = length s ->
  np.select keep (rev mask) (rev s) = rev (np.select keep mask s).
Proof.
  revert s. induction mask as [|m mask IH]; intros [|n s] L; simpl in *; try discriminate.
  - reflexivity.
  - rewrite select_app by (rewrite !length_rev; lia).
    rewrite IH by lia. simpl. destruct (Bool.eqb m keep); simpl.
    + reflexivity.
    + now rewrite app_nil_r.
Qed.

(** [drop_at] is the selection of the positions that are not listed. *)
Lemma drop_at_select (ns : list nat) (l : list nat) k :
  drop_at ns k l =
    np.select false (map (fun n => existsb (Nat.eqb n) ns) (seq k (length l))) l.
Proof.
  revert k. induction l as [|x l IH]; intros k; simpl; [reflexivity|].
  rewrite IH. destruct (existsb (Nat.eqb k) ns); reflexivity.
Qed.

Lemma rev_map_seq {A} (f : nat -> A) d :
  rev (map f (seq 0 d)) = map (fun k => f (d - k)) (seq 1 d).
Proof.
  induction d as [|d IH]; [reflexivity|].
  rewrite seq_S, map_app, rev_app_distr. simpl rev. simpl app.
  rewrite IH. cbn [seq map]. f_equal.
  - f_equal. lia.
  - rewrite <- (seq_shift d 1), map_map. apply map_ext. intros k. reflexivity.
Qed.

Lemma existsb_axis d ns k :
  Forall (fun n => n < d) ns -> 1 <= k <= d ->
  existsb (Nat.eqb k) (map (fun n => d - n) ns) = existsb (Nat.eqb (d - k)) ns.
Proof.
  intros F Hk. induction F as [|n ns Hn F IH]; cbn [existsb map]; [reflexivity|].
  rewrite IH. f_equal.
  destruct (Nat.eqb_spec k (d - n)), (Nat.eqb_spec (d - k) n); try reflexivity; lia.
Qed.

Lemma existsb_axis_0 d ns :
  Forall (fun n => n < d) ns ->
  existsb (Nat.eqb 0) (map (fun n => d - n) ns) = false.
Proof.
  intros F. induction F as [|n ns Hn F IH]; cbn [existsb map]; [reflexivity|].
  rewrite IH. destruct (Nat.eqb_spec 0 (d - n)); [lia | reflexivity].
Qed.

(** The shape that is left when the array axes of the dimensions [ns] are
    reduced. *)
Lemma kept_shape p counts ns :
  Forall (fun n => n < length counts) ns ->
  np.select false
    (np.axis_mask (S (length counts)) (map (fun n => length counts - n) ns))
    (p :: rev counts)
  = p :: rev (drop_at ns 0 counts).
Proof.
  intros F. set (d := length counts). unfold np.axis_mask.
  cbn [seq map]. rewrite (existsb_axis_0 d ns F). cbn [np.select Bool.eqb].
  f_equal. rewrite drop_at_select. fold d.
  rewrite <- select_rev by (rewrite length_map, length_seq; reflexivity).
  f_equal. rewrite rev_map_seq.
  apply map_ext_in. intros k Hk. apply in_seq in Hk.
  apply existsb_axis; [assumption | lia].
Qed.

Lemma has_dup_NoDup l : NoDup l -> np.has_dup l = false.
Proof.
  induction 1 as [|x l Hx N IH]; simpl; [reflexivity|].
  rewrite IH, orb_false_r.
  destruct (existsb (Nat.eqb x) l) eqn:E; [|reflexivity].
  apply existsb_exists in E as (y & Hy & Hxy). apply Nat.eqb_eq in Hxy. subst y.
  exfalso. apply Hx. now apply list_elem_of_In.
Qed.

Lemma normalized_lt d i : valid_index d i -> normalized d i < d.
Proof.
  unfold valid_index, normalized. intros H. destruct (Z.ltb_spec i 0); lia.
Qed.

Lemma normalize_array_axis d i :
  valid_index d i ->
  np.normalize_axis (S d) (array_axis d i) = Ok (d - normalized d i).
Proof.
  intros H. pose proof (normalized_lt d i H) as L.
  unfold np.normalize_axis, array_axis.
  destruct (Z.leb_spec (- Z.of_nat (S d)) (-1 - Z.of_nat (normalized d i))); [|lia].
  destruct (Z.ltb_spec (-1 - Z.of_nat (normalized d i)) (Z.of_nat (S d))); [|lia].
  simpl andb. cbv iota.
  destruct (Z.ltb_spec (-1 - Z.of_nat (normalized d i)) 0); [|lia].
  f_equal. lia.
Qed.

Lemma NoDup_map_sub d ns :
  Forall (fun n => n < d) ns -> NoDup ns -> NoDup (map (fun n => d - n) ns).
Proof.
  intros F N. induction N as [|n ns Hn N IH]; simpl; [constructor|].
  inversion F as [|? ? Hd F']; subst. constructor; [|auto].
  intros Hin. apply Hn. apply list_elem_of_In in Hin. apply in_map_iff in Hin as (m & Hm & Hin).
  assert (m < d). { rewrite Forall_forall in F'. apply F'. now apply list_elem_of_In. }
  assert (m = n) by lia. subst. now apply list_elem_of_In.
Qed.

Lemma normalize_array_axes d idx :
  Forall (valid_index d) idx ->
  NoDup (map (normalized d) idx) ->
  np.normalize_axes (S d) (map (array_axis d) idx) =
    Ok (map (fun n => d - n) (map (normalized d) idx)).
Proof.
  intros F N. unfold np.normalize_axes.
  assert (E : rmap (np.normalize_axis (S d)) (map (array_axis d) idx) =
              Ok (map (fun n => d - n) (map (normalized d) idx))).
  { clear N. induction F as [|i idx Hi F IH]; simpl; [reflexivity|].
    rewrite (normalize_array_axis d i Hi). simpl. rewrite IH. reflexivity. }
  rewrite E. simpl. rewrite has_dup_NoDup; [reflexivity|].
  apply NoDup_map_sub; [|assumption].
  clear N E. induction F; simpl; constructor; auto using normalized_lt.
Qed.

(** A reduction along the array axes of valid, distinct dimension indices:
    it succeeds when the aggregation of a lane does, and its result has the
    components axis and the axes of the other dimensions. *)
Lemma reduce_valid (lane : list Q -> result Q) (g : list Q -> Q) a p counts idx :
  (forall l, lane l = Ok (g l)) ->
  np.shape a = p :: rev counts ->
  Forall (valid_index (length counts)) idx ->
  NoDup (map (normalized (length counts)) idx) ->
  exists y,
    np.reduce lane a (Some (map (array_axis (length counts)) idx)) = Ok y /\
    np.shape y = p :: rev (drop_at (map (normalized (length counts)) idx) 0 counts) /\
    length (np.data y) = np.prod (np.shape y).
Proof.
  intros Hl Hs F N.
  assert (Hnd : np.ndim a = S (length counts)).
  { unfold np.ndim. rewrite Hs. simpl. rewrite length_rev. reflexivity. }
  unfold np.reduce. rewrite Hnd, (normalize_array_axes _ idx F N). cbn [rbind].
  rewrite Hs. rewrite kept_shape.
  2:{ clear N. induction F; simpl; constructor; auto using normalized_lt. }
  erewrite rmap_total by (intros o; apply Hl). cbn [rbind].
  eexists. split; [reflexivity|]. split; [reflexivity|].
  cbn [np.data np.shape]. rewrite length_map. apply indices_length.
Qed.

Lemma correct_index_valid d i :
  valid_index d i ->
  _correct_index (PyInt i) (Z.of_nat d) = Ok (array_axis d i).
Proof.
  intros H. unfold _correct_index, array_axis, normalized. unfold valid_index in H.
  destruct (Z.ltb_spec i 0).
  - destruct (Z.gtb_spec (i + Z.of_nat d) (Z.of_nat d)); [lia|]. f_equal. lia.
  - destruct (Z.gtb_spec i (Z.of_nat d)); [lia|]. f_equal. lia.
Qed.

(** The translation of valid dimension indices. *)
Lemma check_dimension_indices_valid d a idx :
  index_list a = Some idx ->
  Forall (valid_index d) idx ->
  _check_dimension_indices (Z.of_nat d) a = Ok (map (array_axis d) idx).
Proof.
  intros Hi F.
  assert (Hl : forall l idx, Forall (valid_index d) idx -> ints_of l = Some idx ->
                 rmap (fun item => _correct_index item (Z.of_nat d)) l =
                 Ok (map (array_axis d) idx)).
  { clear. intros l. induction l as [|[i|] l IH]; intros idx F E; simpl in E.
    - injection E as <-. reflexivity.
    - destruct (ints_of l) as [r|] eqn:Er; try discriminate. injection E as <-.
      inversion F; subst. cbn [rmap]. rewrite correct_index_valid by assumption.
      cbn [rbind]. rewrite (IH r) by auto. reflexivity.
    - discriminate. }
  destruct a; simpl in Hi; try discriminate; cbn [_check_dimension_indices]; auto.
  injection Hi as <-. inversion F; subst.
  rewrite correct_index_valid by assumption. reflexivity.
Qed.

(** ** The steps of a reduction *)

Lemma deepcopy_dimension_run (H : heap) x dim :
  read_dimension H x = Some dim ->
  deepcopy x H = (Ok (length H), H ++ [ODimension dim]).
Proof.
  intros R. apply read_dimension_inv in R. unfold deepcopy.
  change recursion_limit with (S 999).
  rewrite (bind_ok _ _ _ (length H, [(x, length H)]) (H ++ [ODimension dim])).
  - reflexivity.
  - rewrite (deepcopy_leaf_eq 999 H [] x (ODimension dim) R eq_refl). reflexivity.
Qed.

Lemma iadd_one_run (H : heap) l k items x :
  H !! l = Some (OAbstractList k items) ->
  AbstractList.__iadd__ l [x] H = (Ok tt, <[l := OAbstractList k (items ++ [x])]> H).
Proof.
  intros E. unfold AbstractList.__iadd__. cbn [for_each].
  unfold bind at 1. unfold bind at 1.
  rewrite (append_any _ _ _ _ x E). reflexivity.
Qed.

Lemma add_dimension_run (H : heap) self cs k cl c dim :
  H !! self = Some (OCSDM cs) ->
  H !! _dimensions cs = Some (OAbstractList k cl) ->
  H !! c = Some (ODimension dim) ->
  CSDMClass.add_dimension self c H =
    (Ok tt, <[_dimensions cs := OAbstractList k (cl ++ [c])]> H).
Proof.
  intros Hs Hd Hc. unfold CSDMClass.add_dimension.
  mstep (deref_ok _ _ _ Hc). cbn [is_dimension].
  mstep (dimensions_run _ _ _ Hs). now apply iadd_one_run.
Qed.

Lemma shape_run (H : heap) self Z c cl wl :
  opened H self Z c cl wl ->
  CSDMClass.shape self H = (Ok (map count (vw_dimensions Z)), H).
Proof.
  intros O. unfold CSDMClass.shape.
  mstep (dimensions_run _ _ _ (op_slots _ _ _ _ _ _ O)).
  mstep (get_items_ok _ _ _ _ (op_dims _ _ _ _ _ _ O)).
  pose proof (op_read_dims _ _ _ _ _ _ O) as R. apply read_all_Forall2 in R.
  clear O. induction R as [|x dim cl' ds Hx R IH]; [reflexivity|].
  cbn [for_each map]. apply read_dimension_inv in Hx.
  mstep (bind_ok _ (fun o => match o with
                             | ODimension d => ret (count d)
                             | _ => raise (AttributeError "object has no attribute 'count'")
                             end) _ _ _ (deref_ok _ _ _ Hx)).
  mstep IH. reflexivity.
Qed.

Lemma prod_cons n s : np.prod (n :: s) = n * np.prod s.
Proof. reflexivity. Qed.

Lemma prod_rev s : np.prod (rev s) = np.prod s.
Proof.
  induction s as [|n s IH]; [reflexivity|].
  simpl rev. unfold np.prod in *. rewrite fold_right_app. simpl.
  rewrite Nat.mul_1_r.
  assert (G : forall a l, fold_right Nat.mul a l = a * fold_right Nat.mul 1 l).
  { intros a l. induction l as [|m l IHl]; simpl; [lia|]. rewrite IHl. lia. }
  rewrite G, IH. lia.
Qed.

Lemma new_dependent_variable_run (H : heap) v V y p rest :
  read_dv H v = Some V ->
  np.shape y = p :: rest -> 0 < p ->
  length (np.data y) = np.prod (np.shape y) ->
  new_dependent_variable v y H =
    (Ok (dd_with_components V (np.mk [p; np.prod rest] (np.data y))), H).
Proof.
  intros R Hs Hp Hl. apply read_dv_inv in R as (dv & Hv & _ & ->).
  unfold new_dependent_variable. mstep (get_dv_ok _ _ _ Hv).
  unfold np.shape0, np.size_of_first, np.reshape. rewrite Hs.
  unfold lift, bind. destruct p as [|p]; [lia|].
  rewrite Hl, Hs. cbn [np.prod fold_right].
  match goal with
  | |- context [Nat.eqb ?a ?b] =>
      destruct (Nat.eqb_spec a b) as [_|Hne]; [reflexivity|]
  end.
  exfalso. apply Hne. unfold np.prod. lia.
Qed.

Lemma lookup_append_store (H k : heap) a o x ob :
  H !! x = Some ob -> x <> a -> (<[a := o]> (H ++ k)) !! x = Some ob.
Proof.
  intros E Hne. rewrite list_lookup_insert_ne by congruence. now apply lookup_app_old.
Qed.

Lemma read_all_app {A} (rd : loc -> option A) l1 l2 r1 r2 :
  read_all rd l1 = Some r1 -> read_all rd l2 = Some r2 ->
  read_all rd (l1 ++ l2) = Some (r1 ++ r2).
Proof.
  revert r1. induction l1 as [|x l1 IH]; intros r1; simpl.
  - intros [= <-]. auto.
  - destruct (rd x); try discriminate.
    destruct (read_all rd l1) as [q|] eqn:E; try discriminate.
    intros [= <-] R2. rewrite (IH _ eq_refl R2). reflexivity.
Qed.

(** Reading is not disturbed when objects are added at the end of the store
    and a typed list is replaced. *)
Lemma read_dimension_append_store (H k : heap) a cls items o x d :
  H !! a = Some (OAbstractList cls items) ->
  read_dimension H x = Some d ->
  read_dimension (<[a := o]> (H ++ k)) x = Some d.
Proof.
  intros Ha R. apply read_dimension_inv in R. unfold read_dimension.
  rewrite (lookup_append_store _ _ _ _ _ _ R) by congruence. reflexivity.
Qed.

Lemma read_dv_append_store (H k : heap) a cls items o x V :
  H !! a = Some (OAbstractList cls items) ->
  read_dv H x = Some V ->
  read_dv (<[a := o]> (H ++ k)) x = Some V.
Proof.
  intros Ha R. apply read_dv_inv in R as (v & Hv & Hc & Hd).
  unfold read_dv, read_array.
  rewrite (lookup_append_store _ _ _ _ _ _ Hv) by congruence.
  rewrite (lookup_append_store _ _ _ _ _ _ Hc) by congruence.
  now rewrite Hd.
Qed.

Lemma opened_add_dim (H : heap) self Z c cl wl dim :
  opened H self Z c cl wl ->
  opened (<[_dimensions c := OAbstractList DimensionListC (cl ++ [length H])]>
            (H ++ [ODimension dim]))
    self (with_dims Z (vw_dimensions Z ++ [dim])) c (cl ++ [length H]) wl.
Proof.
  intros [Hs Hd Hv Ht Hg Ha Hrd Hrv H1 H2 H3 H4 H5].
  pose proof (lookup_lt_Some _ _ _ Hd) as Ld.
  constructor; simpl; auto;
    try (apply lookup_append_store; [assumption | intros Heq; rewrite Heq in *; congruence]).
  - apply list_lookup_insert_eq. rewrite length_app. lia.
  - apply read_all_app.
    + eapply read_all_mono; [|exact Hrd].
      intros x d. eapply read_dimension_append_store; eauto.
    + simpl. unfold read_dimension.
      rewrite list_lookup_insert_ne by lia. rewrite lookup_snoc. reflexivity.
  - eapply read_all_mono; [|exact Hrv].
    intros x V. eapply read_dv_append_store; eauto.
Qed.

Lemma opened_add_dv (H : heap) self Z c cl wl arr v :
  opened H self Z c cl wl ->
  dv_components v = length H ->
  opened (<[_dependent_variables c :=
              OAbstractList DependentVariableListC (wl ++ [S (length H)])]>
            (H ++ [OArray arr; ODependentVariable v]))
    self (with_dvs Z (vw_dependent_variables Z ++ [dict_of v arr])) c cl
    (wl ++ [S (length H)]).
Proof.
  intros [Hs Hd Hv Ht Hg Ha Hrd Hrv H1 H2 H3 H4 H5] Hc.
  pose proof (lookup_lt_Some _ _ _ Hv) as Lv.
  constructor; simpl; auto;
    try (apply lookup_append_store; [assumption | intros Heq; rewrite Heq in *; congruence]).
  - apply list_lookup_insert_eq. rewrite length_app. lia.
  - eapply read_all_mono; [|exact Hrd].
    intros x d. eapply read_dimension_append_store; eauto.
  - apply read_all_app.
    + eapply read_all_mono; [|exact Hrv].
      intros x V. eapply read_dv_append_store; eauto.
    + simpl. unfold read_dv, read_array.
      rewrite list_lookup_insert_ne by lia.
      replace (S (length H)) with (length H + 1) by lia. rewrite lookup_app_add.
      simpl. rewrite Hc. rewrite list_lookup_insert_ne by lia.
      replace (length H) with (length H + 0) at 1 by lia. rewrite lookup_app_add.
      reflexivity.
Qed.

Lemma add_dependent_variable_run (H : heap) self Z c cl wl d :
  opened H self Z c cl wl ->
  length (np.data (dd_components d)) =
    np.prod (component_count (dd_quantity_type d) :: rev (map count (vw_dimensions Z))) ->
  CSDMClass.add_dependent_variable self d H =
    (Ok tt,
     <[_dependent_variables c :=
         OAbstractList DependentVariableListC (wl ++ [S (length H)])]>
       (H ++ [OArray (match map count (vw_dimensions Z) with
                      | [] => dd_components d
                      | _ :: _ =>
                          np.mk (component_count (dd_quantity_type d)
                                 :: rev (map count (vw_dimensions Z)))
                                (np.data (dd_components d))
                      end);
              ODependentVariable
                (mkDV "internal" (dd_description d) (dd_name d) (dd_unit d)
                   "base64" (dd_quantity_type d) (length H))])).
Proof.
  intros O Hl. unfold CSDMClass.add_dependent_variable.
  set (v0 := mkDV (dd_type d) (dd_description d) (dd_name d) (dd_unit d)
               (dd_encoding d) (dd_quantity_type d) (length H)).
  set (v1 := mkDV "internal" (dd_description d) (dd_name d) (dd_unit d)
               "base64" (dd_quantity_type d) (length H)).
  set (H1 := H ++ [OArray (dd_components d); ODependentVariable v0]).
  assert (E1 : CSDMClass.DependentVariable_new d H = (Ok (S (length H)), H1)).
  { unfold CSDMClass.DependentVariable_new, bind, alloc. rewrite length_app. simpl.
    rewrite <- app_assoc. f_equal. f_equal. lia. }
  mstep E1.
  assert (L1 : (H1 : heap) !! S (length H) = Some (ODependentVariable v0)).
  { unfold H1. replace (S (length H)) with (length H + 1) by lia.
    now rewrite lookup_app_add. }
  mstep (get_dv_ok _ _ _ L1).
  set (H2 := H ++ [OArray (dd_components d); ODependentVariable v1]).
  assert (E2 : store (S (length H)) (ODependentVariable v1) H1 = (Ok tt, H2)).
  { unfold store, H1, H2. f_equal.
    replace (S (length H)) with (length H + 1) by lia. rewrite insert_app_r. reflexivity. }
  change (mkDV "internal" (dv_description v0) (dv_name v0) (dv_unit v0) "base64"
            (dv_quantity_type v0) (dv_components v0)) with v1.
  mstep E2.
  assert (O2 : opened H2 self Z c cl wl).
  { eapply opened_grows; [apply grows_app | exact O]. }
  mstep (shape_run _ _ _ _ _ _ O2).
  assert (L2v : (H2 : heap) !! S (length H) = Some (ODependentVariable v1)).
  { unfold H2. replace (S (length H)) with (length H + 1) by lia.
    now rewrite lookup_app_add. }
  assert (L2a : (H2 : heap) !! length H = Some (OArray (dd_components d))).
  { unfold H2. replace (length H) with (length H + 0) at 1 by lia.
    now rewrite lookup_app_add. }
  destruct (map count (vw_dimensions Z)) as [|n s] eqn:Es.
  - mstep (eq_refl : ret tt H2 = (Ok tt, H2)).
    mstep (dependent_variables_run _ _ _ (op_slots _ _ _ _ _ _ O2)).
    rewrite (iadd_one_run _ _ _ _ (S (length H)) (op_dvs _ _ _ _ _ _ O2)).
    reflexivity.
  - set (r := np.mk (component_count (dd_quantity_type d) :: rev (n :: s))
                (np.data (dd_components d))).
    set (H3 := H ++ [OArray r; ODependentVariable v1]).
    assert (E3 : CSDMClass._reshape (S (length H)) (rev (n :: s)) H2 = (Ok tt, H3)).
    { unfold CSDMClass._reshape. mstep (get_dv_ok _ _ _ L2v).
      mstep (get_array_ok _ _ _ L2a).
      assert (Er : np.reshape (dd_components d)
                     (component_count (dv_quantity_type v1) :: rev (n :: s)) = Ok r).
      { unfold np.reshape. rewrite Hl. simpl dv_quantity_type.
        rewrite Nat.eqb_refl. reflexivity. }
      unfold lift. unfold bind at 1. rewrite Er.
      unfold store, H2, H3. f_equal. simpl dv_components.
      replace (length H) with (length H + 0) at 1 by lia. rewrite insert_app_r.
      reflexivity. }
    mstep E3.
    assert (O3 : opened H3 self Z c cl wl).
    { eapply opened_grows; [apply grows_app | exact O]. }
    mstep (dependent_variables_run _ _ _ (op_slots _ _ _ _ _ _ O3)).
    rewrite (iadd_one_run _ _ _ _ (S (length H)) (op_dvs _ _ _ _ _ _ O3)).
    reflexivity.
Qed.

(** ** The loops of a reduction *)

Lemma with_dims_same Z : with_dims Z (vw_dimensions Z) = Z.
Proof. destruct Z; reflexivity. Qed.

Lemma with_dvs_same Z : with_dvs Z (vw_dependent_variables Z) = Z.
Proof. destruct Z; reflexivity. Qed.

Lemma existsb_array_axis d idx i :
  existsb (Z.eqb (-1 - Z.of_nat i)) (map (array_axis d) idx) =
  existsb (Nat.eqb i) (map (normalized d) idx).
Proof.
  induction idx as [|j idx IH]; simpl; [reflexivity|].
  rewrite IH. f_equal. unfold array_axis.
  destruct (Z.eqb_spec (-1 - Z.of_nat i) (-1 - Z.of_nat (normalized d j)));
    destruct (Nat.eqb_spec i (normalized d j)); try reflexivity; lia.
Qed.

Lemma drop_at_map {A B} (f : A -> B) ns k (l : list A) :
  map f (drop_at ns k l) = drop_at ns k (map f l).
Proof.
  revert k. induction l as [|x l IH]; intros k; simpl; [reflexivity|].
  destruct (existsb (Nat.eqb k) ns); simpl; now rewrite IH.
Qed.

(** The loop over the dimensions copies the dimensions that are kept into
    the new container, in their order. *)
Lemma reduce_dimensions_loop (h : heap) new cN t ns :
  (forall i, existsb (Z.eqb (-1 - Z.of_nat i)) t = existsb (Nat.eqb i) ns) ->
  length h <= _dimensions cN ->
  forall l dims k (H : heap) Z cl wl,
    read_all (read_dimension h) l = Some dims ->
    grows h H ->
    opened H new Z cN cl wl ->
    exists r H' cl',
      for_each (fun p : nat * loc =>
          if existsb (Z.eqb (-1 - Z.of_nat p.1)) t then ret tt
          else c <- deepcopy p.2 ;; CSDMClass.add_dimension new c)
        (combine (seq k (length l)) l) H = (Ok r, H') /\
      grows h H' /\
      opened H' new (with_dims Z (vw_dimensions Z ++ drop_at ns k dims)) cN cl' wl.
Proof.
  intros Hex Hn. induction l as [|x l IH]; intros dims k H Z cl wl R G O.
  - simpl in R. injection R as <-. exists [], H, cl. split; [reflexivity|].
    split; [assumption|]. simpl. rewrite app_nil_r, with_dims_same. assumption.
  - simpl in R. destruct (read_dimension h x) as [d|] eqn:Ex; try discriminate.
    destruct (read_all (read_dimension h) l) as [dims'|] eqn:El; try discriminate.
    injection R as <-.
    cbn [length seq combine for_each drop_at]. cbv beta. cbn [fst snd].
    rewrite Hex. destruct (existsb (Nat.eqb k) ns) eqn:Ek.
    + destruct (IH dims' (S k) H Z cl wl eq_refl G O) as (r & H' & cl' & E & G' & O').
      exists (tt :: r), H', cl'. split; [|split; assumption].
      mstep (eq_refl : ret tt H = (Ok tt, H)). mstep E. reflexivity.
    + pose proof (read_dimension_grows _ _ _ _ G Ex) as Ex'.
      pose proof (deepcopy_dimension_run _ _ _ Ex') as E1.
      set (H1 := H ++ [ODimension d]) in *.
      assert (G1 : grows H H1) by apply grows_app.
      assert (E2 : CSDMClass.add_dimension new (length H) H1 =
                   (Ok tt, <[_dimensions cN :=
                               OAbstractList DimensionListC (cl ++ [length H])]> H1)).
      { apply add_dimension_run with (dim := d).
        - eapply grows_lookup; [exact G1 | apply (op_slots _ _ _ _ _ _ O)].
        - eapply grows_lookup; [exact G1 | apply (op_dims _ _ _ _ _ _ O)].
        - unfold H1. apply lookup_snoc. }
      pose proof (opened_add_dim _ _ _ _ _ _ d O) as O2. fold H1 in O2.
      assert (G2 : grows h (<[_dimensions cN :=
                               OAbstractList DimensionListC (cl ++ [length H])]> H1)).
      { apply grows_insert; [|assumption]. eapply grows_trans; eauto. }
      destruct (IH dims' (S k) _ _ _ _ eq_refl G2 O2) as (r & H' & cl' & E & G' & O').
      exists (tt :: r), H', cl'. split; [|split; [assumption|]].
      * assert (E12 : (c <- deepcopy x ;; CSDMClass.add_dimension new c)%py H =
                      (Ok tt, <[_dimensions cN :=
                                  OAbstractList DimensionListC (cl ++ [length H])]> H1)).
        { mstep E1. exact E2. }
        mstep E12. mstep E. reflexivity.
      * replace (with_dims Z (vw_dimensions Z ++ d :: drop_at ns (S k) dims'))
          with (with_dims (with_dims Z (vw_dimensions Z ++ [d]))
                  (vw_dimensions (with_dims Z (vw_dimensions Z ++ [d]))
                   ++ drop_at ns (S k) dims')); [assumption|].
        unfold with_dims. simpl. rewrite <- app_assoc. reflexivity.
Qed.

(** The loop over the dependent variables attaches one reduced dependent
    variable per dependent variable of the original. *)
Lemma reduce_variables_loop (lane : list Q -> result Q) (h : heap) new cN t
    (counts kept : list nat) :
  (forall V, on_grid counts V ->
     exists y, np.reduce lane (dd_components V) (Some t) = Ok y /\
               np.shape y = component_count (dd_quantity_type V) :: rev kept /\
               length (np.data y) = np.prod (np.shape y)) ->
  length h <= _dependent_variables cN ->
  forall vl Vs (H : heap) Z cl wl,
    read_all (read_dv h) vl = Some Vs ->
    Forall (on_grid counts) Vs ->
    map count (vw_dimensions Z) = kept ->
    grows h H ->
    opened H new Z cN cl wl ->
    exists r H' wl' Ws,
      for_each (fun variable =>
          a <- components variable ;;
          y <- lift (np.reduce lane a (Some t)) ;;
          y <- write_out None y ;;
          match Some t with
          | Some _ =>
              nd <- new_dependent_variable variable y ;;
              CSDMClass.add_dependent_variable new nd ;;;
              ret y
          | None => ret y
          end)
        vl H = (Ok r, H') /\
      grows h H' /\
      opened H' new (with_dvs Z (vw_dependent_variables Z ++ Ws)) cN cl wl' /\
      Forall2 (reduced_variable lane t kept) Vs Ws.
Proof.
  intros Hred Hn. induction vl as [|x vl IH]; intros Vs H Z cl wl R F K G O.
  - simpl in R. injection R as <-. exists [], H, wl, []. split; [reflexivity|].
    split; [assumption|]. split; [|constructor].
    rewrite app_nil_r, with_dvs_same. assumption.
  - simpl in R. destruct (read_dv h x) as [V|] eqn:Ex; try discriminate.
    destruct (read_all (read_dv h) vl) as [Vs'|] eqn:El; try discriminate.
    injection R as <-. inversion F as [|? ? FV F']; subst.
    destruct (Hred V FV) as (y & Ey & Sy & Ly).
    pose proof (read_dv_grows _ _ _ _ G Ex) as Ex'.
    destruct FV as (Hp & _ & _).
    set (p := component_count (dd_quantity_type V)) in *.
    set (kept := map count (vw_dimensions Z)) in *.
    set (nd := dd_with_components V (np.mk [p; np.prod (rev kept)] (np.data y))).
    assert (E3 : new_dependent_variable x y H = (Ok nd, H)).
    { apply new_dependent_variable_run; assumption. }
    assert (Ln : length (np.data (dd_components nd)) =
                 np.prod (component_count (dd_quantity_type nd)
                          :: rev (map count (vw_dimensions Z)))).
    { simpl. rewrite Ly, Sy. reflexivity. }
    pose proof (add_dependent_variable_run _ _ _ _ _ _ nd O Ln) as E4.
    set (arr := match map count (vw_dimensions Z) with
                | [] => dd_components nd
                | _ :: _ =>
                    np.mk (component_count (dd_quantity_type nd)
                           :: rev (map count (vw_dimensions Z)))
                          (np.data (dd_components nd))
                end) in *.
    set (v := mkDV "internal" (dd_description nd) (dd_name nd) (dd_unit nd)
                "base64" (dd_quantity_type nd) (length H)) in *.
    set (H2 := <[_dependent_variables cN :=
                   OAbstractList DependentVariableListC (wl ++ [S (length H)])]>
                 (H ++ [OArray arr; ODependentVariable v])) in *.
    pose proof (opened_add_dv _ _ _ _ _ _ arr v O eq_refl) as O2. fold H2 in O2.
    assert (G2 : grows h H2).
    { apply grows_insert; [|assumption]. eapply grows_trans; [exact G | apply grows_app]. }
    destruct (IH Vs' H2 (with_dvs Z (vw_dependent_variables Z ++ [dict_of v arr]))
                cl _ eq_refl F' eq_refl G2 O2)
      as (r & H' & wl' & Ws & E & G' & O' & F2).
    exists (y :: r), H', wl', (dict_of v arr :: Ws).
    split; [|split; [assumption|split]].
    + cbn [for_each]. 
      assert (Ebody : (a <- components x ;;
                       y0 <- lift (np.reduce lane a (Some t)) ;;
                       y1 <- write_out None y0 ;;
                       match Some t with
                       | Some _ =>
                           nd0 <- new_dependent_variable x y1 ;;
                           CSDMClass.add_dependent_variable new nd0 ;;;
                           ret y1
                       | None => ret y1
                       end)%py H = (Ok y, H2)).
      { mstep (components_run _ _ _ Ex').
        mstep (eq_refl : lift (Ok y) H = (Ok y, H)) || 
          (rewrite Ey; mstep (eq_refl : lift (Ok y) H = (Ok y, H))).
        mstep (eq_refl : write_out None y H = (Ok y, H)).
        cbv iota. mstep E3. mstep E4. reflexivity. }
      mstep Ebody. mstep E. reflexivity.
    + replace (with_dvs Z (vw_dependent_variables Z ++ dict_of v arr :: Ws))
        with (with_dvs (with_dvs Z (vw_dependent_variables Z ++ [dict_of v arr]))
                (vw_dependent_variables
                   (with_dvs Z (vw_dependent_variables Z ++ [dict_of v arr])) ++ Ws));
        [assumption|].
      unfold with_dvs. simpl. rewrite <- app_assoc. reflexivity.
    + constructor; [|assumption].
      exists y. split; [assumption|]. split; [assumption|]. split; [assumption|].
      unfold arr, kept, nd. destruct (map count (vw_dimensions Z)); simpl; tauto.
Qed.

(** The container that [CSDM()] makes. *)
Lemma new_opened (h : heap) :
  opened (h ++ [ OCSDM (mkCSDM (length h + 4) (length h + 5) (length h + 1) false
                          "1.0" "" (length h + 2) "" (length h + 3) "");
                 OStrList []; ODict ∅; ODict ∅;
                 OAbstractList DimensionListC [];
                 OAbstractList DependentVariableListC [] ])
    (length h) (new_view [] [])
    (mkCSDM (length h + 4) (length h + 5) (length h + 1) false
       "1.0" "" (length h + 2) "" (length h + 3) "") [] [].
Proof.
  constructor; simpl; try reflexivity; try (rewrite lookup_app_add; reflexivity).
  replace (length h) with (length h + 0) at 1 by lia.
  rewrite lookup_app_add. reflexivity.
Qed.

Lemma reduction_function_listed func :
  In func __function_reduction_list__ ->
  existsb (np_function_eqb func) __function_reduction_list__ = true.
Proof.
  intros H. apply existsb_exists. exists func. split; [assumption|].
  simpl in H. intuition (subst; reflexivity).
Qed.

(** A reduction along dimension indices. *)
Lemma reduction_run (lane : np_function -> list Q -> result Q) (g : list Q -> Q)
    func (h : heap) csdm X a idx :
  (forall l, lane func l = Ok (g l)) ->
  read_csdm h csdm = Some X ->
  grid_invariant X ->
  index_list a = Some idx ->
  Forall (valid_index (length (vw_dimensions X))) idx ->
  NoDup (map (normalized (length (vw_dimensions X))) idx) ->
  exists h' Ws,
    _get_new_csdm_object_after_dimension_reduction_func lane func csdm
      (AxisKeyword a) None h = (Ok (Container (length h)), h') /\
    grows h h' /\
    read_csdm h' (length h) =
      Some (new_view
              (drop_at (map (normalized (length (vw_dimensions X))) idx) 0
                 (vw_dimensions X)) Ws) /\
    Forall2 (reduced_variable (lane func)
               (map (array_axis (length (vw_dimensions X))) idx)
               (map count
                  (drop_at (map (normalized (length (vw_dimensions X))) idx) 0
                     (vw_dimensions X))))
      (vw_dependent_variables X) Ws.
Proof.
  intros Hl R GI Hi Hv Hn.
  destruct (read_csdm_open _ _ _ R) as (c & dl & vl & O).
  set (d := length (vw_dimensions X)) in *.
  set (t := map (array_axis d) idx).
  set (ns := map (normalized d) idx) in *.
  pose proof (read_all_length _ _ _ (op_read_dims _ _ _ _ _ _ O)) as Ld.
  set (cN := mkCSDM (length h + 4) (length h + 5) (length h + 1) false
               "1.0" "" (length h + 2) "" (length h + 3) "").
  set (H1 := h ++ [ OCSDM cN; OStrList []; ODict ∅; ODict ∅;
                    OAbstractList DimensionListC [];
                    OAbstractList DependentVariableListC [] ]).
  pose proof (new_opened h) as ON. fold cN in ON. fold H1 in ON.
  assert (G1 : grows h H1) by apply grows_app.
  pose proof (opened_grows _ _ _ _ _ _ _ G1 O) as O1.
  destruct (reduce_dimensions_loop h (length h) cN t ns
              (existsb_array_axis d idx) ltac:(simpl; lia)
              dl (vw_dimensions X) 0 H1 _ _ _
              (op_read_dims _ _ _ _ _ _ O) G1 ON)
    as (r2 & H2 & cl2 & E2 & G2 & O2).
  simpl vw_dimensions in O2. simpl app in O2.
  set (kept := map count (drop_at ns 0 (vw_dimensions X))).
  assert (Hred : forall V, on_grid (map count (vw_dimensions X)) V ->
            exists y, np.reduce (lane func) (dd_components V) (Some t) = Ok y /\
                      np.shape y = component_count (dd_quantity_type V) :: rev kept /\
                      length (np.data y) = np.prod (np.shape y)).
  { intros V (_ & Sv & _).
    destruct (reduce_valid (lane func) g (dd_components V)
                (component_count (dd_quantity_type V))
                (map count (vw_dimensions X)) idx Hl Sv)
      as (y & Ey & Sy & Ly).
    - rewrite length_map. exact Hv.
    - rewrite length_map. exact Hn.
    - rewrite length_map in Ey, Sy. exists y. split; [exact Ey|]. split; [|exact Ly].
      rewrite Sy. unfold kept. rewrite drop_at_map. reflexivity. }
  destruct (reduce_variables_loop (lane func) h (length h) cN t
              (map count (vw_dimensions X)) kept Hred ltac:(simpl; lia)
              vl (vw_dependent_variables X) H2
              (with_dims (new_view [] []) (drop_at ns 0 (vw_dimensions X))) cl2 []
              (op_read_dvs _ _ _ _ _ _ O) GI eq_refl G2 O2)
    as (r3 & H3 & wl3 & Ws & E3 & G3 & O3 & F3).
  exists H3, Ws. split; [|split; [assumption|split; [|assumption]]].
  - unfold _get_new_csdm_object_after_dimension_reduction_func.
    match goal with
    | |- bind ?m _ _ = _ => assert (E0 : m h = (Ok (Some t), h))
    end.
    { assert (E : (dims <- CSDMClass.dimensions csdm ;;
                   d0 <- AbstractList.__len__ dims ;;
                   t0 <- lift (_check_dimension_indices (Z.of_nat d0) a) ;;
                   ret (Some t0))%py h = (Ok (Some t), h)).
      { mstep (dimensions_run _ _ _ (op_slots _ _ _ _ _ _ O)).
        mstep (len_ok _ _ _ _ (op_dims _ _ _ _ _ _ O)).
        rewrite Ld. fold d.
        rewrite (check_dimension_indices_valid d a idx Hi Hv). reflexivity. }
      destruct a; try discriminate; exact E. }
    mstep E0.
    mstep (eq_refl : _check_for_out csdm None h = (Ok tt, h)).
    mstep (new_run h). fold cN. fold H1.
    match goal with
    | |- bind ?m _ _ = _ => assert (Ed : m H1 = (Ok tt, H2))
    end.
    { mstep (dimensions_run _ _ _ (op_slots _ _ _ _ _ _ O1)).
      mstep (get_items_ok _ _ _ _ (op_dims _ _ _ _ _ _ O1)).
      unfold enumerate. mstep E2. reflexivity. }
    mstep Ed.
    assert (O2' : opened H2 csdm X c dl vl) by (eapply opened_grows; eauto).
    mstep (dependent_variables_run _ _ _ (op_slots _ _ _ _ _ _ O2')).
    mstep (get_items_ok _ _ _ _ (op_dvs _ _ _ _ _ _ O2')).
    mstep E3. reflexivity.
  - apply (opened_read _ _ _ _ _ _ O3).
Qed.

(** Without an axis the loop over the dependent variables leaves the store
    as it is and gathers one aggregate per dependent variable. *)
Lemma plain_loop (lane : list Q -> result Q) (g : list Q -> Q) new (H : heap) :
  (forall l, lane l = Ok (g l)) ->
  forall vl Vs,
    read_all (read_dv H) vl = Some Vs ->
    for_each (fun variable =>
        a <- components variable ;;
        y <- lift (np.reduce lane a None) ;;
        y <- write_out None y ;;
        match (None : option (list Z)) with
        | Some _ =>
            nd <- new_dependent_variable variable y ;;
            CSDMClass.add_dependent_variable new nd ;;;
            ret y
        | None => ret y
        end)
      vl H
    = (Ok (map (fun V => np.mk [] [g (np.data (dd_components V))]) Vs), H).
Proof.
  intros Hl. induction vl as [|x vl IH]; intros Vs R.
  - simpl in R. injection R as <-. reflexivity.
  - simpl in R. destruct (read_dv H x) as [V|] eqn:Ex; try discriminate.
    destruct (read_all (read_dv H) vl) as [Vs'|] eqn:El; try discriminate.
    injection R as <-. cbn [for_each map].
    assert (Ebody : (a <- components x ;;
                     y <- lift (np.reduce lane a None) ;;
                     y0 <- write_out None y ;;
                     match (None : option (list Z)) with
                     | Some _ =>
                         nd <- new_dependent_variable x y0 ;;
                         CSDMClass.add_dependent_variable new nd ;;;
                         ret y0
                     | None => ret y0
                     end)%py H
                    = (Ok (np.mk [] [g (np.data (dd_components V))]), H)).
    { mstep (components_run _ _ _ Ex). unfold np.reduce. rewrite Hl. reflexivity. }
    mstep Ebody. mstep (IH Vs' eq_refl). reflexivity.
Qed.

(** A reduction without an axis. *)
Lemma reduction_plain_run (lane : np_function -> list Q -> result Q)
    (g : list Q -> Q) func (h : heap) csdm X ax :
  (forall l, lane func l = Ok (g l)) ->
  read_csdm h csdm = Some X ->
  ax = AxisAbsent \/ ax = AxisKeyword ArgNone ->
  exists h',
    _get_new_csdm_object_after_dimension_reduction_func lane func csdm ax None h
    = (Ok (PlainList (map (fun V => np.mk [] [g (np.data (dd_components V))])
                        (vw_dependent_variables X))), h') /\
    grows h h'.
Proof.
  intros Hl R Hax.
  destruct (read_csdm_open _ _ _ R) as (c & dl & vl & O).
  set (H1 := h ++ [ OCSDM (mkCSDM (length h + 4) (length h + 5) (length h + 1) false
                             "1.0" "" (length h + 2) "" (length h + 3) "");
                    OStrList []; ODict ∅; ODict ∅;
                    OAbstractList DimensionListC [];
                    OAbstractList DependentVariableListC [] ]).
  assert (G1 : grows h H1) by apply grows_app.
  pose proof (opened_grows _ _ _ _ _ _ _ G1 O) as O1.
  exists H1. split; [|assumption].
  unfold _get_new_csdm_object_after_dimension_reduction_func.
  match goal with
  | |- bind ?m _ _ = _ => assert (E0 : m h = (Ok None, h))
  end.
  { destruct Hax as [-> | ->]; reflexivity. }
  mstep E0.
  mstep (eq_refl : _check_for_out csdm None h = (Ok tt, h)).
  mstep (new_run h). fold H1. cbv iota.
  mstep (eq_refl : ret tt H1 = (Ok tt, H1)).
  mstep (dependent_variables_run _ _ _ (op_slots _ _ _ _ _ _ O1)).
  mstep (get_items_ok _ _ _ _ (op_dvs _ _ _ _ _ _ O1)).
  mstep (plain_loop (lane func) g (length h) H1 Hl vl _ (op_read_dvs _ _ _ _ _ _ O1)).
  reflexivity.
Qed.

(** C2.  A reducing function ([max], [min], [sum], [mean], [var], [std],
    [prod]) called on a container with one or more valid, distinct dimension
    indices returns a new container: its dimensions are those of the
    original without the dimensions at the indices, in their order, and each
    of its dependent variables holds the components of the original reduced
    along the array axes [-1 - index] (the components store the dimensions
    in reverse order behind the component axis); the original is not
    changed.  In particular, over dimensions of counts 3 and 4 with one
    scalar dependent variable, index 0 leaves the one dimension of count 4
    and components of length 4.  Without an axis the call returns a list of
    plain arrays, one aggregate over all the components per dependent
    variable, and no container.  The components are taken to follow the
    invariant of the data model, shape [(p,) + reversed(counts)]; the
    aggregate of a lane of numbers is left to the function [g]. *)
Theorem reduction_removes_dimensions :
  forall (lane : np_function -> list Q -> result Q)
         (af : np_function -> option (list Z) -> np.ndarray -> result np.ndarray)
         (g : list Q -> Q) (func : np_function) (h : heap) (csdm : loc)
         (X : csdm_view),
    In func __function_reduction_list__ ->
    (forall l, lane func l = Ok (g l)) ->
    read_csdm h csdm = Some X ->
    (grid_invariant X ->
     (forall a idx,
        index_list a = Some idx ->
        Forall (valid_index (length (vw_dimensions X))) idx ->
        NoDup (map (normalized (length (vw_dimensions X))) idx) ->
        exists h' Ws,
          reduce_method lane af func csdm a h = (Ok (Container (length h)), h') /\
          grows h h' /\
          read_csdm h' csdm = Some X /\
          read_csdm h' (length h) =
            Some (new_view
                    (drop_at (map (normalized (length (vw_dimensions X))) idx) 0
                       (vw_dimensions X)) Ws) /\
          Forall2 (reduced_variable (lane func)
                     (map (array_axis (length (vw_dimensions X))) idx)
                     (map count
                        (drop_at (map (normalized (length (vw_dimensions X))) idx) 0
                           (vw_dimensions X))))
            (vw_dependent_variables X) Ws) /\
     (forall V,
        map count (vw_dimensions X) = [3; 4] ->
        vw_dependent_variables X = [V] ->
        dd_quantity_type V = scalar ->
        exists h' D W,
          reduce_method lane af func csdm (ArgInt 0) h
            = (Ok (Container (length h)), h') /\
          read_csdm h' (length h) = Some (new_view [D] [W]) /\
          vw_dimensions X !! 1 = Some D /\ count D = 4 /\
          np.shape (dd_components W) = [1; 4] /\
          length (np.data (dd_components W)) = 4)) /\
    (forall ax,
       ax = AxisAbsent \/ ax = AxisKeyword ArgNone ->
       exists h',
         __array_function__ lane af csdm func ax None None h
         = (Ok (PlainList (map (fun V => np.mk [] [g (np.data (dd_components V))])
                             (vw_dependent_variables X))), h') /\
         grows h h' /\ read_csdm h' csdm = Some X).
Proof.
  intros lane af g func h csdm X Hf Hl R.
  pose proof (reduction_function_listed _ Hf) as Ef.
  assert (General : grid_invariant X ->
    forall a idx,
      index_list a = Some idx ->
      Forall (valid_index (length (vw_dimensions X))) idx ->
      NoDup (map (normalized (length (vw_dimensions X))) idx) ->
      exists h' Ws,
        reduce_method lane af func csdm a h = (Ok (Container (length h)), h') /\
        grows h h' /\
        read_csdm h' csdm = Some X /\
        read_csdm h' (length h) =
          Some (new_view
                  (drop_at (map (normalized (length (vw_dimensions X))) idx) 0
                     (vw_dimensions X)) Ws) /\
        Forall2 (reduced_variable (lane func)
                   (map (array_axis (length (vw_dimensions X))) idx)
                   (map count
                      (drop_at (map (normalized (length (vw_dimensions X))) idx) 0
                         (vw_dimensions X))))
          (vw_dependent_variables X) Ws).
  { intros GI a idx Hi Hv Hn.
    destruct (reduction_run lane g func h csdm X a idx Hl R GI Hi Hv Hn)
      as (h' & Ws & E & G & Rn & F).
    exists h', Ws. split; [|split; [assumption|split; [|split; assumption]]].
    - unfold reduce_method, __array_function__. rewrite Ef. exact E.
    - eapply read_csdm_grows; eauto. }
  split; [intros GI; split; [exact (General GI)|]|].
  - intros V Hc Hvs Hq.
    destruct (vw_dimensions X) as [|D1 [|D2 [|D3 ds]]] eqn:Ed; try discriminate.
    injection Hc as C1 C2.
    destruct (General GI (ArgInt 0) [0%Z] eq_refl) as (h' & Ws & E & _ & _ & Rn & F).
    { constructor; [|constructor]. unfold valid_index. simpl. lia. }
    { apply NoDup_singleton. }
    rewrite Hvs in F. inversion F as [|V0 W l l' HW F' EV EW]; subst.
    inversion F'; subst.
    exists h', D2, W. split; [exact E|]. split; [exact Rn|].
    split; [reflexivity|]. split; [assumption|].
    destruct HW as (y & _ & Sy & Ly & Dy & Sw & _).
    rewrite Hq in Sy, Sw. simpl in Sy, Sw. rewrite C2 in Sy, Sw. simpl in Sy, Sw.
    split; [exact Sw|]. rewrite Dy, Ly, Sy. reflexivity.
  - intros ax Hax.
    destruct (reduction_plain_run lane g func h csdm X ax Hl R Hax) as (h' & E & G).
    exists h'. split; [|split; [assumption|eapply read_csdm_grows; eauto]].
    unfold __array_function__. rewrite Ef. exact E.
Qed.

(** The witness of C2: the sum along dimension 0 of the container over
    dimensions of counts 3 and 4. *)
Lemma reduction_removes_dimensions_witness :
  exists h' D W,
    reduce_method lane_sum (fun _ _ a => Ok a) np_sum 0 (ArgInt 0) grid_3_4
      = (Ok (Container 10), h') /\
    read_csdm h' 10 = Some (new_view [D] [W]) /\
    count D = 4 /\
    np.shape (dd_components W) = [1; 4] /\
    length (np.data (dd_components W)) = 4.
Proof.
  destruct (reduction_removes_dimensions lane_sum (fun _ _ a => Ok a)
              (fold_right Qplus 0%Q) np_sum grid_3_4 0 _
              ltac:(simpl; tauto) (fun l => eq_refl) eq_refl) as [HG _].
  destruct HG as [_ H34].
  - constructor; [|constructor]. split; [simpl; lia|]. split; reflexivity.
  - destruct (H34 _ eq_refl eq_refl eq_refl) as (h' & D & W & E & Rn & _ & HD & HS & HL).
    exists h', D, W. repeat split; assumption.
Defined.

(** * Further properties of the code *)

(** ** AbstractList: insertion, appending and indexing *)

Lemma py_index_neg n (i : Z) :
  (- Z.of_nat n <= i < 0)%Z -> py_index n i = Some (Z.to_nat (i + Z.of_nat n)).
Proof.
  intros H. unfold py_index.
  destruct (Z.leb_spec 0 i); [lia|]. simpl.
  destruct (Z.ltb_spec i 0); [|lia].
  destruct (Z.leb_spec (- Z.of_nat n) i); [|lia]. reflexivity.
Qed.

Lemma py_index_out n (i : Z) :
  (i < - Z.of_nat n \/ Z.of_nat n <= i)%Z -> py_index n i = None.
Proof.
  intros H. unfold py_index.
  destruct (Z.leb_spec 0 i); destruct (Z.ltb_spec i (Z.of_nat n));
    destruct (Z.ltb_spec i 0); destruct (Z.leb_spec (- Z.of_nat n) i);
    simpl; try reflexivity; lia.
Qed.

Lemma getitem_ok (h : heap) l c items i k x :
  h !! l = Some (OAbstractList c items) ->
  py_index (length items) i = Some k ->
  items !! k = Some x ->
  AbstractList.__getitem__ l i h = (Ok x, h).
Proof.
  intros E P L. unfold AbstractList.__getitem__.
  mstep (get_items_ok _ _ _ _ E). rewrite P, L. reflexivity.
Qed.

Lemma insert_run (h : heap) l c items i x :
  h !! l = Some (OAbstractList c items) ->
  AbstractList.insert l i x h =
    (Ok tt,
     <[l := OAbstractList c
              (list_insert_at (py_insert_pos (length items) i) x items)]> h).
Proof.
  intros E. unfold AbstractList.insert.
  mstep (get_list_ok _ _ _ _ E). reflexivity.
Qed.

Lemma stored_lookup (h : heap) l o o' : h !! l = Some o -> (<[l := o']> h) !! l = Some o'.
Proof. intros E. apply list_lookup_insert_eq. eapply lookup_lt_Some; eauto. Qed.

Lemma insert_at_length {A} pos (x : A) l :
  length (list_insert_at pos x l) = S (length l).
Proof.
  unfold list_insert_at. rewrite length_app. simpl.
  rewrite length_take, length_drop. lia.
Qed.

Lemma insert_at_lookup {A} pos (x : A) l :
  pos <= length l -> list_insert_at pos x l !! pos = Some x.
Proof.
  intros H. unfold list_insert_at.
  rewrite lookup_app_r by (rewrite length_take; lia).
  rewrite length_take. replace (pos - pos `min` length l) with 0 by lia. reflexivity.
Qed.

Lemma insert_at_lookup_other {A} pos (x : A) l j y :
  pos <= length l -> l !! j = Some y ->
  list_insert_at pos x l !! (if Nat.ltb j pos then j else S j) = Some y.
Proof.
  intros H E. unfold list_insert_at. destruct (Nat.ltb_spec j pos).
  - rewrite lookup_app_l by (rewrite length_take; lia).
    rewrite lookup_take_lt by lia. exact E.
  - rewrite lookup_app_r by (rewrite length_take; lia).
    rewrite length_take. replace (S j - pos `min` length l) with (S (j - pos)) by lia.
    simpl. rewrite lookup_drop. rewrite <- E. f_equal. lia.
Qed.

(** X1.  An item inserted at a position of the list is found at that
    position afterwards; the list is one item longer, the items before the
    position keep their index and the items from the position on move up
    by one.  No other object of the store changes. *)
Theorem insert_then_getitem :
  forall (h : heap) (l : loc) (c : list_class) (items : list loc) (x : loc) (i : nat),
    h !! l = Some (OAbstractList c items) ->
    i <= length items ->
    exists h',
      AbstractList.insert l (Z.of_nat i) x h = (Ok tt, h') /\
      AbstractList.__len__ l h' = (Ok (S (length items)), h') /\
      AbstractList.__getitem__ l (Z.of_nat i) h' = (Ok x, h') /\
      (forall j y, items !! j = Some y ->
         AbstractList.__getitem__ l (Z.of_nat (if Nat.ltb j i then j else S j)) h'
           = (Ok y, h')) /\
      (forall a, a <> l -> h' !! a = h !! a).
Proof.
  intros h l c items x i E Hi.
  assert (P : py_insert_pos (length items) (Z.of_nat i) = i).
  { unfold py_insert_pos. destruct (Z.ltb_spec (Z.of_nat i) 0); [lia|].
    rewrite Nat2Z.id. lia. }
  eexists. split; [apply (insert_run _ _ _ _ _ _ E)|]. rewrite P.
  pose proof (stored_lookup _ _ _ (OAbstractList c (list_insert_at i x items)) E) as E'.
  split; [|split; [|split]].
  - rewrite (len_ok _ _ _ _ E'). now rewrite insert_at_length.
  - eapply getitem_ok; [exact E'| |apply insert_at_lookup; assumption].
    apply py_index_nat. rewrite insert_at_length. lia.
  - intros j y Hj. pose proof (lookup_lt_Some _ _ _ Hj) as Lj.
    eapply getitem_ok; [exact E'| |apply insert_at_lookup_other; eassumption].
    apply py_index_nat. rewrite insert_at_length. destruct (Nat.ltb_spec j i); lia.
  - intros a Ha. now apply list_lookup_insert_ne.
Qed.

(** The witness of X1: a second dimension is inserted in front of the
    dimension of the container. *)
Lemma insert_then_getitem_witness :
  exists h',
    AbstractList.insert 1 0 6 two_variables = (Ok tt, h') /\
    AbstractList.__getitem__ 1 0 h' = (Ok 6, h').
Proof.
  destruct (insert_then_getitem two_variables 1 DimensionListC [6] 6 0 eq_refl)
    as (h' & E & _ & G & _); [simpl; lia|].
  exists h'. split; assumption.
Defined.

(** X2.  [insert] accepts every index that fits a machine word
    (Py_ssize_t, from -2^63 up to 2^63 - 1), in the list or not, and does
    not raise: an index at or beyond the length appends the item, an index
    at or below minus the length puts it in front, and a negative index in
    between counts from the end. *)
Theorem insert_clamps_index :
  forall (h : heap) (l : loc) (c : list_class) (items : list loc) (x : loc) (i : Z),
    h !! l = Some (OAbstractList c items) ->
    fits_ssize_t i ->
    exists pos,
      pos <= length items /\
      AbstractList.insert l i x h =
        (Ok tt, <[l := OAbstractList c (take pos items ++ x :: drop pos items)]> h) /\
      ((Z.of_nat (length items) <= i)%Z -> pos = length items) /\
      ((i <= - Z.of_nat (length items))%Z -> pos = 0) /\
      ((- Z.of_nat (length items) < i < 0)%Z ->
         pos = Z.to_nat (i + Z.of_nat (length items))) /\
      ((0 <= i <= Z.of_nat (length items))%Z -> pos = Z.to_nat i).
Proof.
  intros h l c items x i E _.
  exists (py_insert_pos (length items) i).
  split; [|split; [apply (insert_run _ _ _ _ _ _ E)|]];
    unfold py_insert_pos; destruct (Z.ltb_spec i 0); repeat split; intros; lia.
Qed.

(** The witness of X2: an index far beyond the end, and one far below the
    start. *)
Lemma insert_clamps_index_witness :
  AbstractList.insert 2 100 6 two_variables =
    (Ok tt, <[2 := OAbstractList DependentVariableListC [7; 9; 6]]> two_variables) /\
  AbstractList.insert 2 (-100) 6 two_variables =
    (Ok tt, <[2 := OAbstractList DependentVariableListC [6; 7; 9]]> two_variables).
Proof.
  split.
  - destruct (insert_clamps_index two_variables 2 DependentVariableListC [7; 9] 6 100
                eq_refl) as (pos & _ & E & Hp & _); [unfold fits_ssize_t; lia|].
    rewrite (Hp ltac:(simpl; lia)) in E. exact E.
  - destruct (insert_clamps_index two_variables 2 DependentVariableListC [7; 9] 6 (-100)
                eq_refl) as (pos & _ & E & _ & Hp & _); [unfold fits_ssize_t; lia|].
    rewrite (Hp ltac:(simpl; lia)) in E. exact E.
Defined.

(** X3.  An appended item is the last item of the list: it is found at the
    index -1 and at the index of the old length, the length grows by one and
    every other item keeps its index.  No other object of the store
    changes. *)
Theorem append_then_getitem :
  forall (h : heap) (l : loc) (c : list_class) (items : list loc) (x : loc),
    h !! l = Some (OAbstractList c items) ->
    exists h',
      AbstractList.append l x h = (Ok tt, h') /\
      AbstractList.__len__ l h' = (Ok (S (length items)), h') /\
      AbstractList.__getitem__ l (-1) h' = (Ok x, h') /\
      AbstractList.__getitem__ l (Z.of_nat (length items)) h' = (Ok x, h') /\
      (forall j y, items !! j = Some y ->
         AbstractList.__getitem__ l (Z.of_nat j) h' = (Ok y, h')) /\
      (forall a, a <> l -> h' !! a = h !! a).
Proof.
  intros h l c items x E.
  eexists. split; [apply (append_any _ _ _ _ _ E)|].
  pose proof (stored_lookup _ _ _ (OAbstractList c (items ++ [x])) E) as E'.
  assert (L : length (items ++ [x]) = S (length items))
    by (rewrite length_app; simpl; lia).
  assert (Lx : (items ++ [x]) !! length items = Some x).
  { rewrite lookup_app_r by lia. now rewrite Nat.sub_diag. }
  split; [|split; [|split; [|split]]].
  - rewrite (len_ok _ _ _ _ E'). now rewrite L.
  - eapply getitem_ok; [exact E'| |exact Lx].
    rewrite py_index_neg by lia. f_equal. lia.
  - eapply getitem_ok; [exact E'| |exact Lx]. apply py_index_nat. lia.
  - intros j y Hj. pose proof (lookup_lt_Some _ _ _ Hj) as Lj.
    eapply getitem_ok; [exact E'|apply py_index_nat; lia|].
    rewrite lookup_app_l by lia. exact Hj.
  - intros a Ha. now apply list_lookup_insert_ne.
Qed.

(** The witness of X3: a third address is appended to the list of dependent
    variables. *)
Lemma append_then_getitem_witness :
  exists h',
    AbstractList.append 2 6 two_variables = (Ok tt, h') /\
    AbstractList.__getitem__ 2 (-1) h' = (Ok 6, h') /\
    AbstractList.__len__ 2 h' = (Ok 3, h').
Proof.
  destruct (append_then_getitem two_variables 2 DependentVariableListC [7; 9] 6 eq_refl)
    as (h' & E & L & G & _).
  exists h'. repeat split; assumption.
Defined.

(** X4.  [__getitem__] with an integer index: an index from 0 up to the
    length returns the item at that position, an index from minus the
    length up to -1 returns the item that the index plus the length
    denotes, and every other index raises IndexError; the store is never
    changed.  On an empty list every index raises. *)
Theorem getitem_bounds :
  forall (h : heap) (l : loc) (c : list_class) (items : list loc) (i : Z),
    h !! l = Some (OAbstractList c items) ->
    ((0 <= i < Z.of_nat (length items))%Z ->
       exists x, items !! Z.to_nat i = Some x /\
                 AbstractList.__getitem__ l i h = (Ok x, h)) /\
    ((- Z.of_nat (length items) <= i < 0)%Z ->
       exists x, items !! Z.to_nat (i + Z.of_nat (length items)) = Some x /\
                 AbstractList.__getitem__ l i h = (Ok x, h) /\
                 AbstractList.__getitem__ l (i + Z.of_nat (length items)) h = (Ok x, h)) /\
    ((i < - Z.of_nat (length items) \/ Z.of_nat (length items) <= i)%Z ->
       AbstractList.__getitem__ l i h
         = (Raise (IndexError "list index out of range"), h)).
Proof.
  intros h l c items i E. split; [|split].
  - intros Hi. destruct (lookup_lt_is_Some_2 items (Z.to_nat i)) as [x Hx]; [lia|].
    exists x. split; [assumption|].
    eapply getitem_ok; [exact E| |exact Hx].
    rewrite <- (Z2Nat.id i) at 1 by lia. apply py_index_nat. lia.
  - intros Hi.
    destruct (lookup_lt_is_Some_2 items (Z.to_nat (i + Z.of_nat (length items))))
      as [x Hx]; [lia|].
    exists x. split; [assumption|]. split.
    + eapply getitem_ok; [exact E|apply py_index_neg; lia|exact Hx].
    + eapply getitem_ok; [exact E| |exact Hx].
      rewrite <- (Z2Nat.id (i + Z.of_nat (length items))) at 1 by lia.
      apply py_index_nat. lia.
  - intros Hi. unfold AbstractList.__getitem__.
    mstep (get_items_ok _ _ _ _ E). now rewrite (py_index_out _ _ Hi).
Qed.

(** The witness of X4: the last dependent variable by the index -1, and an
    index beyond the end. *)
Lemma getitem_bounds_witness :
  AbstractList.__getitem__ 2 (-1) two_variables = (Ok 9, two_variables) /\
  AbstractList.__getitem__ 2 2 two_variables
    = (Raise (IndexError "list index out of range"), two_variables).
Proof.
  split.
  - destruct (getitem_bounds two_variables 2 DependentVariableListC [7; 9] (-1) eq_refl)
      as (_ & B & _).
    destruct B as (x & Hx & G & _); [simpl; lia|].
    simpl in Hx. injection Hx as <-. exact G.
  - destruct (getitem_bounds two_variables 2 DependentVariableListC [7; 9] 2 eq_refl)
      as (_ & _ & C).
    apply C. simpl. lia.
Defined.

(** ** The typed lists *)

Lemma set_list_item_run (h : heap) l c items i k item :
  h !! l = Some (OAbstractList c items) ->
  py_index (length items) i = Some k ->
  AbstractList.set_list_item l i item h =
    (Ok tt, <[l := OAbstractList c (<[k := item]> items)]> h).
Proof.
  intros E P. unfold AbstractList.set_list_item.
  mstep (get_list_ok _ _ _ _ E). simpl. rewrite P. reflexivity.
Qed.

Lemma set_list_item_out (h : heap) l c items i item :
  h !! l = Some (OAbstractList c items) ->
  py_index (length items) i = None ->
  AbstractList.set_list_item l i item h =
    (Raise (IndexError "list assignment index out of range"), h).
Proof.
  intros E P. unfold AbstractList.set_list_item.
  mstep (get_list_ok _ _ _ _ E). simpl. rewrite P. reflexivity.
Qed.

Lemma py_index_lt n i k : py_index n i = Some k -> k < n.
Proof.
  unfold py_index.
  destruct (Z.leb_spec 0 i); destruct (Z.ltb_spec i (Z.of_nat n));
    destruct (Z.ltb_spec i 0); destruct (Z.leb_spec (- Z.of_nat n) i);
    simpl; intros [= <-]; lia.
Qed.

(** X5.  Assigning a dimension to an index of a list of dimensions, or a
    dependent variable to an index of a list of dependent variables,
    replaces the item at that index: the item is read back at the index, the
    length and the other items stay, and no other object of the store
    changes. *)
Theorem typed_setitem_then_getitem :
  forall (h : heap) (l : loc) (items : list loc) (i : Z) (k : nat) (x : loc) (o : obj),
    h !! x = Some o ->
    py_index (length items) i = Some k ->
    (h !! l = Some (OAbstractList DimensionListC items) ->
     is_dimension o = true ->
     exists h',
       DimensionList.__setitem__ l i x h = (Ok tt, h') /\
       h' !! l = Some (OAbstractList DimensionListC (<[k := x]> items)) /\
       AbstractList.__getitem__ l i h' = (Ok x, h') /\
       AbstractList.__len__ l h' = (Ok (length items), h') /\
       (forall a, a <> l -> h' !! a = h !! a)) /\
    (h !! l = Some (OAbstractList DependentVariableListC items) ->
     is_dependent_variable o = true ->
     exists h',
       DependentVariableList.__setitem__ l i x h = (Ok tt, h') /\
       h' !! l = Some (OAbstractList DependentVariableListC (<[k := x]> items)) /\
       AbstractList.__getitem__ l i h' = (Ok x, h') /\
       AbstractList.__len__ l h' = (Ok (length items), h') /\
       (forall a, a <> l -> h' !! a = h !! a)).
Proof.
  intros h l items i k x o Ex P.
  pose proof (py_index_lt _ _ _ P) as Lk.
  assert (Common : forall c,
    h !! l = Some (OAbstractList c items) ->
    let h' := <[l := OAbstractList c (<[k := x]> items)]> h in
    h' !! l = Some (OAbstractList c (<[k := x]> items)) /\
    AbstractList.__getitem__ l i h' = (Ok x, h') /\
    AbstractList.__len__ l h' = (Ok (length items), h') /\
    (forall a, a <> l -> h' !! a = h !! a)).
  { intros c E h'. subst h'.
    pose proof (stored_lookup _ _ _ (OAbstractList c (<[k := x]> items)) E) as E'.
    split; [exact E'|]. split; [|split].
    - eapply getitem_ok; [exact E'| |].
      + rewrite length_insert. exact P.
      + apply list_lookup_insert_eq. exact Lk.
    - rewrite (len_ok _ _ _ _ E'). now rewrite length_insert.
    - intros a Ha. now apply list_lookup_insert_ne. }
  split; intros E Ho; eexists; (split; [|apply (Common _ E)]).
  - unfold DimensionList.__setitem__. mstep (deref_ok _ _ _ Ex). rewrite Ho. simpl.
    apply (set_list_item_run _ _ _ _ _ _ _ E P).
  - unfold DependentVariableList.__setitem__. mstep (deref_ok _ _ _ Ex). rewrite Ho. simpl.
    apply (set_list_item_run _ _ _ _ _ _ _ E P).
Qed.

(** The witness of X5: the dimension of the container is assigned to its
    own place through the index -1. *)
Lemma typed_setitem_then_getitem_witness :
  exists h',
    DimensionList.__setitem__ 1 (-1) 6 two_variables = (Ok tt, h') /\
    AbstractList.__getitem__ 1 (-1) h' = (Ok 6, h').
Proof.
  destruct (typed_setitem_then_getitem two_variables 1 [6] (-1) 0 6 _ eq_refl eq_refl)
    as [HD _].
  destruct (HD eq_refl eq_refl) as (h' & E & _ & G & _).
  exists h'. split; assumption.
Defined.

(** X6.  The typed lists never take an item of another class through
    [__setitem__]: the call raises and the store stays as it was.  The
    exception is an AttributeError, since the message of the intended
    ValueError reads the attribute [name__] of the class of the item.  With
    an item of the right class an index outside the list raises IndexError,
    and again nothing changes. *)
Theorem typed_setitem_rejects :
  forall (h : heap) (l : loc) (i : Z) (x : loc) (o : obj),
    h !! x = Some o ->
    (is_dimension o = false ->
     DimensionList.__setitem__ l i x h
       = (Raise (AttributeError "type object has no attribute 'name__'"), h)) /\
    (is_dependent_variable o = false ->
     DependentVariableList.__setitem__ l i x h
       = (Raise (AttributeError "type object has no attribute 'name__'"), h)) /\
    (forall c items,
       h !! l = Some (OAbstractList c items) ->
       py_index (length items) i = None ->
       (is_dimension o = true ->
        DimensionList.__setitem__ l i x h
          = (Raise (IndexError "list assignment index out of range"), h)) /\
       (is_dependent_variable o = true ->
        DependentVariableList.__setitem__ l i x h
          = (Raise (IndexError "list assignment index out of range"), h))).
Proof.
  intros h l i x o Ex. split; [|split].
  - intros Ho. unfold DimensionList.__setitem__.
    mstep (deref_ok _ _ _ Ex). now rewrite Ho.
  - intros Ho. unfold DependentVariableList.__setitem__.
    mstep (deref_ok _ _ _ Ex). now rewrite Ho.
  - intros c items E P. split; intros Ho.
    + unfold DimensionList.__setitem__. mstep (deref_ok _ _ _ Ex). rewrite Ho. simpl.
      apply (set_list_item_out _ _ _ _ _ _ E P).
    + unfold DependentVariableList.__setitem__. mstep (deref_ok _ _ _ Ex).
      rewrite Ho. simpl. apply (set_list_item_out _ _ _ _ _ _ E P).
Qed.

(** The witness of X6: a dependent variable assigned into the list of
    dimensions. *)
Lemma typed_setitem_rejects_witness :
  DimensionList.__setitem__ 1 0 7 two_variables
    = (Raise (AttributeError "type object has no attribute 'name__'"), two_variables).
Proof.
  destruct (typed_setitem_rejects two_variables 1 0 7 _ eq_refl) as [HD _].
  apply HD. reflexivity.
Defined.

(** ** Equality of lists and of containers *)

Lemma item_eq_dvs (h : heap) a b V W :
  read_dv h a = Some V -> read_dv h b = Some W ->
  item_eq a b h = (Ok (dv_dict_eqb V W), h).
Proof.
  intros Ha Hb.
  apply read_dv_inv in Ha as (v & Hv & Hc & ->).
  apply read_dv_inv in Hb as (w & Hw & Hd & ->).
  unfold item_eq. mstep (deref_ok _ _ _ Hv). mstep (deref_ok _ _ _ Hw).
  cbv iota. mstep (get_array_ok _ _ _ Hc). mstep (get_array_ok _ _ _ Hd).
  reflexivity.
Qed.

Lemma item_eq_dims (h : heap) a b d1 d2 :
  read_dimension h a = Some d1 -> read_dimension h b = Some d2 ->
  item_eq a b h = (Ok (dimension_eqb d1 d2), h).
Proof.
  intros Ha Hb. apply read_dimension_inv in Ha, Hb.
  unfold item_eq. mstep (deref_ok _ _ _ Ha). mstep (deref_ok _ _ _ Hb). reflexivity.
Qed.

(** The comparisons of the items of two lists that are read with [rd]. *)
Lemma item_checks {A} (rd : loc -> option A) (eqb : A -> A -> bool) (h : heap) :
  (forall x y u v, rd x = Some u -> rd y = Some v -> item_eq x y h = (Ok (eqb u v), h)) ->
  forall l1 l2 r1 r2,
    read_all rd l1 = Some r1 -> read_all rd l2 = Some r2 ->
    exists checks,
      for_each (fun ab : loc * loc => item_eq ab.1 ab.2) (combine l1 l2) h
        = (Ok checks, h) /\
      (length l1 = length l2 -> forallb id checks = list_eqb eqb r1 r2).
Proof.
  intros Hi. induction l1 as [|a l1 IH]; intros l2 r1 r2 R1 R2.
  - simpl in R1. injection R1 as <-. exists []. split; [reflexivity|].
    intros L. destruct l2; [|discriminate]. simpl in R2. injection R2 as <-. reflexivity.
  - simpl in R1. destruct (rd a) as [u|] eqn:Ea; try discriminate.
    destruct (read_all rd l1) as [r1'|] eqn:E1; try discriminate.
    injection R1 as <-.
    destruct l2 as [|b l2].
    + exists []. split; [reflexivity|]. discriminate.
    + simpl in R2. destruct (rd b) as [v|] eqn:Eb; try discriminate.
      destruct (read_all rd l2) as [r2'|] eqn:E2; try discriminate.
      injection R2 as <-.
      destruct (IH l2 r1' r2' eq_refl E2) as (checks & E & Hc).
      exists (eqb u v :: checks). split.
      * cbn [combine for_each]. mstep (Hi a b u v Ea Eb). mstep E. reflexivity.
      * intros L. cbn [forallb list_eqb]. unfold id at 1.
        rewrite Hc by (simpl in L; lia). reflexivity.
Qed.

(** [__eq__] on two lists of one class whose items are read with [rd]. *)
Lemma eq_lists_read {A} (rd : loc -> option A) (eqb : A -> A -> bool) (h : heap)
    a b c l1 l2 r1 r2 :
  (forall x y u v, rd x = Some u -> rd y = Some v -> item_eq x y h = (Ok (eqb u v), h)) ->
  h !! a = Some (OAbstractList c l1) ->
  h !! b = Some (OAbstractList c l2) ->
  read_all rd l1 = Some r1 -> read_all rd l2 = Some r2 ->
  AbstractList.__eq__ a b h = (Ok (list_eqb eqb r1 r2), h).
Proof.
  intros Hi Ea Eb R1 R2. unfold AbstractList.__eq__.
  mstep (get_list_ok _ _ _ _ Ea). simpl. mstep (deref_ok _ _ _ Eb). simpl.
  replace (list_class_eqb c c) with true by (destruct c; reflexivity). simpl.
  pose proof (read_all_length _ _ _ R1) as L1.
  pose proof (read_all_length _ _ _ R2) as L2.
  destruct (Nat.eqb_spec (length l1) (length l2)) as [El|El]; simpl.
  - destruct (item_checks rd eqb h Hi l1 l2 r1 r2 R1 R2) as (checks & E & Hc).
    mstep E. rewrite (Hc El). reflexivity.
  - rewrite list_eqb_length_ne by congruence. reflexivity.
Qed.

(** X7.  Equality of two typed lists looks at the class and at the length
    first.  A list of dimensions never equals a list of dependent
    variables, not even when both are empty; two lists of different lengths
    are never equal; and a typed list never equals an object that is not a
    typed list.  In each case [!=] is true, and the comparison does not
    change the store. *)
Theorem list_eq_class_and_length :
  forall (h : heap) (a : loc) (c1 : list_class) (l1 : list loc),
    h !! a = Some (OAbstractList c1 l1) ->
    (forall b c2 l2,
       h !! b = Some (OAbstractList c2 l2) ->
       c1 <> c2 \/ length l1 <> length l2 ->
       AbstractList.__eq__ a b h = (Ok false, h) /\
       AbstractList.__ne__ a b h = (Ok true, h)) /\
    (forall b o,
       h !! b = Some o ->
       (forall c2 l2, o <> OAbstractList c2 l2) ->
       AbstractList.__eq__ a b h = (Ok false, h) /\
       AbstractList.__ne__ a b h = (Ok true, h)).
Proof.
  intros h a c1 l1 Ea.
  assert (N : forall b, AbstractList.__eq__ a b h = (Ok false, h) ->
                        AbstractList.__ne__ a b h = (Ok true, h)).
  { intros b E. unfold AbstractList.__ne__. mstep E. reflexivity. }
  split.
  - intros b c2 l2 Eb Hd.
    assert (E : AbstractList.__eq__ a b h = (Ok false, h)).
    { unfold AbstractList.__eq__.
      mstep (get_list_ok _ _ _ _ Ea). simpl. mstep (deref_ok _ _ _ Eb). simpl.
      destruct (list_class_eqb c1 c2) eqn:Ec; simpl; [|reflexivity].
      destruct (Nat.eqb_spec (length l1) (length l2)) as [El|El]; simpl; [|reflexivity].
      destruct Hd as [Hc|Hl]; [|contradiction].
      destruct c1, c2; try discriminate; contradiction. }
    split; [exact E|exact (N b E)].
  - intros b o Eb Ho.
    assert (E : AbstractList.__eq__ a b h = (Ok false, h)).
    { unfold AbstractList.__eq__.
      mstep (get_list_ok _ _ _ _ Ea). simpl. mstep (deref_ok _ _ _ Eb).
      destruct o; try reflexivity. exfalso. eapply Ho. reflexivity. }
    split; [exact E|exact (N b E)].
Qed.

(** The witness of X7: the list of dependent variables of the container
    against the list of dimensions, and against the container itself. *)
Lemma list_eq_class_and_length_witness :
  AbstractList.__eq__ 2 1 two_variables = (Ok false, two_variables) /\
  AbstractList.__eq__ 2 0 two_variables = (Ok false, two_variables).
Proof.
  destruct (list_eq_class_and_length two_variables 2 _ _ eq_refl) as [HD HO].
  split.
  - apply (HD 1 DimensionListC [6] eq_refl). left. discriminate.
  - apply (HO 0 _ eq_refl). intros c2 l2. discriminate.
Defined.

Lemma value_eq_strlists (h : heap) a b s t :
  h !! a = Some (OStrList s) -> h !! b = Some (OStrList t) ->
  value_eq a b h = (Ok (bool_decide (s = t)), h).
Proof.
  intros Ea Eb. unfold value_eq. mstep (deref_ok _ _ _ Ea). mstep (deref_ok _ _ _ Eb).
  reflexivity.
Qed.

Lemma value_eq_dicts (h : heap) a b d e :
  h !! a = Some (ODict d) -> h !! b = Some (ODict e) ->
  value_eq a b h = (Ok (bool_decide (d = e)), h).
Proof.
  intros Ea Eb. unfold value_eq. mstep (deref_ok _ _ _ Ea). mstep (deref_ok _ _ _ Eb).
  reflexivity.
Qed.

Lemma geographic_coordinate_run h l c :
  h !! l = Some (OCSDM c) ->
  CSDMClass.geographic_coordinate l h = (Ok (_geographic_coordinate c), h).
Proof.
  intros E. unfold CSDMClass.geographic_coordinate. mstep (get_csdm_ok _ _ _ E).
  reflexivity.
Qed.

(** [__eq__] on two containers compares what they hold, attribute by
    attribute, and leaves the file name aside. *)
Lemma csdm_eq_views (h : heap) x y X Y :
  read_csdm h x = Some X -> read_csdm h y = Some Y ->
  CSDMClass.__eq__ x (OperandObject y) h = (Ok (view_eqb X Y), h).
Proof.
  intros Rx Ry.
  destruct (read_csdm_open _ _ _ Rx) as (cx & dlx & vlx & Ox).
  destruct (read_csdm_open _ _ _ Ry) as (cy & dly & vly & Oy).
  pose proof (op_slots _ _ _ _ _ _ Ox) as Sx.
  pose proof (op_slots _ _ _ _ _ _ Oy) as Sy.
  unfold CSDMClass.__eq__.
  mstep (isinstance_CSDM_ok _ _ _ Sy). cbv iota.
  mstep (dimensions_run _ _ _ Sx). mstep (dimensions_run _ _ _ Sy).
  mstep (eq_lists_read (read_dimension h) dimension_eqb h _ _ _ _ _ _ _
           (item_eq_dims h) (op_dims _ _ _ _ _ _ Ox) (op_dims _ _ _ _ _ _ Oy)
           (op_read_dims _ _ _ _ _ _ Ox) (op_read_dims _ _ _ _ _ _ Oy)).
  mstep (dependent_variables_run _ _ _ Sx). mstep (dependent_variables_run _ _ _ Sy).
  mstep (eq_lists_read (read_dv h) dv_dict_eqb h _ _ _ _ _ _ _
           (item_eq_dvs h) (op_dvs _ _ _ _ _ _ Ox) (op_dvs _ _ _ _ _ _ Oy)
           (op_read_dvs _ _ _ _ _ _ Ox) (op_read_dvs _ _ _ _ _ _ Oy)).
  mstep (tags_run _ _ _ Sx). mstep (tags_run _ _ _ Sy).
  mstep (value_eq_strlists _ _ _ _ _ (op_tags _ _ _ _ _ _ Ox) (op_tags _ _ _ _ _ _ Oy)).
  mstep (get_csdm_ok _ _ _ Sx). mstep (get_csdm_ok _ _ _ Sy).
  mstep (geographic_coordinate_run _ _ _ Sx). mstep (geographic_coordinate_run _ _ _ Sy).
  mstep (value_eq_dicts _ _ _ _ _ (op_geo _ _ _ _ _ _ Ox) (op_geo _ _ _ _ _ _ Oy)).
  mstep (application_run _ _ _ Sx). mstep (application_run _ _ _ Sy).
  mstep (value_eq_dicts _ _ _ _ _ (op_app _ _ _ _ _ _ Ox) (op_app _ _ _ _ _ _ Oy)).
  unfold view_eqb.
  rewrite (op_read_only _ _ _ _ _ _ Ox), (op_read_only _ _ _ _ _ _ Oy).
  rewrite (op_version _ _ _ _ _ _ Ox), (op_version _ _ _ _ _ _ Oy).
  rewrite (op_timestamp _ _ _ _ _ _ Ox), (op_timestamp _ _ _ _ _ _ Oy).
  rewrite (op_description _ _ _ _ _ _ Ox), (op_description _ _ _ _ _ _ Oy).
  reflexivity.
Qed.

Lemma view_eqb_filenames X Y f g :
  view_eqb (with_filename X f) (with_filename Y g) = view_eqb X Y.
Proof. reflexivity. Qed.

(** X8.  [__eq__] of a container does not look at the file name: what
    [x == y] returns is what it returns for two containers that hold the
    same dimensions, dependent variables, tags and metadata under any other
    file names; and a container never equals a number or a quantity.  The
    comparison does not change the store. *)
Theorem csdm_eq_ignores_filename :
  forall (h h' : heap) (x y x' y' : loc) (X Y : csdm_view) (f g : string),
    read_csdm h x = Some X ->
    read_csdm h y = Some Y ->
    read_csdm h' x' = Some (with_filename X f) ->
    read_csdm h' y' = Some (with_filename Y g) ->
    (exists b,
       CSDMClass.__eq__ x (OperandObject y) h = (Ok b, h) /\
       CSDMClass.__eq__ x' (OperandObject y') h' = (Ok b, h')) /\
    (forall k, CSDMClass.__eq__ x (OperandScalar k) h = (Ok false, h)) /\
    (forall q, CSDMClass.__eq__ x (OperandQuantity q) h = (Ok false, h)).
Proof.
  intros h h' x y x' y' X Y f g Rx Ry Rx' Ry'. split; [|split].
  - exists (view_eqb X Y). split.
    + apply (csdm_eq_views _ _ _ _ _ Rx Ry).
    + rewrite (csdm_eq_views _ _ _ _ _ Rx' Ry'). now rewrite view_eqb_filenames.
  - intros k. reflexivity.
  - intros q. reflexivity.
Qed.

(** The witness of X8: the container with two dependent variables against
    itself, and the same container under the file name [data.csdf] against
    the one without a file name. *)
Lemma csdm_eq_ignores_filename_witness :
  exists b,
    CSDMClass.__eq__ 0 (OperandObject 0) two_variables = (Ok b, two_variables) /\
    CSDMClass.__eq__ 0 (OperandObject 11) two_names = (Ok b, two_names).
Proof.
  destruct (csdm_eq_ignores_filename two_variables two_names 0 0 0 11 _ _
              "" "data.csdf" eq_refl eq_refl eq_refl eq_refl) as [E _].
  exact E.
Defined.

(** X9.  A copy compares as its original does: after [k = x.copy()], for
    every container [y], [k == y] returns what [x == y] returns and
    [y == k] returns what [y == x] returns; in particular [k == x] and
    [x == k] are what [x == x] is.  The copy is another object than [x]. *)
Theorem copy_compares_as_original :
  forall (h : heap) (x y : loc) (X Y : csdm_view),
    read_csdm h x = Some X ->
    read_csdm h y = Some Y ->
    exists k h' b b',
      CSDMClass.copy x h = (Ok k, h') /\
      k <> x /\ k <> y /\
      CSDMClass.__eq__ x (OperandObject y) h' = (Ok b, h') /\
      CSDMClass.__eq__ k (OperandObject y) h' = (Ok b, h') /\
      CSDMClass.__eq__ y (OperandObject x) h' = (Ok b', h') /\
      CSDMClass.__eq__ y (OperandObject k) h' = (Ok b', h').
Proof.
  intros h x y X Y Rx Ry.
  destruct (read_csdm_open _ _ _ Rx) as (c & dl & vl & O).
  destruct (read_csdm_open _ _ _ Ry) as (cy & dly & vly & Oy).
  destruct (copy_opened _ _ _ _ _ _ O) as (h' & c' & dl' & vl' & E & G & O' & _).
  pose proof (read_csdm_grows _ _ _ _ G Rx) as Rx'.
  pose proof (read_csdm_grows _ _ _ _ G Ry) as Ry'.
  pose proof (opened_read _ _ _ _ _ _ O') as Rk.
  pose proof (lookup_lt_Some _ _ _ (op_slots _ _ _ _ _ _ O)) as Lx.
  pose proof (lookup_lt_Some _ _ _ (op_slots _ _ _ _ _ _ Oy)) as Ly.
  exists (length h), h', (view_eqb X Y), (view_eqb Y X).
  split; [exact E|]. split; [lia|]. split; [lia|].
  split; [apply (csdm_eq_views _ _ _ _ _ Rx' Ry')|].
  split; [apply (csdm_eq_views _ _ _ _ _ Rk Ry')|].
  split; [apply (csdm_eq_views _ _ _ _ _ Ry' Rx')|].
  apply (csdm_eq_views _ _ _ _ _ Ry' Rk).
Qed.

(** The witness of X9: the copy of the container with two dependent
    variables, compared with the original. *)
Lemma copy_compares_as_original_witness :
  exists k h' b,
    CSDMClass.copy 0 two_variables = (Ok k, h') /\
    CSDMClass.__eq__ 0 (OperandObject 0) h' = (Ok b, h') /\
    CSDMClass.__eq__ k (OperandObject 0) h' = (Ok b, h').
Proof.
  destruct (copy_compares_as_original two_variables 0 0 _ _ eq_refl eq_refl)
    as (k & h' & b & _ & E & _ & _ & Q1 & Q2 & _).
  exists k, h', b. split; [exact E|]. split; assumption.
Defined.

(** ** Creating a container and attaching dimensions *)

Lemma not_old_version v :
  ~ In v CSDMClass._old_incompatible_versions ->
  existsb (String.eqb v) CSDMClass._old_incompatible_versions = false.
Proof.
  intros H. destruct (existsb _ _) eqn:E; [|reflexivity].
  apply existsb_exists in E as (x & Hx & Ex). apply String.eqb_eq in Ex. subst.
  contradiction.
Qed.

Lemma old_version v :
  In v CSDMClass._old_incompatible_versions ->
  existsb (String.eqb v) CSDMClass._old_incompatible_versions = true.
Proof.
  intros H. apply existsb_exists. exists v. split; [assumption|apply String.eqb_refl].
Qed.

(** The store after [__init__] has run on a new instance at the end of the
    store [h]. *)
Lemma init_run (h : heap) filename version description v :
  (version = None /\ v = CSDMClass.__latest_CSDM_version__ \/
   version = Some v /\ ~ In v CSDMClass._old_incompatible_versions) ->
  CSDMClass.__init__ (length h) filename version description (h ++ [OUninit]) =
    (Ok tt,
     h ++ [ OCSDM (mkCSDM (length h + 4) (length h + 5) (length h + 1) false
                     v "" (length h + 2) description (length h + 3) filename);
            OStrList []; ODict ∅; ODict ∅;
            OAbstractList DimensionListC [];
            OAbstractList DependentVariableListC [] ]).
Proof.
  intros Hv. unfold CSDMClass.__init__.
  assert (E0 : match version with
               | Some v0 =>
                   if existsb (String.eqb v0) CSDMClass._old_incompatible_versions
                   then raise (PyException "Files created with this version of the CSD Model are no longer supported.")
                   else ret v0
               | None => ret CSDMClass.__latest_CSDM_version__
               end (h ++ [OUninit]) = (Ok v, h ++ [OUninit])).
  { destruct Hv as [[-> ->]|[-> Hn]]; [reflexivity|].
    now rewrite (not_old_version _ Hn). }
  mstep E0.
  unfold bind, alloc, store, ret. simpl.
  repeat rewrite length_app. simpl. f_equal.
  repeat rewrite <- app_assoc. simpl.
  rewrite insert_app_r_alt by lia. rewrite Nat.sub_diag. simpl.
  replace (length h + 1 + 1 + 1 + 1 + 1) with (length h + 5) by lia.
  replace (length h + 1 + 1 + 1 + 1) with (length h + 4) by lia.
  replace (length h + 1 + 1 + 1) with (length h + 3) by lia.
  replace (length h + 1 + 1) with (length h + 2) by lia.
  reflexivity.
Qed.

(** A container made by [__init__] at the end of the store. *)
Lemma init_opened (h : heap) filename description v :
  opened (h ++ [ OCSDM (mkCSDM (length h + 4) (length h + 5) (length h + 1) false
                          v "" (length h + 2) description (length h + 3) filename);
                 OStrList []; ODict ∅; ODict ∅;
                 OAbstractList DimensionListC [];
                 OAbstractList DependentVariableListC [] ])
    (length h) (mkView [] [] [] false v "" ∅ description ∅ filename)
    (mkCSDM (length h + 4) (length h + 5) (length h + 1) false
       v "" (length h + 2) description (length h + 3) filename) [] [].
Proof.
  constructor; simpl; try reflexivity; try (rewrite lookup_app_add; reflexivity).
  replace (length h) with (length h + 0) at 1 by lia.
  rewrite lookup_app_add. reflexivity.
Qed.

(** X10.  Constructing a container, [CSDM(filename, version, description)]:
    the versions 0.0.9, 0.0.10 and 0.0.11 are refused with an exception;
    any other version, or none (then the version is 1.0), gives a new
    container with the file name, version and description given, no
    dimensions, no dependent variables, no tags, empty metadata and
    [read_only] false, whose shape is the empty tuple.  The objects that
    were in the store before are not changed. *)
Theorem init_creates_empty_container :
  forall (h : heap) (filename description : string) (version : option string),
    (forall v, version = Some v ->
       In v CSDMClass._old_incompatible_versions ->
       exists e,
         (self <- alloc OUninit ;;
          CSDMClass.__init__ self filename version description ;;; ret self)%py h
         = (Raise e, h ++ [OUninit])) /\
    (forall v,
       version = None /\ v = "1.0" \/
       version = Some v /\ ~ In v CSDMClass._old_incompatible_versions ->
       exists h',
         (self <- alloc OUninit ;;
          CSDMClass.__init__ self filename version description ;;; ret self)%py h
         = (Ok (length h), h') /\
         grows h h' /\
         read_csdm h' (length h)
           = Some (mkView [] [] [] false v "" ∅ description ∅ filename) /\
         CSDMClass.shape (length h) h' = (Ok [], h')).
Proof.
  intros h filename description version. split.
  - intros v -> Hv. eexists.
    mstep (alloc_run OUninit h). unfold CSDMClass.__init__.
    rewrite (old_version _ Hv). reflexivity.
  - intros v Hv. eexists. split; [|split; [|split]].
    + mstep (alloc_run OUninit h). mstep (init_run h filename version description v Hv).
      reflexivity.
    + apply grows_app.
    + apply (opened_read _ _ _ _ _ _ (init_opened h filename description v)).
    + apply (shape_run _ _ _ _ _ _ (init_opened h filename description v)).
Qed.

(** The witness of X10: a container of version 1.1 made in the store of the
    example, and the refusal of version 0.0.9. *)
Lemma init_creates_empty_container_witness :
  (exists e,
     (self <- alloc OUninit ;;
      CSDMClass.__init__ self "a.csdf" (Some "0.0.9") "" ;;; ret self)%py two_variables
     = (Raise e, two_variables ++ [OUninit])) /\
  (exists h',
     (self <- alloc OUninit ;;
      CSDMClass.__init__ self "a.csdf" (Some "1.1") "" ;;; ret self)%py two_variables
     = (Ok 11, h') /\
     read_csdm h' 11 = Some (mkView [] [] [] false "1.1" "" ∅ "" ∅ "a.csdf")).
Proof.
  destruct (init_creates_empty_container two_variables "a.csdf" "" (Some "0.0.9"))
    as [HR _].
  destruct (init_creates_empty_container two_variables "a.csdf" "" (Some "1.1"))
    as [_ HO].
  split.
  - apply (HR "0.0.9" eq_refl). simpl. tauto.
  - destruct (HO "1.1") as (h' & E & _ & R & _).
    + right. split; [reflexivity|]. simpl. intuition discriminate.
    + exists h'. split; assumption.
Defined.

Lemma opened_store_dim (h : heap) self X c dl vl d dim :
  opened h self X c dl vl ->
  read_dimension h d = Some dim ->
  opened (<[_dimensions c := OAbstractList DimensionListC (dl ++ [d])]> h)
    self (with_dims X (vw_dimensions X ++ [dim])) c (dl ++ [d]) vl.
Proof.
  intros O Rd.
  destruct O as [Hs Hd Hv Ht Hg Ha Hrd Hrv H1 H2 H3 H4 H5].
  assert (K : forall x ob, h !! x = Some ob -> x <> _dimensions c ->
                (<[_dimensions c := OAbstractList DimensionListC (dl ++ [d])]> h) !! x
                = Some ob).
  { intros x ob E Hne. rewrite list_lookup_insert_ne by congruence. exact E. }
  constructor; simpl; auto; try (apply K; [assumption|intros Heq; rewrite Heq in *; congruence]).
  - eapply stored_lookup; eauto.
  - apply read_all_app.
    + eapply read_all_mono; [|exact Hrd]. intros x d0 R0.
      apply read_dimension_inv in R0. unfold read_dimension.
      rewrite (K _ _ R0); [reflexivity|]. intros Heq. rewrite Heq in *. congruence.
    + simpl. apply read_dimension_inv in Rd. unfold read_dimension.
      rewrite (K _ _ Rd); [reflexivity|]. intros Heq. rewrite Heq in *. congruence.
  - eapply read_all_mono; [|exact Hrv]. intros x V R0.
    apply read_dv_inv in R0 as (v & Hv0 & Hc0 & Hd0).
    unfold read_dv, read_array.
    rewrite (K _ _ Hv0) by (intros Heq; rewrite Heq in *; congruence).
    rewrite (K _ _ Hc0) by (intros Heq; rewrite Heq in *; congruence).
    now rewrite Hd0.
Qed.

(** X11.  [add_dimension] with a Dimension object attaches the object
    itself, not a copy: no object is created, the list of dimensions of the
    container holds the address that was passed as its last item, the shape
    grows by the count of the dimension, and the dependent variables are not
    touched (their components are not reshaped). *)
Theorem add_dimension_attaches_object :
  forall (h : heap) (self d : loc) (X : csdm_view) (dl : list loc) (dim : Dimension),
    read_csdm h self = Some X ->
    dimension_addresses h self = Some dl ->
    read_dimension h d = Some dim ->
    exists h',
      CSDMClass.add_dimension self d h = (Ok tt, h') /\
      length h' = length h /\
      dimension_addresses h' self = Some (dl ++ [d]) /\
      read_csdm h' self = Some (with_dims X (vw_dimensions X ++ [dim])) /\
      CSDMClass.shape self h'
        = (Ok (map count (vw_dimensions X) ++ [count dim]), h').
Proof.
  intros h self d X dl dim R Hdl Rd.
  destruct (read_csdm_open _ _ _ R) as (c & dl' & vl & O).
  assert (dl' = dl) as ->.
  { unfold dimension_addresses, read_slots in Hdl.
    rewrite (op_slots _ _ _ _ _ _ O) in Hdl. unfold read_items in Hdl.
    rewrite (op_dims _ _ _ _ _ _ O) in Hdl. simpl in Hdl. congruence. }
  pose proof (opened_store_dim _ _ _ _ _ _ _ _ O Rd) as O'.
  eexists. split; [|split; [|split; [|split]]].
  - apply (add_dimension_run _ _ _ _ _ _ _ (op_slots _ _ _ _ _ _ O)
             (op_dims _ _ _ _ _ _ O) (read_dimension_inv _ _ _ Rd)).
  - apply length_insert.
  - unfold dimension_addresses, read_slots.
    rewrite (op_slots _ _ _ _ _ _ O'). unfold read_items.
    rewrite (op_dims _ _ _ _ _ _ O'). reflexivity.
  - apply (opened_read _ _ _ _ _ _ O').
  - rewrite (shape_run _ _ _ _ _ _ O'). simpl. now rewrite map_app.
Qed.

(** The witness of X11: the dimension of the container is attached a second
    time. *)
Lemma add_dimension_attaches_object_witness :
  exists h',
    CSDMClass.add_dimension 0 6 two_variables = (Ok tt, h') /\
    dimension_addresses h' 0 = Some [6; 6] /\
    CSDMClass.shape 0 h' = (Ok [2; 2], h').
Proof.
  destruct (add_dimension_attaches_object two_variables 0 6 _ [6] _
              eq_refl eq_refl eq_refl) as (h' & E & _ & A & _ & S).
  exists h'. repeat split; assumption.
Defined.

(** ** split *)

(** X13.  The containers that [split] returns are views: the container
    number [i] holds, as its only dependent variable, the very object that
    is the dependent variable number [i] of the original, not a copy.  The
    containers are new objects, the objects that were in the store are not
    changed, and a container without dependent variables splits into the
    empty list without a change of the store. *)
Theorem split_shares_dependent_variables :
  forall (h : heap) (l : loc) (X : csdm_view) (vl : list loc),
    read_csdm h l = Some X ->
    dv_addresses h l = Some vl ->
    exists sib h',
      CSDMClass.split l h = (Ok sib, h') /\
      grows h h' /\
      length sib = length vl /\
      (forall i s, sib !! i = Some s ->
         length h <= s /\
         exists v, vl !! i = Some v /\ dv_addresses h' s = Some [v]) /\
      dv_addresses h' l = Some vl /\
      (vl = [] -> sib = [] /\ h' = h).
Proof.
  intros h l X vl R Hvl.
  destruct (read_csdm_open _ _ _ R) as (c & dl & vl' & O).
  assert (vl' = vl) as ->.
  { unfold dv_addresses, read_slots in Hvl.
    rewrite (op_slots _ _ _ _ _ _ O) in Hvl. unfold read_items in Hvl.
    rewrite (op_dvs _ _ _ _ _ _ O) in Hvl. simpl in Hvl. congruence. }
  exists (sibling_addresses (length h) vl), (h ++ sibling_blocks c (length h) vl).
  split; [apply (split_run _ _ _ _ _ (op_slots _ _ _ _ _ _ O) (op_dvs _ _ _ _ _ _ O))|].
  split; [apply grows_app|].
  split; [apply sibling_addresses_length|].
  split; [|split].
  - intros i s Hs.
    destruct (sibling_addresses_lookup _ _ _ _ Hs) as (-> & v & Hv).
    split; [lia|]. exists v. split; [assumption|].
    destruct (sibling_opened _ _ _ _ _ _ _ _ O Hv) as (V & _ & Os).
    unfold dv_addresses, read_slots. rewrite (op_slots _ _ _ _ _ _ Os).
    unfold read_items. rewrite (op_dvs _ _ _ _ _ _ Os). reflexivity.
  - pose proof (opened_grows _ _ _ _ _ _ _ (grows_app h (sibling_blocks c (length h) vl)) O)
      as O'.
    unfold dv_addresses, read_slots. rewrite (op_slots _ _ _ _ _ _ O').
    unfold read_items. rewrite (op_dvs _ _ _ _ _ _ O'). reflexivity.
  - intros ->. split; [reflexivity|]. simpl. apply app_nil_r.
Qed.

(** The witness of X13: the two views of the container with two dependent
    variables. *)
Lemma split_shares_dependent_variables_witness :
  exists sib h',
    CSDMClass.split 0 two_variables = (Ok sib, h') /\
    length sib = 2 /\
    (forall i s, sib !! i = Some s ->
       exists v, [7; 9] !! i = Some v /\ dv_addresses h' s = Some [v]).
Proof.
  destruct (split_shares_dependent_variables two_variables 0 _ [7; 9] eq_refl eq_refl)
    as (sib & h' & E & _ & L & S & _).
  exists sib, h'. split; [exact E|]. split; [exact L|].
  intros i s Hs. destruct (S i s Hs) as (_ & v & Hv & A). exists v. split; assumption.
Defined.

(** ** The dispatch of numpy functions *)

(** X14.  [__array_function__] never returns a result for [np.transpose]:
    whatever the container, the axes and the other arguments are, the call
    ends in an exception (the last statement of the method, a [raise], is
    reached after the shape manipulation).  For a function that is in none
    of the three lists the exception is NotImplementedError and the store
    is not changed. *)
Theorem array_function_transpose_never_returns :
  forall (lane : np_function -> list Q -> result Q)
         (af : np_function -> option (list Z) -> np.ndarray -> result np.ndarray)
         (self : loc) (axis_arg : axis_argument) (axes : option (list Z))
         (out : option loc) (h : heap),
    (exists e h',
       __array_function__ lane af self np_transpose axis_arg axes out h = (Raise e, h')) /\
    (forall name,
       __array_function__ lane af self (np_other name) axis_arg axes out h
       = (Raise (NotImplementedError "Function is not implemented."), h)).
Proof.
  intros lane af self axis_arg axes out h. split.
  - unfold __array_function__.
    change (existsb (np_function_eqb np_transpose) __function_reduction_list__) with false.
    change (existsb (np_function_eqb np_transpose) __other_functions__) with false.
    change (existsb (np_function_eqb np_transpose) __shape_manipulation_functions__)
      with true.
    cbv iota. unfold bind at 1.
    match goal with |- context [match ?m h with _ => _ end] => destruct (m h) as [[u|e] h1] end.
    + eexists _, _. reflexivity.
    + eexists _, _. reflexivity.
  - intros name. reflexivity.
Qed.

(** ** The translation of dimension indices *)

(** X15.  [_check_dimension_indices] on indices within the range of the
    dimensions, [-d <= i < d]: every index [i] is translated to the array
    axis [-1 - i], a negative index counting from the last dimension, so
    that [i] and [i + d] give the same axis; the result has one axis per
    index, in the order of the indices, each between [-d] and [-1]. *)
Theorem check_dimension_indices_translates :
  forall (d : nat) (a : py_index_arg) (idx : list Z),
    index_list a = Some idx ->
    Forall (valid_index d) idx ->
    exists axes,
      _check_dimension_indices (Z.of_nat d) a = Ok axes /\
      length axes = length idx /\
      (forall k i, idx !! k = Some i ->
         axes !! k = Some (-1 - (if Z.ltb i 0 then i + Z.of_nat d else i))%Z) /\
      Forall (fun t => (- Z.of_nat d <= t <= -1)%Z) axes /\
      (forall i, In i idx -> (i < 0)%Z ->
         _check_dimension_indices (Z.of_nat d) (ArgInt i) =
         _check_dimension_indices (Z.of_nat d) (ArgInt (i + Z.of_nat d))).
Proof.
  intros d a idx Hi F.
  exists (map (array_axis d) idx).
  split; [apply (check_dimension_indices_valid _ _ _ Hi F)|].
  split; [apply length_map|]. split; [|split].
  - intros k i Hk. rewrite list_lookup_fmap, Hk. simpl. f_equal.
    rewrite Forall_forall in F. pose proof (F i (list_elem_of_lookup_2 _ _ _ Hk)) as Hv.
    unfold array_axis, normalized, valid_index in *. destruct (Z.ltb_spec i 0); lia.
  - apply Forall_forall. intros t Ht. apply list_elem_of_fmap in Ht as (i & -> & Hin).
    rewrite Forall_forall in F. pose proof (F i Hin) as Hv.
    unfold array_axis, normalized, valid_index in *. destruct (Z.ltb_spec i 0); lia.
  - intros i Hin Hneg. rewrite Forall_forall in F.
    pose proof (F i (proj2 (list_elem_of_In _ _) Hin)) as Hv.
    assert (Hv' : valid_index d (i + Z.of_nat d)) by (unfold valid_index in *; lia).
    rewrite (check_dimension_indices_valid d (ArgInt i) [i] eq_refl)
      by (constructor; [assumption|constructor]).
    rewrite (check_dimension_indices_valid d (ArgInt (i + Z.of_nat d)) [(i + Z.of_nat d)%Z]
               eq_refl) by (constructor; [assumption|constructor]).
    simpl. f_equal. f_equal. unfold array_axis, normalized, valid_index in *.
    destruct (Z.ltb_spec i 0); destruct (Z.ltb_spec (i + Z.of_nat d) 0); lia.
Qed.

(** The witness of X15: the indices 0 and -1 of three dimensions. *)
Lemma check_dimension_indices_translates_witness :
  exists axes,
    _check_dimension_indices 3 (ArgTuple [PyInt 0; PyInt (-1)]) = Ok axes /\
    axes !! 0 = Some (-1)%Z /\ axes !! 1 = Some (-3)%Z.
Proof.
  destruct (check_dimension_indices_translates 3 (ArgTuple [PyInt 0; PyInt (-1)])
              [0%Z; (-1)%Z] eq_refl) as (axes & E & _ & L & _).
  - repeat constructor; unfold valid_index; simpl; lia.
  - exists axes. split; [exact E|].
    split; [apply (L 0 0%Z eq_refl) | apply (L 1 (-1)%Z eq_refl)].
Defined.

Lemma rmap_raises {A B} (f : A -> result B) l x :
  In x l -> (exists e, f x = Raise e) -> exists e, rmap f l = Raise e.
Proof.
  induction l as [|y l IH]; intros Hin Hx; [contradiction|].
  simpl. destruct (f y) as [b|e] eqn:Ey; [|eexists; reflexivity].
  destruct Hin as [->|Hin].
  - destruct Hx as [e He]. congruence.
  - destruct (IH Hin Hx) as [e He]. rewrite He. simpl. eexists. reflexivity.
Qed.

(** X16.  The errors of [_check_dimension_indices] on a container with [d]
    dimensions.  [None] and objects that are neither an integer nor a
    sequence raise TypeError; an integer is refused, with IndexError,
    exactly when it is greater than [d], and every other integer, whatever
    its sign, is accepted; a tuple or list raises as soon as one of its
    entries is not an integer or is an integer greater than [d]. *)
Theorem check_dimension_indices_errors :
  forall (d : nat),
    _check_dimension_indices (Z.of_nat d) ArgNone
      = Raise (TypeError "Index/Indices are expected as integer(s)") /\
    _check_dimension_indices (Z.of_nat d) ArgOther
      = Raise (TypeError "Index/Indices are expected as integer(s)") /\
    (forall i, (Z.of_nat d < i)%Z ->
       _check_dimension_indices (Z.of_nat d) (ArgInt i)
       = Raise (IndexError "The `index` cannot be greater than the total number of dimensions - 1")) /\
    (forall i, (i <= Z.of_nat d)%Z ->
       exists t, _check_dimension_indices (Z.of_nat d) (ArgInt i) = Ok [t]) /\
    (forall l,
       In PyNonInt l \/ (exists i, In (PyInt i) l /\ (Z.of_nat d < i)%Z) ->
       (exists e, _check_dimension_indices (Z.of_nat d) (ArgTuple l) = Raise e) /\
       (exists e, _check_dimension_indices (Z.of_nat d) (ArgList l) = Raise e)).
Proof.
  intros d.
  assert (Hbig : forall i, (Z.of_nat d < i)%Z ->
            _correct_index (PyInt i) (Z.of_nat d)
            = Raise (IndexError "The `index` cannot be greater than the total number of dimensions - 1")).
  { intros i Hi. unfold _correct_index. destruct (Z.ltb_spec i 0); [lia|].
    destruct (Z.gtb_spec i (Z.of_nat d)); [reflexivity|lia]. }
  split; [reflexivity|]. split; [reflexivity|]. split; [|split].
  - intros i Hi. unfold _check_dimension_indices. now rewrite (Hbig i Hi).
  - intros i Hi. unfold _check_dimension_indices, _correct_index.
    destruct (Z.ltb_spec i 0).
    + destruct (Z.gtb_spec (i + Z.of_nat d) (Z.of_nat d)); [lia|]. eexists. reflexivity.
    + destruct (Z.gtb_spec i (Z.of_nat d)); [lia|]. eexists. reflexivity.
  - intros l Hl.
    assert (R : exists e, rmap (fun item => _correct_index item (Z.of_nat d)) l = Raise e).
    { destruct Hl as [Hn|(i & Hin & Hi)].
      - eapply rmap_raises; [exact Hn|]. eexists. reflexivity.
      - eapply rmap_raises; [exact Hin|]. eexists. apply (Hbig i Hi). }
    split; exact R.
Qed.

(** ** The keyword [out] *)

Lemma check_for_out_rejects (h : heap) csdm X o :
  read_csdm h csdm = Some X ->
  2 <= length (vw_dependent_variables X) ->
  _check_for_out csdm (Some o) h =
    (Raise (NotImplementedError "Keyword `out` is not implemented for csdm objects with more that one dependent variables."), h).
Proof.
  intros R Hn. destruct (read_csdm_open _ _ _ R) as (c & dl & vl & O).
  unfold _check_for_out.
  mstep (dependent_variables_run _ _ _ (op_slots _ _ _ _ _ _ O)).
  mstep (len_ok _ _ _ _ (op_dvs _ _ _ _ _ _ O)).
  rewrite (read_all_length _ _ _ (op_read_dvs _ _ _ _ _ _ O)).
  destruct (Nat.ltb_spec 1 (length (vw_dependent_variables X))); [reflexivity|lia].
Qed.

(** X17.  The keyword [out] on a container with more than one dependent
    variable: a reducing function (called without an axis, with [axis=None]
    or with valid dimension indices) and the functions [round], [real],
    [imag] and [clip] raise NotImplementedError before anything is created
    or written: the store is as before. *)
Theorem out_refused_for_several_variables :
  forall (lane : np_function -> list Q -> result Q)
         (af : np_function -> option (list Z) -> np.ndarray -> result np.ndarray)
         (h : heap) (csdm : loc) (X : csdm_view) (o : loc) (func : np_function),
    read_csdm h csdm = Some X ->
    2 <= length (vw_dependent_variables X) ->
    (In func __function_reduction_list__ ->
     forall ax,
       ax = AxisAbsent \/ ax = AxisKeyword ArgNone \/
       (exists a idx, (ax = AxisKeyword a \/ ax = AxisPositional a) /\
                      index_list a = Some idx /\
                      Forall (valid_index (length (vw_dimensions X))) idx) ->
       __array_function__ lane af csdm func ax None (Some o) h
       = (Raise (NotImplementedError "Keyword `out` is not implemented for csdm objects with more that one dependent variables."), h)) /\
    (In func __other_functions__ ->
     forall ax axes,
       __array_function__ lane af csdm func ax axes (Some o) h
       = (Raise (NotImplementedError "Keyword `out` is not implemented for csdm objects with more that one dependent variables."), h)).
Proof.
  intros lane af h csdm X o func R Hn.
  pose proof (check_for_out_rejects h csdm X o R Hn) as Eo.
  destruct (read_csdm_open _ _ _ R) as (c & dl & vl & O).
  pose proof (read_all_length _ _ _ (op_read_dims _ _ _ _ _ _ O)) as Ld.
  split.
  - intros Hf ax Hax. unfold __array_function__.
    rewrite (reduction_function_listed _ Hf).
    unfold _get_new_csdm_object_after_dimension_reduction_func.
    match goal with
    | |- bind ?m _ _ = _ => assert (E0 : exists t, m h = (Ok t, h))
    end.
    { destruct Hax as [->|[->|(a & idx & Ha & Hi & Hv)]];
        [eexists; reflexivity|eexists; reflexivity|].
      exists (Some (map (array_axis (length (vw_dimensions X))) idx)).
      assert (E : (dims <- CSDMClass.dimensions csdm ;;
                   d0 <- AbstractList.__len__ dims ;;
                   t0 <- lift (_check_dimension_indices (Z.of_nat d0) a) ;;
                   ret (Some t0))%py h
                  = (Ok (Some (map (array_axis (length (vw_dimensions X))) idx)), h)).
      { mstep (dimensions_run _ _ _ (op_slots _ _ _ _ _ _ O)).
        mstep (len_ok _ _ _ _ (op_dims _ _ _ _ _ _ O)).
        rewrite Ld. rewrite (check_dimension_indices_valid _ a idx Hi Hv). reflexivity. }
      destruct Ha as [-> | ->]; destruct a; try discriminate; exact E. }
    destruct E0 as [t E0]. mstep E0.
    erewrite bind_raise by exact Eo. reflexivity.
  - intros Hf ax axes. unfold __array_function__.
    assert (E1 : existsb (np_function_eqb func) __function_reduction_list__ = false).
    { simpl in Hf. intuition (subst; reflexivity). }
    assert (E2 : existsb (np_function_eqb func) __other_functions__ = true).
    { simpl in Hf. intuition (subst; reflexivity). }
    rewrite E1, E2.
    unfold _get_new_csdm_object_after_applying_function.
    unfold bind at 1. unfold bind at 1.
    rewrite Eo. reflexivity.
Qed.

(** The witness of X17: the sum of the container with two dependent
    variables into the array of the first. *)
Lemma out_refused_for_several_variables_witness :
  __array_function__ lane_sum (fun _ _ a => Ok a) 0 np_sum (AxisKeyword (ArgInt 0))
    None (Some 8) two_variables
  = (Raise (NotImplementedError "Keyword `out` is not implemented for csdm objects with more that one dependent variables."), two_variables).
Proof.
  destruct (out_refused_for_several_variables lane_sum (fun _ _ a => Ok a)
              two_variables 0 _ 8 np_sum eq_refl) as [HR _]; [simpl; lia|].
  apply HR; [simpl; tauto|].
  right. right. exists (ArgInt 0), [0%Z]. split; [left; reflexivity|].
  split; [reflexivity|]. repeat constructor; unfold valid_index; simpl; lia.
Defined.

(** ** Functions applied to the components *)

Lemma deepcopy_dimension_list_run (h : heap) a dl dims :
  h !! a = Some (OAbstractList DimensionListC dl) ->
  read_all (read_dimension h) dl = Some dims ->
  exists bs h',
    deepcopy a h = (Ok (length h), h') /\
    grows h h' /\
    h' !! length h = Some (OAbstractList DimensionListC bs) /\
    read_all (read_dimension h') bs = Some dims /\
    Forall (le (length h)) bs.
Proof.
  intros Ea R.
  destruct (copy_list 997 h h [] a _ _ Ea
              (read_all_atoms _ _ _ _ (read_dimension_atom h) R)
              eq_refl (grows_refl h) (memo_inv_nil h))
    as (bs & m' & h' & E & G & MI & L & F & A & X).
  exists bs, h'. split; [|split; [assumption|split; [assumption|split]]].
  - unfold deepcopy, recursion_limit. mstep E. reflexivity.
  - eapply read_all_copied; [exact F| |exact R].
    intros x y d Hxy Rx. eapply copy_of_read_dimension; [|exact Rx].
    apply (mi_copy _ _ _ MI). auto.
  - clear -F MI. induction F as [|x y l l' Hxy F IH]; constructor; [|assumption].
    apply (mi_range _ _ _ MI) in Hxy. lia.
Qed.

(** The loop over the dependent variables attaches one transformed
    dependent variable per dependent variable of the original. *)
Lemma apply_variables_loop (F : np.ndarray -> result np.ndarray) (h : heap) new cN
    (counts : list nat) :
  (forall V, on_grid counts V ->
     exists y, F (dd_components V) = Ok y /\
               np.shape y = component_count (dd_quantity_type V) :: rev counts /\
               length (np.data y) = np.prod (np.shape y)) ->
  length h <= _dependent_variables cN ->
  forall vl Vs (H : heap) Z cl wl,
    read_all (read_dv h) vl = Some Vs ->
    Forall (on_grid counts) Vs ->
    map count (vw_dimensions Z) = counts ->
    grows h H ->
    opened H new Z cN cl wl ->
    exists r H' wl' Ws,
      for_each (fun variable =>
          a <- components variable ;;
          y <- lift (F a) ;;
          y <- write_out None y ;;
          nd <- new_dependent_variable variable y ;;
          CSDMClass.add_dependent_variable new nd)
        vl H = (Ok r, H') /\
      grows h H' /\
      opened H' new (with_dvs Z (vw_dependent_variables Z ++ Ws)) cN cl wl' /\
      Forall2 (transformed_variable F counts) Vs Ws.
Proof.
  intros HF Hn. induction vl as [|x vl IH]; intros Vs H Z cl wl R Fg K G O.
  - simpl in R. injection R as <-. exists [], H, wl, []. split; [reflexivity|].
    split; [assumption|]. split; [|constructor].
    rewrite app_nil_r, with_dvs_same. assumption.
  - simpl in R. destruct (read_dv h x) as [V|] eqn:Ex; try discriminate.
    destruct (read_all (read_dv h) vl) as [Vs'|] eqn:El; try discriminate.
    injection R as <-. apply Forall_cons in Fg as [FV F'].
    destruct (HF V FV) as (y & Ey & Sy & Ly).
    pose proof (read_dv_grows _ _ _ _ G Ex) as Ex'.
    destruct FV as (Hp & _ & _).
    set (p := component_count (dd_quantity_type V)) in *.
    set (nd := dd_with_components V (np.mk [p; np.prod (rev counts)] (np.data y))).
    assert (E3 : new_dependent_variable x y H = (Ok nd, H)).
    { apply new_dependent_variable_run; assumption. }
    assert (Ln : length (np.data (dd_components nd)) =
                 np.prod (component_count (dd_quantity_type nd)
                          :: rev (map count (vw_dimensions Z)))).
    { simpl. rewrite Ly, Sy, K. reflexivity. }
    pose proof (add_dependent_variable_run _ _ _ _ _ _ nd O Ln) as E4.
    set (arr := match map count (vw_dimensions Z) with
                | [] => dd_components nd
                | _ :: _ =>
                    np.mk (component_count (dd_quantity_type nd)
                           :: rev (map count (vw_dimensions Z)))
                          (np.data (dd_components nd))
                end) in *.
    set (v := mkDV "internal" (dd_description nd) (dd_name nd) (dd_unit nd)
                "base64" (dd_quantity_type nd) (length H)) in *.
    set (H2 := <[_dependent_variables cN :=
                   OAbstractList DependentVariableListC (wl ++ [S (length H)])]>
                 (H ++ [OArray arr; ODependentVariable v])) in *.
    pose proof (opened_add_dv _ _ _ _ _ _ arr v O eq_refl) as O2. fold H2 in O2.
    assert (G2 : grows h H2).
    { apply grows_insert; [|assumption]. eapply grows_trans; [exact G | apply grows_app]. }
    destruct (IH Vs' H2 (with_dvs Z (vw_dependent_variables Z ++ [dict_of v arr]))
                cl _ eq_refl F' K G2 O2)
      as (r & H' & wl' & Ws & E & G' & O' & F2).
    exists (tt :: r), H', wl', (dict_of v arr :: Ws).
    split; [|split; [assumption|split]].
    + cbn [for_each].
      assert (Ebody : (a <- components x ;;
                       y0 <- lift (F a) ;;
                       y1 <- write_out None y0 ;;
                       nd0 <- new_dependent_variable x y1 ;;
                       CSDMClass.add_dependent_variable new nd0)%py H = (Ok tt, H2)).
      { mstep (components_run _ _ _ Ex').
        rewrite Ey. mstep (eq_refl : lift (Ok y) H = (Ok y, H)).
        mstep (eq_refl : write_out None y H = (Ok y, H)).
        mstep E3. exact E4. }
      mstep Ebody. mstep E. reflexivity.
    + replace (with_dvs Z (vw_dependent_variables Z ++ dict_of v arr :: Ws))
        with (with_dvs (with_dvs Z (vw_dependent_variables Z ++ [dict_of v arr]))
                (vw_dependent_variables
                   (with_dvs Z (vw_dependent_variables Z ++ [dict_of v arr])) ++ Ws));
        [assumption|].
      unfold with_dvs. simpl. rewrite <- app_assoc. reflexivity.
    + constructor; [|assumption].
      exists y. split; [assumption|].
      unfold arr, nd. rewrite K. destruct counts; simpl; tauto.
Qed.

(** The functions [round], [real], [imag] and [clip] on a container. *)
Lemma applying_function_run
    (af : np_function -> option (list Z) -> np.ndarray -> result np.ndarray)
    func (h : heap) csdm X :
  keeps_shape (af func None) ->
  read_csdm h csdm = Some X ->
  grid_invariant X ->
  exists h' Ws dl',
    _get_new_csdm_object_after_applying_function af func csdm None None h
      = (Ok (length h), h') /\
    grows h h' /\
    read_csdm h' (length h) = Some (new_view (vw_dimensions X) Ws) /\
    Forall2 (transformed_variable (af func None) (map count (vw_dimensions X)))
      (vw_dependent_variables X) Ws /\
    dimension_addresses h' (length h) = Some dl' /\
    Forall (le (length h)) dl'.
Proof.
  intros HF R GI.
  destruct (read_csdm_open _ _ _ R) as (c & dl & vl & O).
  set (cN := mkCSDM (length h + 4) (length h + 5) (length h + 1) false
               "1.0" "" (length h + 2) "" (length h + 3) "").
  set (H1 := h ++ [ OCSDM cN; OStrList []; ODict ∅; ODict ∅;
                    OAbstractList DimensionListC [];
                    OAbstractList DependentVariableListC [] ]).
  pose proof (new_opened h) as ON. fold cN in ON. fold H1 in ON.
  assert (G1 : grows h H1) by apply grows_app.
  pose proof (opened_grows _ _ _ _ _ _ _ G1 O) as O1.
  destruct (deepcopy_dimension_list_run H1 _ _ _ (op_dims _ _ _ _ _ _ O1)
              (op_read_dims _ _ _ _ _ _ O1))
    as (bs & H2 & E2 & G2 & L2 & R2 & F2).
  assert (LH1 : length H1 = length h + 6).
  { unfold H1. rewrite length_app. reflexivity. }
  set (cN' := mkCSDM (length H1) (length h + 5) (length h + 1) false
                "1.0" "" (length h + 2) "" (length h + 3) "").
  set (H3 := <[length h := OCSDM cN']> H2).
  pose proof (opened_grows _ _ _ _ _ _ _ G2 ON) as ON2.
  assert (K : forall x ob, H2 !! x = Some ob -> x <> length h -> (H3 : heap) !! x = Some ob).
  { intros x ob E Hne. unfold H3. rewrite list_lookup_insert_ne by congruence. exact E. }
  assert (O3 : opened H3 (length h) (new_view (vw_dimensions X) []) cN' bs []).
  { constructor; simpl; try reflexivity.
    - apply (stored_lookup _ _ _ _ (op_slots _ _ _ _ _ _ ON2)).
    - apply K; [exact L2|lia].
    - apply K; [apply (op_dvs _ _ _ _ _ _ ON2)|simpl; lia].
    - apply K; [apply (op_tags _ _ _ _ _ _ ON2)|simpl; lia].
    - apply K; [apply (op_geo _ _ _ _ _ _ ON2)|simpl; lia].
    - apply K; [apply (op_app _ _ _ _ _ _ ON2)|simpl; lia].
    - eapply read_all_mono; [|exact R2]. intros x d Rx.
      apply read_dimension_inv in Rx. unfold read_dimension.
      rewrite (K _ _ Rx); [reflexivity|].
      intros ->. rewrite (op_slots _ _ _ _ _ _ ON2) in Rx. discriminate. }
  assert (G3 : grows h H3).
  { apply grows_insert; [|lia]. eapply grows_trans; eauto. }
  assert (Hgrid : forall V, on_grid (map count (vw_dimensions X)) V ->
            exists y, af func None (dd_components V) = Ok y /\
                      np.shape y = component_count (dd_quantity_type V)
                                   :: rev (map count (vw_dimensions X)) /\
                      length (np.data y) = np.prod (np.shape y)).
  { intros V (_ & Sv & Lv). destruct (HF (dd_components V)) as (y & Ey & Sy & Ly).
    exists y. split; [exact Ey|]. split; [congruence|]. rewrite Ly, Sy. exact Lv. }
  destruct (apply_variables_loop (af func None) h (length h) cN'
              (map count (vw_dimensions X)) Hgrid ltac:(simpl; lia)
              vl (vw_dependent_variables X) H3 (new_view (vw_dimensions X) []) bs []
              (op_read_dvs _ _ _ _ _ _ O) GI eq_refl G3 O3)
    as (r & H4 & wl4 & Ws & E4 & G4 & O4 & F4).
  exists H4, Ws, bs.
  split; [|split; [assumption|split; [|split; [assumption|split]]]].
  - unfold _get_new_csdm_object_after_applying_function.
    mstep (eq_refl : _check_for_out csdm None h = (Ok tt, h)).
    mstep (new_run h). fold cN. fold H1.
    mstep (dimensions_run _ _ _ (op_slots _ _ _ _ _ _ O1)).
    mstep E2.
    mstep (get_csdm_ok _ _ _ (op_slots _ _ _ _ _ _ ON2)).
    mstep (eq_refl : store (length h) (OCSDM cN') H2 = (Ok tt, H3)).
    assert (O3' : opened H3 csdm X c dl vl) by (eapply opened_grows; eauto).
    mstep (dependent_variables_run _ _ _ (op_slots _ _ _ _ _ _ O3')).
    mstep (get_items_ok _ _ _ _ (op_dvs _ _ _ _ _ _ O3')).
    mstep E4. reflexivity.
  - apply (opened_read _ _ _ _ _ _ O4).
  - unfold dimension_addresses, read_slots. rewrite (op_slots _ _ _ _ _ _ O4).
    unfold read_items. rewrite (op_dims _ _ _ _ _ _ O4). reflexivity.
  - eapply Forall_impl; [exact F2|]. intros x Hx. simpl in Hx. lia.
Qed.

(** X18.  [np.round], [np.real], [np.imag] and [np.clip] on a container
    return a new container.  Its dimensions are copies of the dimensions of
    the original, held in new objects; each dependent variable has the
    components that the function makes of the original components, in the
    shape [(p,) + reversed(counts)], with the unit, name, description and
    quantity type of the original, the type internal and the encoding
    base64; the tags, the description and the other metadata of the
    original are not carried over.  The original is not changed.  The
    function is taken to keep the shape of an array, and the components to
    follow the invariant of the data model. *)
Theorem other_functions_keep_dimensions :
  forall (lane : np_function -> list Q -> result Q)
         (af : np_function -> option (list Z) -> np.ndarray -> result np.ndarray)
         (func : np_function) (h : heap) (csdm : loc) (X : csdm_view)
         (ax : axis_argument) (axes : option (list Z)),
    In func __other_functions__ ->
    keeps_shape (af func None) ->
    read_csdm h csdm = Some X ->
    grid_invariant X ->
    exists h' Ws dl',
      __array_function__ lane af csdm func ax axes None h
        = (Ok (Container (length h)), h') /\
      grows h h' /\
      read_csdm h' csdm = Some X /\
      read_csdm h' (length h) = Some (new_view (vw_dimensions X) Ws) /\
      Forall2 (transformed_variable (af func None) (map count (vw_dimensions X)))
        (vw_dependent_variables X) Ws /\
      dimension_addresses h' (length h) = Some dl' /\
      Forall (le (length h)) dl'.
Proof.
  intros lane af func h csdm X ax axes Hf HF R GI.
  destruct (applying_function_run af func h csdm X HF R GI)
    as (h' & Ws & dl' & E & G & Rn & F & A & Fr).
  exists h', Ws, dl'.
  split; [|split; [assumption|split; [eapply read_csdm_grows; eauto|]]].
  - unfold __array_function__.
    assert (E1 : existsb (np_function_eqb func) __function_reduction_list__ = false).
    { simpl in Hf. intuition (subst; reflexivity). }
    assert (E2 : existsb (np_function_eqb func) __other_functions__ = true).
    { simpl in Hf. intuition (subst; reflexivity). }
    rewrite E1, E2. mstep E. reflexivity.
  - repeat split; assumption.
Qed.

(** The witness of X18: [np.real] as the identity on the rational
    components of the container over dimensions of counts 3 and 4. *)
Lemma other_functions_keep_dimensions_witness :
  exists h' Ws,
    __array_function__ lane_sum (fun _ _ a => Ok a) 0 np_real AxisAbsent None None grid_3_4
      = (Ok (Container 10), h') /\
    read_csdm h' 10
      = Some (new_view [LinearDimension 3 1 0; LinearDimension 4 1 0] Ws) /\
    length Ws = 1.
Proof.
  destruct (other_functions_keep_dimensions lane_sum (fun _ _ a => Ok a) np_real
              grid_3_4 0 _ AxisAbsent None ltac:(simpl; tauto)
              (fun a => ex_intro _ a (conj eq_refl (conj eq_refl eq_refl)))
              eq_refl)
    as (h' & Ws & dl' & E & _ & _ & Rn & F & _).
  - constructor; [|constructor]. split; [simpl; lia|]. split; reflexivity.
  - exists h', Ws. split; [exact E|]. split; [exact Rn|].
    symmetry. apply (Forall2_length _ _ _ F).
Defined.

(** ** Operators and their operands *)

Lemma kb_ret n {A} (a : A) : keeps_below n (ret a).
Proof. intros H r H' _ [= <- <-]. auto. Qed.

Lemma kb_raise n {A} e : keeps_below n (@raise A e).
Proof. intros H r H' _ [= <- <-]. auto. Qed.

Lemma kb_lift n {A} (x : result A) : keeps_below n (lift x).
Proof. intros H r H' _ [= <- <-]. auto. Qed.

Lemma kb_deref n l : keeps_below n (deref l).
Proof.
  intros H r H' _. unfold deref. destruct (H !! l); intros [= <- <-]; auto.
Qed.

Lemma kb_alloc n o : keeps_below n (alloc o).
Proof.
  intros H r H' Hn [= <- <-]. split; [rewrite length_app; lia|].
  intros x Hx. apply lookup_app_l. lia.
Qed.

Lemma kb_store n l o : n <= l -> keeps_below n (store l o).
Proof.
  intros Hl H r H' Hn [= <- <-]. split; [rewrite length_insert; lia|].
  intros x Hx. apply list_lookup_insert_ne. lia.
Qed.

Lemma kb_bind n {A B} (m : M A) (k : A -> M B) :
  keeps_below n m -> (forall a, keeps_below n (k a)) -> keeps_below n (bind m k).
Proof.
  intros Hm Hk H r H' Hn E.
  destruct (bind_inv _ _ _ _ _ E) as [(a & h1 & E1 & E2)|(e & E1 & ->)].
  - destruct (Hm _ _ _ Hn E1) as [L1 S1].
    assert (Hn1 : n <= length h1) by lia.
    destruct (Hk a _ _ _ Hn1 E2) as [L2 S2].
    split; [lia|]. intros x Hx. rewrite S2, S1 by assumption. reflexivity.
  - apply (Hm _ _ _ Hn E1).
Qed.

Lemma kb_for_each n {A B} (body : A -> M B) l :
  (forall x, In x l -> keeps_below n (body x)) -> keeps_below n (for_each body l).
Proof.
  induction l as [|x l IH]; intros Hb; simpl; [apply kb_ret|].
  apply kb_bind; [apply Hb; now left|]. intros y.
  apply kb_bind; [apply IH; intros z Hz; apply Hb; now right|].
  intros ys. apply kb_ret.
Qed.

(** The steps that only read, allocate, or store at addresses from [n]
    on. *)
Ltac kb_step :=
  first
    [ apply kb_ret | apply kb_raise | apply kb_lift | apply kb_deref
    | apply kb_alloc | apply kb_store; assumption
    | apply kb_bind; [|intros ?]
    | match goal with
      | |- keeps_below _ (match ?o with _ => _ end) => destruct o
      end ].

Lemma kb_get_dv n l : keeps_below n (get_dv l).
Proof. unfold get_dv. repeat kb_step. Qed.

Lemma kb_get_array n l : keeps_below n (get_array l).
Proof. unfold get_array. repeat kb_step. Qed.

Lemma kb_get_csdm n l : keeps_below n (get_csdm l).
Proof. unfold get_csdm. repeat kb_step. Qed.

Lemma kb_get_items n l : keeps_below n (get_items l).
Proof. unfold get_items, get_list. repeat kb_step. Qed.

Lemma kb_components n l : keeps_below n (components l).
Proof.
  unfold components. apply kb_bind; [apply kb_get_dv|]. intros v. apply kb_get_array.
Qed.

Lemma kb_unit_of n l : keeps_below n (unit_of l).
Proof. unfold unit_of. apply kb_bind; [apply kb_get_dv|]. intros v. apply kb_ret. Qed.

Lemma kb_set_components n l a : n <= l -> keeps_below n (set_components l a).
Proof.
  intros Hl. unfold set_components.
  apply kb_bind; [apply kb_get_dv|]. intros v. repeat kb_step.
Qed.

Lemma kb_set_unit n l u : n <= l -> keeps_below n (set_unit l u).
Proof.
  intros Hl. unfold set_unit.
  apply kb_bind; [apply kb_get_dv|]. intros v. repeat kb_step.
Qed.

Lemma kb_dependent_variables n l : keeps_below n (CSDMClass.dependent_variables l).
Proof.
  unfold CSDMClass.dependent_variables.
  apply kb_bind; [apply kb_get_csdm|]. intros c. apply kb_ret.
Qed.

Lemma kb_getitem n l i : keeps_below n (AbstractList.__getitem__ l i).
Proof.
  unfold AbstractList.__getitem__. apply kb_bind; [apply kb_get_items|]. intros items.
  destruct (py_index (length items) i) as [k|]; [|apply kb_raise].
  destruct (items !! k); [apply kb_ret|apply kb_raise].
Qed.

(** The dependent variables of a copy are new objects. *)
Lemma copy_variables_fresh (h h1 : heap) X c' dl' vl' :
  opened h1 (length h) X c' dl' vl' ->
  closed_above (length h) h1 ->
  Forall (le (length h)) vl'.
Proof.
  intros O C.
  pose proof (C _ _ (le_n _) (op_slots _ _ _ _ _ _ O)) as Cs. simpl in Cs.
  assert (Hv : length h <= _dependent_variables c').
  { rewrite Forall_forall in Cs. apply Cs. simpl.
    rewrite !elem_of_cons. tauto. }
  apply (C _ _ Hv (op_dvs _ _ _ _ _ _ O)).
Qed.

Lemma In_enumerate {A} (l : list A) p : In p (enumerate l) -> In p.2 l.
Proof. unfold enumerate. destruct p as [i x]. apply in_combine_r. Qed.

(** The loop of an operator over the dependent variables of the copy, and
    the return of the copy. *)
Lemma operator_tail (h h1 : heap) X c' dl' vl' {B} (loop : list loc -> M (list B)) r h' :
  grows h h1 ->
  opened h1 (length h) X c' dl' vl' ->
  keeps_below (length h) (loop vl') ->
  (dvs <- CSDMClass.dependent_variables (length h) ;;
   items <- get_items dvs ;;
   loop items ;;;
   ret (length h))%py h1 = (r, h') ->
  grows h h' /\ forall b, r = Ok b -> b = length h.
Proof.
  intros G O K E.
  revert E. mstep (dependent_variables_run _ _ _ (op_slots _ _ _ _ _ _ O)).
  mstep (get_items_ok _ _ _ _ (op_dvs _ _ _ _ _ _ O)). intros E.
  destruct (bind_inv _ _ _ _ _ E) as [(a & h2 & E1 & E2)|(e & E1 & ->)].
  - injection E2 as <- <-.
    destruct (K _ _ _ (proj1 G) E1) as [L S].
    split; [|intros b [= <-]; reflexivity].
    split; [destruct G; lia|]. intros x Hx. rewrite S by assumption. now apply G.
  - destruct (K _ _ _ (proj1 G) E1) as [L S].
    split; [|discriminate].
    split; [destruct G; lia|]. intros x Hx. rewrite S by assumption. now apply G.
Qed.

Ltac mstep_in E0 E := erewrite bind_ok in E by (exact E0); cbv beta in E.

(** [__add__] and [__sub__] change no object that existed before the
    call. *)
Lemma additive_keeps op (h : heap) x X other r h' :
  read_csdm h x = Some X ->
  operand_readable h other ->
  CSDMClass.additive op x other h = (r, h') ->
  grows h h' /\ forall b, r = Ok b -> b = length h.
Proof.
  intros R Ho E.
  destruct (read_csdm_open _ _ _ R) as (c & dl & vl & O).
  destruct (copy_opened _ _ _ _ _ _ O)
    as (h1 & c' & dl' & vl' & Ec & G & O' & _ & _ & C).
  pose proof (copy_variables_fresh _ _ _ _ _ _ O' C) as Fr.
  rewrite Forall_forall in Fr.
  unfold CSDMClass.additive in E.
  destruct other as [y|k|q].
  - destruct Ho as [Y Ry].
    destruct (read_csdm_open _ _ _ Ry) as (cy & dly & vly & Oy).
    mstep_in (isinstance_CSDM_ok _ _ _ (op_slots _ _ _ _ _ _ Oy)) E. cbv iota in E.
    pose proof (additive_compatibility_spec _ _ _ _ _ _ _ _ _ _ _ O Oy) as Ek.
    destruct (negb (list_eqb dimension_eqb (vw_dimensions X) (vw_dimensions Y))).
    { erewrite bind_raise in E by exact Ek. injection E as <- <-.
      split; [apply grows_refl|discriminate]. }
    destruct (negb (Nat.eqb (length (vw_dependent_variables X))
                      (length (vw_dependent_variables Y)))).
    { erewrite bind_raise in E by exact Ek. injection E as <- <-.
      split; [apply grows_refl|discriminate]. }
    destruct (existsb mismatch
                (combine (vw_dependent_variables X) (vw_dependent_variables Y))).
    { erewrite bind_raise in E by exact Ek. injection E as <- <-.
      split; [apply grows_refl|discriminate]. }
    mstep_in Ek E. mstep_in Ec E.
    refine (operator_tail h h1 X c' dl' vl' _ r h' G O' _ E).
    apply kb_for_each. intros p Hp. apply In_enumerate in Hp.
    pose proof (Fr _ (proj2 (list_elem_of_In _ _) Hp)) as Lp.
    apply kb_bind; [apply kb_dependent_variables|]. intros odvs.
    apply kb_bind; [apply kb_getitem|]. intros oi.
    apply kb_bind; [apply kb_unit_of|]. intros ou.
    apply kb_bind; [apply kb_unit_of|]. intros u.
    apply kb_bind; [apply kb_lift|]. intros factor.
    apply kb_bind; [apply kb_components|]. intros a.
    apply kb_bind; [apply kb_components|]. intros b.
    apply kb_bind; [apply kb_lift|]. intros r0.
    apply kb_set_components. exact Lp.
  - mstep_in (eq_refl : isinstance_CSDM (OperandScalar k) h = (Ok None, h)) E.
    cbv iota in E.
    mstep_in (eq_refl : check_scalar_object (OperandScalar k) h = (Ok (Number k), h)) E.
    mstep_in Ec E.
    refine (operator_tail h h1 X c' dl' vl' _ r h' G O' _ E).
    apply kb_for_each. intros p Hp. apply In_enumerate in Hp.
    pose proof (Fr _ (proj2 (list_elem_of_In _ _) Hp)) as Lp.
    apply kb_bind; [apply kb_components|]. intros a.
    apply kb_set_components. exact Lp.
  - mstep_in (eq_refl : isinstance_CSDM (OperandQuantity q) h = (Ok None, h)) E.
    cbv iota in E.
    mstep_in (eq_refl : check_scalar_object (OperandQuantity q) h = (Ok (IsQuantity q), h)) E.
    mstep_in Ec E.
    refine (operator_tail h h1 X c' dl' vl' _ r h' G O' _ E).
    apply kb_for_each. intros p Hp. apply In_enumerate in Hp.
    pose proof (Fr _ (proj2 (list_elem_of_In _ _) Hp)) as Lp.
    apply kb_bind; [apply kb_unit_of|]. intros u.
    apply kb_bind; [apply kb_lift|]. intros factor.
    apply kb_bind; [apply kb_components|]. intros a.
    apply kb_set_components. exact Lp.
Qed.

(** [__mul__] changes no object that existed before the call. *)
Lemma mul_keeps (h : heap) x X other r h' :
  read_csdm h x = Some X ->
  CSDMClass.__mul__ x other h = (r, h') ->
  grows h h' /\ forall b, r = Ok b -> b = length h.
Proof.
  intros R E.
  destruct (read_csdm_open _ _ _ R) as (c & dl & vl & O).
  destruct (copy_opened _ _ _ _ _ _ O)
    as (h1 & c' & dl' & vl' & Ec & G & O' & _ & _ & C).
  pose proof (copy_variables_fresh _ _ _ _ _ _ O' C) as Fr.
  rewrite Forall_forall in Fr.
  unfold CSDMClass.__mul__ in E.
  destruct other as [y|k|q].
  - injection E as <- <-. split; [apply grows_refl|discriminate].
  - mstep_in (eq_refl : check_scalar_object (OperandScalar k) h = (Ok (Number k), h)) E.
    mstep_in Ec E.
    refine (operator_tail h h1 X c' dl' vl' _ r h' G O' _ E).
    apply kb_for_each. intros p Hp.
    pose proof (Fr _ (proj2 (list_elem_of_In _ _) Hp)) as Lp.
    apply kb_bind; [apply kb_components|]. intros a.
    apply kb_set_components. exact Lp.
  - mstep_in (eq_refl : check_scalar_object (OperandQuantity q) h = (Ok (IsQuantity q), h)) E.
    mstep_in Ec E.
    refine (operator_tail h h1 X c' dl' vl' _ r h' G O' _ E).
    apply kb_for_each. intros p Hp.
    pose proof (Fr _ (proj2 (list_elem_of_In _ _) Hp)) as Lp.
    apply kb_bind; [apply kb_unit_of|]. intros u.
    apply kb_bind; [apply kb_set_unit; exact Lp|]. intros _.
    apply kb_bind; [apply kb_components|]. intros a.
    apply kb_set_components. exact Lp.
Qed.

(** X19.  The operators [+], [-] and [*] never change their operands: when
    [x + other], [x - other] or [x * other] returns, and also when it
    raises (operands that are not compatible, a quantity whose unit cannot
    be converted, an operand of a wrong type), every object that existed
    before the call is as it was, so that [x] and a container [other] read
    as before; a result that is returned is a new object. *)
Theorem operators_leave_operands_unchanged :
  forall (h : heap) (x : loc) (X : csdm_view) (other : operand)
         (r : result loc) (h' : heap),
    read_csdm h x = Some X ->
    operand_readable h other ->
    CSDMClass.__add__ x other h = (r, h') \/
    CSDMClass.__sub__ x other h = (r, h') \/
    CSDMClass.__mul__ x other h = (r, h') ->
    grows h h' /\
    read_csdm h' x = Some X /\
    (forall y Y, other = OperandObject y -> read_csdm h y = Some Y ->
       read_csdm h' y = Some Y) /\
    (forall b, r = Ok b -> b = length h).
Proof.
  intros h x X other r h' R Ho E.
  assert (K : grows h h' /\ forall b, r = Ok b -> b = length h).
  { destruct E as [E|[E|E]].
    - apply (additive_keeps Qplus h x X other r h' R Ho E).
    - apply (additive_keeps Qminus h x X other r h' R Ho E).
    - apply (mul_keeps h x X other r h' R E). }
  destruct K as [G Hb].
  split; [exact G|]. split; [eapply read_csdm_grows; eauto|].
  split; [|exact Hb]. intros y Y _ Ry. eapply read_csdm_grows; eauto.
Qed.

(** The witness of X19: one metre is added to the container whose second
    dependent variable is in seconds.  The sum raises, and the components
    of the first dependent variable are as before. *)
Lemma operators_leave_operands_unchanged_witness :
  fst (CSDMClass.__add__ 0 (OperandQuantity (Quantity.mk 1 metre)) two_variables)
    = Raise UnitConversionError /\
  read_array
    (snd (CSDMClass.__add__ 0 (OperandQuantity (Quantity.mk 1 metre)) two_variables)) 8
    = Some (np.mk [1; 2] [10%Q; 20%Q]).
Proof.
  split; [vm_compute; reflexivity|].
  destruct (operators_leave_operands_unchanged two_variables 0 _
              (OperandQuantity (Quantity.mk 1 metre))
              (fst (CSDMClass.__add__ 0 (OperandQuantity (Quantity.mk 1 metre))
                      two_variables))
              (snd (CSDMClass.__add__ 0 (OperandQuantity (Quantity.mk 1 metre))
                      two_variables))
              eq_refl I (or_introl (surjective_pairing _))) as (G & _).
  unfold read_array. rewrite (proj2 G 8) by (simpl; lia). reflexivity.
Defined.

(** ** Element-wise operations on arrays of one shape *)

Lemma map_add_seq a o m : map (fun j => a + j) (seq o m) = seq (a + o) m.
Proof.
  revert o. induction m as [|m IH]; intros o; simpl; [reflexivity|].
  rewrite IH. f_equal. f_equal. lia.
Qed.

Lemma flat_map_seq_blocks P n k :
  flat_map (fun i => seq (i * P) P) (seq k n) = seq (k * P) (n * P).
Proof.
  revert k. induction n as [|n IH]; intros k; [reflexivity|].
  cbn [seq flat_map]. rewrite IH.
  replace (S n * P) with (P + n * P) by lia. rewrite seq_app.
  f_equal. f_equal. lia.
Qed.

(** [flat_index] numbers the multi-indices of a shape in their order. *)
Lemma flat_index_indices s :
  map (np.flat_index s) (np.indices s) = seq 0 (np.prod s).
Proof.
  induction s as [|n s IH]; [reflexivity|].
  cbn [np.indices]. change (np.prod (n :: s)) with (n * np.prod s).
  change (seq 0 (n * np.prod s)) with (seq (0 * np.prod s) (n * np.prod s)).
  rewrite <- (flat_map_seq_blocks (np.prod s) n 0).
  generalize (seq 0 n) as js. intros js.
  induction js as [|i js IHi]; [reflexivity|].
  cbn [flat_map]. rewrite map_app, IHi. f_equal.
  rewrite map_map. cbn [np.flat_index].
  rewrite <- (map_map (np.flat_index s) (fun j => i * np.prod s + j)), IH.
  rewrite map_add_seq. f_equal. lia.
Qed.

(** The multi-indices of a shape stay below the lengths of the axes. *)
Lemma indices_bounds s idx :
  In idx (np.indices s) -> Forall2 (fun n i => i < n) s idx.
Proof.
  revert idx. induction s as [|n s IH]; intros idx Hin.
  - simpl in Hin. destruct Hin as [<-|[]]. constructor.
  - cbn [np.indices] in Hin. apply in_flat_map in Hin as (i & Hi & Hin).
    apply in_map_iff in Hin as (idx' & <- & Hin').
    apply in_seq in Hi. constructor; [lia|]. now apply IH.
Qed.

Lemma operand_index_same s idx :
  Forall2 (fun n i => i < n) s idx -> np.operand_index s idx = idx.
Proof.
  intros F. unfold np.operand_index.
  rewrite (Forall2_length _ _ _ F), Nat.sub_diag, drop_0.
  induction F as [|n i s idx Hi F IH]; [reflexivity|].
  cbn [combine map]. rewrite IH. f_equal.
  destruct (Nat.eqb_spec n 1); [lia|reflexivity].
Qed.

Lemma broadcast_rev_same r : np.broadcast_rev r r = Ok r.
Proof.
  induction r as [|n r IH]; [reflexivity|].
  simpl. rewrite IH. simpl. now rewrite Nat.eqb_refl.
Qed.

Lemma map_nth_seq (f : Q -> Q -> Q) da db :
  length da = length db ->
  map (fun j => f (nth j da 0%Q) (nth j db 0%Q)) (seq 0 (length da)) = zip_with f da db.
Proof.
  revert db. induction da as [|x da IH]; intros [|y db] L; simpl in *; try discriminate.
  - reflexivity.
  - f_equal. rewrite <- seq_shift, map_map. apply IH. lia.
Qed.

(** The element-wise operation on two arrays of one shape works item by
    item on their item lists. *)
Lemma map2_same_shape (f : Q -> Q -> Q) a b :
  np.shape b = np.shape a ->
  length (np.data a) = np.prod (np.shape a) ->
  length (np.data b) = np.prod (np.shape a) ->
  np.map2 f a b = Ok (np.mk (np.shape a) (zip_with f (np.data a) (np.data b))).
Proof.
  intros Sb La Lb. unfold np.map2, np.broadcast_shapes. rewrite Sb.
  rewrite broadcast_rev_same. simpl. rewrite rev_involutive. f_equal. f_equal.
  rewrite <- (map_nth_seq f) by congruence.
  rewrite La, <- flat_index_indices, map_map.
  apply map_ext_in. intros idx Hin.
  rewrite (operand_index_same _ _ (indices_bounds _ _ Hin)).
  unfold np.item. rewrite Sb. reflexivity.
Qed.

(** ** Addition and subtraction of two containers *)

Lemma drop_cons_inv {A} k (l : list A) x r :
  drop k l = x :: r -> l !! k = Some x /\ drop (S k) l = r.
Proof.
  revert l. induction k as [|k IH]; intros [|y l] E; simpl in *; try discriminate.
  - injection E as -> ->. split; [reflexivity|apply drop_0].
  - apply IH. exact E.
Qed.

Lemma zip_with_map_r {A B C D} (f : A -> B -> C) (g : D -> B) l1 l2 :
  zip_with f l1 (map g l2) = zip_with (fun x y => f x (g y)) l1 l2.
Proof.
  revert l2. induction l1 as [|x l1 IH]; intros [|y l2]; simpl; try reflexivity.
  now rewrite IH.
Qed.

(** One turn of the loop of [x + y]: the dependent variable [item] of the
    copy takes its components combined with those of the dependent variable
    number [i] of [y]. *)
Lemma combine_turn op (H : heap) y Y cy dly vly i item V U :
  opened H y Y cy dly vly ->
  vw_dependent_variables Y !! i = Some U ->
  read_dv H item = Some V ->
  matching_variables V U ->
  exists H',
    (odvs <- CSDMClass.dependent_variables y ;;
     oi <- AbstractList.__getitem__ odvs (Z.of_nat i) ;;
     ou <- unit_of oi ;;
     u <- unit_of item ;;
     factor <- lift (unit_to ou u) ;;
     a <- components item ;;
     b <- components oi ;;
     r <- lift (np.map2 op a (np.map_scalar (Qmult factor) b)) ;;
     set_components item r)%py H = (Ok tt, H') /\
    read_dv H' item = Some (combined op V U) /\
    touches_only [item] H H'.
Proof.
  intros O HU RV (Hpt & Hs & La & Lb).
  pose proof (read_all_length _ _ _ (op_read_dvs _ _ _ _ _ _ O)) as Lv.
  pose proof (lookup_lt_Some _ _ _ HU) as Li.
  destruct (lookup_lt_is_Some_2 vly i) as [oi Hoi]; [lia|].
  destruct (read_all_lookup _ _ _ _ _ (op_read_dvs _ _ _ _ _ _ O) Hoi) as (U' & HU' & RU).
  rewrite HU in HU'. injection HU' as <-.
  set (factor := (unit_scale (dd_unit U) / unit_scale (dd_unit V))%Q).
  set (r := np.mk (np.shape (dd_components V))
              (zip_with (fun x y => op x (factor * y)%Q)
                 (np.data (dd_components V)) (np.data (dd_components U)))).
  destruct (set_components_read H item V r RV) as (H' & E & R' & T).
  exists H'. split; [|split; assumption].
  mstep (dependent_variables_run _ _ _ (op_slots _ _ _ _ _ _ O)).
  assert (Liv : i < length vly) by lia.
  mstep (getitem_ok _ _ _ _ _ _ _ (op_dvs _ _ _ _ _ _ O) (py_index_nat _ _ Liv) Hoi).
  mstep (unit_of_ok _ _ _ RU). mstep (unit_of_ok _ _ _ RV).
  assert (Ef : unit_to (dd_unit U) (dd_unit V) = Ok factor).
  { unfold unit_to. destruct (decide _); [reflexivity|contradiction]. }
  rewrite Ef. mstep (eq_refl : lift (Ok factor) H = (Ok factor, H)).
  mstep (components_run _ _ _ RV). mstep (components_run _ _ _ RU).
  assert (Em : np.map2 op (dd_components V) (np.map_scalar (Qmult factor) (dd_components U))
               = Ok r).
  { rewrite map2_same_shape; simpl; try assumption.
    - unfold r. now rewrite zip_with_map_r.
    - now rewrite length_map. }
  rewrite Em. mstep (eq_refl : lift (Ok r) H = (Ok r, H)). exact E.
Qed.

(** The loop of [x + y] over the dependent variables of the copy of [x],
    which are new objects. *)
Lemma combine_loop op (h0 : heap) y Y cy dly vly :
  opened h0 y Y cy dly vly ->
  forall items k (H : heap) Vs Us,
    NoDup items ->
    (forall z, In z items -> length h0 <= z) ->
    grows h0 H ->
    read_all (read_dv H) items = Some Vs ->
    drop k (vw_dependent_variables Y) = Us ->
    Forall2 matching_variables Vs Us ->
    exists H' r,
      for_each (fun p : nat * loc =>
          odvs <- CSDMClass.dependent_variables y ;;
          oi <- AbstractList.__getitem__ odvs (Z.of_nat p.1) ;;
          ou <- unit_of oi ;;
          u <- unit_of p.2 ;;
          factor <- lift (unit_to ou u) ;;
          a <- components p.2 ;;
          b <- components oi ;;
          r <- lift (np.map2 op a (np.map_scalar (Qmult factor) b)) ;;
          set_components p.2 r)
        (combine (seq k (length items)) items) H = (Ok r, H') /\
      read_all (read_dv H') items = Some (zip_with (combined op) Vs Us) /\
      touches_only items H H'.
Proof.
  intros Oy. induction items as [|item items IH]; intros k H Vs Us N Hnew G R Hd F.
  - simpl in R. injection R as <-. exists H, []. split; [reflexivity|].
    split; [reflexivity|apply touches_only_refl].
  - simpl in R. destruct (read_dv H item) as [V|] eqn:Ry; try discriminate.
    destruct (read_all (read_dv H) items) as [Vs'|] eqn:Rs; try discriminate.
    injection R as <-. apply NoDup_cons in N as [Hy N].
    rewrite list_elem_of_In in Hy.
    inversion F as [|V0 U l l' HVU F' EV EU]; subst V0 l.
    rewrite <- EU in Hd. apply drop_cons_inv in Hd as [HU Hd'].
    pose proof (opened_grows _ _ _ _ _ _ _ G Oy) as OH.
    destruct (combine_turn op H y Y cy dly vly k item V U OH HU Ry HVU)
      as (H1 & E1 & R1 & T1).
    assert (G1 : grows h0 H1).
    { destruct G as [Lg Fg]. destruct T1 as [Lt Ft]. split; [lia|].
      intros x Hx. rewrite Ft; [auto|lia|].
      intros [<-|[]]. specialize (Hnew item (or_introl eq_refl)). lia. }
    assert (Hdv1 : forall z, In z [item] -> exists v, H !! z = Some (ODependentVariable v)).
    { intros z [<-|[]]. eapply read_dv_is_dv; eauto. }
    assert (Rs1 : read_all (read_dv H1) items = Some Vs').
    { eapply read_all_Forall2. apply read_all_Forall2 in Rs.
      clear -Rs T1 Hdv1 Hy. induction Rs as [|x V' l r Hx Rs IH]; constructor.
      - eapply read_dv_frame; eauto. intros [<-|[]]. apply Hy. now left.
      - apply IH. intros Hin. apply Hy. now right. }
    destruct (IH (S k) H1 Vs' l' N (fun z Hz => Hnew z (or_intror Hz)) G1 Rs1 Hd' F')
      as (H2 & r & E2 & R2 & T2).
    exists H2, (tt :: r). split; [|split].
    + cbn [length seq combine for_each]. cbv beta. cbn [fst snd].
      mstep E1. mstep E2. reflexivity.
    + simpl. rewrite R2.
      rewrite (read_dv_frame _ _ _ _ _ T2 (read_all_dvs _ _ _ Rs1) R1 Hy). reflexivity.
    + eapply touches_only_trans.
      * eapply touches_only_weaken; [|exact T1]. intros x [<-|[]]. now left.
      * eapply touches_only_weaken; [|exact T2]. intros x Hx. now right.
Qed.

Lemma no_mismatch Vs Us :
  Forall2 matching_variables Vs Us -> existsb mismatch (combine Vs Us) = false.
Proof.
  induction 1 as [|V U Vs Us (Hpt & _) F IH]; [reflexivity|].
  simpl. rewrite IH. unfold mismatch. simpl.
  rewrite bool_decide_eq_true_2 by congruence. reflexivity.
Qed.

(** [x + y] and [x - y] for two containers that match. *)
Lemma additive_containers_run op (h : heap) x y X Y :
  read_csdm h x = Some X ->
  read_csdm h y = Some Y ->
  distinct_variables h x ->
  dimensions_equal X Y ->
  Forall2 matching_variables (vw_dependent_variables X) (vw_dependent_variables Y) ->
  exists h',
    CSDMClass.additive op x (OperandObject y) h = (Ok (length h), h') /\
    grows h h' /\
    read_csdm h' (length h) =
      Some (with_dvs X (zip_with (combined op) (vw_dependent_variables X)
                          (vw_dependent_variables Y))).
Proof.
  intros Rx Ry D He F.
  destruct (read_csdm_open _ _ _ Rx) as (c & dl & vl & O).
  destruct (read_csdm_open _ _ _ Ry) as (cy & dly & vly & Oy).
  pose proof (distinct_variables_opened _ _ _ _ _ _ O D) as N.
  destruct (copy_opened _ _ _ _ _ _ O)
    as (h1 & c' & dl' & vl' & Ec & G1 & O1 & N1 & _ & C1).
  specialize (N1 N).
  pose proof (copy_variables_fresh _ _ _ _ _ _ O1 C1) as Fr.
  rewrite Forall_forall in Fr.
  assert (Hnew : forall z, In z vl' -> length h <= z).
  { intros z Hz. apply Fr. now apply list_elem_of_In. }
  destruct (combine_loop op h y Y cy dly vly Oy vl' 0 h1 _ _ N1 Hnew G1
              (op_read_dvs _ _ _ _ _ _ O1) (drop_0 _) F)
    as (h2 & r & E2 & R2 & T2).
  exists h2. split; [|split].
  - unfold CSDMClass.additive.
    mstep (isinstance_CSDM_ok _ _ _ (op_slots _ _ _ _ _ _ Oy)). cbv iota.
    assert (Ek : CSDMClass.__check_csdm_object_additive_compatibility x y h = (Ok tt, h)).
    { rewrite (additive_compatibility_spec _ _ _ _ _ _ _ _ _ _ _ O Oy).
      rewrite (proj2 (list_eqb_Forall2 _ _ _) He). simpl.
      rewrite (Forall2_length _ _ _ F), Nat.eqb_refl. simpl.
      now rewrite (no_mismatch _ _ F). }
    mstep Ek. mstep Ec.
    mstep (dependent_variables_run _ _ _ (op_slots _ _ _ _ _ _ O1)).
    mstep (get_items_ok _ _ _ _ (op_dvs _ _ _ _ _ _ O1)).
    unfold enumerate. mstep E2. reflexivity.
  - destruct G1 as [Lg Fg]. destruct T2 as [Lt Ft]. split; [lia|].
    intros z Hz. rewrite Ft; [auto|lia|].
    intros Hin. apply Hnew in Hin. lia.
  - apply (opened_read _ _ _ _ _ _ (opened_frame _ _ _ _ _ _ _ _ O1 T2 R2)).
Qed.

(** X20.  The sum and the difference of two containers with equal
    dimensions, whose dependent variables match pairwise (units of one
    physical type, components of one shape): [x + y] and [x - y] return a
    new container that holds the dimensions and the metadata of [x] and, for
    each dependent variable, the components of [x] plus (minus) the
    components of [y] converted to the unit of [x], item by item; the
    dependent variables keep the units of [x].  Both operands are left as
    they are.  The dependent variables of [x] are taken to be distinct
    objects. *)
Theorem add_containers_item_by_item :
  forall (h : heap) (x y : loc) (X Y : csdm_view),
    read_csdm h x = Some X ->
    read_csdm h y = Some Y ->
    distinct_variables h x ->
    dimensions_equal X Y ->
    Forall2 matching_variables (vw_dependent_variables X) (vw_dependent_variables Y) ->
    (exists h',
       CSDMClass.__add__ x (OperandObject y) h = (Ok (length h), h') /\
       grows h h' /\
       read_csdm h' x = Some X /\ read_csdm h' y = Some Y /\
       read_csdm h' (length h) =
         Some (with_dvs X (zip_with (combined Qplus) (vw_dependent_variables X)
                             (vw_dependent_variables Y)))) /\
    (exists h',
       CSDMClass.__sub__ x (OperandObject y) h = (Ok (length h), h') /\
       grows h h' /\
       read_csdm h' x = Some X /\ read_csdm h' y = Some Y /\
       read_csdm h' (length h) =
         Some (with_dvs X (zip_with (combined Qminus) (vw_dependent_variables X)
                             (vw_dependent_variables Y)))).
Proof.
  intros h x y X Y Rx Ry D He F. split.
  - destruct (additive_containers_run Qplus h x y X Y Rx Ry D He F) as (h' & E & G & R).
    exists h'. split; [exact E|]. split; [exact G|].
    split; [eapply read_csdm_grows; eauto|]. split; [eapply read_csdm_grows; eauto|exact R].
  - destruct (additive_containers_run Qminus h x y X Y Rx Ry D He F) as (h' & E & G & R).
    exists h'. split; [exact E|]. split; [exact G|].
    split; [eapply read_csdm_grows; eauto|]. split; [eapply read_csdm_grows; eauto|exact R].
Qed.

(** The witness of X20: the container with two dependent variables added
    to itself. *)
Lemma add_containers_item_by_item_witness :
  exists h' Z,
    CSDMClass.__add__ 0 (OperandObject 0) two_variables = (Ok 11, h') /\
    read_csdm h' 11 = Some Z /\
    map (fun W => np.data (dd_components W)) (vw_dependent_variables Z)
      = [[(10 + 1 / 1 * 10)%Q; (20 + 1 / 1 * 20)%Q];
         [(30 + 1 / 1 * 30)%Q; (40 + 1 / 1 * 40)%Q]].
Proof.
  destruct (add_containers_item_by_item two_variables 0 0 _ _ eq_refl eq_refl)
    as [(h' & E & _ & _ & _ & R) _].
  - exists [7; 9]. split; [reflexivity|].
    repeat constructor; rewrite ?elem_of_cons, ?elem_of_nil; intuition discriminate.
  - repeat constructor.
  - repeat constructor.
  - exists h'. eexists. split; [exact E|]. split; [exact R|]. reflexivity.
Defined.

(** ** Operators in place *)

Lemma update_components_run (h : heap) item v arr (f : np.ndarray -> result np.ndarray) r :
  h !! item = Some (ODependentVariable v) ->
  h !! dv_components v = Some (OArray arr) ->
  f arr = Ok r ->
  update_components item f h = (Ok tt, <[dv_components v := OArray r]> h).
Proof.
  intros Hv Ha Hf. unfold update_components.
  mstep (get_dv_ok _ _ _ Hv). mstep (get_array_ok _ _ _ Ha).
  rewrite Hf. reflexivity.
Qed.

(** Reading a dependent variable whose object and array are not among the
    objects that have changed. *)
Lemma read_dv_untouched ys (h h' : heap) x V a :
  touches_only ys h h' ->
  read_dv h x = Some V -> array_of h x = Some a ->
  ~ In x ys -> ~ In a ys ->
  read_dv h' x = Some V /\ array_of h' x = Some a.
Proof.
  intros T R A Hx Ha. apply read_dv_inv in R as (v & Hv & Hc & Hd).
  unfold array_of in A. rewrite Hv in A. injection A as <-.
  unfold read_dv, read_array, array_of.
  rewrite (touches_only_lookup _ _ _ _ _ T Hv Hx).
  rewrite (touches_only_lookup _ _ _ _ _ T Hc Ha). now rewrite Hd.
Qed.

Lemma read_all_untouched ys (h h' : heap) :
  touches_only ys h h' ->
  forall items Vs al,
    read_all (read_dv h) items = Some Vs ->
    read_all (array_of h) items = Some al ->
    (forall x, In x items -> ~ In x ys) ->
    (forall a, In a al -> ~ In a ys) ->
    read_all (read_dv h') items = Some Vs /\
    read_all (array_of h') items = Some al.
Proof.
  intros T. induction items as [|x items IH]; intros Vs al R A Hx Ha.
  - simpl in *. auto.
  - simpl in R. destruct (read_dv h x) as [V|] eqn:Rv; try discriminate.
    destruct (read_all (read_dv h) items) as [Vs'|] eqn:Rs; try discriminate.
    injection R as <-.
    simpl in A. destruct (array_of h x) as [a|] eqn:Av; try discriminate.
    destruct (read_all (array_of h) items) as [al'|] eqn:As; try discriminate.
    injection A as <-.
    destruct (read_dv_untouched _ _ _ _ _ _ T Rv Av (Hx x (or_introl eq_refl))
                (Ha a (or_introl eq_refl))) as [Rv' Av'].
    destruct (IH Vs' al' eq_refl eq_refl (fun z Hz => Hx z (or_intror Hz))
                (fun z Hz => Ha z (or_intror Hz))) as [Rs' As'].
    simpl. now rewrite Rv', Rs', Av', As'.
Qed.

(** The addresses of the arrays of dependent variables hold arrays. *)
Lemma arrays_are_arrays (h : heap) :
  forall items Vs al,
    read_all (read_dv h) items = Some Vs ->
    read_all (array_of h) items = Some al ->
    forall a, In a al -> exists arr, h !! a = Some (OArray arr).
Proof.
  induction items as [|x items IH]; intros Vs al R A a Hin.
  - simpl in A. injection A as <-. contradiction.
  - simpl in R. destruct (read_dv h x) as [V|] eqn:Rv; try discriminate.
    destruct (read_all (read_dv h) items) as [Vs'|] eqn:Rs; try discriminate.
    injection R as <-.
    simpl in A. destruct (array_of h x) as [a0|] eqn:Av; try discriminate.
    destruct (read_all (array_of h) items) as [al'|] eqn:As; try discriminate.
    injection A as <-. destruct Hin as [<-|Hin]; [|eapply IH; eauto].
    apply read_dv_inv in Rv as (v & Hv & Hc & _).
    unfold array_of in Av. rewrite Hv in Av. injection Av as <-. eauto.
Qed.

Lemma variables_are_variables (h : heap) items Vs x :
  read_all (read_dv h) items = Some Vs -> In x items ->
  exists v, h !! x = Some (ODependentVariable v).
Proof. intros R Hin. eapply read_all_dvs; eauto. Qed.

(** A loop of element-wise updates in place, over dependent variables with
    distinct arrays. *)
Lemma inplace_loop (f : Q -> Q) :
  forall items (h : heap) Vs al,
    read_all (read_dv h) items = Some Vs ->
    read_all (array_of h) items = Some al ->
    NoDup al ->
    exists h' r,
      for_each (fun item =>
          update_components item (fun a => Ok (np.map_scalar f a))) items h
        = (Ok r, h') /\
      read_all (read_dv h') items = Some (map (dd_map f) Vs) /\
      read_all (array_of h') items = Some al /\
      touches_only al h h' /\
      length h' = length h.
Proof.
  induction items as [|item items IH]; intros h Vs al R A N.
  - simpl in R, A. injection R as <-. injection A as <-.
    exists h, []. split; [reflexivity|]. split; [reflexivity|]. split; [reflexivity|].
    split; [apply touches_only_refl|reflexivity].
  - pose proof (arrays_are_arrays h _ _ _ R A) as Harr.
    simpl in R. destruct (read_dv h item) as [V|] eqn:Rv; try discriminate.
    destruct (read_all (read_dv h) items) as [Vs'|] eqn:Rs; try discriminate.
    injection R as <-.
    simpl in A. destruct (array_of h item) as [a|] eqn:Av; try discriminate.
    destruct (read_all (array_of h) items) as [al'|] eqn:As; try discriminate.
    injection A as <-. apply NoDup_cons in N as [Ha N].
    rewrite list_elem_of_In in Ha.
    pose proof Rv as Rv0. apply read_dv_inv in Rv0 as (v & Hv & Hc & Hd).
    assert (Eav : dv_components v = a).
    { unfold array_of in Av. rewrite Hv in Av. congruence. }
    rewrite Eav in Hc.
    set (h1 := <[a := OArray (np.map_scalar f (dd_components V))]> h).
    assert (E1 : update_components item (fun a => Ok (np.map_scalar f a)) h = (Ok tt, h1)).
    { unfold h1. rewrite <- Eav. eapply update_components_run; eauto.
      rewrite Eav. exact Hc. }
    assert (Hne : item <> a) by (intros Heq; rewrite Heq in Hv; congruence).
    assert (T1 : touches_only [a] h h1).
    { split; [unfold h1; rewrite length_insert; lia|].
      intros x Hx Hn. unfold h1. apply list_lookup_insert_ne.
      intros ->. apply Hn. now left. }
    destruct (read_all_untouched _ _ _ T1 items Vs' al' Rs As) as [Rs1 As1].
    { intros x Hin [<-|[]].
      destruct (variables_are_variables _ _ _ _ Rs Hin) as [v' Hv']. congruence. }
    { intros a' Hin [<-|[]]. contradiction. }
    destruct (IH h1 Vs' al' Rs1 As1 N) as (h2 & r & E2 & R2 & A2 & T2 & L2).
    assert (R1 : read_dv h1 item = Some (dd_map f V) /\ array_of h1 item = Some a).
    { unfold read_dv, read_array, array_of, h1.
      rewrite list_lookup_insert_ne by congruence. rewrite Hv, Eav.
      rewrite list_lookup_insert_eq by (eapply lookup_lt_Some; eauto).
      rewrite Hd. split; reflexivity. }
    destruct R1 as [R1 A1].
    assert (Hitem : ~ In item al').
    { intros Hin. destruct (Harr item (or_intror Hin)) as [arr Harr']. congruence. }
    destruct (read_dv_untouched _ _ _ _ _ _ T2 R1 A1 Hitem Ha) as [R1' A1'].
    exists h2, (tt :: r). split; [|split; [|split; [|split]]].
    + cbn [for_each]. mstep E1. mstep E2. reflexivity.
    + simpl. now rewrite R1', R2.
    + simpl. now rewrite A1', A2.
    + eapply touches_only_trans.
      * eapply touches_only_weaken; [|exact T1]. intros x [<-|[]]. now left.
      * eapply touches_only_weaken; [|exact T2]. intros x Hx. now right.
    + rewrite L2. unfold h1. apply length_insert.
Qed.

Lemma inplace_scalar_run (f : Q -> Q) (h : heap) x X c dl vl al :
  opened h x X c dl vl ->
  read_all (array_of h) vl = Some al ->
  NoDup al ->
  exists h' r,
    for_each (fun p : nat * loc =>
        update_components p.2 (fun a => Ok (np.map_scalar f a))) (enumerate vl) h
      = (Ok r, h') /\
    for_each (fun item =>
        update_components item (fun a => Ok (np.map_scalar f a))) vl h
      = (Ok r, h') /\
    length h' = length h /\
    opened h' x (with_dvs X (map (dd_map f) (vw_dependent_variables X))) c dl vl /\
    read_all (array_of h') vl = Some al /\
    (forall a o, h !! a = Some o -> not_array o -> h' !! a = Some o).
Proof.
  intros O A N.
  destruct (inplace_loop f vl h _ al (op_read_dvs _ _ _ _ _ _ O) A N)
    as (h' & r & E & R' & A' & T & L).
  pose proof (arrays_are_arrays h _ _ _ (op_read_dvs _ _ _ _ _ _ O) A) as Harr.
  assert (K : forall a o, h !! a = Some o -> not_array o -> h' !! a = Some o).
  { intros a o Ea Ho. eapply touches_only_lookup; eauto.
    intros Hin. destruct (Harr a Hin) as [arr Ha]. rewrite Ha in Ea.
    injection Ea as <-. exact Ho. }
  exists h', r. split; [|split; [exact E|split; [exact L|split; [|split; assumption]]]].
  - rewrite (for_each_enumerate
               (fun item => update_components item (fun a => Ok (np.map_scalar f a)))).
    exact E.
  - destruct O as [Hs Hd Hv Ht Hg Ha Hrd Hrv H1 H2 H3 H4 H5].
    constructor; simpl; auto; try (apply K; [assumption|exact I]).
    eapply read_all_mono; [|exact Hrd]. intros z d Rz.
    apply read_dimension_inv in Rz. unfold read_dimension.
    now rewrite (K _ _ Rz I).
Qed.

(** X21.  The operators in place with a bare number, [x += k], [x -= k]
    and [x *= k], return [x] itself and create no object: every component
    array is updated where it is, item by item, and stays the object it
    was, so that every view that shares it sees the new items; nothing but
    the arrays changes.  The component arrays are of a floating type, with
    items read as exact numbers (an array of an integer type refuses a
    float operand with a casting error), and the dependent variables of [x]
    are taken to hold distinct arrays. *)
Theorem inplace_scalar_operators_update_arrays :
  forall (h : heap) (x : loc) (X : csdm_view) (k : Q),
    read_csdm h x = Some X ->
    distinct_arrays h x ->
    updated_in_place h x X (fun v => v + k)%Q (CSDMClass.__iadd__ x (OperandScalar k)) /\
    updated_in_place h x X (fun v => v - k)%Q (CSDMClass.__isub__ x (OperandScalar k)) /\
    updated_in_place h x X (fun v => v * k)%Q (CSDMClass.__imul__ x (OperandScalar k)).
Proof.
  intros h x X k R (al & Hal & N).
  destruct (read_csdm_open _ _ _ R) as (c & dl & vl & O).
  assert (A : read_all (array_of h) vl = Some al).
  { unfold array_addresses in Hal. now rewrite (opened_dv_addresses _ _ _ _ _ _ O) in Hal. }
  assert (Fin : forall f (h' : heap),
            opened h' x (with_dvs X (map (dd_map f) (vw_dependent_variables X))) c dl vl ->
            read_all (array_of h') vl = Some al ->
            read_csdm h' x
              = Some (with_dvs X (map (dd_map f) (vw_dependent_variables X))) /\
            array_addresses h' x = array_addresses h x).
  { intros f h' O' A'. split; [apply (opened_read _ _ _ _ _ _ O')|].
    unfold array_addresses.
    rewrite (opened_dv_addresses _ _ _ _ _ _ O'), (opened_dv_addresses _ _ _ _ _ _ O).
    congruence. }
  assert (Add : forall op,
            updated_in_place h x X (fun v => op v k)
              (CSDMClass.additive_inplace op x (OperandScalar k))).
  { intros op.
    destruct (inplace_scalar_run (fun v => op v k) h x X c dl vl al O A N)
      as (h' & r & E & _ & L & O' & A' & K).
    exists h'. split; [|split; [exact L|]].
    - unfold CSDMClass.additive_inplace.
      mstep (eq_refl : isinstance_CSDM (OperandScalar k) h = (Ok None, h)). cbv iota.
      mstep (eq_refl : check_scalar_object (OperandScalar k) h = (Ok (Number k), h)).
      mstep (dependent_variables_run _ _ _ (op_slots _ _ _ _ _ _ O)).
      mstep (get_items_ok _ _ _ _ (op_dvs _ _ _ _ _ _ O)).
      mstep E. reflexivity.
    - destruct (Fin _ _ O' A') as [F1 F2]. repeat split; assumption. }
  split; [apply (Add Qplus)|]. split; [apply (Add Qminus)|].
  destruct (inplace_scalar_run (fun v => v * k)%Q h x X c dl vl al O A N)
    as (h' & r & _ & E & L & O' & A' & K).
  exists h'. split; [|split; [exact L|]].
  - unfold CSDMClass.__imul__.
    mstep (eq_refl : check_scalar_object (OperandScalar k) h = (Ok (Number k), h)).
    mstep (dependent_variables_run _ _ _ (op_slots _ _ _ _ _ _ O)).
    mstep (get_items_ok _ _ _ _ (op_dvs _ _ _ _ _ _ O)).
    mstep E. reflexivity.
  - destruct (Fin _ _ O' A') as [F1 F2]. repeat split; assumption.
Qed.

(** The witness of X21: the container with two dependent variables, plus
    one in place. *)
Lemma inplace_scalar_operators_update_arrays_witness :
  exists h',
    CSDMClass.__iadd__ 0 (OperandScalar 1) two_variables = (Ok 0, h') /\
    length h' = 11 /\
    array_addresses h' 0 = Some [8; 10].
Proof.
  destruct (inplace_scalar_operators_update_arrays two_variables 0 _ 1 eq_refl)
    as [(h' & E & L & _ & A & _) _].
  - exists [8; 10]. split; [reflexivity|].
    repeat constructor; rewrite ?elem_of_cons, ?elem_of_nil; intuition discriminate.
  - exists h'. split; [exact E|]. split; [exact L|]. rewrite A. reflexivity.
Defined.

Lemma read_all_lookup_map {A} (rd : loc -> option A) l r i x a :
  read_all rd l = Some r -> l !! i = Some x -> r !! i = Some a -> rd x = Some a.
Proof.
  intros R L Hr. destruct (read_all_lookup _ _ _ _ _ R L) as (a' & Ha' & Rx).
  congruence.
Qed.

(** X22.  The containers that [split] returns are views of the components:
    after [parts = x.split()], an addition in place on the original,
    [x += k], is seen through every part, whose dependent variable reads
    with the updated components.  The component arrays are of a floating
    type, with items read as exact numbers, and the dependent variables of
    [x] are taken to hold distinct arrays. *)
Theorem split_views_see_inplace_addition :
  forall (h : heap) (x : loc) (X : csdm_view) (k : Q),
    read_csdm h x = Some X ->
    distinct_arrays h x ->
    exists sib h1 h2,
      CSDMClass.split x h = (Ok sib, h1) /\
      CSDMClass.__iadd__ x (OperandScalar k) h1 = (Ok x, h2) /\
      length sib = length (vw_dependent_variables X) /\
      (forall i s, sib !! i = Some s ->
         exists V,
           vw_dependent_variables X !! i = Some V /\
           read_csdm h1 s = Some (with_dvs X [V]) /\
           read_csdm h2 s = Some (with_dvs X [dd_map (fun v => v + k)%Q V])).
Proof.
  intros h x X k R (al & Hal & N).
  destruct (read_csdm_open _ _ _ R) as (c & dl & vl & O).
  assert (A : read_all (array_of h) vl = Some al).
  { unfold array_addresses in Hal. now rewrite (opened_dv_addresses _ _ _ _ _ _ O) in Hal. }
  set (h1 := h ++ sibling_blocks c (length h) vl).
  assert (G : grows h h1) by apply grows_app.
  pose proof (opened_grows _ _ _ _ _ _ _ G O) as O1.
  assert (A1 : read_all (array_of h1) vl = Some al).
  { eapply read_all_mono; [|exact A]. intros z a Hz. unfold array_of in *.
    destruct (h !! z) as [o|] eqn:Ez; try discriminate.
    now rewrite (grows_lookup _ _ _ _ G Ez). }
  destruct (inplace_scalar_run (fun v => v + k)%Q h1 x X c dl vl al O1 A1 N)
    as (h2 & r & E & _ & L & O2 & A2 & K).
  exists (sibling_addresses (length h) vl), h1, h2.
  split; [apply (split_run _ _ _ _ _ (op_slots _ _ _ _ _ _ O) (op_dvs _ _ _ _ _ _ O))|].
  split; [|split].
  - unfold CSDMClass.__iadd__, CSDMClass.additive_inplace.
    mstep (eq_refl : isinstance_CSDM (OperandScalar k) h1 = (Ok None, h1)). cbv iota.
    mstep (eq_refl : check_scalar_object (OperandScalar k) h1 = (Ok (Number k), h1)).
    mstep (dependent_variables_run _ _ _ (op_slots _ _ _ _ _ _ O1)).
    mstep (get_items_ok _ _ _ _ (op_dvs _ _ _ _ _ _ O1)).
    mstep E. reflexivity.
  - rewrite sibling_addresses_length.
    apply (read_all_length _ _ _ (op_read_dvs _ _ _ _ _ _ O)).
  - intros i s Hs.
    destruct (sibling_addresses_lookup _ _ _ _ Hs) as (-> & v & Hv).
    destruct (sibling_opened _ _ _ _ _ _ _ _ O Hv) as (V & HV & Os).
    fold h1 in Os.
    exists V. split; [exact HV|]. split; [apply (opened_read _ _ _ _ _ _ Os)|].
    assert (Rv2 : read_dv h2 v = Some (dd_map (fun v => v + k)%Q V)).
    { eapply (read_all_lookup_map _ _ _ _ _ _ (op_read_dvs _ _ _ _ _ _ O2) Hv).
      simpl. rewrite list_lookup_fmap, HV. reflexivity. }
    apply (opened_read h2 _ _ (sibling_slots c (length h + 7 * i + 6)) dl [v]).
    destruct Os as [Hs' Hd Hvs Ht Hg Ha Hrd Hrv H1 H2 H3 H4 H5].
    constructor; simpl; auto; try (apply K; [assumption|exact I]).
    + eapply read_all_mono; [|exact Hrd]. intros z d Rz.
      apply read_dimension_inv in Rz. unfold read_dimension.
      now rewrite (K _ _ Rz I).
    + now rewrite Rv2.
Qed.

(** The witness of X22: the two views of the container with two dependent
    variables, after one is added to the container in place. *)
Lemma split_views_see_inplace_addition_witness :
  exists sib h1 h2,
    CSDMClass.split 0 two_variables = (Ok sib, h1) /\
    CSDMClass.__iadd__ 0 (OperandScalar 1) h1 = (Ok 0, h2) /\
    length sib = 2.
Proof.
  destruct (split_views_see_inplace_addition two_variables 0 _ 1 eq_refl)
    as (sib & h1 & h2 & E1 & E2 & L & _).
  - exists [8; 10]. split; [reflexivity|].
    repeat constructor; rewrite ?elem_of_cons, ?elem_of_nil; intuition discriminate.
  - exists sib, h1, h2. repeat split; assumption.
Defined.

(** ** Broadcasting along the axis of a dimension *)

Lemma prod_repeat_1 k : np.prod (repeat 1 k) = 1.
Proof.
  induction k as [|k IH]; [reflexivity|].
  cbn [repeat]. rewrite prod_cons, IH. reflexivity.
Qed.

Lemma prod_app s t : np.prod (s ++ t) = np.prod s * np.prod t.
Proof.
  induction s as [|n s IH]; [change (np.prod []) with 1; simpl; lia|].
  cbn [app]. rewrite !prod_cons, IH. lia.
Qed.

(** X23.  [_get_broadcast_shape] lays a vector along one axis of [ndim]
    axes.  For the array axis that [_check_dimension_indices] gives for a
    valid dimension index [i] of [d] dimensions, a vector of [n] items
    becomes an array of [d] axes with the same items, of length [n] on the
    axis number [d - 1 - i] (the axis of dimension [i] in the reversed order
    of the components) and of length 1 on every other axis.  In general the
    items and their number are kept, and an axis outside [-ndim, ndim)
    raises IndexError. *)
Theorem broadcast_shape_along_dimension :
  forall (d : nat) (i : Z) (n : nat) (items : list Q),
    valid_index d i ->
    (exists t,
       _check_dimension_indices (Z.of_nat d) (ArgInt i) = Ok [t] /\
       _get_broadcast_shape (np.mk [n] items) d t =
         Ok (np.mk (repeat 1 (d - 1 - normalized d i) ++ n :: repeat 1 (normalized d i))
               items)) /\
    (forall a axis r,
       _get_broadcast_shape a d axis = Ok r ->
       np.data r = np.data a /\ np.prod (np.shape r) = np.prod (np.shape a) /\
       length (np.shape r) = d + length (np.shape a) - 1) /\
    (forall a axis,
       (axis < - Z.of_nat d \/ Z.of_nat d <= axis)%Z ->
       _get_broadcast_shape a d axis
       = Raise (IndexError "list assignment index out of range")).
Proof.
  intros d i n items Hv. split; [|split].
  - exists (array_axis d i).
    split.
    { rewrite (check_dimension_indices_valid d (ArgInt i) [i] eq_refl)
        by (constructor; [assumption|constructor]). reflexivity. }
    unfold _get_broadcast_shape.
    assert (Hn : normalized d i < d).
    { unfold normalized, valid_index in *. destruct (Z.ltb_spec i 0); lia. }
    assert (P : py_index d (array_axis d i) = Some (d - 1 - normalized d i)).
    { unfold array_axis. rewrite py_index_neg by lia. f_equal. lia. }
    rewrite P. simpl. rewrite app_nil_r.
    replace (d - 1 - (d - 1 - normalized d i)) with (normalized d i) by lia.
    reflexivity.
  - intros a axis r E. unfold _get_broadcast_shape in E.
    destruct (py_index d axis) as [k|] eqn:P; [|discriminate].
    destruct (np.shape a) as [|m rest] eqn:Sa; [discriminate|].
    injection E as <-. simpl.
    pose proof (py_index_lt _ _ _ P) as Lk.
    split; [reflexivity|]. split.
    + rewrite prod_app, !prod_cons, prod_app, !prod_repeat_1. lia.
    + rewrite length_app. simpl. rewrite length_app, !repeat_length. lia.
  - intros a axis Ho. unfold _get_broadcast_shape. now rewrite (py_index_out _ _ Ho).
Qed.

(** The witness of X23: a vector of 4 items along dimension 0 of three
    dimensions. *)
Lemma broadcast_shape_along_dimension_witness :
  exists t,
    _check_dimension_indices 3 (ArgInt 0) = Ok [t] /\
    _get_broadcast_shape (np.mk [4] [1%Q; 2%Q; 3%Q; 4%Q]) 3 t
      = Ok (np.mk [1; 1; 4] [1%Q; 2%Q; 3%Q; 4%Q]).
Proof.
  destruct (broadcast_shape_along_dimension 3 0 4 [1%Q; 2%Q; 3%Q; 4%Q])
    as [(t & E1 & E2) _].
  - unfold valid_index. simpl. lia.
  - exists t. split; [exact E1|exact E2].
Defined.

(** ** Addition of a quantity *)

(** A loop of updates over distinct dependent variables that satisfy
    [P]. *)
Lemma update_loop_where (P : dv_dict -> Prop) (body : loc -> M unit)
    (G : dv_dict -> dv_dict) :
  (forall (h : heap) y V, P V -> read_dv h y = Some V ->
     exists h', body y h = (Ok tt, h') /\ read_dv h' y = Some (G V) /\
                touches_only [y] h h') ->
  forall items (h : heap) VS,
    NoDup items ->
    read_all (read_dv h) items = Some VS ->
    Forall P VS ->
    exists h' r,
      for_each body items h = (Ok r, h') /\
      read_all (read_dv h') items = Some (map G VS) /\
      touches_only items h h'.
Proof.
  intros U. induction items as [|y items IH]; intros h VS N R F.
  - injection R as <-. exists h, []. split; [reflexivity|].
    split; [reflexivity | apply touches_only_refl].
  - simpl in R. destruct (read_dv h y) as [V|] eqn:Ry; try discriminate.
    destruct (read_all (read_dv h) items) as [VS'|] eqn:Rs; try discriminate.
    injection R as <-. apply NoDup_cons in N as [Hy N].
    rewrite list_elem_of_In in Hy. apply Forall_cons in F as [PV F].
    destruct (U h y V PV Ry) as (h1 & E1 & R1 & T1).
    assert (Hdv1 : forall z, In z [y] -> exists v, h !! z = Some (ODependentVariable v)).
    { intros z [<-|[]]. eapply read_dv_is_dv; eauto. }
    assert (Rs1 : read_all (read_dv h1) items = Some VS').
    { eapply read_all_Forall2. apply read_all_Forall2 in Rs.
      clear -Rs T1 Hdv1 Hy. induction Rs as [|x V' l r Hx Rs IH]; constructor.
      - eapply read_dv_frame; eauto. intros [<-|[]]. apply Hy. now left.
      - apply IH. intros Hin. apply Hy. now right. }
    destruct (IH h1 VS' N Rs1 F) as (h2 & r & E2 & R2 & T2).
    exists h2, (tt :: r). split.
    { cbn [for_each]. mstep E1. mstep E2. reflexivity. }
    split.
    + simpl. rewrite R2.
      rewrite (read_dv_frame _ _ _ _ _ T2 (read_all_dvs _ _ _ Rs1) R1 Hy). reflexivity.
    + eapply touches_only_trans.
      * eapply touches_only_weaken; [|exact T1]. intros x [<-|[]]. now left.
      * eapply touches_only_weaken; [|exact T2]. intros x Hx. now right.
Qed.

(** One turn of the loop of [x + q]. *)
Lemma shift_turn op (q : Quantity.t) (h : heap) y V :
  convertible q V ->
  read_dv h y = Some V ->
  exists h',
    (u <- unit_of y ;;
     factor <- lift (unit_to (Quantity.unit q) u) ;;
     a <- components y ;;
     set_components y
       (np.map_scalar (fun x => op x (factor * Quantity.value q)%Q) a))%py h
      = (Ok tt, h') /\
    read_dv h' y = Some (shifted op q V) /\
    touches_only [y] h h'.
Proof.
  intros C R.
  destruct (set_components_read h y V
              (np.map_scalar
                 (fun x => op x (unit_scale (Quantity.unit q) / unit_scale (dd_unit V)
                                 * Quantity.value q)%Q)
                 (dd_components V)) R) as (h' & E & R' & T).
  exists h'. split; [|split; assumption].
  mstep (unit_of_ok _ _ _ R).
  assert (Ef : unit_to (Quantity.unit q) (dd_unit V)
               = Ok (unit_scale (Quantity.unit q) / unit_scale (dd_unit V))%Q).
  { unfold unit_to. destruct (decide _); [reflexivity|contradiction]. }
  rewrite Ef.
  mstep (eq_refl : lift (Ok (unit_scale (Quantity.unit q) / unit_scale (dd_unit V))%Q) h
                   = (Ok (unit_scale (Quantity.unit q) / unit_scale (dd_unit V))%Q, h)).
  mstep (components_run _ _ _ R). exact E.
Qed.

(** The turn raises when the unit of the dependent variable has another
    physical type. *)
Lemma shift_turn_raises op (q : Quantity.t) (h : heap) y V :
  ~ convertible q V ->
  read_dv h y = Some V ->
  (u <- unit_of y ;;
   factor <- lift (unit_to (Quantity.unit q) u) ;;
   a <- components y ;;
   set_components y
     (np.map_scalar (fun x => op x (factor * Quantity.value q)%Q) a))%py h
    = (Raise UnitConversionError, h).
Proof.
  intros C R. mstep (unit_of_ok _ _ _ R).
  unfold unit_to. destruct (decide _); [contradiction|reflexivity].
Qed.

(** The loop raises when one of the dependent variables cannot take the
    quantity. *)
Lemma shift_loop_raises op (q : Quantity.t) :
  forall items (h : heap) VS,
    NoDup items ->
    read_all (read_dv h) items = Some VS ->
    Exists (fun V => ~ convertible q V) VS ->
    exists h',
      for_each (fun y =>
          u <- unit_of y ;;
          factor <- lift (unit_to (Quantity.unit q) u) ;;
          a <- components y ;;
          set_components y
            (np.map_scalar (fun x => op x (factor * Quantity.value q)%Q) a)) items h
        = (Raise UnitConversionError, h').
Proof.
  induction items as [|y items IH]; intros h VS N R Ex.
  - injection R as <-. inversion Ex.
  - simpl in R. destruct (read_dv h y) as [V|] eqn:Ry; try discriminate.
    destruct (read_all (read_dv h) items) as [VS'|] eqn:Rs; try discriminate.
    injection R as <-. apply NoDup_cons in N as [Hy N].
    rewrite list_elem_of_In in Hy.
    destruct (decide (physical_type (Quantity.unit q) = physical_type (dd_unit V)))
      as [C|C].
    + apply Exists_cons in Ex as [Ex|Ex]; [contradiction|].
      destruct (shift_turn op q h y V C Ry) as (h1 & E1 & R1 & T1).
      assert (Hdv1 : forall z, In z [y] -> exists v, h !! z = Some (ODependentVariable v)).
      { intros z [<-|[]]. eapply read_dv_is_dv; eauto. }
      assert (Rs1 : read_all (read_dv h1) items = Some VS').
      { eapply read_all_Forall2. apply read_all_Forall2 in Rs.
        clear -Rs T1 Hdv1 Hy. induction Rs as [|x V' l r Hx Rs IH]; constructor.
        - eapply read_dv_frame; eauto. intros [<-|[]]. apply Hy. now left.
        - apply IH. intros Hin. apply Hy. now right. }
      destruct (IH h1 VS' N Rs1 Ex) as (h2 & E2).
      exists h2. cbn [for_each]. mstep E1. erewrite bind_raise by exact E2. reflexivity.
    + exists h. cbn [for_each].
      erewrite bind_raise by exact (shift_turn_raises op q h y V C Ry). reflexivity.
Qed.

(** [x + q] and [x - q] for a quantity [q]. *)
Lemma additive_quantity_run op (q : Quantity.t) (h : heap) x X :
  read_csdm h x = Some X ->
  distinct_variables h x ->
  (Forall (convertible q) (vw_dependent_variables X) ->
   exists h',
     CSDMClass.additive op x (OperandQuantity q) h = (Ok (length h), h') /\
     grows h h' /\
     read_csdm h' (length h)
       = Some (with_dvs X (map (shifted op q) (vw_dependent_variables X)))) /\
  (Exists (fun V => ~ convertible q V) (vw_dependent_variables X) ->
   exists h',
     CSDMClass.additive op x (OperandQuantity q) h = (Raise UnitConversionError, h')).
Proof.
  intros R D.
  destruct (read_csdm_open _ _ _ R) as (c & dl & vl & O).
  pose proof (distinct_variables_opened _ _ _ _ _ _ O D) as N.
  destruct (copy_opened _ _ _ _ _ _ O)
    as (h1 & c' & dl' & vl' & Ec & G1 & O1 & N1 & _ & C1).
  specialize (N1 N).
  pose proof (copy_variables_fresh _ _ _ _ _ _ O1 C1) as Fr.
  rewrite Forall_forall in Fr.
  assert (Hnew : forall z, In z vl' -> length h <= z).
  { intros z Hz. apply Fr. now apply list_elem_of_In. }
  split.
  - intros F.
    destruct (update_loop_where (convertible q) _ (shifted op q)
                (fun h0 y V C Ry => shift_turn op q h0 y V C Ry)
                vl' h1 _ N1 (op_read_dvs _ _ _ _ _ _ O1) F)
      as (h2 & r & E2 & R2 & T2).
    exists h2. split; [|split].
    + unfold CSDMClass.additive.
      mstep (eq_refl : isinstance_CSDM (OperandQuantity q) h = (Ok None, h)). cbv iota.
      mstep (eq_refl : check_scalar_object (OperandQuantity q) h = (Ok (IsQuantity q), h)).
      mstep Ec.
      mstep (dependent_variables_run _ _ _ (op_slots _ _ _ _ _ _ O1)).
      mstep (get_items_ok _ _ _ _ (op_dvs _ _ _ _ _ _ O1)).
      assert (E2' : for_each (fun p : nat * loc =>
                      u <- unit_of p.2 ;;
                      factor <- lift (unit_to (Quantity.unit q) u) ;;
                      a <- components p.2 ;;
                      set_components p.2
                        (np.map_scalar (fun x => op x (factor * Quantity.value q)%Q) a))
                      (enumerate vl') h1 = (Ok r, h2)).
      { rewrite (for_each_enumerate
                   (fun y =>
                      u <- unit_of y ;;
                      factor <- lift (unit_to (Quantity.unit q) u) ;;
                      a <- components y ;;
                      set_components y
                        (np.map_scalar (fun x => op x (factor * Quantity.value q)%Q) a))).
        exact E2. }
      mstep E2'. reflexivity.
    + destruct G1 as [Lg Fg]. destruct T2 as [Lt Ft]. split; [lia|].
      intros z Hz. rewrite Ft; [auto|lia|].
      intros Hin. apply Hnew in Hin. lia.
    + apply (opened_read _ _ _ _ _ _ (opened_frame _ _ _ _ _ _ _ _ O1 T2 R2)).
  - intros Ex.
    destruct (shift_loop_raises op q vl' h1 _ N1 (op_read_dvs _ _ _ _ _ _ O1) Ex)
      as (h2 & E2).
    exists h2. unfold CSDMClass.additive.
    mstep (eq_refl : isinstance_CSDM (OperandQuantity q) h = (Ok None, h)). cbv iota.
    mstep (eq_refl : check_scalar_object (OperandQuantity q) h = (Ok (IsQuantity q), h)).
    mstep Ec.
    mstep (dependent_variables_run _ _ _ (op_slots _ _ _ _ _ _ O1)).
    mstep (get_items_ok _ _ _ _ (op_dvs _ _ _ _ _ _ O1)).
    assert (E2' : for_each (fun p : nat * loc =>
                    u <- unit_of p.2 ;;
                    factor <- lift (unit_to (Quantity.unit q) u) ;;
                    a <- components p.2 ;;
                    set_components p.2
                      (np.map_scalar (fun x => op x (factor * Quantity.value q)%Q) a))
                    (enumerate vl') h1 = (Raise UnitConversionError, h2)).
    { rewrite (for_each_enumerate
                 (fun y =>
                    u <- unit_of y ;;
                    factor <- lift (unit_to (Quantity.unit q) u) ;;
                    a <- components y ;;
                    set_components y
                      (np.map_scalar (fun x => op x (factor * Quantity.value q)%Q) a))).
      exact E2. }
    erewrite bind_raise by exact E2'. reflexivity.
Qed.

(** X24.  The sum and the difference of a container and a quantity.  When
    the unit of every dependent variable has the physical type of the unit
    of the quantity, [x + q] and [x - q] return a new container in which
    the value of [q], converted to the unit of each dependent variable
    (factor: scale of the unit of [q] over the scale of the unit of the
    dependent variable), is added to (subtracted from) every item; units,
    dimensions and metadata are those of [x].  When one dependent variable
    has a unit of another physical type, the call raises
    UnitConversionError.  The dependent variables of [x] are taken to be
    distinct objects. *)
Theorem add_quantity_converts_unit :
  forall (h : heap) (x : loc) (X : csdm_view) (q : Quantity.t),
    read_csdm h x = Some X ->
    distinct_variables h x ->
    (Forall (convertible q) (vw_dependent_variables X) ->
     (exists h',
        CSDMClass.__add__ x (OperandQuantity q) h = (Ok (length h), h') /\
        grows h h' /\
        read_csdm h' (length h)
          = Some (with_dvs X (map (shifted Qplus q) (vw_dependent_variables X)))) /\
     (exists h',
        CSDMClass.__sub__ x (OperandQuantity q) h = (Ok (length h), h') /\
        grows h h' /\
        read_csdm h' (length h)
          = Some (with_dvs X (map (shifted Qminus q) (vw_dependent_variables X))))) /\
    (Exists (fun V => ~ convertible q V) (vw_dependent_variables X) ->
     (exists h',
        CSDMClass.__add__ x (OperandQuantity q) h = (Raise UnitConversionError, h')) /\
     (exists h',
        CSDMClass.__sub__ x (OperandQuantity q) h = (Raise UnitConversionError, h'))).
Proof.
  intros h x X q R D.
  destruct (additive_quantity_run Qplus q h x X R D) as [Pa Pr].
  destruct (additive_quantity_run Qminus q h x X R D) as [Ma Mr].
  split.
  - intros F. split; [apply (Pa F)|apply (Ma F)].
  - intros Ex. split; [apply (Pr Ex)|apply (Mr Ex)].
Qed.

(** The witness of X24: one metre added to the container with a dependent
    variable in metres and one in seconds. *)
Lemma add_quantity_converts_unit_witness :
  exists h',
    CSDMClass.__add__ 0 (OperandQuantity (Quantity.mk 1 metre)) two_variables
      = (Raise UnitConversionError, h').
Proof.
  destruct (add_quantity_converts_unit two_variables 0 _ (Quantity.mk 1 metre) eq_refl)
    as [_ HR].
  - exists [7; 9]. split; [reflexivity|].
    repeat constructor; rewrite ?elem_of_cons, ?elem_of_nil; intuition discriminate.
  - destruct HR as [HA _]; [|exact HA].
    apply Exists_cons. right. apply Exists_cons. left.
    unfold convertible. simpl. discriminate.
Defined.

(** ** Universal functions *)

Lemma in_names s l : In s l -> existsb (String.eqb s) l = true.
Proof.
  intros H. apply existsb_exists. exists s. split; [assumption|apply String.eqb_refl].
Qed.

Lemma not_in_names s l : ~ In s l -> existsb (String.eqb s) l = false.
Proof.
  intros H. destruct (existsb _ _) eqn:E; [|reflexivity].
  apply existsb_exists in E as (x & Hx & Ex). apply String.eqb_eq in Ex. subst.
  contradiction.
Qed.

(** The loop that gathers the factors to pure numbers: it stops at the
    first dependent variable that is not dimensionless. *)
Lemma factor_loop (h : heap) :
  forall vl Vs,
    read_all (read_dv h) vl = Some Vs ->
    for_each (fun variable =>
        u <- unit_of variable ;;
        if negb (bool_decide (physical_type u = dimensionless))
        then raise (ValueError "Cannot apply the function to a quantity with this physical type.")
        else lift (unit_to u (mkUnit 1 dimensionless)))
      vl h
    = if existsb (fun V => negb (bool_decide (physical_type (dd_unit V) = dimensionless))) Vs
      then (Raise (ValueError "Cannot apply the function to a quantity with this physical type."), h)
      else (Ok (map (fun V => unit_scale (dd_unit V) / 1)%Q Vs), h).
Proof.
  induction vl as [|x vl IH]; intros Vs R.
  - simpl in R. injection R as <-. reflexivity.
  - simpl in R. destruct (read_dv h x) as [V|] eqn:Rx; try discriminate.
    destruct (read_all (read_dv h) vl) as [Vs'|] eqn:Rs; try discriminate.
    injection R as <-. cbn [for_each existsb map].
    destruct (bool_decide (physical_type (dd_unit V) = dimensionless)) eqn:Ed; simpl.
    + apply bool_decide_eq_true_1 in Ed.
      assert (E1 : (u <- unit_of x ;;
                    if negb (bool_decide (physical_type u = dimensionless))
                    then raise (ValueError "Cannot apply the function to a quantity with this physical type.")
                    else lift (unit_to u (mkUnit 1 dimensionless)))%py h
                   = (Ok (unit_scale (dd_unit V) / 1)%Q, h)).
      { mstep (unit_of_ok _ _ _ Rx).
        rewrite bool_decide_eq_true_2 by assumption. simpl.
        unfold lift, unit_to. simpl. destruct (decide _); [reflexivity|contradiction]. }
      mstep E1. pose proof (IH Vs' eq_refl) as E2.
      destruct (existsb _ Vs').
      * erewrite bind_raise by exact E2. reflexivity.
      * mstep E2. reflexivity.
    + assert (E1 : (u <- unit_of x ;;
                    if negb (bool_decide (physical_type u = dimensionless))
                    then raise (ValueError "Cannot apply the function to a quantity with this physical type.")
                    else lift (unit_to u (mkUnit 1 dimensionless)))%py h
                   = (Raise (ValueError "Cannot apply the function to a quantity with this physical type."), h)).
      { mstep (unit_of_ok _ _ _ Rx). rewrite Ed. reflexivity. }
      erewrite bind_raise by exact E1. reflexivity.
Qed.

(** X25.  The refusals of [__array_ufunc__].  A function that needs pure
    numbers ([sin], [exp], [log] and the like) raises ValueError on a
    container in which the unit of some dependent variable is not
    dimensionless; a function that is in none of the three lists raises
    NotImplementedError.  In both cases nothing has been created and the
    store is as before. *)
Theorem ufunc_refusals :
  forall (au : string -> option (list Z) -> np.ndarray -> result np.ndarray)
         (uu : string -> Unit -> Quantity.t)
         (h : heap) (csdm : loc) (X : csdm_view) (function : string)
         (axis : option py_index_arg) (out : option loc),
    read_csdm h csdm = Some X ->
    (In function __ufunc_list_dimensionless_unit__ ->
     Exists (fun V => physical_type (dd_unit V) <> dimensionless)
       (vw_dependent_variables X) ->
     __array_ufunc__ au uu csdm function axis out h
     = (Raise (ValueError "Cannot apply the function to a quantity with this physical type."), h)) /\
    (~ In function __ufunc_list_dimensionless_unit__ ->
     ~ In function __ufunc_list_unit_independent__ ->
     ~ In function __ufunc_list_applies_to_unit__ ->
     __array_ufunc__ au uu csdm function axis out h
     = (Raise (NotImplementedError "Function is not implemented."), h)).
Proof.
  intros au uu h csdm X function axis out R.
  destruct (read_csdm_open _ _ _ R) as (c & dl & vl & O).
  split.
  - intros Hf Ex. unfold __array_ufunc__. rewrite (in_names _ _ Hf).
    mstep (dependent_variables_run _ _ _ (op_slots _ _ _ _ _ _ O)).
    mstep (get_items_ok _ _ _ _ (op_dvs _ _ _ _ _ _ O)).
    pose proof (factor_loop h vl _ (op_read_dvs _ _ _ _ _ _ O)) as E.
    assert (Eb : existsb (fun V => negb (bool_decide (physical_type (dd_unit V) = dimensionless)))
                   (vw_dependent_variables X) = true).
    { apply existsb_exists. apply Exists_exists in Ex as (V & HV & Hn).
      exists V. split; [now apply list_elem_of_In|].
      now rewrite bool_decide_eq_false_2. }
    rewrite Eb in E. erewrite bind_raise by exact E. reflexivity.
  - intros H1 H2 H3. unfold __array_ufunc__.
    now rewrite (not_in_names _ _ H1), (not_in_names _ _ H2), (not_in_names _ _ H3).
Qed.

(** The witness of X25: the sine of the container whose dependent variables
    are in metres and in seconds. *)
Lemma ufunc_refusals_witness :
  __array_ufunc__ (fun _ _ a => Ok a) (fun _ u => Quantity.of_unit u) 0 "sin" None None
    two_variables
  = (Raise (ValueError "Cannot apply the function to a quantity with this physical type."),
     two_variables).
Proof.
  destruct (ufunc_refusals (fun _ _ a => Ok a) (fun _ u => Quantity.of_unit u)
              two_variables 0 _ "sin" None None eq_refl) as [HR _].
  apply HR; [simpl; tauto|].
  apply Exists_cons. left. simpl. discriminate.
Defined.

(** The loop of [_get_new_csdm_object_after_applying_ufunc] over the
    dependent variables; the factor of a dependent variable [V] is
    [g V]. *)
Lemma ufunc_variables_loop
    (au : string -> option (list Z) -> np.ndarray -> result np.ndarray) func
    (g : dv_dict -> Q) (h : heap) new cN (counts : list nat) (all : list dv_dict) :
  keeps_shape (au func None) ->
  length h <= _dependent_variables cN ->
  forall vl k Vs (H : heap) Z cl wl,
    read_all (read_dv h) vl = Some Vs ->
    drop k all = Vs ->
    Forall (on_grid counts) Vs ->
    map count (vw_dimensions Z) = counts ->
    grows h H ->
    opened H new Z cN cl wl ->
    exists r H' wl' Ws,
      for_each (fun p : nat * loc =>
          a <- components p.2 ;;
          f <- match map g all !! p.1 with
               | Some f => ret f
               | None => raise (IndexError "index is out of bounds")
               end ;;
          y <- lift (au func None (np.map_scalar (fun x => x * f)%Q a)) ;;
          y <- write_out None y ;;
          nd <- new_dependent_variable p.2 y ;;
          CSDMClass.add_dependent_variable new nd)
        (combine (seq k (length vl)) vl) H = (Ok r, H') /\
      grows h H' /\
      opened H' new (with_dvs Z (vw_dependent_variables Z ++ Ws)) cN cl wl' /\
      Forall2 (fun V W =>
                 transformed_variable
                   (fun a => au func None (np.map_scalar (fun x => x * g V)%Q a))
                   counts V W) Vs Ws.
Proof.
  intros HF Hn. induction vl as [|x vl IH]; intros k Vs H Z cl wl R Hd Fg K G O.
  - simpl in R. injection R as <-. exists [], H, wl, []. split; [reflexivity|].
    split; [assumption|]. split; [|constructor].
    rewrite app_nil_r, with_dvs_same. assumption.
  - simpl in R. destruct (read_dv h x) as [V|] eqn:Ex; try discriminate.
    destruct (read_all (read_dv h) vl) as [Vs'|] eqn:El; try discriminate.
    injection R as <-. apply Forall_cons in Fg as [FV F'].
    apply drop_cons_inv in Hd as [Hk Hd'].
    destruct (HF (np.map_scalar (fun x => x * g V)%Q (dd_components V)))
      as (y & Ey & Sy & Ly).
    pose proof (read_dv_grows _ _ _ _ G Ex) as Ex'.
    destruct FV as (Hp & Sv & Lv).
    set (p := component_count (dd_quantity_type V)) in *.
    simpl in Sy, Ly. rewrite length_map in Ly.
    assert (Sy' : np.shape y = p :: rev counts) by congruence.
    assert (Ly' : length (np.data y) = np.prod (np.shape y)) by congruence.
    set (nd := dd_with_components V (np.mk [p; np.prod (rev counts)] (np.data y))).
    assert (E3 : new_dependent_variable x y H = (Ok nd, H)).
    { apply new_dependent_variable_run; assumption. }
    assert (Ln : length (np.data (dd_components nd)) =
                 np.prod (component_count (dd_quantity_type nd)
                          :: rev (map count (vw_dimensions Z)))).
    { simpl. rewrite Ly', Sy', K. reflexivity. }
    pose proof (add_dependent_variable_run _ _ _ _ _ _ nd O Ln) as E4.
    set (arr := match map count (vw_dimensions Z) with
                | [] => dd_components nd
                | _ :: _ =>
                    np.mk (component_count (dd_quantity_type nd)
                           :: rev (map count (vw_dimensions Z)))
                          (np.data (dd_components nd))
                end) in *.
    set (v := mkDV "internal" (dd_description nd) (dd_name nd) (dd_unit nd)
                "base64" (dd_quantity_type nd) (length H)) in *.
    set (H2 := <[_dependent_variables cN :=
                   OAbstractList DependentVariableListC (wl ++ [S (length H)])]>
                 (H ++ [OArray arr; ODependentVariable v])) in *.
    pose proof (opened_add_dv _ _ _ _ _ _ arr v O eq_refl) as O2. fold H2 in O2.
    assert (G2 : grows h H2).
    { apply grows_insert; [|assumption]. eapply grows_trans; [exact G | apply grows_app]. }
    destruct (IH (S k) Vs' H2 (with_dvs Z (vw_dependent_variables Z ++ [dict_of v arr]))
                cl _ eq_refl Hd' F' K G2 O2)
      as (r & H' & wl' & Ws & E & G' & O' & F2).
    exists (tt :: r), H', wl', (dict_of v arr :: Ws).
    split; [|split; [assumption|split]].
    + cbn [length seq combine for_each]. cbv beta. cbn [fst snd].
      assert (Ebody : (a <- components x ;;
                       f <- match map g all !! k with
                            | Some f => ret f
                            | None => raise (IndexError "index is out of bounds")
                            end ;;
                       y0 <- lift (au func None (np.map_scalar (fun x => x * f)%Q a)) ;;
                       y1 <- write_out None y0 ;;
                       nd0 <- new_dependent_variable x y1 ;;
                       CSDMClass.add_dependent_variable new nd0)%py H = (Ok tt, H2)).
      { mstep (components_run _ _ _ Ex').
        rewrite list_lookup_fmap, Hk. simpl.
        mstep (eq_refl : ret (g V) H = (Ok (g V), H)).
        rewrite Ey. mstep (eq_refl : lift (Ok y) H = (Ok y, H)).
        mstep (eq_refl : write_out None y H = (Ok y, H)).
        mstep E3. exact E4. }
      mstep Ebody. mstep E. reflexivity.
    + replace (with_dvs Z (vw_dependent_variables Z ++ dict_of v arr :: Ws))
        with (with_dvs (with_dvs Z (vw_dependent_variables Z ++ [dict_of v arr]))
                (vw_dependent_variables
                   (with_dvs Z (vw_dependent_variables Z ++ [dict_of v arr])) ++ Ws));
        [assumption|].
      unfold with_dvs. simpl. rewrite <- app_assoc. reflexivity.
    + constructor; [|assumption].
      exists y. split; [assumption|].
      unfold arr, nd. rewrite K. destruct counts; simpl; tauto.
Qed.

(** [_get_new_csdm_object_after_applying_ufunc] with the factors [g V],
    without the keywords [axis] and [out]. *)
Lemma applying_ufunc_run
    (au : string -> option (list Z) -> np.ndarray -> result np.ndarray) func
    (g : dv_dict -> Q) (h : heap) csdm X (factor : option (list Q)) :
  keeps_shape (au func None) ->
  read_csdm h csdm = Some X ->
  grid_invariant X ->
  match factor with
  | Some f => ret f
  | None =>
      dvs <- CSDMClass.dependent_variables csdm ;;
      n <- AbstractList.__len__ dvs ;;
      ret (repeat 1%Q n)
  end h = (Ok (map g (vw_dependent_variables X)), h) ->
  exists h' Ws,
    _get_new_csdm_object_after_applying_ufunc au csdm func factor None None h
      = (Ok (length h), h') /\
    grows h h' /\
    read_csdm h' (length h) = Some (new_view (vw_dimensions X) Ws) /\
    Forall2 (fun V W =>
               transformed_variable
                 (fun a => au func None (np.map_scalar (fun x => x * g V)%Q a))
                 (map count (vw_dimensions X)) V W)
      (vw_dependent_variables X) Ws.
Proof.
  intros HF R GI E0.
  destruct (read_csdm_open _ _ _ R) as (c & dl & vl & O).
  set (cN := mkCSDM (length h + 4) (length h + 5) (length h + 1) false
               "1.0" "" (length h + 2) "" (length h + 3) "").
  set (H1 := h ++ [ OCSDM cN; OStrList []; ODict ∅; ODict ∅;
                    OAbstractList DimensionListC [];
                    OAbstractList DependentVariableListC [] ]).
  pose proof (new_opened h) as ON. fold cN in ON. fold H1 in ON.
  assert (G1 : grows h H1) by apply grows_app.
  pose proof (opened_grows _ _ _ _ _ _ _ G1 O) as O1.
  destruct (deepcopy_dimension_list_run H1 _ _ _ (op_dims _ _ _ _ _ _ O1)
              (op_read_dims _ _ _ _ _ _ O1))
    as (bs & H2 & E2 & G2 & L2 & R2 & F2).
  assert (LH1 : length H1 = length h + 6).
  { unfold H1. rewrite length_app. reflexivity. }
  set (cN' := mkCSDM (length H1) (length h + 5) (length h + 1) false
                "1.0" "" (length h + 2) "" (length h + 3) "").
  set (H3 := <[length h := OCSDM cN']> H2).
  pose proof (opened_grows _ _ _ _ _ _ _ G2 ON) as ON2.
  assert (K : forall x ob, H2 !! x = Some ob -> x <> length h -> (H3 : heap) !! x = Some ob).
  { intros x ob E Hne. unfold H3. rewrite list_lookup_insert_ne by congruence. exact E. }
  assert (O3 : opened H3 (length h) (new_view (vw_dimensions X) []) cN' bs []).
  { constructor; simpl; try reflexivity.
    - apply (stored_lookup _ _ _ _ (op_slots _ _ _ _ _ _ ON2)).
    - apply K; [exact L2|lia].
    - apply K; [apply (op_dvs _ _ _ _ _ _ ON2)|simpl; lia].
    - apply K; [apply (op_tags _ _ _ _ _ _ ON2)|simpl; lia].
    - apply K; [apply (op_geo _ _ _ _ _ _ ON2)|simpl; lia].
    - apply K; [apply (op_app _ _ _ _ _ _ ON2)|simpl; lia].
    - eapply read_all_mono; [|exact R2]. intros x d Rx.
      apply read_dimension_inv in Rx. unfold read_dimension.
      rewrite (K _ _ Rx); [reflexivity|].
      intros ->. rewrite (op_slots _ _ _ _ _ _ ON2) in Rx. discriminate. }
  assert (G3 : grows h H3).
  { apply grows_insert; [|lia]. eapply grows_trans; eauto. }
  destruct (ufunc_variables_loop au func g h (length h) cN'
              (map count (vw_dimensions X)) (vw_dependent_variables X) HF
              ltac:(simpl; lia)
              vl 0 (vw_dependent_variables X) H3 (new_view (vw_dimensions X) []) bs []
              (op_read_dvs _ _ _ _ _ _ O) (drop_0 _) GI eq_refl G3 O3)
    as (r & H4 & wl4 & Ws & E4 & G4 & O4 & F4).
  exists H4, Ws.
  split; [|split; [assumption|split; [|assumption]]].
  - unfold _get_new_csdm_object_after_applying_ufunc.
    mstep E0.
    mstep (eq_refl : ret (@None (list Z)) h = (Ok None, h)).
    mstep (eq_refl : _check_for_out csdm None h = (Ok tt, h)).
    mstep (new_run h). fold cN. fold H1.
    mstep (dimensions_run _ _ _ (op_slots _ _ _ _ _ _ O1)).
    mstep E2.
    mstep (get_csdm_ok _ _ _ (op_slots _ _ _ _ _ _ ON2)).
    mstep (eq_refl : store (length h) (OCSDM cN') H2 = (Ok tt, H3)).
    assert (O3' : opened H3 csdm X c dl vl) by (eapply opened_grows; eauto).
    mstep (dependent_variables_run _ _ _ (op_slots _ _ _ _ _ _ O3')).
    mstep (get_items_ok _ _ _ _ (op_dvs _ _ _ _ _ _ O3')).
    unfold enumerate. mstep E4. reflexivity.
  - apply (opened_read _ _ _ _ _ _ O4).
Qed.

Lemma repeat_map {A B} (b : B) (l : list A) : repeat b (length l) = map (fun _ => b) l.
Proof. induction l as [|x l IH]; simpl; [reflexivity|]. now rewrite IH. Qed.

(** X26.  A universal function on a container, without the keywords [axis]
    and [out].  A function that needs pure numbers ([sin], [exp], [log] and
    the like), on a container whose dependent variables are all
    dimensionless, and a function that does not depend on the unit
    ([negative], [absolute], [sign], [conjugate] and the like), on any
    container, return a new container with copies of the dimensions and,
    for each dependent variable, the result of the function on the
    components times a factor: the scale of the unit for the first kind,
    one for the second.  The new dependent variables keep the unit of the
    original (also after a function of the first kind, whose result is a
    pure number); tags, description and the other metadata are not carried
    over.  The original is not changed.  The function is taken to keep the
    shape of an array, and the components to follow the invariant of the
    data model. *)
Theorem ufunc_keeps_units_and_dimensions :
  forall (au : string -> option (list Z) -> np.ndarray -> result np.ndarray)
         (uu : string -> Unit -> Quantity.t)
         (h : heap) (csdm : loc) (X : csdm_view) (function : string),
    read_csdm h csdm = Some X ->
    grid_invariant X ->
    keeps_shape (au function None) ->
    (In function __ufunc_list_dimensionless_unit__ ->
     Forall (fun V => physical_type (dd_unit V) = dimensionless)
       (vw_dependent_variables X) ->
     exists h' Ws,
       __array_ufunc__ au uu csdm function None None h = (Ok (length h), h') /\
       grows h h' /\
       read_csdm h' csdm = Some X /\
       read_csdm h' (length h) = Some (new_view (vw_dimensions X) Ws) /\
       Forall2 (fun V W =>
                  transformed_variable
                    (fun a => au function None
                                (np.map_scalar (fun x => x * (unit_scale (dd_unit V) / 1))%Q a))
                    (map count (vw_dimensions X)) V W)
         (vw_dependent_variables X) Ws) /\
    (~ In function __ufunc_list_dimensionless_unit__ ->
     In function __ufunc_list_unit_independent__ ->
     exists h' Ws,
       __array_ufunc__ au uu csdm function None None h = (Ok (length h), h') /\
       grows h h' /\
       read_csdm h' csdm = Some X /\
       read_csdm h' (length h) = Some (new_view (vw_dimensions X) Ws) /\
       Forall2 (fun V W =>
                  transformed_variable
                    (fun a => au function None (np.map_scalar (fun x => x * 1)%Q a))
                    (map count (vw_dimensions X)) V W)
         (vw_dependent_variables X) Ws).
Proof.
  intros au uu h csdm X function R GI HF.
  destruct (read_csdm_open _ _ _ R) as (c & dl & vl & O).
  split.
  - intros Hf Hd.
    destruct (applying_ufunc_run au function (fun V => unit_scale (dd_unit V) / 1)%Q
                h csdm X
                (Some (map (fun V => unit_scale (dd_unit V) / 1)%Q (vw_dependent_variables X)))
                HF R GI eq_refl)
      as (h' & Ws & E & G & Rn & F).
    exists h', Ws. split; [|split; [exact G|split; [eapply read_csdm_grows; eauto|]]].
    + unfold __array_ufunc__. rewrite (in_names _ _ Hf).
      mstep (dependent_variables_run _ _ _ (op_slots _ _ _ _ _ _ O)).
      mstep (get_items_ok _ _ _ _ (op_dvs _ _ _ _ _ _ O)).
      pose proof (factor_loop h vl _ (op_read_dvs _ _ _ _ _ _ O)) as El.
      assert (Eb : existsb (fun V => negb (bool_decide (physical_type (dd_unit V) = dimensionless)))
                     (vw_dependent_variables X) = false).
      { clear -Hd. induction Hd as [|V l HV Hd IH]; [reflexivity|].
        simpl. rewrite bool_decide_eq_true_2 by assumption. exact IH. }
      rewrite Eb in El. mstep El. exact E.
    + split; assumption.
  - intros Hn Hf.
    destruct (applying_ufunc_run au function (fun _ => 1%Q) h csdm X None HF R GI)
      as (h' & Ws & E & G & Rn & F).
    { mstep (dependent_variables_run _ _ _ (op_slots _ _ _ _ _ _ O)).
      mstep (len_ok _ _ _ _ (op_dvs _ _ _ _ _ _ O)).
      rewrite (read_all_length _ _ _ (op_read_dvs _ _ _ _ _ _ O)), repeat_map.
      reflexivity. }
    exists h', Ws. split; [|split; [exact G|split; [eapply read_csdm_grows; eauto|]]].
    + unfold __array_ufunc__.
      rewrite (not_in_names _ _ Hn), (in_names _ _ Hf). exact E.
    + split; assumption.
Qed.

(** The witness of X26: [negative], taken as the identity, on the container
    over dimensions of counts 3 and 4. *)
Lemma ufunc_keeps_units_and_dimensions_witness :
  exists h' Ws,
    __array_ufunc__ (fun _ _ a => Ok a) (fun _ u => Quantity.of_unit u) 0 "negative"
      None None grid_3_4 = (Ok 10, h') /\
    read_csdm h' 10
      = Some (new_view [LinearDimension 3 1 0; LinearDimension 4 1 0] Ws) /\
    map dd_unit Ws = [metre].
Proof.
  destruct (ufunc_keeps_units_and_dimensions (fun _ _ a => Ok a)
              (fun _ u => Quantity.of_unit u) grid_3_4 0 _ "negative" eq_refl)
    as [_ HU].
  - constructor; [|constructor]. split; [simpl; lia|]. split; reflexivity.
  - intros a. exists a. repeat split.
  - destruct HU as (h' & Ws & E & _ & _ & Rn & F).
    + simpl. intuition discriminate.
    + simpl. tauto.
    + exists h', Ws. split; [exact E|]. split; [exact Rn|].
      simpl in F. inversion F as [|V W l l' HW F' EV EW]; subst.
      inversion F'; subst. destruct HW as (y & _ & _ & _ & HU & _).
      simpl. now rewrite HU.
Defined.
